(** * Freshservice ticket classification: taxonomy model and scoring engine

    A shallow embedding of [python_common/taxonomy.py] and
    [python_common/analysis.py], followed by the properties of the
    classification engine that the specification states.

    Conventions of the embedding.
    - A Python [str] is a [string]; [str.lower] and [str.strip] act on the
      ASCII range (bytes above 127 are kept as they are).
    - A [Tuple[str, ...]] taxonomy path is a [list string].
    - A Python [dict] is an association list in insertion order, because the
      code iterates over its dictionaries; a [set] of strings is a
      duplicate-free list in first-insertion order.
    - A Python [float] is an exact rational [Q]; [round(x, 2)] rounds the
      exact value half-to-even.  [math.log], [math.sqrt], [re] and
      [rapidfuzz.fuzz.partial_ratio] are operations of the interface
      [PyLib]: every theorem holds for every implementation of it.
    - Objects that are shared and mutated while a model is built
      ([TaxonomyNode.children]) live in the store [nodes_by_path] and are
      referred to by their path, which identifies a node uniquely. *)

From Stdlib Require Import List String Ascii ZArith QArith Qminmax Qround.
From Stdlib Require Import Lia Lqa Bool DecimalString Sorting.Sorted Sorting.Permutation.
Import ListNotations.
Open Scope string_scope.
Set Warnings "-register-all".

(** ** The Python runtime operations the engine relies on *)

Class PyLib := {
  (** whether [re.compile(pattern, re.IGNORECASE)] succeeds; [false] stands
      for [re.error] *)
  re_valid : string -> bool;
  (** [re.compile(pattern, re.IGNORECASE).search(text)] as a truth value: a
      compiled pattern is represented by its source *)
  re_search : string -> string -> bool;
  (** [math.log] and [math.sqrt] *)
  math_log : Q -> Q;
  math_sqrt : Q -> Q;
  (** [rapidfuzz.fuzz.partial_ratio] *)
  partial_ratio : string -> string -> Q
}.

(** ** Strings, as Python treats them *)

Module Py.

Definition is_upper (c : ascii) : bool :=
  let n := nat_of_ascii c in (65 <=? n)%nat && (n <=? 90)%nat.

Definition is_lower (c : ascii) : bool :=
  let n := nat_of_ascii c in (97 <=? n)%nat && (n <=? 122)%nat.

Definition is_digit (c : ascii) : bool :=
  let n := nat_of_ascii c in (48 <=? n)%nat && (n <=? 57)%nat.

(** the character class [[A-Za-z0-9_]] *)
Definition is_word_char (c : ascii) : bool :=
  is_upper c || is_lower c || is_digit c || (nat_of_ascii c =? 95)%nat.

(** the characters [str.strip] removes (ASCII white space) *)
Definition is_space (c : ascii) : bool :=
  let n := nat_of_ascii c in
  (n =? 32)%nat || ((9 <=? n)%nat && (n <=? 13)%nat) ||
  ((28 <=? n)%nat && (n <=? 31)%nat).

Definition lower_char (c : ascii) : ascii :=
  if is_upper c then ascii_of_nat (nat_of_ascii c + 32) else c.

Fixpoint lower (s : string) : string :=
  match s with
  | EmptyString => EmptyString
  | String c r => String (lower_char c) (lower r)
  end.

Fixpoint lstrip (s : string) : string :=
  match s with
  | String c r => if is_space c then lstrip r else s
  | EmptyString => EmptyString
  end.

(** [rstrip] keeps a character when it is not a space or something kept
    follows it. *)
Fixpoint rstrip (s : string) : string :=
  match s with
  | EmptyString => EmptyString
  | String c r =>
      match rstrip r with
      | EmptyString => if is_space c then EmptyString else String c EmptyString
      | r' => String c r'
      end
  end.

Definition strip (s : string) : string := rstrip (lstrip s).

(** truth value of a string: [bool(s)] *)
Definition truthy (s : string) : bool :=
  match s with EmptyString => false | _ => true end.

(** [needle in hay] *)
Fixpoint contains (needle hay : string) : bool :=
  prefix needle hay ||
  match hay with
  | EmptyString => false
  | String _ r => contains needle r
  end.

(** [sep.join(parts)] *)
Fixpoint join (sep : string) (parts : list string) : string :=
  match parts with
  | [] => ""
  | [p] => p
  | p :: rest => p ++ sep ++ join sep rest
  end.

(** [s.split(c)] for a one-character separator: the current piece is
    accumulated in [cur]. *)
Fixpoint split_acc (c : ascii) (cur : string) (s : string) : list string :=
  match s with
  | EmptyString => [cur]
  | String d r =>
      if Ascii.eqb d c then cur :: split_acc c "" r
      else split_acc c (cur ++ String d "") r
  end.

Definition split (c : ascii) (s : string) : list string := split_acc c "" s.

(** [s.replace(c, rep)] for a one-character [c] *)
Fixpoint replace (c : ascii) (rep : string) (s : string) : string :=
  match s with
  | EmptyString => EmptyString
  | String d r =>
      if Ascii.eqb d c then rep ++ replace c rep r
      else String d (replace c rep r)
  end.

Definition has_char (c : ascii) (s : string) : bool :=
  existsb (Ascii.eqb c) (list_ascii_of_string s).

(** [re.compile(r"[A-Za-z0-9_]+").findall(s)]: the maximal runs of word
    characters, left to right. *)
Fixpoint findall_tokens_acc (cur : string) (s : string) : list string :=
  match s with
  | EmptyString => if truthy cur then [cur] else []
  | String c r =>
      if is_word_char c then findall_tokens_acc (cur ++ String c "") r
      else if truthy cur then cur :: findall_tokens_acc "" r
      else findall_tokens_acc "" r
  end.

Definition findall_tokens (s : string) : list string := findall_tokens_acc "" s.

(** [re.fullmatch(r"[A-Za-z0-9_]+", s)] as a truth value *)
Definition fullmatch_token (s : string) : bool :=
  truthy s && forallb is_word_char (list_ascii_of_string s).

Definition mem (x : string) (l : list string) : bool := existsb (String.eqb x) l.

(** [l.append(x)] *)
Definition push {A : Type} (l : list A) (x : A) : list A := (l ++ [x])%list.

(** [set(l)], and the order a list is deduplicated in *)
Fixpoint dedup_acc (seen : list string) (l : list string) : list string :=
  match l with
  | [] => []
  | x :: r => if mem x seen then dedup_acc seen r else x :: dedup_acc (x :: seen) r
  end.

Definition to_set (l : list string) : list string := dedup_acc [] l.

Definition set_add (x : string) (s : list string) : list string :=
  if mem x s then s else push s x.

(** ends-with test for a single character *)
Fixpoint last_char (s : string) : option ascii :=
  match s with
  | EmptyString => None
  | String c EmptyString => Some c
  | String _ r => last_char r
  end.

Fixpoint drop_last (s : string) : string :=
  match s with
  | EmptyString => EmptyString
  | String _ EmptyString => EmptyString
  | String c r => String c (drop_last r)
  end.

Definition ends_with_char (c : ascii) (s : string) : bool :=
  match last_char s with Some d => Ascii.eqb c d | None => false end.

(** [str(n)] for an integer *)
Definition str_of_Z (z : Z) : string := NilZero.string_of_int (Z.to_int z).

(** [repr(s)] for a string: Python quotes with ['] unless the string holds a
    ['] and no double quote; the chosen quote and the backslash are escaped. *)
Definition dquote : ascii := ascii_of_nat 34.
Definition squote : ascii := ascii_of_nat 39.
Definition backslash : ascii := ascii_of_nat 92.

Fixpoint escape (q : ascii) (s : string) : string :=
  match s with
  | EmptyString => EmptyString
  | String c r =>
      if Ascii.eqb c q || Ascii.eqb c backslash
      then String backslash (String c (escape q r))
      else String c (escape q r)
  end.

Definition repr (s : string) : string :=
  let q := if has_char squote s && negb (has_char dquote s) then dquote else squote in
  String q (escape q s ++ String q "").

(** [repr] of a list of strings, as an f-string prints it *)
Definition repr_list (l : list string) : string :=
  "[" ++ join ", " (map repr l) ++ "]".

(** Comparison of tuples of strings: lexicographic, a proper prefix first. *)
Fixpoint tuple_compare (a b : list string) : comparison :=
  match a, b with
  | [], [] => Eq
  | [], _ :: _ => Lt
  | _ :: _, [] => Gt
  | x :: a', y :: b' =>
      match String.compare x y with
      | Eq => tuple_compare a' b'
      | c => c
      end
  end.

Definition tuple_eqb (a b : list string) : bool :=
  match tuple_compare a b with Eq => true | _ => false end.

End Py.

(** ** Numbers *)

Module Num.

Open Scope Q_scope.

(** Rounding of an exact value to the nearest integer, ties to even. *)
Definition round_half_even (q : Q) : Z :=
  let f := Qfloor q in
  match Qcompare (q - inject_Z f) (1 # 2) with
  | Lt => f
  | Gt => (f + 1)%Z
  | Eq => if Z.even f then f else (f + 1)%Z
  end.

(** [round(x, 2)] *)
Definition round2 (q : Q) : Q := Qred (inject_Z (round_half_even (q * 100)) / 100).

Definition Qltb (a b : Q) : bool :=
  match Qcompare a b with Lt => true | _ => false end.

Definition Qgtb (a b : Q) : bool := Qltb b a.

Definition Qleb (a b : Q) : bool := negb (Qltb b a).

Definition Qeqb (a b : Q) : bool :=
  match Qcompare a b with Eq => true | _ => false end.

Definition Qsum (l : list Q) : Q := fold_left Qplus l 0.

(** Fixed-point printing: ["%.2f"] and ["%.0f"]. *)
Definition pad2 (z : Z) : string :=
  if (z <? 10)%Z then "0" ++ Py.str_of_Z z else Py.str_of_Z z.

Definition fmt2 (q : Q) : string :=
  let h := round_half_even (q * 100) in
  let a := Z.abs h in
  (if (h <? 0)%Z then "-" else "") ++
  Py.str_of_Z (a / 100) ++ "." ++ pad2 (a mod 100).

Definition fmt0 (q : Q) : string :=
  let h := round_half_even q in
  (if (h <? 0)%Z then "-" else "") ++ Py.str_of_Z (Z.abs h).

End Num.


(** ** Exceptions *)

Inductive PyError :=
| ValueError (msg : string)
| ReError (pattern : string)
| TypeError (msg : string).

Inductive result (A : Type) :=
| Ok (a : A)
| Raise (e : PyError).
Arguments Ok {A} a.
Arguments Raise {A} e.

Definition bind {A B : Type} (r : result A) (k : A -> result B) : result B :=
  match r with
  | Ok a => k a
  | Raise e => Raise e
  end.

Notation "x <- r ;; k" := (bind r (fun x => k))
  (at level 61, r at next level, right associativity).

(** ** python_common/taxonomy.py *)

(** A taxonomy path: [Tuple[str, ...]]. *)
Definition TaxonomyPath := list string.

(** Dictionaries keyed by paths and by strings, in insertion order. *)
Module Dict.

Section Keyed.
Context {K V : Type} (eqb : K -> K -> bool).

Fixpoint get_by (k : K) (d : list (K * V)) : option V :=
  match d with
  | [] => None
  | (k', v) :: r => if eqb k k' then Some v else get_by k r
  end.

(** [d[k] = v]: an existing key keeps its place *)
Fixpoint set_by (k : K) (v : V) (d : list (K * V)) : list (K * V) :=
  match d with
  | [] => [(k, v)]
  | (k', v') :: r => if eqb k k' then (k', v) :: r else (k', v') :: set_by k v r
  end.

End Keyed.

Definition get {V : Type} : TaxonomyPath -> list (TaxonomyPath * V) -> option V :=
  get_by Py.tuple_eqb.

Definition set {V : Type}
  : TaxonomyPath -> V -> list (TaxonomyPath * V) -> list (TaxonomyPath * V) :=
  set_by Py.tuple_eqb.

Definition has {V : Type} (k : TaxonomyPath) (d : list (TaxonomyPath * V)) : bool :=
  match get k d with Some _ => true | None => false end.

Definition sget {V : Type} : string -> list (string * V) -> option V :=
  get_by String.eqb.

Definition sset {V : Type} : string -> V -> list (string * V) -> list (string * V) :=
  set_by String.eqb.

Definition zset {V : Type} : Z -> V -> list (Z * V) -> list (Z * V) :=
  set_by Z.eqb.

Definition zget {V : Type} : Z -> list (Z * V) -> option V :=
  get_by Z.eqb.

End Dict.

Module AliasRule.
Record t := make {
  alias : string;
  target_path : TaxonomyPath;
  legacy : bool;
  note : option string;
  (** the compiled pattern, by its source; it is always [alias] *)
  regex : option string
}.
End AliasRule.

Module TaxonomyNode.
Record t := make {
  label : string;
  path : TaxonomyPath;
  keywords : list string;
  keyword_norms : list string;
  (** compiled with [re.IGNORECASE], by their sources *)
  regexes : list string;
  aliases : list string;
  (** the child node objects, by their paths in [nodes_by_path] *)
  children : list TaxonomyPath
}.

Definition add_child (child : TaxonomyPath) (n : t) : t :=
  make (label n) (path n) (keywords n) (keyword_norms n) (regexes n) (aliases n)
       (Py.push (children n) child).
End TaxonomyNode.

Module TaxonomyModel.
Record t := make {
  nodes_by_path : list (TaxonomyPath * TaxonomyNode.t);
  priority_map : list (TaxonomyPath * Z);
  alias_rules : list AliasRule.t;
  max_depth : nat
}.
End TaxonomyModel.

Module Taxonomy.

Definition _VENDOR_EXPANSIONS : list (string * list string) :=
  [ ("ms", ["microsoft"]);
    ("m365", ["office 365"; "microsoft 365"]);
    ("cc", ["creative cloud"]);
    ("ad", ["active directory"]) ].

Definition _SIMPLE_ALIASES : list (string * list string) :=
  [ ("v-ray", ["vray"]);
    ("vray", ["v-ray"]);
    ("c4d", ["cinema4d"; "cinema 4d"]);
    ("cinema4d", ["c4d"; "cinema 4d"]);
    ("cinema 4d", ["c4d"; "cinema4d"]);
    ("sign-in", ["signin"; "sign in"]);
    ("sign in", ["signin"; "sign-in"]);
    ("signin", ["sign-in"; "sign in"]) ].

Definition get_list (k : string) (d : list (string * list string)) : list string :=
  match Dict.sget k d with Some l => l | None => [] end.

(** A path as a configuration writes it: a string ["A > B"] or a list. *)
Inductive PathSpec :=
| PathStr (s : string)
| PathList (parts : list string).

Definition _normalise_priority_path (p : PathSpec) : TaxonomyPath :=
  let parts :=
    match p with
    | PathList l => l
    | PathStr s => map Py.strip (Py.split ">" s)
    end in
  filter Py.truthy parts.

(** [bool(target)] for a path of a configuration *)
Definition path_spec_truthy (p : PathSpec) : bool :=
  match p with
  | PathStr s => Py.truthy s
  | PathList l => match l with [] => false | _ => true end
  end.

Definition path_spec_str (p : PathSpec) : string :=
  match p with
  | PathStr s => s
  | PathList l => Py.repr_list l
  end.

(** *** TaxonomyModel.iter_nodes and get_node *)

Definition get_node (m : TaxonomyModel.t) (p : TaxonomyPath) : option TaxonomyNode.t :=
  Dict.get p (TaxonomyModel.nodes_by_path m).

(** [TaxonomyNode.iter_nodes]: the node, then each child's nodes.  The child
    objects are looked up in the store; [fuel] bounds the depth of the
    walk, which [max_depth] bounds in a model that was built. *)
Fixpoint node_iter_nodes (store : list (TaxonomyPath * TaxonomyNode.t)) (fuel : nat)
  (n : TaxonomyNode.t) : list TaxonomyNode.t :=
  n ::
  match fuel with
  | O => []
  | S f =>
      flat_map
        (fun c => match Dict.get c store with
                  | Some child => node_iter_nodes store f child
                  | None => []
                  end)
        (TaxonomyNode.children n)
  end.

Definition iter_nodes_with (fuel : nat) (m : TaxonomyModel.t) : list TaxonomyNode.t :=
  flat_map
    (fun kv => if (List.length (TaxonomyNode.path (snd kv)) =? 1)%nat
               then node_iter_nodes (TaxonomyModel.nodes_by_path m) fuel (snd kv)
               else [])
    (TaxonomyModel.nodes_by_path m).

Definition iter_nodes (m : TaxonomyModel.t) : list TaxonomyNode.t :=
  iter_nodes_with (TaxonomyModel.max_depth m) m.

(** *** Keyword derivation *)

(** The match of [[A-Z]+(?=[A-Z][a-z])|[A-Z]?[a-z]+|\d+] at the head of the
    characters, as its length; 0 when there is none. *)
Fixpoint run_length (p : ascii -> bool) (l : list ascii) : nat :=
  match l with
  | c :: r => if p c then S (run_length p r) else 0
  | [] => 0
  end.

Definition camel_match (l : list ascii) : nat :=
  let n := run_length Py.is_upper l in
  let follows_lower :=
    match nth_error l n with Some c => Py.is_lower c | None => false end in
  if (2 <=? n)%nat && follows_lower then n - 1
  else match l with
       | [] => 0
       | c :: r =>
           let lows := run_length Py.is_lower r in
           if Py.is_upper c && (1 <=? lows)%nat then S lows
           else if Py.is_lower c then S lows
           else run_length Py.is_digit l
       end.

Fixpoint camel_findall (fuel : nat) (l : list ascii) : list string :=
  match fuel with
  | O => []
  | S f =>
      match l with
      | [] => []
      | _ :: r =>
          let k := camel_match l in
          if (k =? 0)%nat then camel_findall f r
          else string_of_list_ascii (firstn k l) :: camel_findall f (skipn k l)
      end
  end.

Definition _split_camel_case (token : string) : list string :=
  let l := list_ascii_of_string token in
  match camel_findall (List.length l) l with
  | [] => [token]
  | parts => parts
  end.

Definition _split_label_tokens (label : string) : list string :=
  flat_map
    (fun token => filter Py.truthy (map Py.lower (_split_camel_case token)))
    (Py.findall_tokens label).

Definition _delimiter_variants (text : string) : list string :=
  let lowered := Py.lower text in
  flat_map
    (fun sr : ascii * list string =>
       if Py.has_char (fst sr) text
       then filter (fun variant => negb (String.eqb (Py.lower variant) lowered))
                   (map (fun replacement => Py.replace (fst sr) replacement text) (snd sr))
       else [])
    [ ("-"%char, [" "; ""]); (" "%char, ["-"; ""]); ("/"%char, [" "; "-"]) ].

Definition _plural_forms (token : string) : list string :=
  if Py.ends_with_char "s" token && (1 <? String.length token)%nat
  then [Py.drop_last token]
  else if (2 <? String.length token)%nat
  then List.app (if Py.ends_with_char "y" token then [Py.drop_last token ++ "ies"] else [])
                [token ++ "s"]
  else [].

(** The two local accumulators of [_derive_label_keywords]: the keyword
    list and the set of lowercased terms already seen. *)
Definition kw_state : Type := list string * list string.

Definition _add (term : string) (st : kw_state) : kw_state :=
  let norm := Py.lower (Py.strip term) in
  if negb (Py.truthy norm) then st
  else if Py.mem norm (snd st) then st
  else (Py.push (fst st) (Py.strip term), Py.set_add norm (snd st)).

Definition _add_with_aliases (term : string) (st : kw_state) : kw_state :=
  let st := _add term st in
  let norm := Py.lower (Py.strip term) in
  fold_left (fun s a => _add a s) (get_list norm _SIMPLE_ALIASES) st.

Definition add_all (terms : list string) (st : kw_state) : kw_state :=
  fold_left (fun s t => _add_with_aliases t s) terms st.

(** [tokens[index : index + span]] for every [index] of
    [range(len(tokens) - span + 1)] *)
Definition spans (tokens : list string) (span : nat) : list (list string) :=
  map (fun index => firstn span (skipn index tokens))
      (seq 0 (List.length tokens + 1 - span)).

Definition _derive_label_keywords (label : string) (extras : option (list string))
  : list string :=
  let tokens := _split_label_tokens label in
  let st : kw_state := ([], []) in
  let base := Py.strip label in
  let st :=
    if Py.truthy base
    then add_all (_delimiter_variants base) (_add_with_aliases base st)
    else st in
  let lower_label := Py.lower base in
  let st :=
    if Py.truthy lower_label && negb (String.eqb lower_label base)
    then _add_with_aliases lower_label st
    else st in
  let st :=
    fold_left
      (fun s token =>
         let s := _add_with_aliases token s in
         let s := add_all (_plural_forms token) s in
         add_all (get_list token _VENDOR_EXPANSIONS) s)
      tokens st in
  let max_span := Nat.min 4 (List.length tokens) in
  let st :=
    fold_left
      (fun s span =>
         fold_left
           (fun s phrase_tokens =>
              let phrase := Py.join " " phrase_tokens in
              let s := _add_with_aliases phrase s in
              let s := _add_with_aliases (Py.replace " " "" phrase) s in
              _add_with_aliases (Py.replace " " "-" phrase) s)
           (spans tokens span) s)
      (seq 2 (max_span - 1)) st in
  let st :=
    match extras with
    | Some values => add_all values st
    | None => st
    end in
  fst st.

(** *** Building a model *)

(** One node of [taxonomy.tree]: [label] is [None] when the key is missing,
    [keywords] is [entry.get("keywords")]. *)
Inductive NodeEntry :=
| Entry (label : option string) (keywords : option (list string))
        (regexes : list string) (aliases : list string)
        (children : list NodeEntry).

Module AliasEntry.
Record t := make {
  alias : option string;
  target : option PathSpec;
  legacy : bool;
  note : option string;
  regex : bool
}.
End AliasEntry.

Module Config.
Record t := make {
  tree : list NodeEntry;
  aliases : list AliasEntry.t;
  priority_order : list PathSpec
}.
End Config.

(** [available_taxonomy]: the categories, the sub-categories of each
    category and the items of each (category, sub-category). *)
Module Metadata.
Record t := make {
  categories : list string;
  subcategories : list (option string * list string);
  item_categories : list ((option string * option string) * list string)
}.
End Metadata.

(** What is mutated while a model is built: the two containers the
    functions receive, and the warnings written to the log. *)
Record BuildState := mkBuildState {
  st_nodes : list (TaxonomyPath * TaxonomyNode.t);
  st_rules : list AliasRule.t;
  st_warnings : list string
}.

Definition warn (msg : string) (st : BuildState) : BuildState :=
  mkBuildState (st_nodes st) (st_rules st) (Py.push (st_warnings st) msg).

Definition add_rule (r : AliasRule.t) (st : BuildState) : BuildState :=
  mkBuildState (st_nodes st) (Py.push (st_rules st) r) (st_warnings st).

Definition set_node (p : TaxonomyPath) (n : TaxonomyNode.t) (st : BuildState) : BuildState :=
  mkBuildState (Dict.set p n (st_nodes st)) (st_rules st) (st_warnings st).

(** [parent.children.append(child)], on the node object stored at [parent] *)
Definition append_child (parent child : TaxonomyPath) (st : BuildState) : BuildState :=
  match Dict.get parent (st_nodes st) with
  | Some n => set_node parent (TaxonomyNode.add_child child n) st
  | None => st
  end.

Section Build.
Context {L : PyLib}.

(** The node is returned by its path. *)
Fixpoint _build_node (entry : NodeEntry) (parent_path : TaxonomyPath) (max_depth : nat)
  (st : BuildState) : result (TaxonomyPath * BuildState) :=
  match entry with
  | Entry None _ _ _ _ =>
      Raise (ValueError "Each taxonomy node must include a 'label' field")
  | Entry (Some raw_label) extras regex_sources alias_list child_entries =>
      if negb (Py.truthy (Py.strip raw_label))
      then Raise (ValueError "Taxonomy node labels must be non-empty strings")
      else
        let label := Py.strip raw_label in
        let path := Py.push parent_path label in
        if (max_depth <? List.length path)%nat
        then Raise (ValueError
               ("Taxonomy depth exceeds the supported maximum of "
                ++ Py.str_of_Z (Z.of_nat max_depth) ++ " levels: " ++ Py.join " > " path))
        else
          let keywords := _derive_label_keywords label extras in
          match find (fun pattern => negb (re_valid pattern)) regex_sources with
          | Some pattern => Raise (ReError pattern)
          | None =>
              let node :=
                TaxonomyNode.make label path keywords (map Py.lower keywords)
                                  regex_sources alias_list [] in
              if Dict.has path (st_nodes st)
              then Raise (ValueError
                     ("Duplicate taxonomy path detected: " ++ Py.join " > " path))
              else
                let st := set_node path node st in
                let st :=
                  fold_left
                    (fun s alias => add_rule (AliasRule.make alias path false None None) s)
                    alias_list st in
                st <- (fix build_children (entries : list NodeEntry) (st : BuildState)
                         : result BuildState :=
                         match entries with
                         | [] => Ok st
                         | child_entry :: rest =>
                             r <- _build_node child_entry path max_depth st ;;
                             build_children rest (append_child path (fst r) (snd r))
                         end) child_entries st ;;
                Ok (path, st)
          end
  end.

Definition parse_alias_entry (entry : AliasEntry.t) (st : BuildState) : result BuildState :=
  let alias :=
    Py.strip (match AliasEntry.alias entry with Some a => a | None => "" end) in
  if negb (Py.truthy alias)
  then Raise (ValueError "Alias entries must include a non-empty 'alias' field")
  else
    match AliasEntry.target entry with
    | None => Raise (ValueError ("Alias '" ++ alias ++ "' is missing a target path"))
    | Some target =>
        if negb (path_spec_truthy target)
        then Raise (ValueError ("Alias '" ++ alias ++ "' is missing a target path"))
        else
          let target_path := _normalise_priority_path target in
          let st :=
            if negb (Dict.has target_path (st_nodes st))
            then warn ("Alias '" ++ alias ++ "' points to unknown taxonomy path '"
                       ++ Py.join " > " target_path ++ "'") st
            else st in
          if AliasEntry.regex entry && negb (re_valid alias)
          then Raise (ReError alias)
          else
            let pattern := if AliasEntry.regex entry then Some alias else None in
            Ok (add_rule (AliasRule.make alias target_path (AliasEntry.legacy entry)
                                         (AliasEntry.note entry) pattern) st)
    end.

Fixpoint _parse_alias_rules (entries : list AliasEntry.t) (st : BuildState)
  : result BuildState :=
  match entries with
  | [] => Ok st
  | entry :: rest =>
      st <- parse_alias_entry entry st ;;
      _parse_alias_rules rest st
  end.

Fixpoint build_tree (entries : list NodeEntry) (max_depth : nat) (st : BuildState)
  : result BuildState :=
  match entries with
  | [] => Ok st
  | entry :: rest =>
      r <- _build_node entry [] max_depth st ;;
      build_tree rest max_depth (snd r)
  end.

(** The loop over [priority_order], with the index of each entry. *)
Fixpoint build_priority (entries : list PathSpec) (index : Z)
  (nodes : list (TaxonomyPath * TaxonomyNode.t))
  (acc : list (TaxonomyPath * Z) * list string) : list (TaxonomyPath * Z) * list string :=
  match entries with
  | [] => acc
  | entry :: rest =>
      let path := _normalise_priority_path entry in
      match path with
      | [] => build_priority rest (index + 1) nodes acc
      | _ =>
          let warnings :=
            if negb (Dict.has path nodes)
            then Py.push (snd acc)
                         ("Priority entry '" ++ path_spec_str entry
                          ++ "' does not match any configured taxonomy path")
            else snd acc in
          build_priority rest (index + 1) nodes (Dict.set path index (fst acc), warnings)
      end
  end.

Definition ostr_eqb (a b : option string) : bool :=
  match a, b with
  | Some x, Some y => String.eqb x y
  | None, None => true
  | _, _ => false
  end.

Definition okey_eqb (a b : option string * option string) : bool :=
  ostr_eqb (fst a) (fst b) && ostr_eqb (snd a) (snd b).

(** The comparison of the configured tree with the metadata: it only logs. *)
Definition metadata_warnings (md : Metadata.t)
  (nodes : list (TaxonomyPath * TaxonomyNode.t)) : list string :=
  flat_map
    (fun kv : TaxonomyPath * TaxonomyNode.t =>
       let node := snd kv in
       match fst kv with
       | [c] =>
           if negb (Py.mem c (Metadata.categories md))
           then ["Configured category '" ++ c
                 ++ "' was not returned by Freshservice metadata"]
           else []
       | [parent; _] =>
           let expected :=
             match Dict.get_by ostr_eqb (Some parent) (Metadata.subcategories md) with
             | Some l => l | None => [] end in
           if negb (Py.mem (TaxonomyNode.label node) expected)
           then ["Configured subcategory '" ++ TaxonomyNode.label node ++ "' (parent '"
                 ++ parent ++ "') not present in Freshservice metadata"]
           else []
       | [c; sc; _] =>
           let expected :=
             match Dict.get_by okey_eqb (Some c, Some sc) (Metadata.item_categories md) with
             | Some l => l | None => [] end in
           if negb (Py.mem (TaxonomyNode.label node) expected)
           then ["Configured item category '" ++ TaxonomyNode.label node ++ "' (parent '"
                 ++ c ++ " > " ++ sc ++ "') not present in Freshservice metadata"]
           else []
       | _ => []
       end)
    nodes.

(** [_ensure_node] of [_build_model_from_metadata]: the node at
    [parent_path + (label,)], created when it is missing, and then appended
    to its parent, which is created first when it is missing too.  It
    recurses on a shorter parent path; [fuel] counts that length down. *)
Fixpoint _ensure_node (fuel : nat) (max_depth : nat) (label : option string)
  (parent_path : TaxonomyPath) (st : BuildState) : option TaxonomyPath * BuildState :=
  match label with
  | None => (None, st)
  | Some raw =>
      let text := Py.strip raw in
      if negb (Py.truthy text) then (None, st)
      else
        let path := Py.push parent_path text in
        if (max_depth <? List.length path)%nat
        then (None, warn ("Ignoring taxonomy label '" ++ text
                          ++ "' because it exceeds max depth "
                          ++ Py.str_of_Z (Z.of_nat max_depth)) st)
        else
          match Dict.get path (st_nodes st) with
          | Some _ => (Some path, st)
          | None =>
              let keywords := _derive_label_keywords text None in
              let node :=
                TaxonomyNode.make text path keywords (map Py.lower keywords) [] [] [] in
              let st := set_node path node st in
              match parent_path with
              | [] => (Some path, st)
              | _ =>
                  let '(parent, st) :=
                    match Dict.get parent_path (st_nodes st) with
                    | Some _ => (Some parent_path, st)
                    | None =>
                        match fuel with
                        | O => (None, st)
                        | S f =>
                            _ensure_node f max_depth
                                         (Some (last parent_path ""))
                                         (removelast parent_path) st
                        end
                    end in
                  match parent with
                  | Some pp => (Some path, append_child pp path st)
                  | None => (Some path, st)
                  end
              end
          end
  end.

Definition ensure (max_depth : nat) (label : option string)
  (parent_path : TaxonomyPath) (st : BuildState) : option TaxonomyPath * BuildState :=
  _ensure_node (List.length parent_path) max_depth label parent_path st.

Definition ensure_all (max_depth : nat) (entries : list string)
  (parent_path : TaxonomyPath) (st : BuildState) : BuildState :=
  fold_left (fun s entry => snd (ensure max_depth (Some entry) parent_path s)) entries st.

Definition ostr_truthy (o : option string) : bool :=
  match o with Some s => Py.truthy s | None => false end.

Definition _build_model_from_metadata (md : Metadata.t) (max_depth : nat)
  : TaxonomyModel.t * list string :=
  let st := mkBuildState [] [] [] in
  let st := ensure_all max_depth (Metadata.categories md) [] st in
  let st :=
    fold_left
      (fun s (kv : option string * list string) =>
         let '(parent_node, s) :=
           if ostr_truthy (fst kv) then ensure max_depth (fst kv) [] s else (None, s) in
         let parent_path := match parent_node with Some p => p | None => [] end in
         ensure_all max_depth (snd kv) parent_path s)
      (Metadata.subcategories md) st in
  let st :=
    fold_left
      (fun s (kv : (option string * option string) * list string) =>
         let '(category_parent, sub_parent) := fst kv in
         let '(category_node, s) :=
           if ostr_truthy category_parent
           then ensure max_depth category_parent [] s else (None, s) in
         let current_path := match category_node with Some p => p | None => [] end in
         let '(current_path, s) :=
           if ostr_truthy sub_parent
           then match ensure max_depth sub_parent current_path s with
                | (Some p, s') => (p, s')
                | (None, s') => (current_path, s')
                end
           else (current_path, s) in
         ensure_all max_depth (snd kv) current_path s)
      (Metadata.item_categories md) st in
  (TaxonomyModel.make (st_nodes st) [] [] max_depth, st_warnings st).

(** [build_taxonomy_model]: the model, and the warnings it logged.  A
    [config] of [None] is a missing or empty [taxonomy] section. *)
Definition build_taxonomy_model (config : option Config.t)
  (available_taxonomy : option Metadata.t) (max_depth : nat)
  : result (TaxonomyModel.t * list string) :=
  match config with
  | None =>
      match available_taxonomy with
      | None => Raise (ValueError "Configuration is missing the 'taxonomy' section")
      | Some md => Ok (_build_model_from_metadata md max_depth)
      end
  | Some config =>
      match Config.tree config with
      | [] => Raise (ValueError "taxonomy.tree must be a non-empty list")
      | tree_entries =>
          st <- build_tree tree_entries max_depth (mkBuildState [] [] []) ;;
          st <- (match Config.aliases config with
                 | [] => Ok st
                 | additional_aliases => _parse_alias_rules additional_aliases st
                 end) ;;
          let '(priority_map, warnings) :=
            build_priority (Config.priority_order config) 0 (st_nodes st)
                           ([], st_warnings st) in
          let warnings :=
            match available_taxonomy with
            | Some md => (warnings ++ metadata_warnings md (st_nodes st))%list
            | None => warnings
            end in
          Ok (TaxonomyModel.make (st_nodes st) priority_map (st_rules st) max_depth,
              warnings)
      end
  end.

End Build.

End Taxonomy.


(** ** python_common/analysis.py *)

Module TicketRecord.
Record t := make {
  id : Z;
  subject : option string;
  description_text : option string;
  category : option string;
  sub_category : option string;
  item_category : option string;
  created_at_utc : option string;
  final_category : string;
  final_sub_category : string;
  final_item_category : string
}.

(** the three assignments at the end of a ticket's classification *)
Definition set_final (c sc ic : string) (r : t) : t :=
  make (id r) (subject r) (description_text r) (category r) (sub_category r)
       (item_category r) (created_at_utc r) c sc ic.
End TicketRecord.

Module SuggestedCategory.
Record t := make {
  category : option string;
  sub_category : option string;
  item_category : option string;
  confidence : Q;
  rationale : string
}.
End SuggestedCategory.

Module MatchResult.
Record t := make {
  path : TaxonomyPath;
  confidence : Q;
  rationale : string;
  matched_keywords : list string;
  matched_regexes : list string;
  matched_alias : option string;
  alias_legacy : bool;
  alias_note : option string;
  tfidf_score : Q;
  priority_override : option Z
}.

(** a result as the signals create it: the alias fields and the override
    keep their defaults *)
Definition fresh (p : TaxonomyPath) (c : Q) (r : string) (kws : list string) (score : Q) : t :=
  make p c r kws [] None false None score None.

Definition set_confidence (c : Q) (m : t) : t :=
  make (path m) c (rationale m) (matched_keywords m) (matched_regexes m)
       (matched_alias m) (alias_legacy m) (alias_note m) (tfidf_score m)
       (priority_override m).

Definition add_rationale (suffix : string) (m : t) : t :=
  make (path m) (confidence m) (rationale m ++ suffix) (matched_keywords m)
       (matched_regexes m) (matched_alias m) (alias_legacy m) (alias_note m)
       (tfidf_score m) (priority_override m).

Definition set_tfidf_score (s : Q) (m : t) : t :=
  make (path m) (confidence m) (rationale m) (matched_keywords m) (matched_regexes m)
       (matched_alias m) (alias_legacy m) (alias_note m) s (priority_override m).

Definition set_priority_override (p : Z) (m : t) : t :=
  make (path m) (confidence m) (rationale m) (matched_keywords m) (matched_regexes m)
       (matched_alias m) (alias_legacy m) (alias_note m) (tfidf_score m) (Some p).
End MatchResult.

Module ProximityRule.
Record t := make {
  path : TaxonomyPath;
  term_groups : list (list (list string));
  window : Z;
  boost : Q;
  description : string
}.
End ProximityRule.

(** A ticket's candidates, [Dict[Tuple[str, ...], _MatchResult]]: every
    result is stored under its own [path], so the dictionary is the list of
    its values in insertion order, keyed by that field. *)
Definition MatchMap := list MatchResult.t.

Module MatchMap.

Fixpoint get (p : TaxonomyPath) (m : MatchMap) : option MatchResult.t :=
  match m with
  | [] => None
  | r :: rest => if Py.tuple_eqb p (MatchResult.path r) then Some r else get p rest
  end.

Definition has (p : TaxonomyPath) (m : MatchMap) : bool :=
  match get p m with Some _ => true | None => false end.

(** [match_map[r.path] = r] *)
Fixpoint set (r : MatchResult.t) (m : MatchMap) : MatchMap :=
  match m with
  | [] => [r]
  | r' :: rest =>
      if Py.tuple_eqb (MatchResult.path r) (MatchResult.path r')
      then r :: rest
      else r' :: set r rest
  end.

(** an in-place update of the result stored under [p] *)
Fixpoint update (p : TaxonomyPath) (f : MatchResult.t -> MatchResult.t) (m : MatchMap)
  : MatchMap :=
  match m with
  | [] => []
  | r :: rest =>
      if Py.tuple_eqb p (MatchResult.path r)
      then f r :: rest
      else r :: update p f rest
  end.

End MatchMap.

Module TicketAnalyzer.

Open Scope Q_scope.

Definition TOKEN_PATTERN_findall := Py.findall_tokens.
Definition CLASSIFICATION_SNIPPET : nat := 240.

Definition _FUZZY_WHITELIST : list string :=
  [ "anyware"; "autodesk"; "cato"; "cinema4d"; "citrix"; "intune"; "mimecast";
    "teradici"; "unreal"; "vray" ].

Definition _FUZZY_SCORE_THRESHOLD : Q := 80.
Definition _FUZZY_MAX_BOOST : Q := 0.12.
Definition _FUZZY_NEW_MATCH_BASE : Q := 0.45.
Definition _FUZZY_NEW_MATCH_CAP : Q := 0.6.

Definition _raw_tokens (text : string) : list string :=
  map Py.lower (TOKEN_PATTERN_findall text).

Definition phrases (options : list string) : list (list string) :=
  filter (fun tokens => match tokens with [] => false | _ => true end)
         (map _raw_tokens options).

Definition _build_proximity_rules : list ProximityRule.t :=
  [ ProximityRule.make
      ["Hardware"; "Peripherals"; "Audio / Video Devices"]
      [phrases ["teams"]; phrases ["camera"]]
      6 0.1 "teams/camera proximity";
    ProximityRule.make
      ["Software"; "Productivity"; "MS Office / Outlook"]
      [phrases ["outlook"]; phrases ["signature"]]
      6 0.1 "outlook signature proximity";
    ProximityRule.make
      ["Remote Access"; "VPN (CATO)"]
      [phrases ["vpn"; "cato"]; phrases ["connect"; "cannot"; "failed"]]
      6 0.1 "vpn connectivity proximity";
    ProximityRule.make
      ["Computer Management"; "Drive Mapping"]
      [phrases ["drive"]; phrases ["mapping"; "smb"]]
      6 0.1 "drive mapping proximity";
    ProximityRule.make
      ["Computer Management"; "Intune Policy & Configuration"]
      [phrases ["intune"]; phrases ["policy"; "profile"; "company portal"]]
      6 0.1 "intune policy proximity" ].

(** [_build_fuzzy_terms]: for each node, the whitelisted tokens of its
    keywords and of its label. *)
Definition fuzzy_candidates (node : TaxonomyNode.t) : list string :=
  let from_keywords :=
    fold_left
      (fun candidates keyword =>
         fold_left
           (fun c token => if Py.mem token _FUZZY_WHITELIST then Py.set_add token c else c)
           (_raw_tokens (Py.lower keyword)) candidates)
      (TaxonomyNode.keywords node) [] in
  fold_left
    (fun c token => if Py.mem token _FUZZY_WHITELIST then Py.set_add token c else c)
    (_raw_tokens (Py.lower (TaxonomyNode.label node))) from_keywords.

Definition _build_fuzzy_terms (taxonomy : TaxonomyModel.t)
  : list (TaxonomyPath * list string) :=
  fold_left
    (fun mapping node =>
       match fuzzy_candidates node with
       | [] => mapping
       | candidates => Dict.set (TaxonomyNode.path node) candidates mapping
       end)
    (Taxonomy.iter_nodes taxonomy) [].

(** The analyzer object; [keyword_overrides] is stored and never read. *)
Record t := mk {
  taxonomy : TaxonomyModel.t;
  keyword_min_length : Z;
  min_keyword_frequency : Z;
  max_suggestions_per_ticket : Z;
  stop_words : list string;
  tfidf_leaf_threshold : Q;
  tfidf_weight : Q;
  _proximity_rules : list ProximityRule.t;
  _fuzzy_terms : list (TaxonomyPath * list string)
}.

(** [TicketAnalyzer.__init__] *)
Definition init (taxonomy : TaxonomyModel.t) (keyword_min_length min_keyword_frequency
  max_suggestions_per_ticket : Z) (stop_words : list string)
  (tfidf_leaf_threshold tfidf_weight : Q) : t :=
  mk taxonomy keyword_min_length min_keyword_frequency
     (Z.max 1 max_suggestions_per_ticket)
     (Py.to_set (map Py.lower stop_words))
     (Qmax 0 tfidf_leaf_threshold)
     (Qmax 0 tfidf_weight)
     _build_proximity_rules
     (_build_fuzzy_terms taxonomy).

(** the constructor with its default arguments *)
Definition default (taxonomy : TaxonomyModel.t) (max_suggestions_per_ticket : Z) : t :=
  init taxonomy 4 3 max_suggestions_per_ticket [] 0.05 0.35.

Definition _filter_tokens (self : t) (tokens : list string) : list string :=
  filter (fun tok => (keyword_min_length self <=? Z.of_nat (String.length tok))%Z
                     && negb (Py.mem tok (stop_words self)))
         tokens.

Definition tokenize (self : t) (text : string) : list string :=
  _filter_tokens self (_raw_tokens text).

Definition _matches_term (term norm text_lower : string) (token_set : list string) : bool :=
  if negb (Py.truthy norm) then false
  else if Py.fullmatch_token norm then Py.mem norm token_set
  else Py.contains norm text_lower.

Definition _confidence (keyword_hits : nat) (depth : nat) : Q :=
  let base := if (3 <=? depth)%nat then 0.9
              else if (depth =? 2)%nat then 0.8
              else 0.65 in
  let bonus := Qmin (0.05 * inject_Z (Z.max 0 (Z.of_nat keyword_hits - 1))) 0.09 in
  Num.round2 (Qmin (base + bonus) 0.95).

Definition _build_rationale (path : TaxonomyPath) (matched_keywords matched_regexes : list string)
  (alias : option string) (alias_legacy : bool) (alias_note : option string) : string :=
  let segments : list string := [] in
  let segments :=
    match matched_keywords with
    | [] => segments
    | _ => Py.push segments ("keywords " ++ Py.repr_list matched_keywords)%string
    end in
  let segments :=
    match matched_regexes with
    | [] => segments
    | _ => Py.push segments ("regex " ++ Py.repr_list matched_regexes)%string
    end in
  let segments :=
    match alias with
    | Some a =>
        if Py.truthy a
        then Py.push segments
               ("alias '" ++ a ++ "'" ++ (if alias_legacy then " (legacy)" else ""))%string
        else segments
    | None => segments
    end in
  let segments :=
    match alias_note with
    | Some n => if Py.truthy n then Py.push segments n else segments
    | None => segments
    end in
  let segments :=
    match segments with
    | [] => ["taxonomy rules"%string]
    | _ => segments
    end in
  ("Matched " ++ Py.join " > " path ++ " via " ++ Py.join ", " segments)%string.

Section Engine.
Context {L : PyLib}.

(** [_evaluate_aliases]: the routine that matches a ticket against the alias
    rules.  Its call of [_confidence] passes positional arguments and a
    keyword [alias] to a function that takes the keywords [keyword_hits] and
    [depth] only, so the first rule that matches raises a [TypeError]; the
    unknown keyword is what Python reports. *)
Fixpoint evaluate_alias_rules (rules : list AliasRule.t) (text text_lower : string)
  (token_set : list string) (matches : list MatchResult.t) : result (list MatchResult.t) :=
  match rules with
  | [] => Ok matches
  | rule :: rest =>
      let matched :=
        match AliasRule.regex rule with
        | Some pattern => re_search pattern text
        | None =>
            _matches_term (AliasRule.alias rule) (Py.lower (AliasRule.alias rule))
                          text_lower token_set
        end in
      if negb matched then evaluate_alias_rules rest text text_lower token_set matches
      else Raise (TypeError "_confidence() got an unexpected keyword argument 'alias'")
  end.

Definition _evaluate_aliases (self : t) (text text_lower : string) (token_set : list string)
  : result (list MatchResult.t) :=
  evaluate_alias_rules (TaxonomyModel.alias_rules (taxonomy self)) text text_lower token_set [].

End Engine.

(** the keywords of a node that match the ticket *)
Definition node_matched_keywords (node : TaxonomyNode.t) (text_lower : string)
  (token_set : list string) : list string :=
  map fst
    (filter (fun kn : string * string => _matches_term (fst kn) (snd kn) text_lower token_set)
            (combine (TaxonomyNode.keywords node) (TaxonomyNode.keyword_norms node))).

Definition _match_taxonomy (self : t) (text : string) (token_set : list string) : MatchMap :=
  let text_lower := Py.lower text in
  fold_left
    (fun matches node =>
       match node_matched_keywords node text_lower token_set with
       | [] => matches
       | matched_keywords =>
           let confidence :=
             _confidence (List.length matched_keywords)
                         (List.length (TaxonomyNode.path node)) in
           let rationale :=
             _build_rationale (TaxonomyNode.path node) matched_keywords [] None false None in
           MatchMap.set
             (MatchResult.fresh (TaxonomyNode.path node) confidence rationale
                                matched_keywords 0)
             matches
       end)
    (Taxonomy.iter_nodes (taxonomy self)) [].

(** *** Proximity rules *)

Definition _phrase_positions (tokens : list string) (phrase : list string) : list nat :=
  match phrase with
  | [] => []
  | _ =>
      let window := List.length phrase in
      if (List.length tokens <? window)%nat then []
      else filter (fun index => Py.tuple_eqb (firstn window (skipn index tokens)) phrase)
                  (seq 0 (List.length tokens - window + 1))
  end.

(** [sorted(set(positions))] *)
Fixpoint insert_position (p : nat) (l : list nat) : list nat :=
  match l with
  | [] => [p]
  | q :: r =>
      if (p <? q)%nat then p :: l
      else if (p =? q)%nat then l
      else q :: insert_position p r
  end.

Definition sorted_set (l : list nat) : list nat := fold_left (fun acc p => insert_position p acc) l [].

(** The loop that fills [positions_groups]: it is emptied, and the loop
    left, at the first group without an occurrence. *)
Fixpoint collect_positions (tokens : list string) (groups : list (list (list string)))
  (positions_groups : list (list nat)) : list (list nat) :=
  match groups with
  | [] => positions_groups
  | group :: rest =>
      match flat_map (_phrase_positions tokens) group with
      | [] => []
      | group_positions =>
          collect_positions tokens rest (Py.push positions_groups (sorted_set group_positions))
      end
  end.

Definition within_window (window : Z) (anchor : nat) (others : list nat) : bool :=
  existsb (fun pos => (Z.abs (Z.of_nat anchor - Z.of_nat pos) <=? window)%Z) others.

(** Whether the body of the loop of [_apply_proximity_boosts] reaches its
    last part for [rule]: no [continue] is taken. *)
Definition proximity_fires (self : t) (tokens : list string) (rule : ProximityRule.t) : bool :=
  (2 <=? List.length (ProximityRule.term_groups rule))%nat
  && Dict.has (ProximityRule.path rule) (TaxonomyModel.nodes_by_path (taxonomy self))
  && match collect_positions tokens (ProximityRule.term_groups rule) [] with
     | [] => false
     | anchor_positions :: other_groups =>
         existsb
           (fun anchor => forallb (within_window (ProximityRule.window rule) anchor) other_groups)
           anchor_positions
     end.

Definition proximity_boosted (rule : ProximityRule.t) (m : MatchResult.t) : MatchResult.t :=
  MatchResult.add_rationale ("; " ++ ProximityRule.description rule)%string
    (MatchResult.set_confidence
       (Num.round2 (Qmin (MatchResult.confidence m + ProximityRule.boost rule) 0.95)) m).

Definition proximity_created (rule : ProximityRule.t) : MatchResult.t :=
  let depth := List.length (ProximityRule.path rule) in
  let base := Qmax (_confidence 1 depth - 0.1) 0.5 in
  MatchResult.fresh (ProximityRule.path rule) (Num.round2 base)
    ("Matched " ++ Py.join " > " (ProximityRule.path rule) ++ " via "
     ++ ProximityRule.description rule)%string
    [] 0.

Definition apply_proximity_rule (self : t) (tokens : list string) (match_map : MatchMap)
  (rule : ProximityRule.t) : MatchMap :=
  if proximity_fires self tokens rule
  then match MatchMap.get (ProximityRule.path rule) match_map with
       | Some _ => MatchMap.update (ProximityRule.path rule) (proximity_boosted rule) match_map
       | None => MatchMap.set (proximity_created rule) match_map
       end
  else match_map.

Definition _apply_proximity_boosts (self : t) (match_map : MatchMap) (tokens : list string)
  : MatchMap :=
  match tokens with
  | [] => match_map
  | _ => fold_left (apply_proximity_rule self tokens) (_proximity_rules self) match_map
  end.

(** *** Negative keywords *)

(** The body the three guards share: the penalty on the confidence, the
    override of the priority, and the note. *)
Definition demote (self : t) (penalty : Q) (offset : Z) (note : string)
  (m : MatchResult.t) : MatchResult.t :=
  let priority_map := TaxonomyModel.priority_map (taxonomy self) in
  let size := Z.of_nat (List.length priority_map) in
  let base_priority :=
    match Dict.get (MatchResult.path m) priority_map with
    | Some rank => rank
    | None => (size + 1)%Z
    end in
  MatchResult.add_rationale note
    (MatchResult.set_priority_override (base_priority + size + offset)%Z
       (MatchResult.set_confidence
          (Num.round2 (Qmax (MatchResult.confidence m - penalty) 0.05)) m)).

(** [any(word in part.lower() for part in path)] *)
Definition path_mentions (word : string) (path : TaxonomyPath) : bool :=
  existsb (fun part => Py.contains word (Py.lower part)) path.

Definition citrix_path : TaxonomyPath := ["Remote Access"; "Citrix (Legacy)"].

Definition citrix_guard (self : t) (token_set : list string) (match_map : MatchMap) : MatchMap :=
  if MatchMap.has citrix_path match_map
     && existsb (fun term => Py.mem term token_set) ["anyware"; "rdp"; "cato"]%string
  then MatchMap.update citrix_path
         (demote self 0.3 10 "; demoted due to Anyware/RDP context") match_map
  else match_map.

Definition vpn_guard (self : t) (text_lower : string) (match_map : MatchMap) : MatchMap :=
  if Py.contains "not vpn" text_lower
  then map (fun m => if path_mentions "vpn" (MatchResult.path m)
                     then demote self 0.45 5 "; reduced by 'not vpn' guard" m
                     else m)
           match_map
  else match_map.

Definition teams_guard (self : t) (text_lower : string) (match_map : MatchMap) : MatchMap :=
  if Py.contains "not a teams issue" text_lower
     || Py.contains "not a teams problem" text_lower
  then map (fun m => if path_mentions "teams" (MatchResult.path m)
                     then demote self 0.35 5 "; reduced by 'not a teams issue' guard" m
                     else m)
           match_map
  else match_map.

Definition _apply_negative_keywords (self : t) (match_map : MatchMap) (tokens : list string)
  (text_lower : string) : MatchMap :=
  match match_map with
  | [] => match_map
  | _ =>
      let token_set := Py.to_set tokens in
      teams_guard self text_lower
        (vpn_guard self text_lower (citrix_guard self token_set match_map))
  end.

(** *** Ranking *)

Definition priority_rank (self : t) (result : MatchResult.t) : Z :=
  let default_priority :=
    (Z.of_nat (List.length (TaxonomyModel.priority_map (taxonomy self))) + 1)%Z in
  match MatchResult.priority_override result with
  | Some rank => rank
  | None =>
      match Dict.get (MatchResult.path result) (TaxonomyModel.priority_map (taxonomy self)) with
      | Some rank => rank
      | None => default_priority
      end
  end.

Definition SortKey : Type := Z * Z * Q * TaxonomyPath.

Definition sort_key (self : t) (result : MatchResult.t) : SortKey :=
  (priority_rank self result,
   (- Z.of_nat (List.length (MatchResult.path result)))%Z,
   - MatchResult.confidence result,
   MatchResult.path result).

(** the order of Python tuples: the first component that differs decides *)
Definition key_compare (a b : SortKey) : comparison :=
  let '(pa, da, ca, xa) := a in
  let '(pb, db, cb, xb) := b in
  match Z.compare pa pb with
  | Eq => match Z.compare da db with
          | Eq => match Qcompare ca cb with
                  | Eq => Py.tuple_compare xa xb
                  | c => c
                  end
          | c => c
          end
  | c => c
  end.

Definition key_leb (a b : SortKey) : bool :=
  match key_compare a b with Gt => false | _ => true end.

(** [sorted(values, key=sort_key)]: a stable sort, by insertion. *)
Fixpoint insert_sorted (self : t) (x : MatchResult.t) (l : list MatchResult.t)
  : list MatchResult.t :=
  match l with
  | [] => [x]
  | y :: r =>
      if key_leb (sort_key self x) (sort_key self y) then x :: l
      else y :: insert_sorted self x r
  end.

Definition _sorted_matches (self : t) (matches : MatchMap) : list MatchResult.t :=
  fold_right (insert_sorted self) [] matches.

Definition _fallback_match (self : t) : option MatchResult.t :=
  let paths := map fst (TaxonomyModel.nodes_by_path (taxonomy self)) in
  let questions :=
    find (fun path => match path with
                      | a :: b :: _ => String.eqb a "General IT" && String.eqb b "Questions"
                      | _ => false
                      end) paths in
  let target_path :=
    match questions with
    | Some path => Some (firstn 2 path)
    | None =>
        find (fun path => match path with
                          | [a] => String.eqb a "General IT"
                          | _ => false
                          end) paths
    end in
  match target_path with
  | None => None
  | Some target_path =>
      let depth := List.length target_path in
      let confidence :=
        if (depth =? 3)%nat then 0.6
        else if (depth =? 2)%nat then 0.55
        else if (depth =? 1)%nat then 0.5
        else 0.45 in
      Some (MatchResult.fresh target_path confidence "Fallback to General IT > Questions" [] 0)
  end.

(** *** TF-IDF: applying a ticket's scores *)

Definition tfidf_boosted (self : t) (score : Q) (m : MatchResult.t) : MatchResult.t :=
  let m := MatchResult.set_tfidf_score (Qmax (MatchResult.tfidf_score m) score) m in
  let m :=
    MatchResult.set_confidence
      (Num.round2 (Qmin (MatchResult.confidence m + score * tfidf_weight self) 0.95)) m in
  if Py.contains "tf-idf" (MatchResult.rationale m)
  then MatchResult.add_rationale (" (" ++ Num.fmt2 score ++ ")")%string m
  else MatchResult.add_rationale ("; tf-idf " ++ Num.fmt2 score)%string m.

Definition tfidf_created (self : t) (path : TaxonomyPath) (score : Q) : MatchResult.t :=
  let confidence := Num.round2 (Qmin (0.5 + score * tfidf_weight self) 0.9) in
  let rationale :=
    ("Matched " ++ Py.join " > " path ++ " via tf-idf similarity " ++ Num.fmt2 score)%string in
  MatchResult.fresh path confidence rationale [] score.

(** one turn of the loop of [_apply_tfidf_scores] *)
Definition apply_tfidf_entry (self : t) (match_map : MatchMap) (entry : TaxonomyPath * Q)
  : MatchMap :=
  let '(path, score) := entry in
  if Num.Qleb score 0 then match_map
  else
    match Taxonomy.get_node (taxonomy self) path with
    | None => match_map
    | Some node =>
        if MatchMap.has path match_map
        then MatchMap.update path (tfidf_boosted self score) match_map
        else
          match TaxonomyNode.children node with
          | _ :: _ => match_map
          | [] =>
              if Num.Qltb score (tfidf_leaf_threshold self) then match_map
              else MatchMap.set (tfidf_created self path score) match_map
          end
    end.

Definition _apply_tfidf_scores (self : t) (match_map : MatchMap)
  (tfidf_scores : list (TaxonomyPath * Q)) : MatchMap :=
  fold_left (apply_tfidf_entry self) tfidf_scores match_map.

(** [_cosine_similarity] of two sparse vectors *)
Definition _cosine_similarity (vec_a vec_b : list (string * Q)) : Q :=
  match vec_a, vec_b with
  | [], _ => 0
  | _, [] => 0
  | _, _ =>
      let '(vec_a, vec_b) :=
        if (List.length vec_b <? List.length vec_a)%nat then (vec_b, vec_a) else (vec_a, vec_b) in
      fold_left
        (fun total (tw : string * Q) =>
           match Dict.sget (fst tw) vec_b with
           | Some other => if Num.Qeqb other 0 then total else total + snd tw * other
           | None => total
           end)
        vec_a 0
  end.

(** [Counter(tokens)] *)
Definition counter (tokens : list string) : list (string * Z) :=
  fold_left
    (fun counts token =>
       Dict.sset token (match Dict.sget token counts with Some c => c | None => 0%Z end + 1)%Z
                 counts)
    tokens [].

Module TfidfArtifacts.
Record t := make {
  ticket_vectors : list (list (string * Q));
  prototype_vectors : list (list (string * Q));
  prototype_paths : list TaxonomyPath
}.
End TfidfArtifacts.

Definition or_empty (o : option string) : string :=
  match o with Some s => s | None => ""%string end.

Definition ostr_truthy (o : option string) : bool := Py.truthy (or_empty o).

Section Pipeline.
Context {L : PyLib}.

(** *** Fuzzy matches *)

(** the best [(score, seed, token)] seen so far *)
Definition Best : Type := Q * option string * option string.

Definition best_score (b : Best) : Q := fst (fst b).

(** The inner loop over the ticket's tokens; it stops at a token equal to
    the seed. *)
Fixpoint scan_tokens (seed : string) (fuzzy_tokens : list string) (best : Best) : Best :=
  match fuzzy_tokens with
  | [] => best
  | token :: rest =>
      if String.eqb token seed then (100, Some seed, Some token)
      else
        let score := partial_ratio seed token in
        let best := if Num.Qgtb score (best_score best)
                    then (score, Some seed, Some token) else best in
        scan_tokens seed rest best
  end.

(** The outer loop over the seeds of a path; it stops at a score of 100. *)
Fixpoint scan_seeds (seeds token_set fuzzy_tokens : list string) (best : Best) : Best :=
  match seeds with
  | [] => best
  | seed :: rest =>
      if Py.mem seed token_set then (100, Some seed, Some seed)
      else
        let best := scan_tokens seed fuzzy_tokens best in
        if Num.Qeqb (best_score best) 100 then best
        else scan_seeds rest token_set fuzzy_tokens best
  end.

Definition fuzzy_boost (score : Q) : Q :=
  Qmin _FUZZY_MAX_BOOST ((score / 100) * _FUZZY_MAX_BOOST).

Definition fuzzy_boosted (boost : Q) (rationale_note : string) (m : MatchResult.t)
  : MatchResult.t :=
  MatchResult.add_rationale ("; " ++ rationale_note)%string
    (MatchResult.set_confidence
       (Num.round2 (Qmin (MatchResult.confidence m + boost) 0.95)) m).

Definition fuzzy_created (path : TaxonomyPath) (boost : Q) (rationale_note : string)
  : MatchResult.t :=
  let confidence := Qmin _FUZZY_NEW_MATCH_CAP (_FUZZY_NEW_MATCH_BASE + boost) in
  MatchResult.fresh path (Num.round2 confidence)
    ("Matched " ++ Py.join " > " path ++ " via " ++ rationale_note)%string [] 0.

(** one turn of the loop of [_apply_fuzzy_matches] *)
Definition apply_fuzzy_entry (self : t) (token_set fuzzy_tokens : list string)
  (match_map : MatchMap) (entry : TaxonomyPath * list string) : MatchMap :=
  let '(path, seeds) := entry in
  match seeds with
  | [] => match_map
  | _ =>
      match Taxonomy.get_node (taxonomy self) path with
      | None => match_map
      | Some node =>
          match scan_seeds seeds token_set fuzzy_tokens (0, None, None) with
          | (score, Some seed, Some token) =>
              if Num.Qltb score _FUZZY_SCORE_THRESHOLD
                 || negb (Py.truthy seed) || negb (Py.truthy token)
              then match_map
              else
                let boost := fuzzy_boost score in
                let rationale_note :=
                  ("fuzzy " ++ seed ++ "->" ++ token ++ " " ++ Num.fmt0 score)%string in
                if MatchMap.has path match_map
                then MatchMap.update path (fuzzy_boosted boost rationale_note) match_map
                else
                  match TaxonomyNode.children node with
                  | _ :: _ => match_map
                  | [] => MatchMap.set (fuzzy_created path boost rationale_note) match_map
                  end
          | _ => match_map
          end
      end
  end.

Definition _apply_fuzzy_matches (self : t) (match_map : MatchMap)
  (raw_tokens token_set : list string) : MatchMap :=
  match _fuzzy_terms self, raw_tokens with
  | [], _ => match_map
  | _, [] => match_map
  | terms, _ =>
      let unique_tokens := Py.to_set raw_tokens in
      let fuzzy_tokens := filter (fun token => (3 <=? String.length token)%nat) unique_tokens in
      fold_left (apply_fuzzy_entry self token_set fuzzy_tokens) terms match_map
  end.

(** *** TF-IDF: the vectors of a batch *)

Definition _build_tfidf_vector (tokens : list string) (idf_map : list (string * Q))
  (default_idf : Q) : list (string * Q) :=
  match tokens with
  | [] => []
  | _ =>
      let counts := counter tokens in
      let total := fold_left Z.add (map snd counts) 0%Z in
      if (total =? 0)%Z then []
      else
        let weights :=
          fold_left
            (fun weights (tc : string * Z) =>
               let tf := inject_Z (snd tc) / inject_Z total in
               let idf := match Dict.sget (fst tc) idf_map with
                          | Some v => v | None => default_idf end in
               let weight := tf * idf in
               if Num.Qgtb weight 0 then Dict.sset (fst tc) weight weights else weights)
            counts [] in
        match weights with
        | [] => []
        | _ =>
            let norm := math_sqrt (Num.Qsum (map (fun tv : string * Q => snd tv * snd tv) weights)) in
            if Num.Qeqb norm 0 then []
            else map (fun tv : string * Q => (fst tv, snd tv / norm)) weights
        end
  end.

(** the text of a ticket as the corpus holds it *)
Definition corpus_text (ticket : TicketRecord.t) : string :=
  Py.lower (Py.strip (or_empty (TicketRecord.subject ticket) ++ " "
                      ++ or_empty (TicketRecord.description_text ticket))%string).

(** [tokens_by_path[path].extend(tokens)] when [path] is a node *)
Definition extend_if_node (self : t) (path : TaxonomyPath) (tokens : list string)
  (tokens_by_path : list (TaxonomyPath * list string)) : list (TaxonomyPath * list string) :=
  match Taxonomy.get_node (taxonomy self) path with
  | None => tokens_by_path
  | Some _ =>
      let old := match Dict.get path tokens_by_path with Some l => l | None => [] end in
      Dict.set path (old ++ tokens)%list tokens_by_path
  end.

(** The tokens of a labelled ticket go to the nodes its existing category,
    sub-category and item name. *)
Definition add_ticket_tokens (self : t) (tokens_by_path : list (TaxonomyPath * list string))
  (tt : TicketRecord.t * list string) : list (TaxonomyPath * list string) :=
  let '(ticket, tokens) := tt in
  let path_parts : TaxonomyPath := [] in
  let '(path_parts, tokens_by_path) :=
    if ostr_truthy (TicketRecord.category ticket)
    then let parts := Py.push path_parts (or_empty (TicketRecord.category ticket)) in
         (parts, extend_if_node self parts tokens tokens_by_path)
    else (path_parts, tokens_by_path) in
  let '(path_parts, tokens_by_path) :=
    if ostr_truthy (TicketRecord.sub_category ticket)
    then let parts := Py.push path_parts (or_empty (TicketRecord.sub_category ticket)) in
         (parts, extend_if_node self parts tokens tokens_by_path)
    else (path_parts, tokens_by_path) in
  if ostr_truthy (TicketRecord.item_category ticket)
  then let parts := Py.push path_parts (or_empty (TicketRecord.item_category ticket)) in
       extend_if_node self parts tokens tokens_by_path
  else tokens_by_path.

Definition document_frequencies (token_docs : list (list string)) : list (string * Z) :=
  fold_left
    (fun doc_freq tokens =>
       fold_left
         (fun df token =>
            Dict.sset token (match Dict.sget token df with Some c => c | None => 0%Z end + 1)%Z df)
         (Py.to_set tokens) doc_freq)
    token_docs [].

Definition _build_tfidf_artifacts (self : t) (tickets : list TicketRecord.t)
  : option TfidfArtifacts.t :=
  match tickets with
  | [] => None
  | _ =>
      let corpus := map corpus_text tickets in
      if negb (existsb Py.truthy corpus) then None
      else
        let token_docs := map _raw_tokens corpus in
        if negb (existsb (fun d => match d with [] => false | _ => true end) token_docs)
        then None
        else
          let tokens_by_path :=
            fold_left (add_ticket_tokens self) (combine tickets token_docs) [] in
          let doc_freq := document_frequencies token_docs in
          let doc_count := Z.of_nat (List.length token_docs) in
          match doc_freq with
          | [] => None
          | _ =>
              if (doc_count =? 0)%Z then None
              else
                let idf_map :=
                  map (fun tf : string * Z =>
                         (fst tf,
                          math_log (inject_Z (1 + doc_count) / inject_Z (1 + snd tf)) + 1))
                      doc_freq in
                let default_idf := math_log (inject_Z (1 + doc_count)) + 1 in
                let ticket_vectors :=
                  map (fun tokens => _build_tfidf_vector tokens idf_map default_idf)
                      token_docs in
                let prototypes :=
                  fold_left
                    (fun protos (pn : TaxonomyPath * TaxonomyNode.t) =>
                       match TaxonomyNode.children (snd pn) with
                       | _ :: _ => protos
                       | [] =>
                           let seed_tokens :=
                             (flat_map (fun keyword => _raw_tokens (Py.lower keyword))
                                       (TaxonomyNode.keywords (snd pn))
                              ++ match Dict.get (fst pn) tokens_by_path with
                                 | Some l => l | None => [] end)%list in
                           match _build_tfidf_vector seed_tokens idf_map default_idf with
                           | [] => protos
                           | vector => Py.push protos (fst pn, vector)
                           end
                       end)
                    (TaxonomyModel.nodes_by_path (taxonomy self)) [] in
                match prototypes with
                | [] => None
                | _ =>
                    Some (TfidfArtifacts.make ticket_vectors (map snd prototypes)
                                              (map fst prototypes))
                end
          end
  end.

Definition _compute_tfidf_scores (self : t) (tickets : list TicketRecord.t)
  : option (list (list (TaxonomyPath * Q))) :=
  match _build_tfidf_artifacts self tickets with
  | None => None
  | Some artifacts =>
      Some (map
              (fun ticket_vector =>
                 fold_left
                   (fun score_map (pv : TaxonomyPath * list (string * Q)) =>
                      let value := _cosine_similarity ticket_vector (snd pv) in
                      if Num.Qgtb value 0 then Dict.set (fst pv) value score_map
                      else score_map)
                   (combine (TfidfArtifacts.prototype_paths artifacts)
                            (TfidfArtifacts.prototype_vectors artifacts))
                   [])
              (TfidfArtifacts.ticket_vectors artifacts))
  end.

(** *** suggest_categories *)

Definition combined_text (ticket : TicketRecord.t) : string :=
  Py.strip (or_empty (TicketRecord.subject ticket) ++ " "
            ++ or_empty (TicketRecord.description_text ticket))%string.

(** The candidates of a ticket once every signal and the negative keywords
    were applied. *)
Definition candidates (self : t) (tfidf_map : list (TaxonomyPath * Q))
  (ticket : TicketRecord.t) : MatchMap :=
  let text := combined_text ticket in
  let raw_tokens := _raw_tokens text in
  let token_set := Py.to_set raw_tokens in
  let match_map := _match_taxonomy self text token_set in
  let match_map := _apply_proximity_boosts self match_map raw_tokens in
  let match_map := _apply_fuzzy_matches self match_map raw_tokens token_set in
  let match_map := _apply_tfidf_scores self match_map tfidf_map in
  _apply_negative_keywords self match_map raw_tokens (Py.lower text).

Definition first_of_depth (depth : nat) (ordered_matches : list MatchResult.t)
  : option MatchResult.t :=
  find (fun m => (List.length (MatchResult.path m) =? depth)%nat) ordered_matches.

Definition select_primary (ordered_matches : list MatchResult.t) : option MatchResult.t :=
  match first_of_depth 3 ordered_matches with
  | Some m => Some m
  | None =>
      match first_of_depth 2 ordered_matches with
      | Some m => Some m
      | None => first_of_depth 1 ordered_matches
      end
  end.

(** [ordered_matches] and [primary] as they stand before the suggestions
    are assembled. *)
Definition ranked (self : t) (match_map : MatchMap)
  : list MatchResult.t * option MatchResult.t :=
  let ordered_matches := _sorted_matches self match_map in
  match select_primary ordered_matches with
  | Some primary => (ordered_matches, Some primary)
  | None =>
      match _fallback_match self with
      | Some fallback => (fallback :: ordered_matches, Some fallback)
      | None => (ordered_matches, None)
      end
  end.

Definition to_suggestion (m : MatchResult.t) : SuggestedCategory.t :=
  SuggestedCategory.make
    (nth_error (MatchResult.path m) 0)
    (nth_error (MatchResult.path m) 1)
    (nth_error (MatchResult.path m) 2)
    (Num.round2 (MatchResult.confidence m))
    (MatchResult.rationale m).

(** the matches behind a ticket's suggestion list *)
Definition suggested_matches (self : t) (tfidf_map : list (TaxonomyPath * Q))
  (ticket : TicketRecord.t) : list MatchResult.t :=
  firstn (Z.to_nat (max_suggestions_per_ticket self))
         (fst (ranked self (candidates self tfidf_map ticket))).

(** The body of the loop over the tickets: the suggestion list, and the
    ticket with its final fields written. *)
Definition suggest_ticket (self : t) (tfidf_map : list (TaxonomyPath * Q))
  (ticket : TicketRecord.t) : list SuggestedCategory.t * TicketRecord.t :=
  let suggestion_list := map to_suggestion (suggested_matches self tfidf_map ticket) in
  let ticket :=
    match snd (ranked self (candidates self tfidf_map ticket)), suggestion_list with
    | Some _, top :: _ =>
        TicketRecord.set_final
          (or_empty (SuggestedCategory.category top))
          (or_empty (SuggestedCategory.sub_category top))
          (or_empty (SuggestedCategory.item_category top))
          ticket
    | _, _ => ticket
    end in
  (suggestion_list, ticket).

(** the TF-IDF scores of the ticket at [index] (counted from 1) *)
Definition tfidf_map_at (tfidf_scores : option (list (list (TaxonomyPath * Q)))) (index : nat)
  : list (TaxonomyPath * Q) :=
  match tfidf_scores with
  | Some score_maps => nth (index - 1) score_maps []
  | None => []
  end.

Fixpoint suggest_loop (self : t) (tfidf_scores : option (list (list (TaxonomyPath * Q))))
  (index : nat) (tickets : list TicketRecord.t)
  (suggestions : list (Z * list SuggestedCategory.t))
  : list (Z * list SuggestedCategory.t) * list TicketRecord.t :=
  match tickets with
  | [] => (suggestions, [])
  | ticket :: rest =>
      let '(suggestion_list, ticket') :=
        suggest_ticket self (tfidf_map_at tfidf_scores index) ticket in
      let '(suggestions, rest') :=
        suggest_loop self tfidf_scores (S index) rest
                     (Dict.zset (TicketRecord.id ticket) suggestion_list suggestions) in
      (suggestions, ticket' :: rest')
  end.

(** [suggest_categories]: the suggestions by ticket id, and the tickets as
    the call leaves them. *)
Definition suggest_categories (self : t) (tickets : list TicketRecord.t)
  : list (Z * list SuggestedCategory.t) * list TicketRecord.t :=
  suggest_loop self (_compute_tfidf_scores self tickets) 1 tickets [].

End Pipeline.

(** *** Keyword statistics of a batch *)

(** the text [keyword_counts] and [detect_repeating_keywords] tokenize: it
    is not stripped *)
Definition ticket_text (ticket : TicketRecord.t) : string :=
  (or_empty (TicketRecord.subject ticket) ++ " "
   ++ or_empty (TicketRecord.description_text ticket))%string.

(** [counts.update(tokens)] on a [Counter] *)
Definition counter_update (counts : list (string * Z)) (tokens : list string)
  : list (string * Z) :=
  fold_left
    (fun counts token =>
       Dict.sset token (match Dict.sget token counts with Some c => c | None => 0%Z end + 1)%Z
                 counts)
    tokens counts.

Definition keyword_counts (self : t) (tickets : list TicketRecord.t) : list (string * Z) :=
  fold_left
    (fun counts ticket => counter_update counts (tokenize self (ticket_text ticket)))
    tickets [].

(** [repeating.sort(key=lambda item: item[1], reverse=True)]: a stable sort
    by decreasing count, by insertion *)
Fixpoint insert_by_count (x : string * Z) (l : list (string * Z)) : list (string * Z) :=
  match l with
  | [] => [x]
  | y :: r => if (snd y <=? snd x)%Z then x :: l else y :: insert_by_count x r
  end.

(** the counter [detect_repeating_keywords] fills: in how many tickets a
    token occurs.  Python iterates [set(tokens)] in an order it does not
    specify; here it is the order of first occurrence.  Only the order of
    keywords with equal counts depends on it. *)
Definition ticket_frequencies (self : t) (tickets : list TicketRecord.t) : list (string * Z) :=
  fold_left
    (fun counts ticket =>
       counter_update counts (Py.to_set (tokenize self (ticket_text ticket))))
    tickets [].

Definition detect_repeating_keywords (self : t) (tickets : list TicketRecord.t)
  : list (string * Z) :=
  let counts := ticket_frequencies self tickets in
  let repeating :=
    filter (fun item : string * Z => (min_keyword_frequency self <=? snd item)%Z) counts in
  fold_right insert_by_count [] repeating.

(** [existing[key].add(value)] on a [defaultdict(set)] *)
Definition add_existing (key value : string) (existing : list (string * list string))
  : list (string * list string) :=
  Dict.sset key
    (Py.set_add value (match Dict.sget key existing with Some s => s | None => [] end))
    existing.

(** the body of the loop of [extract_existing_categories] *)
Definition record_existing (existing : list (string * list string))
  (ticket : TicketRecord.t) : list (string * list string) :=
  let existing :=
    if ostr_truthy (TicketRecord.category ticket)
    then add_existing "category" (or_empty (TicketRecord.category ticket)) existing
    else existing in
  let existing :=
    if ostr_truthy (TicketRecord.sub_category ticket)
    then add_existing "sub_category" (or_empty (TicketRecord.sub_category ticket)) existing
    else existing in
  if ostr_truthy (TicketRecord.item_category ticket)
  then add_existing "item_category" (or_empty (TicketRecord.item_category ticket)) existing
  else existing.

Definition extract_existing_categories (tickets : list TicketRecord.t)
  : list (string * list string) :=
  fold_left record_existing tickets [].

End TicketAnalyzer.

(** ** python_common/reporting.py *)

Module TicketReportWriter.

(** [f"{value}"] for an optional string: [None] prints as its name *)
Definition fstr (o : option string) : string :=
  match o with Some s => s | None => "None" end.

(** the text [_pick_repeating_keyword] searches *)
Definition report_text (ticket : TicketRecord.t) : string :=
  Py.lower (fstr (TicketRecord.subject ticket) ++ " "
            ++ fstr (TicketRecord.description_text ticket)).

(** [_pick_repeating_keyword]: the first keyword of the lookup, in its
    order, that the ticket's lowercase text contains *)
Definition _pick_repeating_keyword (ticket : TicketRecord.t)
  (keyword_lookup : list (string * Z)) : string * Z :=
  match find (fun kf : string * Z => Py.contains (fst kf) (report_text ticket))
             keyword_lookup with
  | Some kf => kf
  | None => ("", 0%Z)
  end.

(** [{keyword: frequency for keyword, frequency in repeating_keywords}] *)
Definition keyword_lookup (repeating_keywords : list (string * Z)) : list (string * Z) :=
  fold_left (fun d kf => Dict.sset (fst kf) (snd kf) d) repeating_keywords [].

End TicketReportWriter.

(** ** An implementation of the runtime interface, to run the engine

    Patterns are literal words and phrases, matched without regard to case;
    logarithms and square roots are computed in fixed point with eighteen
    decimals; the partial ratio slides the shorter string over the longer
    one and keeps the best normalised indel similarity. *)

Module Runtime.

Definition literal_char (c : ascii) : bool :=
  Py.is_word_char c || (nat_of_ascii c =? 32)%nat.

Definition literal_valid (pattern : string) : bool :=
  forallb literal_char (list_ascii_of_string pattern).

Definition literal_search (pattern text : string) : bool :=
  Py.contains (Py.lower pattern) (Py.lower text).

Definition scale : Z := 10 ^ 18.

Definition to_fixed (q : Q) : Z := (Qnum q * scale / Zpos (Qden q))%Z.

Definition of_fixed (z : Z) : Q := Qred (Qmake z (Z.to_pos scale)).

Definition sqrt_fixed (q : Q) : Q :=
  if Num.Qleb q 0 then 0%Q
  else of_fixed (Z.sqrt (Qnum q * scale * scale / Zpos (Qden q))).

(** [2 * atanh y] by its series, for a fixed-point [y] below one half *)
Fixpoint atanh_terms (n : nat) (k : Z) (ypow y2 : Z) : Z :=
  match n with
  | O => 0%Z
  | S n' => (ypow / k + atanh_terms n' (k + 2) (ypow * y2 / scale) y2)%Z
  end.

Definition ln_near_one (x : Z) : Z :=
  let y := ((x - scale) * scale / (x + scale))%Z in
  (2 * atanh_terms 40 1 y (y * y / scale))%Z.

Definition ln2_fixed : Z := ln_near_one (2 * scale).

(** halve [x] until it is below two, counting the halvings *)
Fixpoint reduce (fuel : nat) (x : Z) (k : Z) : Z * Z :=
  match fuel with
  | O => (x, k)
  | S f => if (x <? 2 * scale)%Z then (x, k) else reduce f (x / 2) (k + 1)
  end.

Definition log_fixed (q : Q) : Q :=
  if Num.Qleb q 0 then 0%Q
  else
    let x := to_fixed q in
    if (x <? scale)%Z then (- of_fixed (ln_near_one (scale * scale / Z.max 1 x)))%Q
    else let '(r, k) := reduce 200 x 0 in of_fixed (k * ln2_fixed + ln_near_one r).

(** the length of a longest common subsequence, row by row *)
Fixpoint lcs_row (c : ascii) (b : list ascii) (prev : list nat) (diag left : nat) : list nat :=
  match b, prev with
  | d :: b', up :: prev' =>
      let v := if Ascii.eqb c d then S diag else Nat.max up left in
      v :: lcs_row c b' prev' up v
  | _, _ => []
  end.

Definition lcs (a b : list ascii) : nat :=
  last (fold_left (fun prev c => lcs_row c b prev 0%nat 0%nat) a (repeat 0%nat (List.length b))) 0%nat.

Definition indel_ratio (a b : list ascii) : Q :=
  match (List.length a + List.length b)%nat with
  | O => 100
  | n => (200 * inject_Z (Z.of_nat (lcs a b)) / inject_Z (Z.of_nat n))%Q
  end.

Definition windows (m : nat) (l : list ascii) : list (list ascii) :=
  (map (fun k => firstn k l) (seq 1 (m - 1))
   ++ map (fun i => firstn m (skipn i l)) (seq 0 (List.length l + 1 - m))
   ++ map (fun k => skipn (List.length l - k) l) (seq 1 (m - 1)))%list.

Definition sliding_ratio (s1 s2 : string) : Q :=
  let a := list_ascii_of_string s1 in
  let b := list_ascii_of_string s2 in
  let '(short, long) := if (List.length b <? List.length a)%nat then (b, a) else (a, b) in
  match short with
  | [] => match long with [] => 100 | _ => 0 end
  | _ => fold_left (fun best w => Qmax best (indel_ratio short w))
                   (windows (List.length short) long) 0
  end.

#[export] Instance lib : PyLib := {|
  re_valid := literal_valid;
  re_search := literal_search;
  math_log := log_fixed;
  math_sqrt := sqrt_fixed;
  partial_ratio := sliding_ratio
|}.

End Runtime.

(** ** Vocabulary of the statements *)

Module TA := TicketAnalyzer.

(** the rank a path has in the taxonomy's priority table, [size + 1] when
    it is not listed *)
Definition base_priority (self : TA.t) (path : TaxonomyPath) : Z :=
  let priority_map := TaxonomyModel.priority_map (TA.taxonomy self) in
  match Dict.get path priority_map with
  | Some rank => rank
  | None => (Z.of_nat (List.length priority_map) + 1)%Z
  end.

Definition priority_size (self : TA.t) : Z :=
  Z.of_nat (List.length (TaxonomyModel.priority_map (TA.taxonomy self))).

(** the analyzers [TicketAnalyzer(...)] returns *)
Inductive constructed : TA.t -> Prop :=
| by_init (taxonomy : TaxonomyModel.t) (keyword_min_length min_keyword_frequency
    max_suggestions_per_ticket : Z) (stop_words : list string)
    (tfidf_leaf_threshold tfidf_weight : Q) :
    constructed (TA.init taxonomy keyword_min_length min_keyword_frequency
                         max_suggestions_per_ticket stop_words
                         tfidf_leaf_threshold tfidf_weight).

(** a node's keywords match the ticket: some keyword of the node, with its
    lowercase form, passes [_matches_term] *)
Definition keyword_matches (node : TaxonomyNode.t) (text : string) (token_set : list string)
  : Prop :=
  exists keyword norm,
    In (keyword, norm) (combine (TaxonomyNode.keywords node) (TaxonomyNode.keyword_norms node))
    /\ TA._matches_term keyword norm (Py.lower text) token_set = true.

(** the suggestion list the loop of [suggest_categories] computes for the
    ticket at position [i], [index] being the count of the first ticket *)
Definition list_at {L : PyLib} (self : TA.t)
  (tfidf_scores : option (list (list (TaxonomyPath * Q))))
  (index i : nat) (ticket : TicketRecord.t) : list SuggestedCategory.t :=
  fst (TA.suggest_ticket self (TA.tfidf_map_at tfidf_scores (index + i)) ticket).

(** a confidence the engine may hold: within [0.05, 0.95] and equal to its
    own rounding to two decimals *)
Definition confidence_ok (c : Q) : Prop :=
  (0.05 <= c /\ c <= 0.95 /\ Num.round2 c == c)%Q.

Definition all_ok (m : MatchMap) : Prop :=
  Forall (fun r => confidence_ok (MatchResult.confidence r)) m.

(** the order [_sorted_matches] sorts by: the sort key of [a] is at most
    that of [b] *)
Definition key_le (self : TA.t) (a b : MatchResult.t) : Prop :=
  TA.key_leb (TA.sort_key self a) (TA.sort_key self b) = true.

(** a depth the data model allows: one to three labels *)
Definition depth_ok (p : TaxonomyPath) : bool :=
  (1 <=? List.length p)%nat && (List.length p <=? 3)%nat.

(** a taxonomy in which every node is stored under its own path, of depth
    one to three *)
Definition well_formed (taxonomy : TaxonomyModel.t) : bool :=
  forallb (fun kv : TaxonomyPath * TaxonomyNode.t =>
             depth_ok (fst kv) && Py.tuple_eqb (TaxonomyNode.path (snd kv)) (fst kv))
          (TaxonomyModel.nodes_by_path taxonomy).

(** a three-way comparison that is a total preorder *)
Record good_compare {A : Type} (cmp : A -> A -> comparison) : Prop := {
  gc_antisym : forall a b, cmp b a = CompOpp (cmp a b);
  gc_eq : forall a b c, cmp a b = Eq -> cmp a c = cmp b c;
  gc_lt : forall a b c, cmp a b = Lt -> cmp b c = Lt -> cmp a c = Lt
}.

(** the comparison of pairs, the first component deciding first *)
Definition lex {A B : Type} (ca : A -> A -> comparison) (cb : B -> B -> comparison)
  (x y : A * B) : comparison :=
  match ca (fst x) (fst y) with
  | Eq => cb (snd x) (snd y)
  | c => c
  end.

(** candidates whose paths all have a depth of one to three *)
Definition depths_ok (m : MatchMap) : Prop :=
  Forall (fun r => depth_ok (MatchResult.path r) = true) m.

(** a ticket with its three final fields blank, as it is constructed *)
Definition without_final (ticket : TicketRecord.t) : TicketRecord.t :=
  TicketRecord.set_final "" "" "" ticket.

(** *** Alias entries of a configuration *)

Definition entry_alias (entry : Taxonomy.AliasEntry.t) : string :=
  Py.strip (match Taxonomy.AliasEntry.alias entry with Some a => a | None => "" end).

Definition entry_target_path (entry : Taxonomy.AliasEntry.t) : TaxonomyPath :=
  match Taxonomy.AliasEntry.target entry with
  | Some target => Taxonomy._normalise_priority_path target
  | None => []
  end.

(** an entry [_parse_alias_rules] has no other complaint about: its alias
    is not blank, it has a target that is not empty, and, when it is
    flagged as a regex, its alias compiles *)
Definition alias_entry_ok {L : PyLib} (entry : Taxonomy.AliasEntry.t) : bool :=
  Py.truthy (entry_alias entry)
  && match Taxonomy.AliasEntry.target entry with
     | Some target => Taxonomy.path_spec_truthy target
     | None => false
     end
  && (negb (Taxonomy.AliasEntry.regex entry) || re_valid (entry_alias entry)).

(** the rule an entry stands for *)
Definition rule_of_entry (entry : Taxonomy.AliasEntry.t) : AliasRule.t :=
  AliasRule.make (entry_alias entry) (entry_target_path entry)
    (Taxonomy.AliasEntry.legacy entry) (Taxonomy.AliasEntry.note entry)
    (if Taxonomy.AliasEntry.regex entry then Some (entry_alias entry) else None).

Definition unknown_target_warning (entry : Taxonomy.AliasEntry.t) : string :=
  "Alias '" ++ entry_alias entry ++ "' points to unknown taxonomy path '"
  ++ Py.join " > " (entry_target_path entry) ++ "'".

(** the analyzer over the model with the given node store, priority map
    and alias rules *)
Definition analyzer_over (nodes_by_path : list (TaxonomyPath * TaxonomyNode.t))
  (priority_map : list (TaxonomyPath * Z)) (alias_rules : list AliasRule.t)
  (max_depth : nat)
  (keyword_min_length min_keyword_frequency max_suggestions_per_ticket : Z)
  (stop_words : list string) (tfidf_leaf_threshold tfidf_weight : Q) : TA.t :=
  TA.init (TaxonomyModel.make nodes_by_path priority_map alias_rules max_depth)
          keyword_min_length min_keyword_frequency max_suggestions_per_ticket
          stop_words tfidf_leaf_threshold tfidf_weight.

(** *** Invariants of a model under construction *)

(** a node stored under its own path, of a depth within [1, max_depth],
    whose children lie one level below it *)
Definition node_stored_ok (max_depth : nat) (kv : TaxonomyPath * TaxonomyNode.t) : Prop :=
  TaxonomyNode.path (snd kv) = fst kv
  /\ (1 <= List.length (fst kv) <= max_depth)%nat
  /\ Forall (fun c : TaxonomyPath => List.length c = S (List.length (fst kv)))
            (TaxonomyNode.children (snd kv)).

Definition store_ok (max_depth : nat) (nodes : list (TaxonomyPath * TaxonomyNode.t)) : Prop :=
  Forall (node_stored_ok max_depth) nodes.

(** induction on the entries of a tree, the children of an entry first *)
Section NodeEntryInduction.
Variable P : Taxonomy.NodeEntry -> Prop.
Hypothesis step :
  forall label keywords regexes aliases children,
    Forall P children -> P (Taxonomy.Entry label keywords regexes aliases children).

Fixpoint node_entry_ind (e : Taxonomy.NodeEntry) : P e :=
  match e with
  | Taxonomy.Entry l k r a cs =>
      step l k r a cs
        ((fix all (cs : list Taxonomy.NodeEntry) : Forall P cs :=
            match cs with
            | [] => Forall_nil P
            | c :: rest => Forall_cons c (node_entry_ind c) (all rest)
            end) cs)
  end.
End NodeEntryInduction.

(** *** Tokens and keyword statistics *)

(** a lowercase token: not empty, and made of [a-z0-9_] only *)
Definition is_token (s : string) : bool :=
  Py.truthy s
  && forallb (fun c => Py.is_word_char c && negb (Py.is_upper c)) (list_ascii_of_string s).

(** a text of the ASCII range, on which [str.lower] is the lowering of the
    letters A to Z *)
Definition is_ascii (s : string) : bool :=
  forallb (fun c => (nat_of_ascii c <? 128)%nat) (list_ascii_of_string s).

(** how often a token occurs in a list of tokens *)
Definition occurrences (token : string) (tokens : list string) : Z :=
  Z.of_nat (count_occ string_dec tokens token).

(** the tokens of every ticket of a batch, in order *)
Definition batch_tokens (self : TA.t) (tickets : list TicketRecord.t) : list string :=
  flat_map (fun ticket => TA.tokenize self (TA.ticket_text ticket)) tickets.

(** in how many tickets of a batch a token occurs *)
Definition tickets_mentioning (self : TA.t) (token : string) (tickets : list TicketRecord.t)
  : Z :=
  Z.of_nat (List.length
              (filter (fun ticket => Py.mem token (TA.tokenize self (TA.ticket_text ticket)))
                      tickets)).

(** the order of [detect_repeating_keywords]: by decreasing count *)
Definition count_ge (a b : string * Z) : Prop := (snd b <= snd a)%Z.

(** the count a [Counter] holds for a token: zero when it has none *)
Definition count_of (token : string) (counts : list (string * Z)) : Z :=
  match Dict.sget token counts with Some c => c | None => 0%Z end.

(** some ticket has [value], not blank, in the given field *)
Definition has_value (field : TicketRecord.t -> option string)
  (tickets : list TicketRecord.t) (value : string) : Prop :=
  exists ticket, In ticket tickets /\ field ticket = Some value /\ value <> "".

(** *** Candidates *)

(** a phrase of the group starts at position [index] of the tokens *)
Definition occurs_at (tokens : list string) (group : list (list string)) (index : nat) : Prop :=
  exists phrase,
    In phrase group /\ phrase <> []
    /\ (index + List.length phrase <= List.length tokens)%nat
    /\ firstn (List.length phrase) (skipn index tokens) = phrase.

(** the paths the fallback looks for: General IT > Questions, with or without
    more levels, and General IT alone *)
Definition is_questions_path (path : TaxonomyPath) : bool :=
  match path with
  | a :: b :: _ => String.eqb a "General IT" && String.eqb b "Questions"
  | _ => false
  end.

Definition is_general_it (path : TaxonomyPath) : bool :=
  match path with
  | [a] => String.eqb a "General IT"
  | _ => false
  end.

Definition node_paths (self : TA.t) : list TaxonomyPath :=
  map fst (TaxonomyModel.nodes_by_path (TA.taxonomy self)).

(** the table behind [_confidence]: the base of a depth, and the bonus of a
    number of keyword hits *)
Definition depth_base (depth : nat) : Q :=
  match depth with
  | O | 1%nat => 0.65
  | 2%nat => 0.8
  | _ => 0.9
  end.

Definition hits_bonus (keyword_hits : nat) : Q :=
  match keyword_hits with
  | O | 1%nat => 0
  | 2%nat => 0.05
  | _ => 0.09
  end.

(** a candidate as a fuzzy match creates it *)
Definition fuzzy_new (self : TA.t) (m : MatchResult.t) : Prop :=
  (0.55 <= MatchResult.confidence m <= 0.57)%Q
  /\ MatchResult.matched_keywords m = []
  /\ exists node, Taxonomy.get_node (TA.taxonomy self) (MatchResult.path m) = Some node
                  /\ TaxonomyNode.children node = [].

(** every candidate of [before] is a candidate of [after], with a
    confidence that [R] relates to the one it had *)
Definition each_candidate (R : Q -> Q -> Prop) (before after : MatchMap) : Prop :=
  forall path c,
    MatchMap.get path before = Some c ->
    exists c', MatchMap.get path after = Some c'
               /\ R (MatchResult.confidence c) (MatchResult.confidence c').

(** a path that may get a TF-IDF score: a stored node without children *)
Definition childless_node (self : TA.t) (path : TaxonomyPath) : Prop :=
  exists node, In (path, node) (TaxonomyModel.nodes_by_path (TA.taxonomy self))
               /\ TaxonomyNode.children node = [].

(** a priority table whose ranks are positions within the table *)
Definition dense_ranks (self : TA.t) : Prop :=
  Forall (fun kv : TaxonomyPath * Z => (0 <= snd kv < priority_size self)%Z)
         (TaxonomyModel.priority_map (TA.taxonomy self)).

(** the final fields a suggestion is written to, and those of a ticket *)
Definition written_fields (top : SuggestedCategory.t) : string * string * string :=
  (TA.or_empty (SuggestedCategory.category top),
   TA.or_empty (SuggestedCategory.sub_category top),
   TA.or_empty (SuggestedCategory.item_category top)).

Definition ticket_final_fields (ticket : TicketRecord.t) : string * string * string :=
  (TicketRecord.final_category ticket, TicketRecord.final_sub_category ticket,
   TicketRecord.final_item_category ticket).

(** *** Paths, keywords and links of a model *)

(** a label as a path prints and parses it: not blank, without white space
    at its ends, and without the separator *)
Definition clean_label (part : string) : bool :=
  Py.truthy part && String.eqb (Py.strip part) part && negb (Py.has_char ">" part).

(** the position of the last entry of [priority_order] that names [path] *)
Fixpoint last_position (path : TaxonomyPath) (entries : list Taxonomy.PathSpec) : option nat :=
  match entries with
  | [] => None
  | entry :: rest =>
      match last_position path rest with
      | Some i => Some (S i)
      | None =>
          if Py.tuple_eqb (Taxonomy._normalise_priority_path entry) path then Some 0%nat
          else None
      end
  end.

(** the accumulators of [_derive_label_keywords] agree: [seen] holds the
    lowercase forms of the keywords, which are distinct; no keyword is
    blank, and each is stripped *)
Definition kw_ok (st : Taxonomy.kw_state) : Prop :=
  NoDup (map Py.lower (fst st))
  /\ (forall x, In x (snd st) <-> In x (map Py.lower (fst st)))
  /\ Forall (fun k => Py.truthy k = true /\ Py.strip k = k) (fst st).

(** a node as the builders create it: named by the last label of its path,
    with the keywords derived from that label *)
Definition node_derived (kv : TaxonomyPath * TaxonomyNode.t) : Prop :=
  let node := snd kv in
  TaxonomyNode.path node = fst kv
  /\ last (fst kv) "" = TaxonomyNode.label node
  /\ TaxonomyNode.label node <> ""
  /\ Py.strip (TaxonomyNode.label node) = TaxonomyNode.label node
  /\ TaxonomyNode.keyword_norms node = map Py.lower (TaxonomyNode.keywords node)
  /\ NoDup (TaxonomyNode.keyword_norms node)
  /\ hd_error (TaxonomyNode.keywords node) = Some (TaxonomyNode.label node).

(** The links of a store: its keys are distinct; the children a node lists
    are stored, one level below it; and every node below the first level is
    listed by its parent, unless it is [pending]: created, and not appended
    to its parent yet. *)
Definition tree_ok (pending : TaxonomyPath -> Prop)
  (store : list (TaxonomyPath * TaxonomyNode.t)) : Prop :=
  NoDup (map fst store)
  /\ (forall p n, In (p, n) store ->
        forall c, In c (TaxonomyNode.children n) ->
                  removelast c = p /\ Dict.has c store = true)
  /\ (forall p n, In (p, n) store -> (2 <= List.length p)%nat -> ~ pending p ->
        exists parent, Dict.get (removelast p) store = Some parent
                       /\ In p (TaxonomyNode.children parent)).

Definition none_pending : TaxonomyPath -> Prop := fun _ => False.

(** the rank the documentation gives a candidate: the override of a
    demotion, else the entry of the priority map, else the size of that map
    plus one *)
Definition documented_rank (self : TA.t) (m : MatchResult.t) : Z :=
  match MatchResult.priority_override m with
  | Some rank => rank
  | None =>
      match Dict.get (MatchResult.path m) (TaxonomyModel.priority_map (TA.taxonomy self)) with
      | Some rank => rank
      | None => (Z.of_nat (List.length (TaxonomyModel.priority_map (TA.taxonomy self))) + 1)%Z
      end
  end.

(** the documented order of two candidates, [a] not after [b]: by rank,
    then the deeper path first, then the higher confidence first, then by
    path *)
Definition documented_le (self : TA.t) (a b : MatchResult.t) : Prop :=
  let depth (m : MatchResult.t) := List.length (MatchResult.path m) in
  (documented_rank self a < documented_rank self b)%Z
  \/ (documented_rank self a = documented_rank self b
      /\ ((depth b < depth a)%nat
          \/ (depth a = depth b
              /\ ((MatchResult.confidence b < MatchResult.confidence a)%Q
                  \/ ((MatchResult.confidence a == MatchResult.confidence b)%Q
                      /\ Py.tuple_compare (MatchResult.path a) (MatchResult.path b) <> Gt))))).

(** what [suggest_categories] ranks when a ticket has no candidate *)
Definition fallback_list {L : PyLib} (self : TA.t) : list MatchResult.t :=
  match TA._fallback_match self with
  | Some fallback => [fallback]
  | None => []
  end.

(** a node whose keywords were derived from its label, the last label of
    the path it is stored under *)
Definition node_keywords_derived (kv : TaxonomyPath * TaxonomyNode.t) : Prop :=
  let node := snd kv in
  TaxonomyNode.path node = fst kv
  /\ last (fst kv) "" = TaxonomyNode.label node
  /\ TaxonomyNode.keyword_norms node = map Py.lower (TaxonomyNode.keywords node)
  /\ exists extras,
       TaxonomyNode.keywords node
       = Taxonomy._derive_label_keywords (TaxonomyNode.label node) extras.

(** ** Taxonomies and tickets to run the engine on *)

Module Examples.
Import Taxonomy Runtime.

Definition leaf (label : string) (keywords : list string) : NodeEntry :=
  Entry (Some label) (Some keywords) [] [] [].

Definition branch (label : string) (children : list NodeEntry) : NodeEntry :=
  Entry (Some label) None [] [] children.

Definition ticket (id : Z) (subject description : string) : TicketRecord.t :=
  TicketRecord.make id (Some subject) (Some description) None None None None "" "" "".

Definition model_of (r : result (TaxonomyModel.t * list string)) : TaxonomyModel.t :=
  match r with
  | Ok (m, _) => m
  | Raise _ => TaxonomyModel.make [] [] [] 0
  end.

(** the metadata of the fallback test: General IT > Questions *)
Definition general_it_metadata : Metadata.t :=
  Metadata.make ["General IT"] [(Some "General IT", ["Questions"])] [].

Definition general_it_taxonomy : TaxonomyModel.t :=
  model_of (build_taxonomy_model None (Some general_it_metadata) 3).

Definition misc_request : TicketRecord.t := ticket 400 "Misc request" "Please advise".

(** a tree whose node Printers carries a regex and no keyword for toner *)
Definition printers_config : Config.t :=
  Config.make
    [ Entry (Some "Hardware") None [] []
        [ Entry (Some "Printers") None ["toner"] [] [] ] ]
    [] [].

Definition printers_taxonomy : TaxonomyModel.t :=
  model_of (build_taxonomy_model (Some printers_config) None 3).

Definition printers_node : TaxonomyNode.t :=
  TaxonomyNode.make "Printers" ["Hardware"; "Printers"]
    ["Printers"; "printer"] ["printers"; "printer"] ["toner"] [] [].

Definition toner_text : string := "Toner low on the second floor".

(** a tree of depth four, in which the target of the teams/camera rule has
    a child *)
Definition webcams_config : Config.t :=
  Config.make
    [ branch "Hardware"
        [ branch "Peripherals"
            [ branch "Audio / Video Devices" [ leaf "Webcams" [] ] ] ] ]
    [] [].

Definition webcams_taxonomy : TaxonomyModel.t :=
  model_of (build_taxonomy_model (Some webcams_config) None 4).

Definition audio_video_path : TaxonomyPath :=
  ["Hardware"; "Peripherals"; "Audio / Video Devices"].

Definition camera_ticket : TicketRecord.t :=
  ticket 601 "Teams camera offline" "Teams camera cannot connect in meeting".

(** the tree of the "not vpn" test *)
Definition vpn_outlook_config : Config.t :=
  Config.make
    [ branch "Remote Access" [ leaf "VPN (CATO)" ["vpn"] ];
      branch "Software"
        [ branch "Productivity" [ leaf "MS Office / Outlook" ["outlook signature"] ] ] ]
    [] [].

Definition vpn_outlook_taxonomy : TaxonomyModel.t :=
  model_of (build_taxonomy_model (Some vpn_outlook_config) None 3).

Definition not_vpn_ticket : TicketRecord.t :=
  ticket 640 "Not a VPN issue - need Outlook signature"
         "This is not vpn related, only require outlook signature help".

Definition vpn_path : TaxonomyPath := ["Remote Access"; "VPN (CATO)"].

Definition general_it_analyzer : TA.t := TA.default general_it_taxonomy 3.
Definition printers_analyzer : TA.t := TA.default printers_taxonomy 3.
Definition webcams_analyzer : TA.t := TA.default webcams_taxonomy 3.
Definition vpn_outlook_analyzer : TA.t := TA.default vpn_outlook_taxonomy 2.

Definition tokens_of (t : TicketRecord.t) : list string :=
  TA._raw_tokens (TA.combined_text t).

Definition teams_camera_rule : ProximityRule.t :=
  ProximityRule.make audio_video_path [[["teams"]]; [["camera"]]] 6 (1 # 10)
                     "teams/camera proximity".

(** the tree of the "not vpn" test, with an alias whose target is no node *)
Definition dangling_alias : AliasEntry.t :=
  AliasEntry.make (Some "tunnel") (Some (PathStr "Remote Access > Tunnels")) false None false.

Definition dangling_config : Config.t :=
  Config.make (Config.tree vpn_outlook_config) [dangling_alias] [].

(** the suggestions of the "not vpn" ticket *)
Definition not_vpn_suggestions : list SuggestedCategory.t :=
  match Dict.zget 640 (fst (TA.suggest_categories vpn_outlook_analyzer [not_vpn_ticket])) with
  | Some l => l
  | None => []
  end.

(** *** The scenarios of tests/test_analysis.py and tests/test_taxonomy.py *)

(** the paths of the first suggestion of each ticket *)
Definition top_paths (out : list (Z * list SuggestedCategory.t))
  : list (Z * option (option string * option string * option string)) :=
  map (fun kl : Z * list SuggestedCategory.t =>
         (fst kl,
          option_map (fun s => (SuggestedCategory.category s,
                                SuggestedCategory.sub_category s,
                                SuggestedCategory.item_category s))
                     (hd_error (snd kl))))
      out.

Definition final_fields (t : TicketRecord.t) : string * string * string :=
  (TicketRecord.final_category t, TicketRecord.final_sub_category t,
   TicketRecord.final_item_category t).

Definition adobe_metadata : Metadata.t :=
  Metadata.make ["Software"; "Hardware"]
    [(Some "Software", ["Adobe"; "VPN"]); (None, ["General"])]
    [((Some "Software", Some "Adobe"), ["Photoshop"; "Illustrator"])].

Definition leaf_level_metadata : Metadata.t :=
  Metadata.make ["Remote Access"; "Software"]
    [(Some "Remote Access", ["VPN (CATO)"]); (Some "Software", ["Productivity"])]
    [((Some "Software", Some "Productivity"), ["MS Office / Outlook"])].

Definition leaf_level_tickets : list TicketRecord.t :=
  [ ticket 200 "VPN cato tunnel keeps dropping" "user reports vpn outage on cato service";
    ticket 201 "Need outlook signature updated"
           "Please adjust company logo in Outlook signature" ].

Definition proximity_config : Config.t :=
  Config.make
    [ branch "Hardware"
        [ branch "Peripherals" [ leaf "Audio / Video Devices" ["audio video devices"] ] ];
      branch "Software"
        [ branch "Productivity"
            [ leaf "MS Office / Outlook" ["outlook signature"]; leaf "Other" ["software"] ] ];
      branch "Remote Access"
        [ leaf "VPN (CATO)" ["vpn"]; leaf "Anyware/RDP VM" ["anyware"];
          leaf "Citrix (Legacy)" ["citrix"] ];
      branch "Computer Management"
        [ leaf "Drive Mapping" ["mapping"];
          leaf "Intune Policy & Configuration" ["intune policy"] ] ]
    []
    [PathStr "Remote Access > Citrix (Legacy)"; PathStr "Remote Access > Anyware/RDP VM"].

Definition proximity_tickets : list TicketRecord.t :=
  [ ticket 601 "Teams camera offline" "Teams camera cannot connect in meeting";
    ticket 602 "Need new Outlook signature"
           "Please update the outlook signature with new logo";
    ticket 603 "VPN cannot connect" "vpn failed to connect to cato gateway";
    ticket 604 "Drive mapping smb access" "user drive mapping for smb share not working";
    ticket 605 "Intune profile issue" "Company portal intune profile policy not applying" ].

Definition citrix_config : Config.t :=
  Config.make
    [ branch "Remote Access"
        [ leaf "Anyware/RDP VM" ["anyware"]; leaf "Citrix (Legacy)" ["citrix"] ] ]
    []
    [PathStr "Remote Access > Citrix (Legacy)"; PathStr "Remote Access > Anyware/RDP VM"].

Definition citrix_ticket : TicketRecord.t :=
  ticket 620 "Citrix login failing" "citrix login failing when connecting to anyware host".

Definition outlook_metadata : Metadata.t :=
  Metadata.make ["Software"] [(Some "Software", ["Productivity"])]
    [((Some "Software", Some "Productivity"), ["MS Office / Outlook"])].

Definition seeded_ticket : TicketRecord.t :=
  TicketRecord.make 500 (Some "Outlook mail bounce")
    (Some "Repeated mail bounce for external recipients")
    (Some "Software") (Some "Productivity") (Some "MS Office / Outlook") None "" "" "".

Definition new_ticket : TicketRecord.t :=
  ticket 501 "Mail bounce for clients" "mail bounce happens on all messages".

Definition run (taxonomy : result (TaxonomyModel.t * list string)) (max_suggestions : Z)
  (tickets : list TicketRecord.t) : list (Z * list SuggestedCategory.t) * list TicketRecord.t :=
  TA.suggest_categories (TA.default (model_of taxonomy) max_suggestions) tickets.

(** *** Further models, analyzers and candidates *)

Definition citrix_taxonomy : TaxonomyModel.t :=
  model_of (build_taxonomy_model (Some citrix_config) None 3).

Definition citrix_analyzer : TA.t := TA.default citrix_taxonomy 3.

Definition citrix_path : TaxonomyPath := ["Remote Access"; "Citrix (Legacy)"].

Definition anyware_path : TaxonomyPath := ["Remote Access"; "Anyware/RDP VM"].

Definition citrix_candidate : MatchResult.t :=
  MatchResult.fresh citrix_path 0.8 "Matched Remote Access > Citrix (Legacy)" ["citrix"] 0.

Definition anyware_candidate : MatchResult.t :=
  MatchResult.fresh anyware_path 0.8 "Matched Remote Access > Anyware/RDP VM" ["anyware"] 0.

Definition vpn_candidate : MatchResult.t :=
  MatchResult.fresh vpn_path 0.8 "Matched Remote Access > VPN (CATO)" ["vpn"] 0.

(** an analyzer that drops the word Outlook, configured with a capital *)
Definition stop_word_analyzer : TA.t :=
  TA.init vpn_outlook_taxonomy 4 3 2 ["Outlook"] 0.05 0.35.

Definition leaf_level_taxonomy : TaxonomyModel.t :=
  model_of (build_taxonomy_model None (Some leaf_level_metadata) 3).

Definition leaf_level_analyzer : TA.t := TA.default leaf_level_taxonomy 3.

(** the tree of the proximity test, and two of its tickets *)
Definition proximity_taxonomy : TaxonomyModel.t :=
  model_of (build_taxonomy_model (Some proximity_config) None 3).

Definition proximity_analyzer : TA.t := TA.default proximity_taxonomy 3.

Definition vpn_ticket : TicketRecord.t :=
  ticket 603 "VPN cannot connect" "vpn failed to connect to cato gateway".

Definition outlook_signature_rule : ProximityRule.t :=
  ProximityRule.make ["Software"; "Productivity"; "MS Office / Outlook"]
                     [[["outlook"]]; [["signature"]]] 6 (1 # 10)
                     "outlook signature proximity".

Definition vpn_rule : ProximityRule.t :=
  ProximityRule.make vpn_path [[["vpn"]; ["cato"]]; [["connect"]; ["cannot"]; ["failed"]]]
                     6 (1 # 10) "vpn connectivity proximity".

End Examples.

(** * Properties *)

(** ** Rounding *)

Section Rounding.
Open Scope Q_scope.
Import Num.

Lemma round_half_even_lower (q : Q) (z : Z) :
  inject_Z z <= q -> (z <= round_half_even q)%Z.
Proof.
  intros Hz. unfold round_half_even.
  assert (Hf : (z <= Qfloor q)%Z).
  { rewrite <- (Qfloor_Z z). now apply Qfloor_resp_le. }
  destruct (Qcompare _ _); [destruct (Z.even _)| |]; lia.
Qed.

Lemma round_half_even_upper (q : Q) (z : Z) :
  q <= inject_Z z -> (round_half_even q <= z)%Z.
Proof.
  intros Hz. unfold round_half_even.
  assert (Hf : (Qfloor q <= z)%Z).
  { rewrite <- (Qfloor_Z z). now apply Qfloor_resp_le. }
  destruct (Z.eq_dec (Qfloor q) z) as [He|Hne].
  - (* q is the integer z itself: its fractional part is 0 *)
    assert (Hq : q - inject_Z (Qfloor q) == 0).
    { rewrite He. pose proof (Qfloor_le q) as Hl. rewrite He in Hl. lra. }
    assert (Hc : Qcompare (q - inject_Z (Qfloor q)) (1 # 2) = Lt).
    { apply Qlt_alt. rewrite Hq. reflexivity. }
    rewrite Hc. lia.
  - destruct (Qcompare _ _); [destruct (Z.even _)| |]; lia.
Qed.

Lemma round_half_even_Z (z : Z) : round_half_even (inject_Z z) = z.
Proof.
  apply Z.le_antisymm.
  - apply round_half_even_upper. lra.
  - apply round_half_even_lower. lra.
Qed.

Lemma round_half_even_comp (q q' : Q) :
  q == q' -> round_half_even q = round_half_even q'.
Proof.
  intros H. unfold round_half_even.
  rewrite (Qfloor_comp _ _ H).
  assert (Hc : Qcompare (q - inject_Z (Qfloor q')) (1 # 2)
               = Qcompare (q' - inject_Z (Qfloor q')) (1 # 2)).
  { apply Qcompare_comp; [rewrite H|]; reflexivity. }
  now rewrite Hc.
Qed.

(** [round2] sends equal rationals to the same canonical fraction. *)
Lemma round2_comp (q q' : Q) : q == q' -> round2 q = round2 q'.
Proof.
  intros H. unfold round2.
  rewrite (round_half_even_comp (q * 100) (q' * 100)); [reflexivity|].
  now rewrite H.
Qed.

Lemma round2_fixed (k : Z) : round2 (inject_Z k / 100) == inject_Z k / 100.
Proof.
  unfold round2. rewrite Qred_correct.
  rewrite (round_half_even_comp _ (inject_Z k)) by field.
  rewrite round_half_even_Z. reflexivity.
Qed.

Lemma round2_idempotent (q : Q) : round2 (round2 q) = round2 q.
Proof.
  unfold round2 at 2.
  set (k := round_half_even (q * 100)).
  rewrite (round2_comp _ (inject_Z k / 100)) by apply Qred_correct.
  unfold round2.
  rewrite (round_half_even_comp _ (inject_Z k)) by field.
  now rewrite round_half_even_Z.
Qed.

Lemma round_half_even_mono (q q' : Q) :
  q <= q' -> (round_half_even q <= round_half_even q')%Z.
Proof.
  intros H.
  pose proof (Qfloor_resp_le _ _ H) as Hf.
  destruct (Z.eq_dec (Qfloor q) (Qfloor q')) as [He|Hne].
  - unfold round_half_even. rewrite <- He.
    destruct (Qcompare_spec (q - inject_Z (Qfloor q)) (1 # 2));
      destruct (Qcompare_spec (q' - inject_Z (Qfloor q)) (1 # 2));
      try destruct (Z.even _); try lia; exfalso; lra.
  - apply Z.le_trans with (Qfloor q + 1)%Z.
    + unfold round_half_even.
      destruct (Qcompare _ _); [destruct (Z.even _)| |]; lia.
    + apply Z.le_trans with (Qfloor q'); [lia|].
      apply round_half_even_lower. apply Qfloor_le.
Qed.

Lemma round2_mono (q q' : Q) : q <= q' -> round2 q <= round2 q'.
Proof.
  intros H. unfold round2. rewrite !Qred_correct.
  assert (Hm : (round_half_even (q * 100) <= round_half_even (q' * 100))%Z).
  { apply round_half_even_mono. lra. }
  apply Qmult_le_compat_r; [|discriminate].
  now rewrite <- Zle_Qle.
Qed.

(** A value between two fixed points of [round2] is rounded between them. *)
Lemma round2_between (lo hi q : Q) :
  round2 lo == lo -> round2 hi == hi -> lo <= q <= hi ->
  lo <= round2 q <= hi.
Proof.
  intros Hlo Hhi [H1 H2]. split.
  - rewrite <- Hlo. now apply round2_mono.
  - rewrite <- Hhi. now apply round2_mono.
Qed.

End Rounding.

(** ** Paths and candidate maps *)

Section Containers.

Lemma string_compare_refl (s : string) : String.compare s s = Eq.
Proof.
  pose proof (String.compare_antisym s s) as H.
  destruct (String.compare s s); simpl in H; congruence.
Qed.

Lemma tuple_compare_eq (a b : TaxonomyPath) : Py.tuple_compare a b = Eq <-> a = b.
Proof.
  revert b. induction a as [|x a IH]; intros [|y b]; simpl; split;
    try congruence; try reflexivity.
  - destruct (String.compare x y) eqn:E; try discriminate.
    apply String.compare_eq_iff in E. intros H. apply IH in H. congruence.
  - intros H. injection H as -> ->. rewrite string_compare_refl. now apply IH.
Qed.

Lemma tuple_eqb_eq (a b : TaxonomyPath) : Py.tuple_eqb a b = true <-> a = b.
Proof.
  unfold Py.tuple_eqb. rewrite <- tuple_compare_eq.
  destruct (Py.tuple_compare a b); split; congruence.
Qed.

Lemma tuple_eqb_refl (a : TaxonomyPath) : Py.tuple_eqb a a = true.
Proof. now apply tuple_eqb_eq. Qed.

Lemma tuple_eqb_neq (a b : TaxonomyPath) : Py.tuple_eqb a b = false <-> a <> b.
Proof.
  rewrite <- tuple_eqb_eq. destruct (Py.tuple_eqb a b); split; congruence.
Qed.

Lemma get_in (p : TaxonomyPath) (m : MatchMap) (r : MatchResult.t) :
  MatchMap.get p m = Some r -> In r m /\ MatchResult.path r = p.
Proof.
  induction m as [|x m IH]; simpl; [discriminate|].
  destruct (Py.tuple_eqb p (MatchResult.path x)) eqn:E.
  - intros H. injection H as ->. apply tuple_eqb_eq in E. auto.
  - intros H. destruct (IH H). auto.
Qed.

Lemma get_none (p : TaxonomyPath) (m : MatchMap) :
  MatchMap.get p m = None <-> ~ In p (map MatchResult.path m).
Proof.
  induction m as [|x m IH]; simpl; [tauto|].
  destruct (Py.tuple_eqb p (MatchResult.path x)) eqn:E.
  - apply tuple_eqb_eq in E. split; [discriminate|]. intros H. exfalso. apply H. auto.
  - apply tuple_eqb_neq in E. rewrite IH. split; [intros H [H'|H']|]; auto.
Qed.

Lemma has_true (p : TaxonomyPath) (m : MatchMap) :
  MatchMap.has p m = true <-> In p (map MatchResult.path m).
Proof.
  unfold MatchMap.has. destruct (MatchMap.get p m) eqn:E.
  - apply get_in in E as [Hin <-]. split; [intros _|reflexivity].
    now apply in_map.
  - apply get_none in E. split; [discriminate|contradiction].
Qed.

Lemma get_set_same (r : MatchResult.t) (m : MatchMap) :
  MatchMap.get (MatchResult.path r) (MatchMap.set r m) = Some r.
Proof.
  induction m as [|x m IH]; simpl.
  - now rewrite tuple_eqb_refl.
  - destruct (Py.tuple_eqb (MatchResult.path r) (MatchResult.path x)) eqn:E; simpl.
    + now rewrite tuple_eqb_refl.
    + now rewrite E.
Qed.

Lemma get_update (p : TaxonomyPath) (f : MatchResult.t -> MatchResult.t) (m : MatchMap) :
  (forall r, MatchResult.path (f r) = MatchResult.path r) ->
  MatchMap.get p (MatchMap.update p f m) = option_map f (MatchMap.get p m).
Proof.
  intros Hf. induction m as [|x m IH]; simpl; [reflexivity|].
  destruct (Py.tuple_eqb p (MatchResult.path x)) eqn:E; simpl.
  - now rewrite Hf, E.
  - now rewrite E.
Qed.

Lemma paths_update (p : TaxonomyPath) (f : MatchResult.t -> MatchResult.t) (m : MatchMap) :
  (forall r, MatchResult.path (f r) = MatchResult.path r) ->
  map MatchResult.path (MatchMap.update p f m) = map MatchResult.path m.
Proof.
  intros Hf. induction m as [|x m IH]; simpl; [reflexivity|].
  destruct (Py.tuple_eqb p (MatchResult.path x)); simpl; [now rewrite Hf|now rewrite IH].
Qed.

Lemma paths_map_if (c : MatchResult.t -> bool) (f : MatchResult.t -> MatchResult.t)
  (m : MatchMap) :
  (forall r, MatchResult.path (f r) = MatchResult.path r) ->
  map MatchResult.path (map (fun r => if c r then f r else r) m) = map MatchResult.path m.
Proof.
  intros Hf. induction m as [|x m IH]; simpl; [reflexivity|].
  rewrite IH. destruct (c x); [now rewrite Hf|reflexivity].
Qed.

Lemma Forall_set (P : MatchResult.t -> Prop) (r : MatchResult.t) (m : MatchMap) :
  P r -> Forall P m -> Forall P (MatchMap.set r m).
Proof.
  intros Hr Hm. induction Hm as [|x m Hx Hm IH]; simpl; [auto|].
  destruct (Py.tuple_eqb _ _); auto.
Qed.

Lemma Forall_update (P : MatchResult.t -> Prop) (p : TaxonomyPath)
  (f : MatchResult.t -> MatchResult.t) (m : MatchMap) :
  (forall r, P r -> P (f r)) -> Forall P m -> Forall P (MatchMap.update p f m).
Proof.
  intros Hf Hm. induction Hm as [|x m Hx Hm IH]; simpl; [auto|].
  destruct (Py.tuple_eqb _ _); auto.
Qed.

Lemma demote_path (self : TA.t) (penalty : Q) (offset : Z) (note : string) (m : MatchResult.t) :
  MatchResult.path (TA.demote self penalty offset note m) = MatchResult.path m.
Proof. reflexivity. Qed.

Lemma negative_keywords_paths (self : TA.t) (match_map : MatchMap) (tokens : list string)
  (text_lower : string) :
  map MatchResult.path (TA._apply_negative_keywords self match_map tokens text_lower)
  = map MatchResult.path match_map.
Proof.
  unfold TA._apply_negative_keywords. destruct match_map as [|x m]; [reflexivity|].
  set (mm := x :: m).
  unfold TA.teams_guard, TA.vpn_guard, TA.citrix_guard.
  repeat match goal with
         | |- context [if ?c then _ else _] => destruct c
         end;
    rewrite ?paths_map_if, ?paths_update; auto using demote_path.
Qed.

End Containers.

(** ** The negative-keyword guards *)

Section NegativeKeywords.
Open Scope Q_scope.

Lemma in_update_other (p : TaxonomyPath) (f : MatchResult.t -> MatchResult.t)
  (m : MatchMap) (r : MatchResult.t) :
  In r m -> MatchResult.path r <> p -> In r (MatchMap.update p f m).
Proof.
  intros Hin Hne. induction m as [|x m IH]; simpl; [contradiction|].
  destruct (Py.tuple_eqb p (MatchResult.path x)) eqn:E.
  - destruct Hin as [->|Hin]; [|now right].
    apply tuple_eqb_eq in E. congruence.
  - destruct Hin as [->|Hin]; [now left|right; auto].
Qed.

Lemma vpn_candidate_passes_citrix_guard (self : TA.t) (token_set : list string)
  (match_map : MatchMap) (m : MatchResult.t) :
  In m match_map -> TA.path_mentions "vpn" (MatchResult.path m) = true ->
  In m (TA.citrix_guard self token_set match_map).
Proof.
  intros Hin Hm. unfold TA.citrix_guard. destruct (_ && _)%bool; [|exact Hin].
  apply in_update_other; [exact Hin|].
  intros Heq. rewrite Heq in Hm. vm_compute in Hm. discriminate.
Qed.

(** C5: when the lowercase text contains "not vpn", the guard of
    [_apply_negative_keywords] for that phrase turns every candidate whose
    path mentions vpn into one with the confidence
    [round(max(c - 0.45, 0.05), 2)], the priority rank of its path plus the
    size of the priority table plus 5, and the rationale extended by the
    guard's note.  The guard and the whole function keep every candidate;
    the guard's result is the function's result when the text holds
    neither phrase of the teams guard. *)
Theorem not_vpn_guard_demotes (self : TA.t) (match_map : MatchMap)
  (tokens : list string) (text_lower : string) :
  Py.contains "not vpn" text_lower = true ->
  let before := TA.citrix_guard self (Py.to_set tokens) match_map in
  let after := TA.vpn_guard self text_lower before in
  map MatchResult.path (TA._apply_negative_keywords self match_map tokens text_lower)
    = map MatchResult.path match_map
  /\ map MatchResult.path after = map MatchResult.path match_map
  /\ (Py.contains "not a teams issue" text_lower = false ->
      Py.contains "not a teams problem" text_lower = false ->
      TA._apply_negative_keywords self match_map tokens text_lower = after)
  /\ forall m, In m match_map -> TA.path_mentions "vpn" (MatchResult.path m) = true ->
       exists m', In m' after
         /\ MatchResult.path m' = MatchResult.path m
         /\ MatchResult.confidence m'
            = Num.round2 (Qmax (MatchResult.confidence m - 0.45) 0.05)
         /\ TA.priority_rank self m'
            = (base_priority self (MatchResult.path m) + priority_size self + 5)%Z
         /\ MatchResult.rationale m'
            = (MatchResult.rationale m ++ "; reduced by 'not vpn' guard")%string.
Proof.
  intros Hvpn before after. split; [apply negative_keywords_paths|].
  subst after. unfold TA.vpn_guard. rewrite Hvpn. split; [|split].
  - rewrite paths_map_if by (intros r; apply demote_path).
    subst before. unfold TA.citrix_guard. destruct (_ && _)%bool; [|reflexivity].
    apply paths_update. intros r. apply demote_path.
  - intros H1 H2. unfold TA._apply_negative_keywords, TA.teams_guard, TA.vpn_guard.
    rewrite H1, H2, Hvpn. cbn [orb]. subst before.
    destruct match_map as [|x m]; reflexivity.
  - intros m Hin Hm.
    exists (TA.demote self 0.45 5 "; reduced by 'not vpn' guard" m).
    split; [|repeat split].
    apply in_map_iff. exists m. rewrite Hm. split; [reflexivity|].
    now apply vpn_candidate_passes_citrix_guard.
Qed.

End NegativeKeywords.

(** ** Proximity rules *)

Section Proximity.
Open Scope Q_scope.

Lemma proximity_boosted_path (rule : ProximityRule.t) (m : MatchResult.t) :
  MatchResult.path (TA.proximity_boosted rule m) = MatchResult.path m.
Proof. reflexivity. Qed.

(** One pass of the loop of [_apply_proximity_boosts], from any map: when
    the rule fires, a candidate that the target path already has gets the
    confidence [round(min(c + boost, 0.95), 2)] and the rule's description
    appended to its rationale; when the path has no candidate, one is
    created with the confidence [round(max(base - 0.1, 0.5), 2)], [base]
    being the confidence of one keyword hit at the path's depth.  A rule
    fires only when its target is a node of the taxonomy. *)
Lemma proximity_rule_step (self : TA.t) (tokens : list string) (match_map : MatchMap)
  (rule : ProximityRule.t) :
  TA.proximity_fires self tokens rule = true ->
  let target := ProximityRule.path rule in
  let result := TA.apply_proximity_rule self tokens match_map rule in
  Dict.has target (TaxonomyModel.nodes_by_path (TA.taxonomy self)) = true
  /\ (forall c, MatchMap.get target match_map = Some c ->
        exists c', MatchMap.get target result = Some c'
          /\ MatchResult.confidence c'
             = Num.round2 (Qmin (MatchResult.confidence c + ProximityRule.boost rule) 0.95)
          /\ MatchResult.rationale c'
             = (MatchResult.rationale c ++ "; " ++ ProximityRule.description rule)%string
          /\ map MatchResult.path result = map MatchResult.path match_map)
  /\ (MatchMap.get target match_map = None ->
        exists c', MatchMap.get target result = Some c'
          /\ MatchResult.confidence c'
             = Num.round2 (Qmax (TA._confidence 1 (List.length target) - 0.1) 0.5)
          /\ MatchResult.rationale c'
             = ("Matched " ++ Py.join " > " target ++ " via "
                ++ ProximityRule.description rule)%string).
Proof.
  intros Hfires target result. subst result. unfold TA.apply_proximity_rule.
  rewrite Hfires. fold target. split; [|split].
  - unfold TA.proximity_fires in Hfires.
    apply andb_prop in Hfires as [Hfires _]. now apply andb_prop in Hfires as [_ Hnode].
  - intros c Hc. rewrite Hc. exists (TA.proximity_boosted rule c).
    rewrite get_update, Hc by apply proximity_boosted_path.
    repeat split. apply paths_update, proximity_boosted_path.
  - intros Hnone. rewrite Hnone. exists (TA.proximity_created rule).
    split; [apply (get_set_same (TA.proximity_created rule))|split; reflexivity].
Qed.

(** The confidence of a candidate a proximity rule creates, by depth. *)
Lemma proximity_created_confidence (rule : ProximityRule.t) :
  MatchResult.confidence (TA.proximity_created rule)
  == match List.length (ProximityRule.path rule) with
     | O | 1%nat => 0.55
     | 2%nat => 0.7
     | _ => 0.8
     end.
Proof.
  unfold TA.proximity_created, MatchResult.fresh, MatchResult.confidence.
  destruct (List.length (ProximityRule.path rule)) as [|[|[|n]]]; reflexivity.
Qed.

End Proximity.

(** ** TF-IDF scores *)

Section TfIdf.
Open Scope Q_scope.

Lemma tfidf_boosted_path (self : TA.t) (score : Q) (m : MatchResult.t) :
  MatchResult.path (TA.tfidf_boosted self score m) = MatchResult.path m.
Proof.
  unfold TA.tfidf_boosted. now destruct (Py.contains _ _).
Qed.

Lemma tfidf_boosted_confidence (self : TA.t) (score : Q) (m : MatchResult.t) :
  MatchResult.confidence (TA.tfidf_boosted self score m)
  = Num.round2 (Qmin (MatchResult.confidence m + score * TA.tfidf_weight self) 0.95).
Proof.
  unfold TA.tfidf_boosted. now destruct (Py.contains _ _).
Qed.

Lemma Qltb_false (a b : Q) : Num.Qltb a b = false <-> b <= a.
Proof.
  unfold Num.Qltb. destruct (Qcompare_spec a b) as [H|H|H]; split; intros; try lra;
    try reflexivity; try discriminate.
Qed.

Lemma Qleb_false (a b : Q) : Num.Qleb a b = false <-> b < a.
Proof.
  unfold Num.Qleb, Num.Qltb. destruct (Qcompare_spec b a) as [H|H|H]; simpl;
    split; intros; try lra; try reflexivity; try discriminate.
Qed.

(** C4, as the code has it: for a path with a positive similarity that is
    a node of the taxonomy, a candidate the path already has gets the
    confidence [round(min(c + similarity * weight, 0.95), 2)]; when the path
    has no candidate, one is created exactly when the node has no children
    and the similarity is at least the leaf threshold (equal to it
    included), with the confidence
    [round(min(0.5 + similarity * weight, 0.9), 2)]. *)
Theorem tfidf_entry_effect (self : TA.t) (match_map : MatchMap) (path : TaxonomyPath)
  (score : Q) (node : TaxonomyNode.t) :
  0 < score ->
  Taxonomy.get_node (TA.taxonomy self) path = Some node ->
  let result := TA.apply_tfidf_entry self match_map (path, score) in
  (forall c, MatchMap.get path match_map = Some c ->
     exists c', MatchMap.get path result = Some c'
       /\ MatchResult.confidence c'
          = Num.round2 (Qmin (MatchResult.confidence c + score * TA.tfidf_weight self) 0.95)
       /\ map MatchResult.path result = map MatchResult.path match_map)
  /\ (MatchMap.get path match_map = None ->
      (TaxonomyNode.children node = [] /\ TA.tfidf_leaf_threshold self <= score ->
         exists c', MatchMap.get path result = Some c'
           /\ MatchResult.confidence c'
              = Num.round2 (Qmin (0.5 + score * TA.tfidf_weight self) 0.9))
      /\ (~ (TaxonomyNode.children node = [] /\ TA.tfidf_leaf_threshold self <= score) ->
          result = match_map)).
Proof.
  intros Hpos Hnode result. subst result. unfold TA.apply_tfidf_entry.
  assert (Hle : Num.Qleb score 0 = false) by now apply Qleb_false.
  rewrite Hle, Hnode. unfold MatchMap.has. split.
  - intros c Hc. rewrite Hc. exists (TA.tfidf_boosted self score c).
    rewrite get_update, Hc by apply tfidf_boosted_path.
    split; [reflexivity|split; [apply tfidf_boosted_confidence|]].
    apply paths_update, tfidf_boosted_path.
  - intros Hnone. rewrite Hnone. split.
    + intros [Hleaf Hthr]. rewrite Hleaf.
      apply Qltb_false in Hthr. rewrite Hthr.
      exists (TA.tfidf_created self path score).
      split; [apply (get_set_same (TA.tfidf_created self path score))|reflexivity].
    + intros Hnot. destruct (TaxonomyNode.children node) as [|ch rest]; [|reflexivity].
      destruct (Num.Qltb score (TA.tfidf_leaf_threshold self)) eqn:E; [reflexivity|].
      exfalso. apply Hnot. split; [reflexivity|now apply Qltb_false].
Qed.

End TfIdf.

(** ** The keyword matcher *)

Section KeywordMatcher.
#[local] Existing Instance Runtime.lib.

Lemma paths_set_in (p : TaxonomyPath) (r : MatchResult.t) (m : MatchMap) :
  In p (map MatchResult.path (MatchMap.set r m))
  <-> p = MatchResult.path r \/ In p (map MatchResult.path m).
Proof.
  induction m as [|x m IH]; simpl; [intuition|].
  destruct (Py.tuple_eqb (MatchResult.path r) (MatchResult.path x)) eqn:E; simpl.
  - apply tuple_eqb_eq in E. rewrite <- E. intuition.
  - rewrite IH. intuition.
Qed.

Lemma matched_keywords_nonempty (node : TaxonomyNode.t) (text : string)
  (token_set : list string) :
  TA.node_matched_keywords node (Py.lower text) token_set <> []
  <-> keyword_matches node text token_set.
Proof.
  unfold TA.node_matched_keywords, keyword_matches.
  set (l := combine _ _). clearbody l.
  induction l as [|[k n] l IH]; simpl.
  - split; [congruence|]. intros (k & n & [] & _).
  - destruct (TA._matches_term k n (Py.lower text) token_set) eqn:E; simpl.
    + split; [|discriminate]. intros _. exists k, n. auto.
    + rewrite IH. split.
      * intros (k' & n' & Hin & Hm). exists k', n'. auto.
      * intros (k' & n' & [Heq|Hin] & Hm); [congruence|]. exists k', n'. auto.
Qed.

(** the loop of [_match_taxonomy], from any dictionary *)
Lemma match_loop_paths (nodes : list TaxonomyNode.t) (text : string)
  (token_set : list string) (init : MatchMap) (p : TaxonomyPath) :
  In p (map MatchResult.path
          (fold_left
             (fun matches node =>
                match TA.node_matched_keywords node (Py.lower text) token_set with
                | [] => matches
                | matched_keywords =>
                    MatchMap.set
                      (MatchResult.fresh (TaxonomyNode.path node)
                         (TA._confidence (List.length matched_keywords)
                                         (List.length (TaxonomyNode.path node)))
                         (TA._build_rationale (TaxonomyNode.path node) matched_keywords
                                              [] None false None)
                         matched_keywords 0)
                      matches
                end)
             nodes init))
  <-> In p (map MatchResult.path init)
      \/ exists node, In node nodes /\ TaxonomyNode.path node = p
                      /\ keyword_matches node text token_set.
Proof.
  revert init. induction nodes as [|n nodes IH]; intros init; simpl.
  - split; [auto|]. intros [H|(node & [] & _)]. exact H.
  - rewrite IH. pose proof (matched_keywords_nonempty n text token_set) as Hn.
    destruct (TA.node_matched_keywords n (Py.lower text) token_set) as [|k ks].
    + split.
      * intros [H|(node & Hin & Hp & Hk)]; [auto|]. right. exists node. auto.
      * intros [H|(node & [Heq|Hin] & Hp & Hk)]; [auto| |].
        -- subst node. apply Hn in Hk. congruence.
        -- right. exists node. auto.
    + rewrite paths_set_in. simpl. split.
      * intros [[H|H]|(node & Hin & Hp & Hk)]; [|auto|].
        -- right. exists n. split; [auto|]. split; [auto|]. apply Hn. discriminate.
        -- right. exists node. auto.
      * intros [H|(node & [Heq|Hin] & Hp & Hk)]; [auto| |].
        -- subst node. left. left. auto.
        -- right. exists node. auto.
Qed.

(** C2, as the code has it: the keyword matcher holds a candidate for a
    path exactly when a node of the taxonomy with that path has a keyword
    that matches the ticket's lowercase text or token set.  The regexes of
    a node play no part. *)
Theorem match_taxonomy_candidate_iff (self : TA.t) (text : string)
  (token_set : list string) (p : TaxonomyPath) :
  MatchMap.has p (TA._match_taxonomy self text token_set) = true
  <-> exists node, In node (Taxonomy.iter_nodes (TA.taxonomy self))
                   /\ TaxonomyNode.path node = p
                   /\ keyword_matches node text token_set.
Proof.
  rewrite has_true. unfold TA._match_taxonomy. rewrite match_loop_paths. simpl.
  tauto.
Qed.

(** The node Printers has a regex that matches the raw text of the ticket,
    none of its keywords matches, and the matcher holds no candidate for
    it. *)
Lemma regex_match_counterexample :
  nth_error (Taxonomy.iter_nodes Examples.printers_taxonomy) 1 = Some Examples.printers_node
  /\ existsb (fun pattern => re_search pattern Examples.toner_text)
             (TaxonomyNode.regexes Examples.printers_node) = true
  /\ TA.node_matched_keywords Examples.printers_node (Py.lower Examples.toner_text)
       (Py.to_set (TA._raw_tokens Examples.toner_text)) = []
  /\ MatchMap.has (TaxonomyNode.path Examples.printers_node)
       (TA._match_taxonomy Examples.printers_analyzer Examples.toner_text
          (Py.to_set (TA._raw_tokens Examples.toner_text))) = false.
Proof. repeat split; vm_compute; reflexivity. Qed.

End KeywordMatcher.

(** ** Counterexamples and instances for the signals *)

Section SignalInstances.
Open Scope Q_scope.
#[local] Existing Instance Runtime.lib.

(** With a maximal depth of four, one more than the levels of the data
    model, the target of the teams/camera rule can have a child: the
    keyword matcher finds nothing for the ticket, the rule fires, and a
    candidate is created for the parent node. *)
Example proximity_parent_at_depth_four :
  option_map TaxonomyNode.children
    (Taxonomy.get_node Examples.webcams_taxonomy Examples.audio_video_path)
  = Some [["Hardware"; "Peripherals"; "Audio / Video Devices"; "Webcams"]%string]
  /\ TA._match_taxonomy Examples.webcams_analyzer
       (TA.combined_text Examples.camera_ticket)
       (Py.to_set (Examples.tokens_of Examples.camera_ticket)) = []
  /\ TA.proximity_fires Examples.webcams_analyzer
       (Examples.tokens_of Examples.camera_ticket) Examples.teams_camera_rule = true
  /\ option_map MatchResult.confidence
       (MatchMap.get Examples.audio_video_path
          (TA._apply_proximity_boosts Examples.webcams_analyzer []
             (Examples.tokens_of Examples.camera_ticket)))
     = Some (4 # 5)
  /\ map MatchResult.path (TA.candidates Examples.webcams_analyzer [] Examples.camera_ticket)
     = [Examples.audio_video_path].
Proof. repeat split; vm_compute; reflexivity. Qed.

(** A similarity equal to the leaf threshold does not exceed it, and a
    candidate is created for the leaf all the same. *)
Lemma tfidf_threshold_counterexample :
  TA.tfidf_leaf_threshold Examples.vpn_outlook_analyzer == 0.05
  /\ Num.Qltb (TA.tfidf_leaf_threshold Examples.vpn_outlook_analyzer) 0.05 = false
  /\ option_map TaxonomyNode.children
       (Taxonomy.get_node Examples.vpn_outlook_taxonomy Examples.vpn_path) = Some []
  /\ map (fun m => (MatchResult.path m, MatchResult.confidence m))
         (TA._apply_tfidf_scores Examples.vpn_outlook_analyzer [] [(Examples.vpn_path, 0.05)])
     = [(Examples.vpn_path, 13 # 25)].
Proof. repeat split; vm_compute; reflexivity. Qed.

Lemma tfidf_entry_effect_witness :
  0 < 1 # 2
  /\ exists c',
       MatchMap.get Examples.vpn_path
         (TA.apply_tfidf_entry Examples.vpn_outlook_analyzer [] (Examples.vpn_path, 1 # 2))
       = Some c'
       /\ MatchResult.confidence c'
          = Num.round2 (Qmin (0.5 + (1 # 2) * TA.tfidf_weight Examples.vpn_outlook_analyzer) 0.9).
Proof.
  assert (Hpos : 0 < 1 # 2) by reflexivity.
  split; [exact Hpos|].
  refine (proj1 (proj2 (tfidf_entry_effect Examples.vpn_outlook_analyzer []
                          Examples.vpn_path (1 # 2)
                          (TaxonomyNode.make "VPN (CATO)" Examples.vpn_path _ _ [] [] [])
                          Hpos _) eq_refl) (conj eq_refl _)).
  - vm_compute. reflexivity.
  - vm_compute. discriminate.
Defined.

Lemma not_vpn_guard_witness :
  Py.contains "not vpn" (Py.lower (TA.combined_text Examples.not_vpn_ticket)) = true
  /\ map MatchResult.path
       (TA._apply_negative_keywords Examples.vpn_outlook_analyzer
          [MatchResult.fresh Examples.vpn_path 0.85 "Matched" ["vpn"%string] 0]
          (Examples.tokens_of Examples.not_vpn_ticket)
          (Py.lower (TA.combined_text Examples.not_vpn_ticket)))
     = [Examples.vpn_path].
Proof.
  assert (H : Py.contains "not vpn" (Py.lower (TA.combined_text Examples.not_vpn_ticket)) = true)
    by (vm_compute; reflexivity).
  split; [exact H|].
  exact (proj1 (not_vpn_guard_demotes Examples.vpn_outlook_analyzer
                  [MatchResult.fresh Examples.vpn_path 0.85 "Matched" ["vpn"%string] 0]
                  (Examples.tokens_of Examples.not_vpn_ticket)
                  (Py.lower (TA.combined_text Examples.not_vpn_ticket)) H)).
Defined.

End SignalInstances.

(** ** The loop over the tickets *)

Section TicketLoop.
Context {L : PyLib}.

Lemma zget_zset {V : Type} (k k' : Z) (v : V) (d : list (Z * V)) :
  Dict.zget k (Dict.zset k' v d) = if Z.eqb k k' then Some v else Dict.zget k d.
Proof.
  unfold Dict.zget, Dict.zset.
  induction d as [|[k0 v0] d IH]; simpl.
  - reflexivity.
  - destruct (Z.eqb_spec k' k0) as [->|Hne]; simpl.
    + now destruct (Z.eqb k k0).
    + rewrite IH. destruct (Z.eqb_spec k k0) as [->|Hne']; [|reflexivity].
      destruct (Z.eqb_spec k0 k'); congruence.
Qed.

Lemma in_zset {V : Type} (k k' : Z) (v v' : V) (d : list (Z * V)) :
  In (k, v) (Dict.zset k' v' d) -> (k = k' /\ v = v') \/ In (k, v) d.
Proof.
  unfold Dict.zset. induction d as [|[k0 v0] d IH]; simpl.
  - intros [H|[]]. injection H as <- <-. auto.
  - destruct (Z.eqb_spec k' k0) as [->|Hne]; simpl.
    + intros [H|H]; [injection H as <- <-|]; auto.
    + intros [H|H]; [auto|]. destruct (IH H); auto.
Qed.

Lemma loop_step (self : TA.t) (scores : option (list (list (TaxonomyPath * Q))))
  (index : nat) (ticket : TicketRecord.t) (rest : list TicketRecord.t)
  (acc : list (Z * list SuggestedCategory.t)) :
  fst (TA.suggest_loop self scores index (ticket :: rest) acc)
  = fst (TA.suggest_loop self scores (S index) rest
           (Dict.zset (TicketRecord.id ticket) (list_at self scores index 0 ticket) acc)).
Proof.
  cbn [TA.suggest_loop]. unfold list_at. rewrite Nat.add_0_r.
  destruct (TA.suggest_ticket self (TA.tfidf_map_at scores index) ticket) as [sl t'].
  cbn [fst]. now destruct (TA.suggest_loop self scores (S index) rest _).
Qed.

Lemma loop_get_absent (self : TA.t) (scores : option (list (list (TaxonomyPath * Q))))
  (k : Z) (tickets : list TicketRecord.t) :
  forall index acc,
  ~ In k (map TicketRecord.id tickets) ->
  Dict.zget k (fst (TA.suggest_loop self scores index tickets acc)) = Dict.zget k acc.
Proof.
  induction tickets as [|t rest IH]; intros index acc Hk; [reflexivity|].
  rewrite loop_step, IH by (intros H; apply Hk; now right).
  rewrite zget_zset. destruct (Z.eqb_spec k (TicketRecord.id t)) as [->|]; [|reflexivity].
  exfalso. apply Hk. now left.
Qed.

Lemma loop_get (self : TA.t) (scores : option (list (list (TaxonomyPath * Q))))
  (tickets : list TicketRecord.t) :
  forall index acc i ticket,
  NoDup (map TicketRecord.id tickets) ->
  nth_error tickets i = Some ticket ->
  Dict.zget (TicketRecord.id ticket) (fst (TA.suggest_loop self scores index tickets acc))
  = Some (list_at self scores index i ticket).
Proof.
  induction tickets as [|t rest IH]; intros index acc i ticket Hnd Hi.
  - now destruct i.
  - rewrite loop_step. simpl in Hnd. apply NoDup_cons_iff in Hnd as [Hnotin Hnd].
    destruct i as [|i]; simpl in Hi.
    + injection Hi as ->. rewrite loop_get_absent by exact Hnotin.
      now rewrite zget_zset, Z.eqb_refl.
    + rewrite (IH (S index) _ i ticket Hnd Hi). unfold list_at.
      now rewrite Nat.add_succ_r.
Qed.

Lemma loop_values (self : TA.t) (scores : option (list (list (TaxonomyPath * Q))))
  (tickets : list TicketRecord.t) :
  forall index acc k l,
  In (k, l) (fst (TA.suggest_loop self scores index tickets acc)) ->
  In (k, l) acc
  \/ exists i ticket, nth_error tickets i = Some ticket
                      /\ l = list_at self scores index i ticket.
Proof.
  induction tickets as [|t rest IH]; intros index acc k l Hin; [now left|].
  rewrite loop_step in Hin. apply IH in Hin as [Hin|(i & ticket & Hi & Hl)].
  - apply in_zset in Hin as [[_ ->]|Hin]; [|now left].
    right. now exists 0%nat, t.
  - right. exists (S i), ticket. split; [exact Hi|].
    unfold list_at in *. now rewrite Nat.add_succ_r.
Qed.

(** Every list [suggest_categories] returns is the list its loop computed
    for one of the tickets. *)
Lemma suggest_categories_values (self : TA.t) (tickets : list TicketRecord.t)
  (k : Z) (l : list SuggestedCategory.t) :
  In (k, l) (fst (TA.suggest_categories self tickets)) ->
  exists i ticket, nth_error tickets i = Some ticket
    /\ l = fst (TA.suggest_ticket self
                  (TA.tfidf_map_at (TA._compute_tfidf_scores self tickets) (S i)) ticket).
Proof.
  intros Hin. apply loop_values in Hin as [[]|(i & ticket & Hi & Hl)].
  now exists i, ticket.
Qed.

End TicketLoop.

(** ** The fallback *)

Section Fallback.
Context {L : PyLib}.
Open Scope Q_scope.

Lemma dict_get_in {V : Type} (p : TaxonomyPath) (d : list (TaxonomyPath * V)) (v : V) :
  Dict.get p d = Some v -> In (p, v) d.
Proof.
  unfold Dict.get. induction d as [|[k w] d IH]; simpl; [discriminate|].
  destruct (Py.tuple_eqb p k) eqn:E.
  - apply tuple_eqb_eq in E. intros H. injection H as ->. subst. now left.
  - intros H. right. now apply IH.
Qed.

Lemma dict_has_in {V : Type} (p : TaxonomyPath) (d : list (TaxonomyPath * V)) :
  Dict.has p d = true -> In p (map fst d).
Proof.
  unfold Dict.has. destruct (Dict.get p d) eqn:E; [|discriminate].
  intros _. apply dict_get_in in E. now apply (in_map fst) in E.
Qed.

Lemma fallback_match_questions (self : TA.t) :
  Dict.has ["General IT"; "Questions"]%string
           (TaxonomyModel.nodes_by_path (TA.taxonomy self)) = true ->
  TA._fallback_match self
  = Some (MatchResult.fresh ["General IT"; "Questions"]%string 0.55
            "Fallback to General IT > Questions" [] 0).
Proof.
  intros H. apply dict_has_in in H. unfold TA._fallback_match.
  set (paths := map fst _) in *.
  set (is_q := fun path : list string => _).
  destruct (find is_q paths) as [path|] eqn:E.
  - apply find_some in E as [_ Hq]. subst is_q. simpl in Hq.
    destruct path as [|a [|b rest]]; try discriminate.
    apply andb_prop in Hq as [Ha Hb].
    apply String.eqb_eq in Ha, Hb. subst. reflexivity.
  - exfalso. apply (find_none _ _ E) in H. discriminate.
Qed.

(** C1, as the code has it: a ticket whose candidate map is empty after
    every signal, in a taxonomy that has the path General IT > Questions,
    gets exactly that path as its only suggestion, with the confidence
    0.55 the fallback gives a path of depth two. *)
Theorem fallback_top_suggestion (self : TA.t) (tickets : list TicketRecord.t)
  (i : nat) (ticket : TicketRecord.t) :
  constructed self ->
  NoDup (map TicketRecord.id tickets) ->
  nth_error tickets i = Some ticket ->
  TA.candidates self (TA.tfidf_map_at (TA._compute_tfidf_scores self tickets) (S i)) ticket
    = [] ->
  Dict.has ["General IT"; "Questions"]%string
           (TaxonomyModel.nodes_by_path (TA.taxonomy self)) = true ->
  Dict.zget (TicketRecord.id ticket) (fst (TA.suggest_categories self tickets))
  = Some [SuggestedCategory.make (Some "General IT"%string) (Some "Questions"%string) None
            (11 # 20) "Fallback to General IT > Questions"].
Proof.
  intros Hc Hnd Hi Hempty Hq.
  assert (Hmax : (1 <= TA.max_suggestions_per_ticket self)%Z)
    by (destruct Hc; simpl; lia).
  unfold TA.suggest_categories. rewrite (loop_get _ _ _ _ _ i ticket Hnd Hi).
  f_equal. unfold list_at. simpl Nat.add.
  unfold TA.suggest_ticket, TA.suggested_matches. rewrite Hempty.
  unfold TA.ranked. simpl. rewrite (fallback_match_questions self Hq). simpl.
  destruct (Z.to_nat (TA.max_suggestions_per_ticket self)) as [|n] eqn:E; [lia|].
  cbn [firstn]. rewrite firstn_nil. reflexivity.
Qed.

End Fallback.

Section FallbackInstances.
Open Scope Q_scope.
#[local] Existing Instance Runtime.lib.

(** The ticket of the fallback test: no signal finds a candidate, the
    taxonomy has General IT > Questions, and the confidence of the
    suggestion is 0.55, not 0.6. *)
Lemma fallback_confidence_counterexample :
  TA.candidates Examples.general_it_analyzer
    (TA.tfidf_map_at
       (TA._compute_tfidf_scores Examples.general_it_analyzer [Examples.misc_request]) 1)
    Examples.misc_request = []
  /\ Dict.has ["General IT"; "Questions"]%string
       (TaxonomyModel.nodes_by_path Examples.general_it_taxonomy) = true
  /\ Dict.zget 400
       (fst (TA.suggest_categories Examples.general_it_analyzer [Examples.misc_request]))
     = Some [SuggestedCategory.make (Some "General IT"%string) (Some "Questions"%string) None
               (11 # 20) "Fallback to General IT > Questions"]
  /\ Qcompare (11 # 20) 0.6 = Lt.
Proof. repeat split; vm_compute; reflexivity. Qed.

Lemma fallback_top_suggestion_witness :
  Dict.zget 400
    (fst (TA.suggest_categories Examples.general_it_analyzer [Examples.misc_request]))
  = Some [SuggestedCategory.make (Some "General IT"%string) (Some "Questions"%string) None
            (11 # 20) "Fallback to General IT > Questions"].
Proof.
  apply (fallback_top_suggestion Examples.general_it_analyzer [Examples.misc_request]
           0 Examples.misc_request).
  - exact (by_init Examples.general_it_taxonomy 4 3 3 [] 0.05 0.35).
  - repeat constructor. simpl. tauto.
  - reflexivity.
  - vm_compute. reflexivity.
  - vm_compute. reflexivity.
Defined.

End FallbackInstances.

(** ** The range of the confidences *)

Section Confidence.
Context {L : PyLib}.
Open Scope Q_scope.

Lemma in_firstn {A : Type} (n : nat) (l : list A) (x : A) : In x (firstn n l) -> In x l.
Proof.
  revert l. induction n as [|n IH]; intros [|y l]; simpl; try tauto.
  intros [H|H]; auto.
Qed.

Lemma round2_ok (q : Q) : 0.05 <= q -> q <= 0.95 -> confidence_ok (Num.round2 q).
Proof.
  intros Hlo Hhi.
  destruct (round2_between 0.05 0.95 q) as [H1 H2]; try reflexivity; [auto|].
  repeat split; [exact H1|exact H2|].
  rewrite round2_idempotent. reflexivity.
Qed.

Lemma confidence_ok_round2 (c : Q) : confidence_ok c -> confidence_ok (Num.round2 c).
Proof. intros (H1 & H2 & _). now apply round2_ok. Qed.

Lemma _confidence_ok (keyword_hits depth : nat) :
  confidence_ok (TA._confidence keyword_hits depth).
Proof.
  unfold TA._confidence.
  set (base := if (3 <=? depth)%nat then _ else _).
  set (bonus := Qmin (0.05 * _) 0.09).
  assert (Hbase : 0.65 <= base).
  { subst base. destruct (3 <=? depth)%nat; [|destruct (depth =? 2)%nat]; discriminate. }
  assert (Hbonus : 0 <= bonus).
  { subst bonus. apply Q.min_glb; [|discriminate].
    apply Qmult_le_0_compat; [discriminate|].
    change 0 with (inject_Z 0). rewrite <- Zle_Qle. lia. }
  apply round2_ok.
  - apply Q.min_glb; [lra|discriminate].
  - apply Q.le_min_r.
Qed.

Lemma boosted_ok (c boost : Q) :
  confidence_ok c -> 0 <= boost -> confidence_ok (Num.round2 (Qmin (c + boost) 0.95)).
Proof.
  intros (H1 & H2 & _) Hb. apply round2_ok.
  - apply Q.min_glb; [lra|discriminate].
  - apply Q.le_min_r.
Qed.

Lemma demoted_ok (c penalty : Q) :
  confidence_ok c -> 0 <= penalty -> confidence_ok (Num.round2 (Qmax (c - penalty) 0.05)).
Proof.
  intros (H1 & H2 & _) Hp. apply round2_ok.
  - apply Q.le_max_r.
  - apply Q.max_lub; [lra|discriminate].
Qed.

Lemma fold_left_all_ok {A : Type} (f : MatchMap -> A -> MatchMap) (l : list A) :
  (forall m a, all_ok m -> all_ok (f m a)) ->
  forall m, all_ok m -> all_ok (fold_left f l m).
Proof.
  intros Hf. induction l as [|a l IH]; intros m Hm; simpl; auto.
Qed.

Lemma all_ok_set (r : MatchResult.t) (m : MatchMap) :
  confidence_ok (MatchResult.confidence r) -> all_ok m -> all_ok (MatchMap.set r m).
Proof.
  intros Hr Hm.
  now apply (Forall_set (fun r => confidence_ok (MatchResult.confidence r))).
Qed.

Lemma all_ok_update (p : TaxonomyPath) (f : MatchResult.t -> MatchResult.t) (m : MatchMap) :
  (forall r, confidence_ok (MatchResult.confidence r) ->
             confidence_ok (MatchResult.confidence (f r))) ->
  all_ok m -> all_ok (MatchMap.update p f m).
Proof.
  intros Hf Hm.
  now apply (Forall_update (fun r => confidence_ok (MatchResult.confidence r))).
Qed.

Lemma all_ok_map_if (c : MatchResult.t -> bool) (f : MatchResult.t -> MatchResult.t)
  (m : MatchMap) :
  (forall r, confidence_ok (MatchResult.confidence r) ->
             confidence_ok (MatchResult.confidence (f r))) ->
  all_ok m -> all_ok (map (fun r => if c r then f r else r) m).
Proof.
  intros Hf Hm. induction Hm as [|x m Hx Hm IH]; simpl; constructor; auto.
  destruct (c x); auto.
Qed.

Lemma match_taxonomy_ok (self : TA.t) (text : string) (token_set : list string) :
  all_ok (TA._match_taxonomy self text token_set).
Proof.
  unfold TA._match_taxonomy. apply fold_left_all_ok; [|constructor].
  intros m node Hm.
  destruct (TA.node_matched_keywords node (Py.lower text) token_set); [exact Hm|].
  apply all_ok_set; [apply _confidence_ok|exact Hm].
Qed.

Lemma proximity_created_ok (rule : ProximityRule.t) :
  confidence_ok (MatchResult.confidence (TA.proximity_created rule)).
Proof.
  unfold TA.proximity_created, MatchResult.fresh, MatchResult.confidence.
  destruct (_confidence_ok 1 (List.length (ProximityRule.path rule))) as (H1 & H2 & _).
  apply round2_ok.
  - apply Qle_trans with 0.5; [discriminate|apply Q.le_max_r].
  - apply Q.max_lub; [lra|discriminate].
Qed.

Lemma proximity_ok (self : TA.t) (m : MatchMap) (tokens : list string) :
  Forall (fun rule => 0 <= ProximityRule.boost rule) (TA._proximity_rules self) ->
  all_ok m -> all_ok (TA._apply_proximity_boosts self m tokens).
Proof.
  intros Hrules Hm. unfold TA._apply_proximity_boosts.
  destruct tokens as [|tok toks]; [exact Hm|].
  set (tokens := tok :: toks). clearbody tokens.
  revert m Hm. induction Hrules as [|rule rules Hb _ IH]; intros m Hm; simpl; [exact Hm|].
  apply IH. unfold TA.apply_proximity_rule.
  destruct (TA.proximity_fires self tokens rule); [|exact Hm].
  destruct (MatchMap.get (ProximityRule.path rule) m).
  - apply all_ok_update; [|exact Hm]. intros r Hr. now apply boosted_ok.
  - apply all_ok_set; [apply proximity_created_ok|exact Hm].
Qed.

Lemma fuzzy_boost_bounds (score : Q) :
  Num.Qltb score TA._FUZZY_SCORE_THRESHOLD = false ->
  0 <= TA.fuzzy_boost score /\ TA.fuzzy_boost score <= 0.12.
Proof.
  intros H. apply Qltb_false in H. unfold TA._FUZZY_SCORE_THRESHOLD in H.
  unfold TA.fuzzy_boost, TA._FUZZY_MAX_BOOST. split; [|apply Q.le_min_l].
  apply Q.min_glb; [discriminate|].
  apply Qmult_le_0_compat; [|discriminate].
  apply Qle_shift_div_l; [reflexivity|]. lra.
Qed.

Lemma fuzzy_ok (self : TA.t) (m : MatchMap) (raw_tokens token_set : list string) :
  all_ok m -> all_ok (TA._apply_fuzzy_matches self m raw_tokens token_set).
Proof.
  intros Hm. unfold TA._apply_fuzzy_matches.
  destruct (TA._fuzzy_terms self) as [|e terms]; [exact Hm|].
  destruct raw_tokens as [|tok toks]; [exact Hm|].
  apply fold_left_all_ok; [|exact Hm].
  clear m Hm. intros m [path seeds] Hm. unfold TA.apply_fuzzy_entry.
  destruct seeds as [|s0 seeds]; [exact Hm|].
  destruct (Taxonomy.get_node (TA.taxonomy self) path) as [node|]; [|exact Hm].
  destruct (TA.scan_seeds _ _ _ _) as [[score [seed|]] [token|]]; try exact Hm.
  destruct (Num.Qltb score TA._FUZZY_SCORE_THRESHOLD) eqn:E; [exact Hm|].
  destruct (fuzzy_boost_bounds score E) as [Hb0 Hb1].
  cbn [orb]. destruct (negb (Py.truthy seed) || negb (Py.truthy token))%bool; [exact Hm|].
  destruct (MatchMap.has path m).
  - apply all_ok_update; [|exact Hm]. intros r Hr. now apply boosted_ok.
  - destruct (TaxonomyNode.children node); [|exact Hm].
    apply all_ok_set; [|exact Hm].
    unfold TA.fuzzy_created, MatchResult.fresh, MatchResult.confidence.
    unfold TA._FUZZY_NEW_MATCH_CAP, TA._FUZZY_NEW_MATCH_BASE.
    apply round2_ok.
    + apply Q.min_glb; [discriminate|lra].
    + apply Qle_trans with 0.6; [apply Q.le_min_l|discriminate].
Qed.

Lemma tfidf_ok (self : TA.t) (m : MatchMap) (tfidf_scores : list (TaxonomyPath * Q)) :
  0 <= TA.tfidf_weight self ->
  all_ok m -> all_ok (TA._apply_tfidf_scores self m tfidf_scores).
Proof.
  intros Hw Hm. unfold TA._apply_tfidf_scores.
  apply fold_left_all_ok; [|exact Hm].
  clear m Hm. intros m [path score] Hm. unfold TA.apply_tfidf_entry.
  destruct (Num.Qleb score 0) eqn:E; [exact Hm|]. apply Qleb_false in E.
  assert (Hsw : 0 <= score * TA.tfidf_weight self)
    by (apply Qmult_le_0_compat; [lra|exact Hw]).
  destruct (Taxonomy.get_node (TA.taxonomy self) path) as [node|]; [|exact Hm].
  destruct (MatchMap.has path m).
  - apply all_ok_update; [|exact Hm]. intros r Hr.
    rewrite tfidf_boosted_confidence. now apply boosted_ok.
  - destruct (TaxonomyNode.children node); [|exact Hm].
    destruct (Num.Qltb score (TA.tfidf_leaf_threshold self)); [exact Hm|].
    apply all_ok_set; [|exact Hm].
    unfold TA.tfidf_created, MatchResult.fresh, MatchResult.confidence.
    apply round2_ok.
    + apply Q.min_glb; [lra|discriminate].
    + apply Qle_trans with 0.9; [apply Q.le_min_r|discriminate].
Qed.

Lemma demote_ok (self : TA.t) (penalty : Q) (offset : Z) (note : string) (r : MatchResult.t) :
  0 <= penalty ->
  confidence_ok (MatchResult.confidence r) ->
  confidence_ok (MatchResult.confidence (TA.demote self penalty offset note r)).
Proof. intros Hp Hr. now apply demoted_ok. Qed.

Lemma negative_keywords_ok (self : TA.t) (m : MatchMap) (tokens : list string)
  (text_lower : string) :
  all_ok m -> all_ok (TA._apply_negative_keywords self m tokens text_lower).
Proof.
  intros Hm. unfold TA._apply_negative_keywords.
  destruct m as [|x m]; [exact Hm|]. set (mm := x :: m) in *. clearbody mm.
  assert (H1 : all_ok (TA.citrix_guard self (Py.to_set tokens) mm)).
  { unfold TA.citrix_guard. destruct (_ && _)%bool; [|exact Hm].
    apply all_ok_update; [|exact Hm]. intros r. now apply demote_ok. }
  assert (H2 : all_ok (TA.vpn_guard self text_lower
                         (TA.citrix_guard self (Py.to_set tokens) mm))).
  { unfold TA.vpn_guard. destruct (Py.contains _ _); [|exact H1].
    apply all_ok_map_if; [|exact H1]. intros r. now apply demote_ok. }
  unfold TA.teams_guard. destruct (_ || _)%bool; [|exact H2].
  apply all_ok_map_if; [|exact H2]. intros r. now apply demote_ok.
Qed.

Lemma fallback_ok (self : TA.t) (fallback : MatchResult.t) :
  TA._fallback_match self = Some fallback ->
  confidence_ok (MatchResult.confidence fallback).
Proof.
  unfold TA._fallback_match.
  destruct (match find _ _ with Some path => Some (firstn 2 path) | None => _ end)
    as [target|]; [|discriminate].
  intros H. injection H as <-. unfold MatchResult.fresh, MatchResult.confidence.
  destruct (List.length target =? 3)%nat; [|destruct (List.length target =? 2)%nat;
    [|destruct (List.length target =? 1)%nat]];
    (repeat split; try discriminate; vm_compute; reflexivity).
Qed.

Lemma insert_sorted_all_ok (self : TA.t) (x : MatchResult.t) (l : list MatchResult.t) :
  confidence_ok (MatchResult.confidence x) -> all_ok l -> all_ok (TA.insert_sorted self x l).
Proof.
  intros Hx Hl. induction Hl as [|y l Hy Hl IH]; simpl.
  - constructor; [exact Hx|constructor].
  - destruct (TA.key_leb _ _).
    + constructor; [exact Hx|]. constructor; assumption.
    + constructor; assumption.
Qed.

Lemma sorted_matches_all_ok (self : TA.t) (m : MatchMap) :
  all_ok m -> all_ok (TA._sorted_matches self m).
Proof.
  intros Hm. unfold TA._sorted_matches.
  induction Hm as [|x m Hx Hm IH]; simpl; [constructor|].
  now apply insert_sorted_all_ok.
Qed.

Lemma ranked_all_ok (self : TA.t) (m : MatchMap) :
  all_ok m -> all_ok (fst (TA.ranked self m)).
Proof.
  intros Hm. apply (sorted_matches_all_ok self) in Hm. unfold TA.ranked.
  destruct (TA.select_primary _); [exact Hm|].
  destruct (TA._fallback_match self) as [fb|] eqn:E; [|exact Hm].
  constructor; [now apply (fallback_ok self)|exact Hm].
Qed.

Lemma constructed_weight (self : TA.t) : constructed self -> 0 <= TA.tfidf_weight self.
Proof. intros []. simpl. apply Q.le_max_l. Qed.

Lemma constructed_rules (self : TA.t) :
  constructed self ->
  Forall (fun rule => 0 <= ProximityRule.boost rule) (TA._proximity_rules self).
Proof. intros []. simpl. repeat constructor; discriminate. Qed.

Lemma candidates_ok (self : TA.t) (tfidf_map : list (TaxonomyPath * Q))
  (ticket : TicketRecord.t) :
  constructed self -> all_ok (TA.candidates self tfidf_map ticket).
Proof.
  intros Hc. unfold TA.candidates.
  apply negative_keywords_ok, tfidf_ok, fuzzy_ok, proximity_ok, match_taxonomy_ok;
    auto using constructed_weight, constructed_rules.
Qed.

(** C6: for an analyzer as its constructor returns it, every confidence
    lies in [0.05, 0.95] and equals its own rounding to two decimals: in
    the candidates each signal and the negative keywords leave, from
    whatever candidates of that kind they start, and in every suggestion
    [suggest_categories] returns for a batch. *)
Theorem confidence_invariant (self : TA.t) :
  constructed self ->
  (forall text token_set, all_ok (TA._match_taxonomy self text token_set))
  /\ (forall m raw_tokens, all_ok m -> all_ok (TA._apply_proximity_boosts self m raw_tokens))
  /\ (forall m raw_tokens token_set,
        all_ok m -> all_ok (TA._apply_fuzzy_matches self m raw_tokens token_set))
  /\ (forall m tfidf_scores, all_ok m -> all_ok (TA._apply_tfidf_scores self m tfidf_scores))
  /\ (forall m tokens text_lower,
        all_ok m -> all_ok (TA._apply_negative_keywords self m tokens text_lower))
  /\ (forall tickets id suggestion_list suggestion,
        In (id, suggestion_list) (fst (TA.suggest_categories self tickets)) ->
        In suggestion suggestion_list ->
        confidence_ok (SuggestedCategory.confidence suggestion)).
Proof.
  intros Hc. split; [|split; [|split; [|split; [|split]]]].
  - intros. apply match_taxonomy_ok.
  - intros. apply proximity_ok; auto using constructed_rules.
  - intros. now apply fuzzy_ok.
  - intros. apply tfidf_ok; auto using constructed_weight.
  - intros. now apply negative_keywords_ok.
  - intros tickets id l s Hin Hs.
    apply suggest_categories_values in Hin as (i & ticket & _ & ->).
    unfold TA.suggest_ticket in Hs. cbn [fst] in Hs.
    apply in_map_iff in Hs as (m & <- & Hm).
    unfold TA.suggested_matches in Hm. apply in_firstn in Hm.
    pose proof (ranked_all_ok self _
                  (candidates_ok self
                     (TA.tfidf_map_at (TA._compute_tfidf_scores self tickets) (S i))
                     ticket Hc)) as Hall.
    unfold all_ok in Hall. rewrite Forall_forall in Hall.
    apply confidence_ok_round2. now apply Hall.
Qed.

End Confidence.

(** ** The order of the suggestions *)

Section Ordering.

Lemma good_le_trans {A : Type} (cmp : A -> A -> comparison) (a b c : A) :
  good_compare cmp -> cmp a b <> Gt -> cmp b c <> Gt -> cmp a c <> Gt.
Proof.
  intros G Hab Hbc.
  destruct (cmp a b) eqn:Eab; [| |congruence].
  - now rewrite (gc_eq cmp G a b c Eab).
  - destruct (cmp b c) eqn:Ebc; [| |congruence].
    + (* a < b and b = c *)
      pose proof (gc_antisym cmp G b c) as Hcb. rewrite Ebc in Hcb. simpl in Hcb.
      pose proof (gc_eq cmp G c b a Hcb) as Hca.
      rewrite (gc_antisym cmp G a b), Eab in Hca. simpl in Hca.
      rewrite (gc_antisym cmp G c a), Hca. simpl. discriminate.
    + rewrite (gc_lt cmp G a b c Eab Ebc). discriminate.
Qed.

Lemma good_total {A : Type} (cmp : A -> A -> comparison) (a b : A) :
  good_compare cmp -> cmp a b = Gt -> cmp b a <> Gt.
Proof.
  intros G H. rewrite (gc_antisym cmp G a b), H. simpl. discriminate.
Qed.

Lemma good_lex {A B : Type} (ca : A -> A -> comparison) (cb : B -> B -> comparison) :
  good_compare ca -> good_compare cb -> good_compare (lex ca cb).
Proof.
  intros Ga Gb. split; unfold lex.
  - intros [a1 b1] [a2 b2]; simpl.
    rewrite (gc_antisym ca Ga a1 a2). destruct (ca a1 a2); simpl; auto.
    apply (gc_antisym cb Gb).
  - intros [a1 b1] [a2 b2] [a3 b3]; simpl.
    destruct (ca a1 a2) eqn:E; try discriminate. intros H.
    rewrite (gc_eq ca Ga a1 a2 a3 E). destruct (ca a2 a3); auto.
    apply (gc_eq cb Gb); auto.
  - intros [a1 b1] [a2 b2] [a3 b3]; simpl.
    destruct (ca a1 a2) eqn:E12; try discriminate.
    + rewrite (gc_eq ca Ga a1 a2 a3 E12).
      destruct (ca a2 a3); try discriminate; auto.
      apply (gc_lt cb Gb).
    + intros _. destruct (ca a2 a3) eqn:E23; try discriminate.
      * intros _.
        assert (H : ca a1 a3 <> Gt).
        { apply (good_le_trans ca a1 a2 a3 Ga); congruence. }
        destruct (ca a1 a3) eqn:E13; [|reflexivity|congruence].
        exfalso.
        (* a1 = a3 and a2 = a3 give a1 = a2 *)
        pose proof (gc_antisym ca Ga a2 a3) as H32. rewrite E23 in H32. simpl in H32.
        pose proof (gc_eq ca Ga a1 a3 a2 E13) as H12. rewrite H32, E12 in H12.
        discriminate.
      * intros _. now rewrite (gc_lt ca Ga a1 a2 a3 E12 E23).
Qed.

Lemma good_Z : good_compare Z.compare.
Proof.
  split.
  - intros a b. apply Z.compare_antisym.
  - intros a b c H. apply Z.compare_eq in H. now subst.
  - intros a b c. rewrite !Z.compare_lt_iff. lia.
Qed.

Lemma good_Q : good_compare Qcompare.
Proof.
  split.
  - intros a b. symmetry. apply Qcompare_antisym.
  - intros a b c H. apply Qeq_alt in H. now rewrite H.
  - intros a b c. rewrite <- !Qlt_alt. apply Qlt_trans.
Qed.

Lemma good_ascii : good_compare Ascii.compare.
Proof.
  split.
  - intros a b. apply Ascii.compare_antisym.
  - intros a b c H. apply Ascii.compare_eq_iff in H. now subst.
  - intros a b c. unfold Ascii.compare. rewrite !N.compare_lt_iff. lia.
Qed.

Lemma good_string : good_compare String.compare.
Proof.
  split.
  - intros a b. apply String.compare_antisym.
  - intros a b c H. apply String.compare_eq_iff in H. now subst.
  - intros a. induction a as [|x a IH]; intros [|y b] [|z c]; simpl; try discriminate; auto.
    destruct (Ascii.compare x y) eqn:Exy; try discriminate.
    + apply Ascii.compare_eq_iff in Exy. subst y.
      destruct (Ascii.compare x z); try discriminate; auto. apply IH.
    + intros _. destruct (Ascii.compare y z) eqn:Eyz; try discriminate.
      * apply Ascii.compare_eq_iff in Eyz. subst z. now rewrite Exy.
      * now rewrite (gc_lt _ good_ascii x y z Exy Eyz).
Qed.

Lemma good_tuple : good_compare Py.tuple_compare.
Proof.
  split.
  - intros a. induction a as [|x a IH]; intros [|y b]; simpl; auto.
    rewrite (String.compare_antisym x y). destruct (String.compare y x); simpl; auto.
  - intros a b c H. apply tuple_compare_eq in H. now subst.
  - intros a. induction a as [|x a IH]; intros [|y b] [|z c]; simpl; try discriminate; auto.
    destruct (String.compare x y) eqn:Exy; try discriminate.
    + apply String.compare_eq_iff in Exy. subst y.
      destruct (String.compare x z); try discriminate; auto. apply IH.
    + intros _. destruct (String.compare y z) eqn:Eyz; try discriminate.
      * apply String.compare_eq_iff in Eyz. subst z. now rewrite Exy.
      * now rewrite (gc_lt _ good_string x y z Exy Eyz).
Qed.

Lemma key_compare_lex (a b : TA.SortKey) :
  TA.key_compare a b
  = lex (lex (lex Z.compare Z.compare) Qcompare) Py.tuple_compare a b.
Proof.
  destruct a as [[[pa da] ca] xa], b as [[[pb db] cb] xb].
  unfold lex, TA.key_compare. cbn [fst snd].
  destruct (Z.compare pa pb), (Z.compare da db), (Qcompare ca cb); reflexivity.
Qed.

Lemma good_key : good_compare TA.key_compare.
Proof.
  pose proof (good_lex _ _ (good_lex _ _ (good_lex _ _ good_Z good_Z) good_Q) good_tuple)
    as G.
  split; intros; rewrite !key_compare_lex in *.
  - apply (gc_antisym _ G).
  - now apply (gc_eq _ G).
  - now apply (gc_lt _ G a b c).
Qed.

Lemma key_leb_true (a b : TA.SortKey) : TA.key_leb a b = true <-> TA.key_compare a b <> Gt.
Proof.
  unfold TA.key_leb. destruct (TA.key_compare a b); split; congruence.
Qed.

Lemma key_le_trans (self : TA.t) (a b c : MatchResult.t) :
  key_le self a b -> key_le self b c -> key_le self a c.
Proof.
  unfold key_le. rewrite !key_leb_true. apply good_le_trans, good_key.
Qed.

Lemma key_le_total (self : TA.t) (a b : MatchResult.t) :
  TA.key_leb (TA.sort_key self a) (TA.sort_key self b) = false -> key_le self b a.
Proof.
  unfold key_le. rewrite key_leb_true. unfold TA.key_leb.
  destruct (TA.key_compare _ _) eqn:E; try discriminate.
  intros _. now apply good_total; [apply good_key|].
Qed.

Lemma insert_sorted_in (self : TA.t) (x y : MatchResult.t) (l : list MatchResult.t) :
  In y (TA.insert_sorted self x l) <-> y = x \/ In y l.
Proof.
  induction l as [|z l IH]; simpl.
  - intuition.
  - destruct (TA.key_leb _ _); simpl; [|rewrite IH]; intuition.
Qed.

Lemma insert_sorted_sorted (self : TA.t) (x : MatchResult.t) (l : list MatchResult.t) :
  StronglySorted (key_le self) l -> StronglySorted (key_le self) (TA.insert_sorted self x l).
Proof.
  intros Hl. induction Hl as [|y l Hl IH Hy]; simpl.
  - repeat constructor.
  - destruct (TA.key_leb (TA.sort_key self x) (TA.sort_key self y)) eqn:E.
    + constructor; [now constructor|].
      constructor; [exact E|].
      rewrite Forall_forall in *. intros z Hz.
      apply key_le_trans with y; [exact E|now apply Hy].
    + constructor; [exact IH|].
      rewrite Forall_forall in *. intros z Hz.
      apply insert_sorted_in in Hz as [->|Hz]; [now apply key_le_total|now apply Hy].
Qed.

Lemma sorted_matches_sorted (self : TA.t) (m : MatchMap) :
  StronglySorted (key_le self) (TA._sorted_matches self m).
Proof.
  unfold TA._sorted_matches. induction m as [|x m IH]; simpl.
  - constructor.
  - now apply insert_sorted_sorted.
Qed.

Lemma sorted_matches_in (self : TA.t) (m : MatchMap) (x : MatchResult.t) :
  In x (TA._sorted_matches self m) <-> In x m.
Proof.
  unfold TA._sorted_matches. induction m as [|y m IH]; simpl; [tauto|].
  rewrite insert_sorted_in, IH. intuition.
Qed.

Lemma firstn_sorted {A : Type} (R : A -> A -> Prop) (n : nat) (l : list A) :
  StronglySorted R l -> StronglySorted R (firstn n l).
Proof.
  intros Hl. revert n. induction Hl as [|x l Hl IH Hx]; intros [|n]; simpl;
    try constructor; auto.
  rewrite Forall_forall in *. intros y Hy. apply Hx. now apply in_firstn in Hy.
Qed.

End Ordering.

(** ** Depths of the candidates, and the ranked list *)

Section Ranking.
Context {L : PyLib}.

Lemma well_formed_in (taxonomy : TaxonomyModel.t) (p : TaxonomyPath) (n : TaxonomyNode.t) :
  well_formed taxonomy = true ->
  In (p, n) (TaxonomyModel.nodes_by_path taxonomy) ->
  depth_ok p = true /\ TaxonomyNode.path n = p.
Proof.
  unfold well_formed. rewrite forallb_forall. intros H Hin.
  apply H in Hin. simpl in Hin. apply andb_prop in Hin as [Hd He].
  now apply tuple_eqb_eq in He.
Qed.

Lemma node_iter_in_store (store : list (TaxonomyPath * TaxonomyNode.t)) (fuel : nat) :
  forall n x, In x (Taxonomy.node_iter_nodes store fuel n) ->
              x = n \/ exists p, In (p, x) store.
Proof.
  induction fuel as [|f IH]; intros n x; simpl.
  - intros [H|[]]. now left.
  - intros [H|H]; [now left|]. right.
    apply in_flat_map in H as (c & _ & Hx).
    destruct (Dict.get c store) as [child|] eqn:E; [|contradiction].
    apply IH in Hx as [->|Hx]; [|exact Hx].
    exists c. now apply dict_get_in.
Qed.

Lemma iter_nodes_in_store (taxonomy : TaxonomyModel.t) (x : TaxonomyNode.t) :
  In x (Taxonomy.iter_nodes taxonomy) ->
  exists p, In (p, x) (TaxonomyModel.nodes_by_path taxonomy).
Proof.
  unfold Taxonomy.iter_nodes, Taxonomy.iter_nodes_with. intros H.
  apply in_flat_map in H as ([p n] & Hin & Hx). simpl in Hx.
  destruct (List.length (TaxonomyNode.path n) =? 1)%nat; [|contradiction].
  apply node_iter_in_store in Hx as [->|Hx]; [|exact Hx].
  now exists p.
Qed.

Lemma get_node_depth (taxonomy : TaxonomyModel.t) (p : TaxonomyPath) :
  well_formed taxonomy = true ->
  Dict.has p (TaxonomyModel.nodes_by_path taxonomy) = true -> depth_ok p = true.
Proof.
  intros Hwf H. unfold Dict.has in H.
  destruct (Dict.get p _) as [n|] eqn:E; [|discriminate].
  apply dict_get_in in E. now apply (well_formed_in taxonomy p n).
Qed.

Lemma depths_set (r : MatchResult.t) (m : MatchMap) :
  depth_ok (MatchResult.path r) = true -> depths_ok m -> depths_ok (MatchMap.set r m).
Proof.
  intros Hr Hm. now apply (Forall_set (fun r => depth_ok (MatchResult.path r) = true)).
Qed.

Lemma depths_update (p : TaxonomyPath) (f : MatchResult.t -> MatchResult.t) (m : MatchMap) :
  (forall r, MatchResult.path (f r) = MatchResult.path r) ->
  depths_ok m -> depths_ok (MatchMap.update p f m).
Proof.
  intros Hf Hm.
  apply (Forall_update (fun r => depth_ok (MatchResult.path r) = true)); [|exact Hm].
  intros r. now rewrite Hf.
Qed.

Lemma depths_same_paths (m m' : MatchMap) :
  map MatchResult.path m' = map MatchResult.path m -> depths_ok m -> depths_ok m'.
Proof.
  unfold depths_ok. intros He Hm.
  rewrite <- (Forall_map MatchResult.path (fun p => depth_ok p = true)) in *.
  now rewrite He.
Qed.

Lemma fold_left_depths {A : Type} (f : MatchMap -> A -> MatchMap) (l : list A) :
  (forall m a, depths_ok m -> depths_ok (f m a)) ->
  forall m, depths_ok m -> depths_ok (fold_left f l m).
Proof.
  intros Hf. induction l as [|a l IH]; intros m Hm; simpl; auto.
Qed.

Lemma candidates_depths (self : TA.t) (tfidf_map : list (TaxonomyPath * Q))
  (ticket : TicketRecord.t) :
  well_formed (TA.taxonomy self) = true ->
  depths_ok (TA.candidates self tfidf_map ticket).
Proof.
  intros Hwf. unfold TA.candidates.
  apply (depths_same_paths _ _ (negative_keywords_paths _ _ _ _)).
  (* TF-IDF *)
  apply fold_left_depths.
  { intros m [path score] Hm. unfold TA.apply_tfidf_entry, Taxonomy.get_node.
    destruct (Num.Qleb score 0); [exact Hm|].
    destruct (Dict.get path _) as [node|] eqn:E; [|exact Hm].
    destruct (MatchMap.has path m).
    - apply depths_update; [apply tfidf_boosted_path|exact Hm].
    - destruct (TaxonomyNode.children node); [|exact Hm].
      destruct (Num.Qltb _ _); [exact Hm|].
      apply depths_set; [|exact Hm]. simpl.
      apply dict_get_in in E. now apply (well_formed_in (TA.taxonomy self) path node). }
  (* fuzzy *)
  unfold TA._apply_fuzzy_matches.
  assert (Hprox : depths_ok
            (TA._apply_proximity_boosts self
               (TA._match_taxonomy self (TA.combined_text ticket)
                  (Py.to_set (TA._raw_tokens (TA.combined_text ticket))))
               (TA._raw_tokens (TA.combined_text ticket)))).
  { unfold TA._apply_proximity_boosts.
    assert (Hmatch : depths_ok
              (TA._match_taxonomy self (TA.combined_text ticket)
                 (Py.to_set (TA._raw_tokens (TA.combined_text ticket))))).
    { unfold TA._match_taxonomy.
      set (nodes := Taxonomy.iter_nodes (TA.taxonomy self)).
      assert (Hnodes : forall n, In n nodes -> depth_ok (TaxonomyNode.path n) = true).
      { intros n Hn. apply iter_nodes_in_store in Hn as [p Hp].
        destruct (well_formed_in (TA.taxonomy self) p n Hwf Hp) as [Hd ->]. exact Hd. }
      clearbody nodes.
      assert (Hgen : forall init, depths_ok init ->
                depths_ok (fold_left
                  (fun matches node =>
                     match TA.node_matched_keywords node
                             (Py.lower (TA.combined_text ticket))
                             (Py.to_set (TA._raw_tokens (TA.combined_text ticket))) with
                     | [] => matches
                     | k :: ks =>
                         MatchMap.set
                           (MatchResult.fresh (TaxonomyNode.path node)
                              (TA._confidence (List.length (k :: ks))
                                 (List.length (TaxonomyNode.path node)))
                              (TA._build_rationale (TaxonomyNode.path node) (k :: ks)
                                 [] None false None)
                              (k :: ks) 0)
                           matches
                     end) nodes init)).
      { induction nodes as [|n nodes IH]; intros init Hinit; simpl; [exact Hinit|].
        apply IH; [intros; apply Hnodes; now right|].
        destruct (TA.node_matched_keywords n _ _); [exact Hinit|].
        apply depths_set; [|exact Hinit]. apply Hnodes. now left. }
      apply Hgen. constructor. }
    destruct (TA._raw_tokens (TA.combined_text ticket)) as [|tok toks]; [exact Hmatch|].
    apply fold_left_depths; [|exact Hmatch].
    intros m rule Hm. unfold TA.apply_proximity_rule.
    destruct (TA.proximity_fires self (tok :: toks) rule) eqn:Ef; [|exact Hm].
    destruct (MatchMap.get _ m).
    - apply depths_update; [apply proximity_boosted_path|exact Hm].
    - apply depths_set; [|exact Hm]. simpl.
      unfold TA.proximity_fires in Ef.
      apply andb_prop in Ef as [Ef _]. apply andb_prop in Ef as [_ Ef].
      now apply (get_node_depth (TA.taxonomy self)). }
  destruct (TA._fuzzy_terms self) as [|e terms]; [exact Hprox|].
  destruct (TA._raw_tokens (TA.combined_text ticket)) as [|tok toks] eqn:Et; [exact Hprox|].
  apply fold_left_depths; [|exact Hprox].
  intros m [path seeds] Hm. unfold TA.apply_fuzzy_entry, Taxonomy.get_node.
  destruct seeds as [|s0 seeds]; [exact Hm|].
  destruct (Dict.get path _) as [node|] eqn:E; [|exact Hm].
  destruct (TA.scan_seeds _ _ _ _) as [[score [seed|]] [token|]]; try exact Hm.
  destruct (_ || _)%bool; [exact Hm|].
  destruct (MatchMap.has path m).
  - apply depths_update; [reflexivity|exact Hm].
  - destruct (TaxonomyNode.children node); [|exact Hm].
    apply depths_set; [|exact Hm]. simpl.
    apply dict_get_in in E. now apply (well_formed_in (TA.taxonomy self) path node).
Qed.

Lemma select_primary_none (l : list MatchResult.t) :
  depths_ok l -> TA.select_primary l = None -> l = [].
Proof.
  intros Hd Hs. destruct l as [|x l]; [reflexivity|]. exfalso.
  apply Forall_inv in Hd. unfold depth_ok in Hd.
  apply andb_prop in Hd as [H1 H3].
  apply Nat.leb_le in H1, H3.
  unfold TA.select_primary, TA.first_of_depth in Hs. simpl in Hs.
  destruct (List.length (MatchResult.path x)) as [|[|[|[|n]]]] eqn:E; simpl in Hs;
    try lia; try discriminate.
  - destruct (find _ l); [discriminate|]. destruct (find _ l); discriminate.
  - destruct (find _ l); discriminate.
Qed.

Lemma ranked_sorted (self : TA.t) (m : MatchMap) :
  depths_ok m -> StronglySorted (key_le self) (fst (TA.ranked self m)).
Proof.
  intros Hd. unfold TA.ranked.
  pose proof (sorted_matches_sorted self m) as Hs.
  destruct (TA.select_primary (TA._sorted_matches self m)) eqn:E; [exact Hs|].
  assert (Hd' : depths_ok (TA._sorted_matches self m)).
  { unfold depths_ok in *. rewrite Forall_forall in *. intros x Hx.
    apply Hd. now apply sorted_matches_in in Hx. }
  rewrite (select_primary_none _ Hd' E).
  destruct (TA._fallback_match self); simpl; repeat constructor.
Qed.

Open Scope Q_scope.

Lemma key_le_documented (self : TA.t) (a b : MatchResult.t) :
  key_le self a b <-> documented_le self a b.
Proof.
  unfold key_le, documented_le. rewrite key_leb_true.
  unfold TA.sort_key, TA.key_compare.
  change (TA.priority_rank self a) with (documented_rank self a).
  change (TA.priority_rank self b) with (documented_rank self b).
  set (ra := documented_rank self a). set (rb := documented_rank self b).
  set (da := List.length (MatchResult.path a)). set (db := List.length (MatchResult.path b)).
  set (ca := MatchResult.confidence a). set (cb := MatchResult.confidence b).
  cbv zeta.
  destruct (Z.compare_spec ra rb) as [Er|Er|Er].
  - destruct (Z.compare_spec (- Z.of_nat da) (- Z.of_nat db)) as [Ed|Ed|Ed].
    + assert (da = db) as Ed' by lia.
      destruct (Qcompare (- ca) (- cb)) eqn:Ec.
      * apply Qeq_alt in Ec. assert (ca == cb) as Ec' by lra.
        split.
        -- intros H. right. split; [exact Er|]. right. split; [exact Ed'|]. right.
           split; [exact Ec'|exact H].
        -- intros [H|[_ [H|[_ [H|[_ H]]]]]]; [lia|lia|lra|exact H].
      * apply Qlt_alt in Ec. split; [|discriminate].
        intros _. right. split; [exact Er|]. right. split; [exact Ed'|]. left. lra.
      * apply Qgt_alt in Ec. split; [congruence|].
        intros [H|[_ [H|[_ [H|[H _]]]]]]; [lia|lia|lra|lra].
    + split; [|discriminate]. intros _. right. split; [exact Er|]. left. lia.
    + split; [congruence|].
      intros [H|[_ [H|[H _]]]]; lia.
  - split; [|discriminate]. intros _. left. exact Er.
  - split; [congruence|]. intros [H|[H _]]; lia.
Qed.

Lemma sorted_documented (self : TA.t) (l : list MatchResult.t) :
  StronglySorted (key_le self) l -> StronglySorted (documented_le self) l.
Proof.
  induction 1 as [|x l S IH F]; constructor; [exact IH|].
  rewrite Forall_forall in *. intros y Hy. apply key_le_documented. exact (F y Hy).
Qed.

Lemma insert_sorted_perm (self : TA.t) (x : MatchResult.t) (l : list MatchResult.t) :
  Permutation (TA.insert_sorted self x l) (x :: l).
Proof.
  induction l as [|y l IH]; simpl; [apply Permutation_refl|].
  destruct (TA.key_leb (TA.sort_key self x) (TA.sort_key self y));
    [apply Permutation_refl|].
  eapply Permutation_trans; [apply perm_skip; exact IH|apply perm_swap].
Qed.

Lemma sorted_matches_perm (self : TA.t) (m : MatchMap) :
  Permutation (TA._sorted_matches self m) m.
Proof.
  unfold TA._sorted_matches. induction m as [|x r IH]; simpl; [constructor|].
  eapply Permutation_trans; [apply insert_sorted_perm|]. apply perm_skip. exact IH.
Qed.

(** the list [suggest_categories] cuts its suggestions from: the sorted
    candidates, or the fallback alone when there is no candidate *)
Lemma ranked_ordered (self : TA.t) (m : MatchMap) :
  depths_ok m ->
  fst (TA.ranked self m)
  = match TA._sorted_matches self m with
    | [] => fallback_list self
    | ordered => ordered
    end.
Proof.
  intros Hd. unfold TA.ranked, fallback_list.
  destruct (TA.select_primary (TA._sorted_matches self m)) eqn:E.
  - cbn [fst]. destruct (TA._sorted_matches self m); [discriminate|reflexivity].
  - assert (Hd' : depths_ok (TA._sorted_matches self m)).
    { unfold depths_ok in *. rewrite Forall_forall in *. intros x Hx.
      apply Hd. now apply sorted_matches_in in Hx. }
    rewrite (select_primary_none _ Hd' E).
    destruct (TA._fallback_match self); reflexivity.
Qed.

Lemma loop_entries (self : TA.t) (scores : option (list (list (TaxonomyPath * Q))))
  (tickets : list TicketRecord.t) :
  forall index acc k l,
  In (k, l) (fst (TA.suggest_loop self scores index tickets acc)) ->
  In (k, l) acc
  \/ exists i ticket, nth_error tickets i = Some ticket
                      /\ TicketRecord.id ticket = k
                      /\ l = list_at self scores index i ticket.
Proof.
  induction tickets as [|t rest IH]; intros index acc k l Hin; [now left|].
  rewrite loop_step in Hin. apply IH in Hin as [Hin|(i & ticket & Hi & Hk & Hl)].
  - apply in_zset in Hin as [[-> ->]|Hin]; [|now left].
    right. now exists 0%nat, t.
  - right. exists (S i), ticket. split; [exact Hi|]. split; [exact Hk|].
    unfold list_at in *. now rewrite Nat.add_succ_r.
Qed.

(** C7: for an analyzer constructed with a maximum of at least one over a
    taxonomy whose paths have the depths of the data model, every list
    [suggest_categories] returns under a ticket id has at most that maximum
    of entries and is the image, in order, of the first candidates of a
    ticket with that id: of its candidates sorted by the documented key
    [(priority_rank, -depth, -confidence, path)] (a permutation of the
    candidates, none dropped and none added), or of the fallback alone
    when the ticket has no candidate.  [priority_rank] is the override of a
    demotion, else the entry of the priority map, else the size of that map
    plus one. *)
Theorem suggestions_bounded_and_sorted (taxonomy : TaxonomyModel.t)
  (keyword_min_length min_keyword_frequency max_suggestions_per_ticket : Z)
  (stop_words : list string) (tfidf_leaf_threshold tfidf_weight : Q)
  (tickets : list TicketRecord.t) (id : Z) (suggestion_list : list SuggestedCategory.t) :
  (1 <= max_suggestions_per_ticket)%Z ->
  well_formed taxonomy = true ->
  let self := TA.init taxonomy keyword_min_length min_keyword_frequency
                      max_suggestions_per_ticket stop_words
                      tfidf_leaf_threshold tfidf_weight in
  In (id, suggestion_list) (fst (TA.suggest_categories self tickets)) ->
  (Z.of_nat (List.length suggestion_list) <= max_suggestions_per_ticket)%Z
  /\ exists i ticket ordered matches,
       nth_error tickets i = Some ticket
       /\ TicketRecord.id ticket = id
       /\ Permutation ordered
            (TA.candidates self
               (TA.tfidf_map_at (TA._compute_tfidf_scores self tickets) (S i)) ticket)
       /\ StronglySorted (documented_le self) ordered
       /\ matches = firstn (Z.to_nat max_suggestions_per_ticket)
                           (match ordered with [] => fallback_list self | _ => ordered end)
       /\ StronglySorted (documented_le self) matches
       /\ suggestion_list = map TA.to_suggestion matches.
Proof.
  intros Hmax Hwf self Hin.
  unfold TA.suggest_categories in Hin.
  apply loop_entries in Hin as [[]|(i & ticket & Hi & Hid & ->)].
  unfold list_at, TA.suggest_ticket. cbn [fst Nat.add].
  set (cands := TA.candidates self
                  (TA.tfidf_map_at (TA._compute_tfidf_scores self tickets) (S i)) ticket).
  assert (Hd : depths_ok cands) by (apply candidates_depths; exact Hwf).
  assert (Hn : Z.to_nat (TA.max_suggestions_per_ticket self)
               = Z.to_nat max_suggestions_per_ticket)
    by (subst self; cbn [TA.max_suggestions_per_ticket TA.init]; f_equal; lia).
  unfold TA.suggested_matches. fold cands. rewrite Hn.
  split.
  - rewrite length_map.
    pose proof (firstn_le_length (Z.to_nat max_suggestions_per_ticket)
                  (fst (TA.ranked self cands))) as Hlen. lia.
  - exists i, ticket, (TA._sorted_matches self cands),
      (firstn (Z.to_nat max_suggestions_per_ticket) (fst (TA.ranked self cands))).
    split; [exact Hi|]. split; [exact Hid|].
    split; [apply sorted_matches_perm|].
    split; [apply sorted_documented, sorted_matches_sorted|].
    split; [rewrite (ranked_ordered self cands Hd);
            destruct (TA._sorted_matches self cands); reflexivity|].
    split; [|reflexivity].
    apply sorted_documented, firstn_sorted, ranked_sorted. exact Hd.
Qed.

End Ranking.

(** ** What a run reads: not the final fields, not the alias rules *)

Section Idempotence.
Context {L : PyLib}.

Lemma add_ticket_tokens_reset (self : TA.t) (tickets : list TicketRecord.t) :
  forall (docs : list (list string)) (acc : list (TaxonomyPath * list string)),
  fold_left (TA.add_ticket_tokens self) (combine (map without_final tickets) docs) acc
  = fold_left (TA.add_ticket_tokens self) (combine tickets docs) acc.
Proof.
  induction tickets as [|t ts IH]; intros [|d docs] acc; simpl; try reflexivity.
  apply IH.
Qed.

Lemma corpus_reset (tickets : list TicketRecord.t) :
  map TA.corpus_text (map without_final tickets) = map TA.corpus_text tickets.
Proof. rewrite map_map. now apply map_ext. Qed.

Lemma tfidf_scores_reset (self : TA.t) (tickets : list TicketRecord.t) :
  TA._compute_tfidf_scores self (map without_final tickets)
  = TA._compute_tfidf_scores self tickets.
Proof.
  unfold TA._compute_tfidf_scores. f_equal.
  unfold TA._build_tfidf_artifacts.
  rewrite corpus_reset, add_ticket_tokens_reset.
  now destruct tickets.
Qed.

Lemma suggest_loop_reset (self : TA.t)
  (scores : option (list (list (TaxonomyPath * Q)))) (tickets : list TicketRecord.t) :
  forall index acc,
  fst (TA.suggest_loop self scores index (map without_final tickets) acc)
  = fst (TA.suggest_loop self scores index tickets acc).
Proof.
  induction tickets as [|t ts IH]; intros index acc; [reflexivity|].
  cbn [map]. rewrite !loop_step. apply IH.
Qed.

Lemma suggest_ticket_keeps_input (self : TA.t) (tfidf_map : list (TaxonomyPath * Q))
  (ticket : TicketRecord.t) :
  without_final (snd (TA.suggest_ticket self tfidf_map ticket)) = without_final ticket.
Proof.
  unfold TA.suggest_ticket. cbn [snd].
  destruct (snd (TA.ranked self _)); [|reflexivity].
  now destruct (map TA.to_suggestion _).
Qed.

Lemma suggest_loop_keeps_input (self : TA.t)
  (scores : option (list (list (TaxonomyPath * Q)))) (tickets : list TicketRecord.t) :
  forall index acc,
  map without_final (snd (TA.suggest_loop self scores index tickets acc))
  = map without_final tickets.
Proof.
  induction tickets as [|t ts IH]; intros index acc; [reflexivity|].
  cbn [TA.suggest_loop].
  pose proof (suggest_ticket_keeps_input self (TA.tfidf_map_at scores index) t) as Ht.
  destruct (TA.suggest_ticket self (TA.tfidf_map_at scores index) t) as [sl t'].
  cbn [snd] in Ht.
  specialize (IH (S index) (Dict.zset (TicketRecord.id t) sl acc)).
  destruct (TA.suggest_loop self scores (S index) ts _) as [sugg rest'].
  cbn [snd map] in *. now rewrite Ht, IH.
Qed.

Lemma suggest_categories_reset (self : TA.t) (tickets : list TicketRecord.t) :
  fst (TA.suggest_categories self (map without_final tickets))
  = fst (TA.suggest_categories self tickets).
Proof.
  unfold TA.suggest_categories. rewrite tfidf_scores_reset. apply suggest_loop_reset.
Qed.

(** C9: a second run of [suggest_categories] on the records the first run
    left, with their final fields written, returns the same suggestions:
    the same lists, confidences and rationales, for every ticket. *)
Theorem suggest_categories_idempotent (self : TA.t) (tickets : list TicketRecord.t) :
  fst (TA.suggest_categories self (snd (TA.suggest_categories self tickets)))
  = fst (TA.suggest_categories self tickets).
Proof.
  rewrite <- (suggest_categories_reset self (snd (TA.suggest_categories self tickets))).
  rewrite <- (suggest_categories_reset self tickets).
  f_equal. f_equal.
  unfold TA.suggest_categories. apply suggest_loop_keeps_input.
Qed.

(** X3: after [suggest_categories] every record equals the record given,
    except for its three final fields. *)
Lemma suggest_categories_records_stable (self : TA.t) (tickets : list TicketRecord.t) :
  map without_final (snd (TA.suggest_categories self tickets)) = map without_final tickets.
Proof. unfold TA.suggest_categories. apply suggest_loop_keeps_input. Qed.

End Idempotence.

Section AliasRules.
Context {L : PyLib}.
Variables (nodes_by_path : list (TaxonomyPath * TaxonomyNode.t))
          (priority_map : list (TaxonomyPath * Z))
          (alias_rules alias_rules' : list AliasRule.t)
          (max_depth : nat)
          (keyword_min_length min_keyword_frequency max_suggestions_per_ticket : Z)
          (stop_words : list string)
          (tfidf_leaf_threshold tfidf_weight : Q).

(** two analyzers over models that differ in their alias rules only *)
Abbreviation self :=
  (analyzer_over nodes_by_path priority_map alias_rules max_depth
     keyword_min_length min_keyword_frequency max_suggestions_per_ticket
     stop_words tfidf_leaf_threshold tfidf_weight).
Abbreviation self' :=
  (analyzer_over nodes_by_path priority_map alias_rules' max_depth
     keyword_min_length min_keyword_frequency max_suggestions_per_ticket
     stop_words tfidf_leaf_threshold tfidf_weight).

Lemma insert_sorted_aliases (x : MatchResult.t) (l : list MatchResult.t) :
  TA.insert_sorted self x l = TA.insert_sorted self' x l.
Proof.
  induction l as [|y l IH]; simpl; [reflexivity|]. now rewrite IH.
Qed.

Lemma sorted_matches_aliases (m : MatchMap) :
  TA._sorted_matches self m = TA._sorted_matches self' m.
Proof.
  unfold TA._sorted_matches. induction m as [|x m IH]; simpl; [reflexivity|].
  now rewrite IH, insert_sorted_aliases.
Qed.

Lemma candidates_aliases (tfidf_map : list (TaxonomyPath * Q)) (ticket : TicketRecord.t) :
  TA.candidates self tfidf_map ticket = TA.candidates self' tfidf_map ticket.
Proof. reflexivity. Qed.

Lemma ranked_aliases (m : MatchMap) : TA.ranked self m = TA.ranked self' m.
Proof.
  unfold TA.ranked. rewrite sorted_matches_aliases.
  now change (TA._fallback_match self) with (TA._fallback_match self').
Qed.

Lemma suggest_ticket_aliases (tfidf_map : list (TaxonomyPath * Q)) (ticket : TicketRecord.t) :
  TA.suggest_ticket self tfidf_map ticket = TA.suggest_ticket self' tfidf_map ticket.
Proof.
  unfold TA.suggest_ticket, TA.suggested_matches.
  now rewrite candidates_aliases, ranked_aliases.
Qed.

Lemma tfidf_scores_aliases (tickets : list TicketRecord.t) :
  TA._compute_tfidf_scores self tickets = TA._compute_tfidf_scores self' tickets.
Proof. reflexivity. Qed.

Lemma suggest_loop_aliases (scores : option (list (list (TaxonomyPath * Q))))
  (tickets : list TicketRecord.t) :
  forall index acc,
  TA.suggest_loop self scores index tickets acc
  = TA.suggest_loop self' scores index tickets acc.
Proof.
  induction tickets as [|t ts IH]; intros index acc; [reflexivity|].
  cbn [TA.suggest_loop]. rewrite suggest_ticket_aliases.
  destruct (TA.suggest_ticket self' _ t) as [sl t']. now rewrite IH.
Qed.

(** C10: two taxonomy models that differ in their alias rules only give
    the same suggestions (and leave the same records) for every batch:
    no step of [suggest_categories] reads [alias_rules], and
    [_evaluate_aliases] is not among its steps. *)
Theorem alias_rules_do_not_matter (tickets : list TicketRecord.t) :
  TA.suggest_categories
    (analyzer_over nodes_by_path priority_map alias_rules max_depth
       keyword_min_length min_keyword_frequency max_suggestions_per_ticket
       stop_words tfidf_leaf_threshold tfidf_weight)
    tickets
  = TA.suggest_categories
      (analyzer_over nodes_by_path priority_map alias_rules' max_depth
         keyword_min_length min_keyword_frequency max_suggestions_per_ticket
         stop_words tfidf_leaf_threshold tfidf_weight)
      tickets.
Proof.
  unfold TA.suggest_categories. rewrite tfidf_scores_aliases. apply suggest_loop_aliases.
Qed.

End AliasRules.

(** ** Building a model: alias entries *)

Section AliasEntries.
Context {L : PyLib}.
Import Taxonomy.

Lemma parse_alias_entry_ok (entry : AliasEntry.t) (st : BuildState) :
  alias_entry_ok entry = true ->
  parse_alias_entry entry st
  = Ok (add_rule (rule_of_entry entry)
          (if negb (Dict.has (entry_target_path entry) (st_nodes st))
           then warn (unknown_target_warning entry) st else st)).
Proof.
  unfold alias_entry_ok, parse_alias_entry, rule_of_entry, unknown_target_warning,
    entry_target_path, entry_alias.
  intros H. apply andb_prop in H as [H Hre]. apply andb_prop in H as [Ha Ht].
  rewrite Ha. cbn [negb].
  destruct (AliasEntry.target entry) as [target|]; [|discriminate].
  rewrite Ht. cbn [negb].
  destruct (AliasEntry.regex entry); cbn [negb orb andb] in *.
  - rewrite Hre. reflexivity.
  - reflexivity.
Qed.

Lemma parse_alias_rules_ok (entries : list AliasEntry.t) :
  forall st,
  forallb alias_entry_ok entries = true ->
  exists st',
    _parse_alias_rules entries st = Ok st'
    /\ st_nodes st' = st_nodes st
    /\ (forall r, In r (st_rules st) -> In r (st_rules st'))
    /\ (forall w, In w (st_warnings st) -> In w (st_warnings st'))
    /\ (forall entry, In entry entries -> In (rule_of_entry entry) (st_rules st'))
    /\ (forall entry, In entry entries ->
          Dict.has (entry_target_path entry) (st_nodes st) = false ->
          In (unknown_target_warning entry) (st_warnings st')).
Proof.
  induction entries as [|e entries IH]; intros st Hok.
  - exists st. simpl. repeat split; auto; intros entry [].
  - simpl in Hok. apply andb_prop in Hok as [He Hok].
    cbn [_parse_alias_rules]. rewrite (parse_alias_entry_ok e st He). cbn [bind].
    set (st1 := add_rule _ _).
    destruct (IH st1 Hok) as (st' & Hp & Hn & Hr & Hw & Hrules & Hwarn).
    assert (Hn1 : st_nodes st1 = st_nodes st).
    { subst st1. now destruct (negb _). }
    exists st'. split; [exact Hp|]. split; [congruence|].
    split; [|split; [|split]].
    + intros r Hin. apply Hr. subst st1. unfold add_rule, Py.push. simpl.
      apply in_or_app. left. now destruct (negb _).
    + intros w Hin. apply Hw. subst st1. unfold add_rule. simpl.
      destruct (negb _); [|exact Hin].
      unfold warn, Py.push. simpl. apply in_or_app. now left.
    + intros entry [->|Hin]; [|now apply Hrules].
      apply Hr. subst st1. unfold add_rule, Py.push. simpl.
      apply in_or_app. right. now left.
    + intros entry [->|Hin] Hunk.
      * apply Hw. subst st1. rewrite Hunk. unfold add_rule, warn, Py.push. simpl.
        apply in_or_app. right. now left.
      * apply Hwarn; [exact Hin|]. now rewrite Hn1.
Qed.

Lemma build_priority_keeps_warnings (entries : list PathSpec)
  (nodes : list (TaxonomyPath * TaxonomyNode.t)) (w : string) :
  forall index acc,
  In w (snd acc) -> In w (snd (build_priority entries index nodes acc)).
Proof.
  induction entries as [|e entries IH]; intros index acc Hin; [exact Hin|].
  cbn [build_priority]. destruct (_normalise_priority_path e) as [|x xs].
  - now apply IH.
  - apply IH. cbn [snd]. destruct (negb _); [|exact Hin].
    unfold Py.push. apply in_or_app. now left.
Qed.

(** C8: when the tree of a configuration builds and every alias entry has
    a non-blank alias, a non-empty target and (if flagged as a regex) a
    pattern that compiles, [build_taxonomy_model] returns a model; the
    model holds the rule of every alias entry, and an entry whose target
    path is not a node of the tree only adds a warning to the log. *)
Theorem unknown_alias_target_is_warning (config : Config.t)
  (available_taxonomy : option Metadata.t) (max_depth : nat) (st : BuildState)
  (entry : AliasEntry.t) :
  Config.tree config <> [] ->
  build_tree (Config.tree config) max_depth (mkBuildState [] [] []) = Ok st ->
  forallb alias_entry_ok (Config.aliases config) = true ->
  In entry (Config.aliases config) ->
  Dict.has (entry_target_path entry) (st_nodes st) = false ->
  exists model warnings,
    build_taxonomy_model (Some config) available_taxonomy max_depth = Ok (model, warnings)
    /\ TaxonomyModel.nodes_by_path model = st_nodes st
    /\ Dict.has (entry_target_path entry) (TaxonomyModel.nodes_by_path model) = false
    /\ In (rule_of_entry entry) (TaxonomyModel.alias_rules model)
    /\ In (unknown_target_warning entry) warnings.
Proof.
  intros Htree Hbuild Hok Hin Hunk. unfold build_taxonomy_model.
  destruct (Config.tree config) as [|e0 tree] eqn:Et; [congruence|].
  rewrite Hbuild. cbn [bind].
  remember (Config.aliases config) as aliases eqn:Ea.
  destruct (parse_alias_rules_ok aliases st Hok)
    as (st' & Hp & Hn & _ & _ & Hrules & Hwarn).
  destruct aliases as [|a0 aliases]; [contradiction|].
  rewrite Hp. cbn [bind].
  pose proof (build_priority_keeps_warnings (Config.priority_order config) (st_nodes st')
                (unknown_target_warning entry) 0 ([], st_warnings st')
                (Hwarn entry Hin Hunk)) as Hw.
  destruct (build_priority _ _ _ _) as [priority_map warnings].
  eexists. eexists. split; [reflexivity|]. cbn [TaxonomyModel.nodes_by_path
    TaxonomyModel.alias_rules]. rewrite Hn.
  split; [reflexivity|]. split; [exact Hunk|]. split; [now apply Hrules|].
  destruct available_taxonomy; [apply in_or_app; now left|exact Hw].
Qed.

End AliasEntries.

Section AliasEntryInstances.
#[local] Existing Instance Runtime.lib.
Import Taxonomy.

Lemma unknown_alias_target_witness :
  exists model warnings,
    build_taxonomy_model (Some Examples.dangling_config) None 3 = Ok (model, warnings)
    /\ In (rule_of_entry Examples.dangling_alias) (TaxonomyModel.alias_rules model)
    /\ In "Alias 'tunnel' points to unknown taxonomy path 'Remote Access > Tunnels'"
          warnings.
Proof.
  destruct (build_tree (Config.tree Examples.dangling_config) 3 (mkBuildState [] [] []))
    as [st|e] eqn:E; [|vm_compute in E; discriminate].
  destruct (unknown_alias_target_is_warning Examples.dangling_config None 3 st
              Examples.dangling_alias) as (model & warnings & H1 & _ & _ & H2 & H3).
  - discriminate.
  - exact E.
  - vm_compute. reflexivity.
  - now left.
  - vm_compute in E. injection E as <-. vm_compute. reflexivity.
  - exists model, warnings. auto.
Defined.

End AliasEntryInstances.

(** ** The engine on the ticket of the "not vpn" test *)

Section PipelineInstances.
Open Scope Q_scope.
#[local] Existing Instance Runtime.lib.

Lemma confidence_invariant_witness :
  forallb (fun s => Num.Qleb 0.05 (SuggestedCategory.confidence s)
                    && Num.Qleb (SuggestedCategory.confidence s) 0.95)
          Examples.not_vpn_suggestions = true
  /\ Forall (fun s => confidence_ok (SuggestedCategory.confidence s))
            Examples.not_vpn_suggestions.
Proof.
  split; [vm_compute; reflexivity|].
  apply Forall_forall. intros s Hs.
  refine (proj2 (proj2 (proj2 (proj2 (proj2
            (confidence_invariant Examples.vpn_outlook_analyzer
               (by_init Examples.vpn_outlook_taxonomy 4 3 2 [] 0.05 0.35))))))
            [Examples.not_vpn_ticket] 640%Z Examples.not_vpn_suggestions s _ Hs).
  vm_compute. left. reflexivity.
Defined.

Lemma suggestions_sorted_witness :
  well_formed Examples.vpn_outlook_taxonomy = true
  /\ (Z.of_nat (List.length Examples.not_vpn_suggestions) <= 2)%Z
  /\ exists i ticket ordered matches,
       nth_error [Examples.not_vpn_ticket] i = Some ticket
       /\ TicketRecord.id ticket = 640%Z
       /\ Permutation ordered
            (TA.candidates Examples.vpn_outlook_analyzer
               (TA.tfidf_map_at
                  (TA._compute_tfidf_scores Examples.vpn_outlook_analyzer
                     [Examples.not_vpn_ticket]) (S i))
               ticket)
       /\ StronglySorted (documented_le Examples.vpn_outlook_analyzer) ordered
       /\ matches = firstn (Z.to_nat 2)
                           (match ordered with
                            | [] => fallback_list Examples.vpn_outlook_analyzer
                            | _ => ordered
                            end)
       /\ StronglySorted (documented_le Examples.vpn_outlook_analyzer) matches
       /\ Examples.not_vpn_suggestions = map TA.to_suggestion matches.
Proof.
  assert (Hwf : well_formed Examples.vpn_outlook_taxonomy = true)
    by (vm_compute; reflexivity).
  assert (Hin : In (640%Z, Examples.not_vpn_suggestions)
                   (fst (TA.suggest_categories
                           (TA.init Examples.vpn_outlook_taxonomy 4 3 2 [] 0.05 0.35)
                           [Examples.not_vpn_ticket])))
    by (vm_compute; left; reflexivity).
  split; [exact Hwf|].
  assert (Hmax : (1 <= 2)%Z) by lia.
  exact (suggestions_bounded_and_sorted Examples.vpn_outlook_taxonomy 4 3 2 [] 0.05 0.35
           [Examples.not_vpn_ticket] 640%Z Examples.not_vpn_suggestions Hmax Hwf Hin).
Defined.

(** The alias routine, were it called, would not be without effect: on a
    ticket that names an alias it raises. *)
Example evaluate_aliases_raises :
  TA._evaluate_aliases
    (TA.default (Examples.model_of
                   (Taxonomy.build_taxonomy_model (Some Examples.dangling_config) None 3)) 3)
    "tunnel is down" "tunnel is down" ["tunnel"; "is"; "down"]%string
  = Raise (TypeError "_confidence() got an unexpected keyword argument 'alias'").
Proof. vm_compute. reflexivity. Qed.

End PipelineInstances.

(** ** Models that were built *)

Section BuiltModels.
Context {L : PyLib}.
Import Taxonomy.

Lemma Forall_dict_set {V : Type} (P : TaxonomyPath * V -> Prop) (k : TaxonomyPath) (v : V)
  (d : list (TaxonomyPath * V)) :
  P (k, v) -> Forall P d -> Forall P (Dict.set k v d).
Proof.
  intros Hk Hd. unfold Dict.set. induction Hd as [|[k' v'] d Hx Hd IH]; simpl.
  - repeat constructor. exact Hk.
  - destruct (Py.tuple_eqb k k') eqn:E.
    + apply tuple_eqb_eq in E. subst k'. now constructor.
    + now constructor.
Qed.

Lemma push_length {A : Type} (l : list A) (x : A) : List.length (Py.push l x) = S (List.length l).
Proof. unfold Py.push. rewrite length_app. simpl. lia. Qed.

Lemma removelast_cons_length {A : Type} (xs : list A) :
  forall x, List.length (removelast (x :: xs)) = List.length xs.
Proof.
  induction xs as [|y ys IH]; intros x; [reflexivity|].
  change (removelast (x :: y :: ys)) with (x :: removelast (y :: ys)).
  cbn [List.length]. f_equal. apply IH.
Qed.

Lemma store_ok_new_node (max_depth : nat) (parent : TaxonomyPath) (label : string)
  (keywords norms regexes aliases : list string) (st : BuildState) :
  (List.length (Py.push parent label) <= max_depth)%nat ->
  store_ok max_depth (st_nodes st) ->
  store_ok max_depth
    (st_nodes (set_node (Py.push parent label)
                 (TaxonomyNode.make label (Py.push parent label) keywords norms
                                    regexes aliases []) st)).
Proof.
  intros Hl Hst. unfold set_node. simpl. apply Forall_dict_set; [|exact Hst].
  split; [reflexivity|split; [|constructor]].
  simpl. rewrite push_length in *. lia.
Qed.

Lemma store_ok_append_child (max_depth : nat) (parent child : TaxonomyPath) (st : BuildState) :
  List.length child = S (List.length parent) ->
  store_ok max_depth (st_nodes st) ->
  store_ok max_depth (st_nodes (append_child parent child st)).
Proof.
  intros Hc Hst. unfold append_child.
  destruct (Dict.get parent (st_nodes st)) as [n|] eqn:E; [|exact Hst].
  apply dict_get_in in E. pose proof Hst as Hall. unfold store_ok in Hall.
  rewrite Forall_forall in Hall.
  destruct (Hall _ E) as (Hp & Hl & Hch). simpl in *.
  apply Forall_dict_set; [|exact Hst].
  split; [exact Hp|split; [exact Hl|]].
  simpl. unfold Py.push. apply Forall_app. split; [exact Hch|].
  constructor; [exact Hc|constructor].
Qed.

Lemma add_rules_nodes (path : TaxonomyPath) (aliases : list string) :
  forall st,
  st_nodes (fold_left (fun s alias => add_rule (AliasRule.make alias path false None None) s)
                      aliases st)
  = st_nodes st.
Proof.
  induction aliases as [|a l IH]; intros st; simpl; [reflexivity|]. now rewrite IH.
Qed.

Lemma build_node_store_ok (max_depth : nat) (entry : NodeEntry) :
  forall parent st p st',
  _build_node entry parent max_depth st = Ok (p, st') ->
  store_ok max_depth (st_nodes st) ->
  store_ok max_depth (st_nodes st') /\ List.length p = S (List.length parent).
Proof.
  induction entry as [label keywords regexes aliases children IH] using node_entry_ind.
  intros parent st p st'. cbn [_build_node].
  destruct label as [raw|]; [|discriminate].
  destruct (negb (Py.truthy (Py.strip raw))); [discriminate|].
  destruct (max_depth <? _)%nat eqn:Ed; [discriminate|].
  destruct (find _ regexes); [discriminate|].
  destruct (Dict.has _ _); [discriminate|].
  apply Nat.ltb_ge in Ed.
  set (path := Py.push parent (Py.strip raw)) in *.
  set (st1 := fold_left _ aliases _).
  intros H Hst.
  assert (H1 : store_ok max_depth (st_nodes st1)).
  { subst st1. rewrite add_rules_nodes. now apply store_ok_new_node. }
  assert (Hlen : List.length path = S (List.length parent)) by apply push_length.
  clearbody st1 path. clear Hst.
  revert st1 H1 H. induction IH as [|c cs Hc _ IHcs]; intros st1 H1 H.
  - cbn in H. injection H as <- <-. auto.
  - cbn [bind] in H.
    destruct (_build_node c path max_depth st1) as [[cp st2]|e] eqn:Ec; [|discriminate].
    cbn [bind fst snd] in H.
    destruct (Hc path st1 cp st2 Ec H1) as [H2 Hcp].
    apply (IHcs (append_child path cp st2)); [|exact H].
    now apply store_ok_append_child.
Qed.

Lemma build_tree_store_ok (max_depth : nat) (entries : list NodeEntry) :
  forall st st',
  build_tree entries max_depth st = Ok st' ->
  store_ok max_depth (st_nodes st) -> store_ok max_depth (st_nodes st').
Proof.
  induction entries as [|e entries IH]; intros st st' H Hst.
  - injection H as <-. exact Hst.
  - cbn [build_tree bind] in H.
    destruct (_build_node e [] max_depth st) as [[p st1]|err] eqn:E; [|discriminate].
    cbn [bind snd] in H. apply (IH st1 st' H).
    now apply (build_node_store_ok max_depth e [] st p st1).
Qed.

Lemma parse_alias_entry_nodes (entry : AliasEntry.t) (st st' : BuildState) :
  parse_alias_entry entry st = Ok st' -> st_nodes st' = st_nodes st.
Proof.
  unfold parse_alias_entry.
  destruct (negb (Py.truthy _)); [discriminate|].
  destruct (AliasEntry.target entry) as [target|]; [|discriminate].
  destruct (negb (path_spec_truthy target)); [discriminate|].
  destruct (_ && _)%bool; [discriminate|].
  intros H. injection H as <-. simpl. now destruct (negb _).
Qed.

Lemma parse_alias_rules_nodes (entries : list AliasEntry.t) :
  forall st st', _parse_alias_rules entries st = Ok st' -> st_nodes st' = st_nodes st.
Proof.
  induction entries as [|e entries IH]; intros st st' H.
  - now injection H as <-.
  - cbn [_parse_alias_rules] in H.
    destruct (parse_alias_entry e st) as [st1|err] eqn:E; [|discriminate].
    cbn [bind] in H. rewrite (IH _ _ H). exact (parse_alias_entry_nodes e st st1 E).
Qed.

Lemma ensure_node_store_ok (max_depth : nat) (fuel : nat) :
  forall label parent st,
  store_ok max_depth (st_nodes st) ->
  store_ok max_depth (st_nodes (snd (_ensure_node fuel max_depth label parent st)))
  /\ forall p, fst (_ensure_node fuel max_depth label parent st) = Some p ->
               List.length p = S (List.length parent).
Proof.
  induction fuel as [|f IH]; intros label parent st Hst.
  - cbn [_ensure_node]. destruct label as [raw|]; [|split; [exact Hst|discriminate]].
    destruct (negb (Py.truthy (Py.strip raw))); [split; [exact Hst|discriminate]|].
    destruct (max_depth <? _)%nat eqn:Ed; [split; [exact Hst|discriminate]|].
    apply Nat.ltb_ge in Ed.
    assert (Hp : forall p, Some (Py.push parent (Py.strip raw)) = Some p ->
                           List.length p = S (List.length parent)).
    { intros p Hp. injection Hp as <-. apply push_length. }
    destruct (Dict.get _ (st_nodes st)); [split; [exact Hst|exact Hp]|].
    pose proof (store_ok_new_node max_depth parent (Py.strip raw)
                  (_derive_label_keywords (Py.strip raw) None)
                  (map Py.lower (_derive_label_keywords (Py.strip raw) None)) [] [] st Ed Hst)
      as Hnew.
    destruct parent as [|x xs]; [split; [exact Hnew|exact Hp]|].
    destruct (Dict.get (x :: xs) _); cbn [fst snd].
    + split; [|exact Hp]. apply store_ok_append_child; [apply push_length|exact Hnew].
    + split; [exact Hnew|exact Hp].
  - cbn [_ensure_node]. destruct label as [raw|]; [|split; [exact Hst|discriminate]].
    destruct (negb (Py.truthy (Py.strip raw))); [split; [exact Hst|discriminate]|].
    destruct (max_depth <? _)%nat eqn:Ed; [split; [exact Hst|discriminate]|].
    apply Nat.ltb_ge in Ed.
    assert (Hp : forall p, Some (Py.push parent (Py.strip raw)) = Some p ->
                           List.length p = S (List.length parent)).
    { intros p Hp. injection Hp as <-. apply push_length. }
    destruct (Dict.get _ (st_nodes st)); [split; [exact Hst|exact Hp]|].
    pose proof (store_ok_new_node max_depth parent (Py.strip raw)
                  (_derive_label_keywords (Py.strip raw) None)
                  (map Py.lower (_derive_label_keywords (Py.strip raw) None)) [] [] st Ed Hst)
      as Hnew.
    destruct parent as [|x xs]; [split; [exact Hnew|exact Hp]|].
    destruct (Dict.get (x :: xs) _); cbn [fst snd].
    + split; [|exact Hp]. apply store_ok_append_child; [apply push_length|exact Hnew].
    + destruct (IH (Some (last (x :: xs) "")) (removelast (x :: xs)) _ Hnew) as [H1 H2].
      destruct (_ensure_node f max_depth _ _ _) as [[pp|] st2]; cbn [fst snd] in *.
      * split; [|exact Hp]. apply store_ok_append_child; [|exact H1].
        rewrite push_length, (H2 pp eq_refl).
        now rewrite removelast_cons_length.
      * split; [exact H1|exact Hp].
Qed.

Lemma ensure_all_store_ok (max_depth : nat) (entries : list string) (parent : TaxonomyPath) :
  forall st, store_ok max_depth (st_nodes st) ->
             store_ok max_depth (st_nodes (ensure_all max_depth entries parent st)).
Proof.
  unfold ensure_all. induction entries as [|e entries IH]; intros st Hst; [exact Hst|].
  cbn [fold_left]. apply IH. unfold ensure. now apply ensure_node_store_ok.
Qed.

Lemma fold_left_store_ok {A : Type} (max_depth : nat) (f : BuildState -> A -> BuildState)
  (l : list A) :
  (forall st a, store_ok max_depth (st_nodes st) -> store_ok max_depth (st_nodes (f st a))) ->
  forall st, store_ok max_depth (st_nodes st) ->
             store_ok max_depth (st_nodes (fold_left f l st)).
Proof.
  intros Hf. induction l as [|a l IH]; intros st Hst; simpl; auto.
Qed.

Lemma metadata_model_store_ok (md : Metadata.t) (max_depth : nat) :
  store_ok max_depth (TaxonomyModel.nodes_by_path (fst (_build_model_from_metadata md max_depth))).
Proof.
  unfold _build_model_from_metadata. cbn [fst TaxonomyModel.nodes_by_path].
  apply fold_left_store_ok.
  { intros st [[category_parent sub_parent] entries] Hst. cbn [fst snd].
    assert (H1 : store_ok max_depth
              (st_nodes (snd (if ostr_truthy category_parent
                              then ensure max_depth category_parent [] st else (None, st))))).
    { destruct (ostr_truthy category_parent); [|exact Hst].
      now apply ensure_node_store_ok. }
    destruct (if ostr_truthy category_parent then _ else _) as [category_node s1].
    cbn [snd] in H1.
    set (current := match category_node with Some p => p | None => [] end).
    assert (H2 : store_ok max_depth
              (st_nodes (snd (if ostr_truthy sub_parent
                              then match ensure max_depth sub_parent current s1 with
                                   | (Some p, s') => (p, s')
                                   | (None, s') => (current, s')
                                   end
                              else (current, s1))))).
    { destruct (ostr_truthy sub_parent); [|exact H1].
      pose proof (proj1 (ensure_node_store_ok max_depth (List.length current)
                           sub_parent current s1 H1)) as H.
      unfold ensure. now destruct (_ensure_node _ _ _ _ _) as [[p|] s']. }
    destruct (if ostr_truthy sub_parent then _ else _) as [current' s2].
    now apply ensure_all_store_ok. }
  apply fold_left_store_ok.
  { intros st [parent_label entries] Hst. cbn [fst snd].
    assert (H1 : store_ok max_depth
              (st_nodes (snd (if ostr_truthy parent_label
                              then ensure max_depth parent_label [] st else (None, st))))).
    { destruct (ostr_truthy parent_label); [|exact Hst].
      now apply ensure_node_store_ok. }
    destruct (if ostr_truthy parent_label then _ else _) as [parent_node s1].
    now apply ensure_all_store_ok. }
  apply ensure_all_store_ok. constructor.
Qed.

Lemma built_model_store_ok (config : option Config.t) (md : option Metadata.t)
  (max_depth : nat) (model : TaxonomyModel.t) (warnings : list string) :
  build_taxonomy_model config md max_depth = Ok (model, warnings) ->
  store_ok max_depth (TaxonomyModel.nodes_by_path model)
  /\ TaxonomyModel.max_depth model = max_depth.
Proof.
  unfold build_taxonomy_model. destruct config as [config|].
  - destruct (Config.tree config) as [|e0 tree] eqn:Et; [discriminate|].
    destruct (build_tree (e0 :: tree) max_depth _) as [st|err] eqn:Eb; [|discriminate].
    cbn [bind].
    assert (Hst : store_ok max_depth (st_nodes st)).
    { apply (build_tree_store_ok max_depth (e0 :: tree) _ st Eb). constructor. }
    destruct (match Config.aliases config with [] => Ok st | _ => _ end)
      as [st'|err] eqn:Ea; [|discriminate].
    assert (Hn : st_nodes st' = st_nodes st).
    { destruct (Config.aliases config); [now injection Ea as <-|].
      now apply parse_alias_rules_nodes in Ea. }
    cbn [bind]. destruct (build_priority _ _ _ _) as [priority_map w].
    intros H. injection H as <- _. simpl. now rewrite Hn.
  - destruct md as [md|]; [|discriminate].
    intros H. injection H as <- _.
    split; [exact (metadata_model_store_ok md max_depth)|reflexivity].
Qed.

Lemma flat_map_ext_in {A B : Type} (f g : A -> list B) (l : list A) :
  (forall a, In a l -> f a = g a) -> flat_map f l = flat_map g l.
Proof.
  induction l as [|a l IH]; intros H; simpl; [reflexivity|].
  rewrite H by now left. f_equal. apply IH. intros b Hb. apply H. now right.
Qed.

Lemma node_iter_one_more (max_depth : nat) (store : list (TaxonomyPath * TaxonomyNode.t)) :
  store_ok max_depth store ->
  forall fuel k n,
  In (k, n) store -> (max_depth - List.length k <= fuel)%nat ->
  node_iter_nodes store (S fuel) n = node_iter_nodes store fuel n.
Proof.
  intros Hst. pose proof Hst as Hall. unfold store_ok in Hall. rewrite Forall_forall in Hall.
  induction fuel as [|f IH]; intros k n Hin Hf.
  - destruct (Hall _ Hin) as (_ & Hl & Hch). simpl in *.
    cbn [node_iter_nodes]. f_equal.
    rewrite (flat_map_ext_in _ (fun _ => [])).
    + clear. induction (TaxonomyNode.children n); simpl; auto.
    + intros c Hc. rewrite Forall_forall in Hch. specialize (Hch c Hc).
      destruct (Dict.get c store) as [child|] eqn:E; [|reflexivity].
      apply dict_get_in in E. destruct (Hall _ E) as (_ & Hlc & _). simpl in Hlc. lia.
  - destruct (Hall _ Hin) as (_ & Hl & Hch). simpl in *.
    change (node_iter_nodes store (S (S f)) n)
      with (n :: flat_map (fun c => match Dict.get c store with
                                    | Some child => node_iter_nodes store (S f) child
                                    | None => []
                                    end) (TaxonomyNode.children n)).
    change (node_iter_nodes store (S f) n)
      with (n :: flat_map (fun c => match Dict.get c store with
                                    | Some child => node_iter_nodes store f child
                                    | None => []
                                    end) (TaxonomyNode.children n)).
    f_equal. apply flat_map_ext_in. intros c Hc.
    rewrite Forall_forall in Hch. specialize (Hch c Hc).
    destruct (Dict.get c store) as [child|] eqn:E; [|reflexivity].
    apply dict_get_in in E. apply (IH c child E). lia.
Qed.

Lemma node_iter_more_fuel (max_depth : nat) (store : list (TaxonomyPath * TaxonomyNode.t))
  (k : TaxonomyPath) (n : TaxonomyNode.t) :
  store_ok max_depth store -> In (k, n) store ->
  forall extra, node_iter_nodes store (max_depth + extra) n = node_iter_nodes store max_depth n.
Proof.
  intros Hst Hin. induction extra as [|e IH].
  - now rewrite Nat.add_0_r.
  - rewrite Nat.add_succ_r, <- IH.
    apply (node_iter_one_more max_depth store Hst (max_depth + e) k n Hin). lia.
Qed.

(** X2: the walk of [iter_nodes] over a model that was built never runs out
    of fuel: with any more of it, it yields the same nodes. *)
Theorem iter_nodes_fuel_suffices (config : option Config.t) (md : option Metadata.t)
  (max_depth : nat) (model : TaxonomyModel.t) (warnings : list string) (extra : nat) :
  build_taxonomy_model config md max_depth = Ok (model, warnings) ->
  iter_nodes_with (TaxonomyModel.max_depth model + extra) model = iter_nodes model.
Proof.
  intros H. apply built_model_store_ok in H as [Hst Hd].
  unfold iter_nodes, iter_nodes_with. apply flat_map_ext_in. intros [k n] Hin. cbn [snd].
  destruct (_ =? 1)%nat; [|reflexivity]. rewrite Hd.
  now apply (node_iter_more_fuel max_depth _ k n).
Qed.

(** X1: a model built with a maximal depth of at most three is well formed. *)
Theorem built_model_well_formed (config : option Config.t) (md : option Metadata.t)
  (max_depth : nat) (model : TaxonomyModel.t) (warnings : list string) :
  (max_depth <= 3)%nat ->
  build_taxonomy_model config md max_depth = Ok (model, warnings) ->
  well_formed model = true.
Proof.
  intros Hd H. apply built_model_store_ok in H as [Hst _].
  unfold well_formed. apply forallb_forall. intros [k n] Hin.
  unfold store_ok in Hst. rewrite Forall_forall in Hst.
  destruct (Hst _ Hin) as (Hp & Hl & _). simpl in *.
  apply andb_true_intro. split.
  - unfold depth_ok. apply andb_true_intro. split; apply Nat.leb_le; lia.
  - now apply tuple_eqb_eq.
Qed.

End BuiltModels.

Section BuiltModelInstances.
#[local] Existing Instance Runtime.lib.

Lemma iter_nodes_fuel_witness :
  Taxonomy.build_taxonomy_model (Some Examples.vpn_outlook_config) None 3
  = Ok (Examples.vpn_outlook_taxonomy, [])
  /\ Taxonomy.iter_nodes_with (3 + 5) Examples.vpn_outlook_taxonomy
     = Taxonomy.iter_nodes Examples.vpn_outlook_taxonomy.
Proof.
  assert (H : Taxonomy.build_taxonomy_model (Some Examples.vpn_outlook_config) None 3
              = Ok (Examples.vpn_outlook_taxonomy, []))
    by (vm_compute; reflexivity).
  split; [exact H|].
  exact (iter_nodes_fuel_suffices (Some Examples.vpn_outlook_config) None 3
           Examples.vpn_outlook_taxonomy [] 5 H).
Defined.

Lemma built_model_well_formed_witness :
  well_formed Examples.general_it_taxonomy = true.
Proof.
  apply (built_model_well_formed None (Some Examples.general_it_metadata) 3
           Examples.general_it_taxonomy []).
  - lia.
  - vm_compute. reflexivity.
Defined.

End BuiltModelInstances.

(** ** The scenarios of the repository's tests, on the model *)

Section RepositoryTests.
#[local] Existing Instance Runtime.lib.
Import Taxonomy Examples.

Example test_build_taxonomy_model_from_metadata :
  map (fun p => Dict.has p (TaxonomyModel.nodes_by_path
                              (model_of (build_taxonomy_model None (Some adobe_metadata) 3))))
      [ ["Software"]; ["Hardware"]; ["Software"; "Adobe"];
        ["Software"; "Adobe"; "Photoshop"]; ["General"] ]
  = [true; true; true; true; true].
Proof. vm_compute. reflexivity. Qed.

Example test_build_taxonomy_model_missing_config_without_metadata :
  build_taxonomy_model None None 3
  = Raise (ValueError "Configuration is missing the 'taxonomy' section").
Proof. reflexivity. Qed.

Example test_leaf_level_match_preferred :
  top_paths (fst (run (build_taxonomy_model None (Some leaf_level_metadata) 3) 3
                      leaf_level_tickets))
  = [ (200%Z, Some (Some "Remote Access", Some "VPN (CATO)", None));
      (201%Z, Some (Some "Software", Some "Productivity", Some "MS Office / Outlook")) ]
  /\ map final_fields (snd (run (build_taxonomy_model None (Some leaf_level_metadata) 3) 3
                                leaf_level_tickets))
     = [ ("Remote Access", "VPN (CATO)", "");
         ("Software", "Productivity", "MS Office / Outlook") ].
Proof. split; vm_compute; reflexivity. Qed.

Example test_proximity_rules_create_expected_leaf_matches :
  top_paths (fst (run (build_taxonomy_model (Some proximity_config) None 3) 3
                      proximity_tickets))
  = [ (601%Z, Some (Some "Hardware", Some "Peripherals", Some "Audio / Video Devices"));
      (602%Z, Some (Some "Software", Some "Productivity", Some "MS Office / Outlook"));
      (603%Z, Some (Some "Remote Access", Some "VPN (CATO)", None));
      (604%Z, Some (Some "Computer Management", Some "Drive Mapping", None));
      (605%Z, Some (Some "Computer Management", Some "Intune Policy & Configuration",
                    None)) ].
Proof. vm_compute. reflexivity. Qed.

Example test_negative_keywords_demote_citrix_when_anyware_present :
  map (fun s => (SuggestedCategory.sub_category s,
                 Py.contains "Anyware/RDP" (SuggestedCategory.rationale s)))
      (match fst (run (build_taxonomy_model (Some citrix_config) None 3) 2 [citrix_ticket])
       with
       | [(_, l)] => l
       | _ => []
       end)
  = [ (Some "Anyware/RDP VM", true); (Some "Citrix (Legacy)", true) ].
Proof. vm_compute. reflexivity. Qed.

Example test_not_vpn_phrase_reduces_vpn_confidence :
  map (fun s => (SuggestedCategory.sub_category s,
                 Num.Qltb (SuggestedCategory.confidence s) (1 # 2),
                 Py.contains "not vpn" (Py.lower (SuggestedCategory.rationale s))))
      not_vpn_suggestions
  = [ (Some "Productivity", false, false); (Some "VPN (CATO)", true, true) ].
Proof. vm_compute. reflexivity. Qed.

Example test_tfidf_similarity_uses_assigned_ticket_text :
  top_paths (fst (run (build_taxonomy_model None (Some outlook_metadata) 3) 1
                      [new_ticket; seeded_ticket]))
  = [ (501%Z, Some (Some "Software", Some "Productivity", Some "MS Office / Outlook"));
      (500%Z, Some (Some "Software", Some "Productivity", Some "MS Office / Outlook")) ].
Proof. vm_compute. reflexivity. Qed.

End RepositoryTests.

(** ** Dictionaries and sets *)

Section Dictionaries.
Context {K V : Type} (eqb : K -> K -> bool).
Hypothesis eqb_spec : forall a b, eqb a b = true <-> a = b.

Lemma eqb_same (a : K) : eqb a a = true.
Proof. apply eqb_spec. reflexivity. Qed.

Lemma get_by_set_by (k k' : K) (v : V) (d : list (K * V)) :
  Dict.get_by eqb k (Dict.set_by eqb k' v d)
  = if eqb k k' then Some v else Dict.get_by eqb k d.
Proof.
  induction d as [|[k0 v0] r IH]; simpl.
  - reflexivity.
  - destruct (eqb k' k0) eqn:E.
    + apply eqb_spec in E. subst k0. simpl. destruct (eqb k k'); reflexivity.
    + simpl. destruct (eqb k k0) eqn:E0.
      * destruct (eqb k k') eqn:E1; [|reflexivity].
        apply eqb_spec in E0, E1. subst. rewrite eqb_same in E. discriminate.
      * exact IH.
Qed.

Lemma get_by_in (k : K) (v : V) (d : list (K * V)) :
  Dict.get_by eqb k d = Some v -> In (k, v) d.
Proof.
  induction d as [|[k0 v0] r IH]; simpl; [discriminate|].
  destruct (eqb k k0) eqn:E.
  - intros H. injection H as ->. apply eqb_spec in E. subst. left. reflexivity.
  - intros H. right. exact (IH H).
Qed.

Lemma get_by_none (k : K) (d : list (K * V)) :
  Dict.get_by eqb k d = None <-> ~ In k (map fst d).
Proof.
  induction d as [|[k0 v0] r IH]; simpl.
  - split; [intros _ []|reflexivity].
  - destruct (eqb k k0) eqn:E.
    + apply eqb_spec in E. subst. split; [discriminate|].
      intros H. exfalso. apply H. left. reflexivity.
    + rewrite IH. split.
      * intros H [H0|H0]; [|exact (H H0)]. subst. rewrite eqb_same in E. discriminate.
      * intros H H0. apply H. right. exact H0.
Qed.

Lemma in_get_by (k : K) (v : V) (d : list (K * V)) :
  NoDup (map fst d) -> In (k, v) d -> Dict.get_by eqb k d = Some v.
Proof.
  induction d as [|[k0 v0] r IH]; simpl; [intros _ []|].
  intros N [H|H].
  - injection H as -> ->. rewrite eqb_same. reflexivity.
  - inversion N as [|? ? N1 N2]; subst.
    destruct (eqb k k0) eqn:E.
    + apply eqb_spec in E. subst. exfalso. apply N1.
      change k0 with (fst (k0, v)). apply in_map. exact H.
    + exact (IH N2 H).
Qed.

Lemma keys_set_by (k : K) (v : V) (d : list (K * V)) :
  map fst (Dict.set_by eqb k v d)
  = match Dict.get_by eqb k d with
    | Some _ => map fst d
    | None => (map fst d ++ [k])%list
    end.
Proof.
  induction d as [|[k0 v0] r IH]; simpl; [reflexivity|].
  destruct (eqb k k0) eqn:E; simpl; [reflexivity|].
  rewrite IH. destruct (Dict.get_by eqb k r); reflexivity.
Qed.

Lemma nodup_set_by (k : K) (v : V) (d : list (K * V)) :
  NoDup (map fst d) -> NoDup (map fst (Dict.set_by eqb k v d)).
Proof.
  intros N. rewrite keys_set_by.
  destruct (Dict.get_by eqb k d) eqn:E; [exact N|].
  apply get_by_none in E.
  apply NoDup_app; [exact N|repeat constructor; intros []|].
  intros x H [H0|[]]. subst. exact (E H).
Qed.

Lemma in_set_by (k k' : K) (v v' : V) (d : list (K * V)) :
  In (k, v) (Dict.set_by eqb k' v' d) -> (k = k' /\ v = v') \/ In (k, v) d.
Proof.
  induction d as [|[k0 v0] r IH]; simpl.
  - intros [H|[]]. injection H as <- <-. left. split; reflexivity.
  - destruct (eqb k' k0) eqn:E.
    + apply eqb_spec in E. subst k0. intros [H|H].
      * injection H as <- <-. left. split; reflexivity.
      * right. right. exact H.
    + intros [H|H]; [right; left; exact H|].
      destruct (IH H) as [H0|H0]; [left; exact H0|right; right; exact H0].
Qed.

Lemma set_by_absent (k : K) (v : V) (d : list (K * V)) :
  Dict.get_by eqb k d = None -> Dict.set_by eqb k v d = (d ++ [(k, v)])%list.
Proof.
  induction d as [|[k0 v0] r IH]; simpl; [reflexivity|].
  destruct (eqb k k0); [discriminate|]. intros H. rewrite (IH H). reflexivity.
Qed.

End Dictionaries.

Section Sets.

Lemma string_eqb_spec (a b : string) : String.eqb a b = true <-> a = b.
Proof. apply String.eqb_eq. Qed.

Lemma sget_sset {V : Type} (k k' : string) (v : V) (d : list (string * V)) :
  Dict.sget k (Dict.sset k' v d) = if String.eqb k k' then Some v else Dict.sget k d.
Proof. apply get_by_set_by. exact string_eqb_spec. Qed.

Lemma dict_get_set {V : Type} (k k' : TaxonomyPath) (v : V) (d : list (TaxonomyPath * V)) :
  Dict.get k (Dict.set k' v d) = if Py.tuple_eqb k k' then Some v else Dict.get k d.
Proof. apply get_by_set_by. exact tuple_eqb_eq. Qed.

Lemma dict_has_set {V : Type} (k k' : TaxonomyPath) (v : V) (d : list (TaxonomyPath * V)) :
  Dict.has k (Dict.set k' v d) = Py.tuple_eqb k k' || Dict.has k d.
Proof.
  unfold Dict.has. rewrite dict_get_set. destruct (Py.tuple_eqb k k'); reflexivity.
Qed.

Lemma dict_has_get {V : Type} (k : TaxonomyPath) (d : list (TaxonomyPath * V)) :
  Dict.has k d = true -> exists v, Dict.get k d = Some v.
Proof. unfold Dict.has. destruct (Dict.get k d) as [v|]; [eauto|discriminate]. Qed.

Lemma dict_get_has {V : Type} (k : TaxonomyPath) (v : V) (d : list (TaxonomyPath * V)) :
  Dict.get k d = Some v -> Dict.has k d = true.
Proof. unfold Dict.has. intros ->. reflexivity. Qed.

Lemma dict_in_set {V : Type} (k k' : TaxonomyPath) (v v' : V) (d : list (TaxonomyPath * V)) :
  In (k, v) (Dict.set k' v' d) -> (k = k' /\ v = v') \/ In (k, v) d.
Proof. apply in_set_by. exact tuple_eqb_eq. Qed.

Lemma tuple_eqb_sym (a b : TaxonomyPath) : Py.tuple_eqb a b = Py.tuple_eqb b a.
Proof.
  destruct (Py.tuple_eqb a b) eqn:E; symmetry.
  - apply tuple_eqb_eq in E. subst. apply tuple_eqb_refl.
  - apply tuple_eqb_neq. apply tuple_eqb_neq in E. congruence.
Qed.

Lemma mem_in (x : string) (l : list string) : Py.mem x l = true <-> In x l.
Proof.
  unfold Py.mem. rewrite existsb_exists. split.
  - intros [y [H E]]. apply String.eqb_eq in E. subst. exact H.
  - intros H. exists x. split; [exact H|apply String.eqb_refl].
Qed.

Lemma mem_false (x : string) (l : list string) : Py.mem x l = false <-> ~ In x l.
Proof. rewrite <- mem_in. destruct (Py.mem x l); split; congruence. Qed.

Lemma dedup_acc_in (l : list string) :
  forall seen x, In x (Py.dedup_acc seen l) <-> In x l /\ ~ In x seen.
Proof.
  induction l as [|y r IH]; intros seen x; simpl.
  - tauto.
  - destruct (Py.mem y seen) eqn:E.
    + rewrite IH. apply mem_in in E. split.
      * intros [H H0]. tauto.
      * intros [[H|H] H0]; [subst; contradiction|tauto].
    + apply mem_false in E. simpl. rewrite IH. simpl. split.
      * intros [H|[H H0]]; [subst; tauto|]. tauto.
      * intros [[H|H] H0]; [left; exact H|].
        destruct (string_dec y x) as [->|N]; [left; reflexivity|right]. tauto.
Qed.

Lemma dedup_acc_nodup (l : list string) : forall seen, NoDup (Py.dedup_acc seen l).
Proof.
  induction l as [|y r IH]; intros seen; simpl; [constructor|].
  destruct (Py.mem y seen); [apply IH|].
  constructor; [|apply IH]. rewrite dedup_acc_in. simpl. tauto.
Qed.

Lemma to_set_in (l : list string) (x : string) : In x (Py.to_set l) <-> In x l.
Proof. unfold Py.to_set. rewrite dedup_acc_in. simpl. tauto. Qed.

Lemma to_set_nodup (l : list string) : NoDup (Py.to_set l).
Proof. apply dedup_acc_nodup. Qed.

Lemma set_add_in (x v : string) (s : list string) :
  In x (Py.set_add v s) <-> x = v \/ In x s.
Proof.
  unfold Py.set_add, Py.push. destruct (Py.mem v s) eqn:E.
  - apply mem_in in E. split; [tauto|]. intros [->|H]; assumption.
  - rewrite in_app_iff. simpl. split; [intros [H|[H|[]]]|intros [H|H]]; auto.
Qed.

End Sets.

(** ** Strings: lowering and stripping *)

Section Strings.

Lemma append_empty_r (s : string) : s ++ "" = s.
Proof. induction s as [|c r IH]; simpl; [reflexivity|]. rewrite IH. reflexivity. Qed.

Lemma append_assoc (a b c : string) : (a ++ b) ++ c = a ++ (b ++ c).
Proof. induction a as [|x r IH]; simpl; [reflexivity|]. rewrite IH. reflexivity. Qed.

Lemma is_upper_range (c : ascii) :
  Py.is_upper c = true <-> (65 <= nat_of_ascii c <= 90)%nat.
Proof. unfold Py.is_upper. rewrite andb_true_iff, !Nat.leb_le. tauto. Qed.

Lemma lower_char_upper (c : ascii) :
  Py.is_upper c = true -> nat_of_ascii (Py.lower_char c) = (nat_of_ascii c + 32)%nat.
Proof.
  intros H. unfold Py.lower_char. rewrite H.
  apply is_upper_range in H. apply nat_ascii_embedding. lia.
Qed.

Lemma lower_char_word (c : ascii) : Py.is_word_char (Py.lower_char c) = Py.is_word_char c.
Proof. destruct c as [[] [] [] [] [] [] [] []]; vm_compute; reflexivity. Qed.

Lemma lower_char_not_upper (c : ascii) : Py.is_upper (Py.lower_char c) = false.
Proof.
  destruct (Py.is_upper c) eqn:E.
  - pose proof (lower_char_upper c E) as H. apply is_upper_range in E.
    unfold Py.is_upper. rewrite H.
    repeat match goal with
           | |- context [(?a <=? ?b)%nat] => destruct (Nat.leb_spec a b)
           end; try reflexivity; lia.
  - unfold Py.lower_char. rewrite E. exact E.
Qed.

Lemma lower_char_idem (c : ascii) : Py.lower_char (Py.lower_char c) = Py.lower_char c.
Proof. unfold Py.lower_char at 1. rewrite lower_char_not_upper. reflexivity. Qed.

Lemma lower_idem (s : string) : Py.lower (Py.lower s) = Py.lower s.
Proof.
  induction s as [|c r IH]; simpl; [reflexivity|]. rewrite lower_char_idem, IH. reflexivity.
Qed.

Lemma lower_app (a b : string) : Py.lower (a ++ b) = Py.lower a ++ Py.lower b.
Proof. induction a as [|c r IH]; simpl; [reflexivity|]. rewrite IH. reflexivity. Qed.

Lemma lower_truthy (s : string) : Py.truthy (Py.lower s) = Py.truthy s.
Proof. destruct s; reflexivity. Qed.

Lemma space_not_word (c : ascii) : Py.is_space c = true -> Py.is_word_char c = false.
Proof.
  destruct c as [[] [] [] [] [] [] [] []]; vm_compute; intros H;
    (reflexivity || discriminate H).
Qed.

Lemma rstrip_app_space (t : string) : Py.rstrip (t ++ " ") = Py.rstrip t.
Proof.
  induction t as [|c r IH]; [reflexivity|].
  cbn [append Py.rstrip]. rewrite IH. reflexivity.
Qed.

Lemma strip_app_space (s : string) : Py.strip (s ++ " ") = Py.strip s.
Proof.
  unfold Py.strip. induction s as [|c r IH]; [reflexivity|].
  cbn [append Py.lstrip]. destruct (Py.is_space c); [exact IH|].
  exact (rstrip_app_space (String c r)).
Qed.

Lemma rstrip_idempotent (t : string) : Py.rstrip (Py.rstrip t) = Py.rstrip t.
Proof.
  induction t as [|c r IH]; [reflexivity|].
  cbn [Py.rstrip]. destruct (Py.rstrip r) as [|d r'] eqn:E.
  - destruct (Py.is_space c) eqn:Ec; [reflexivity|]. cbn [Py.rstrip]. rewrite Ec. reflexivity.
  - cbn [Py.rstrip]. cbn [Py.rstrip] in IH. rewrite IH. reflexivity.
Qed.

Lemma lstrip_head (s : string) :
  match Py.lstrip s with
  | EmptyString => True
  | String c _ => Py.is_space c = false
  end.
Proof.
  induction s as [|c r IH]; [exact I|].
  cbn [Py.lstrip]. destruct (Py.is_space c) eqn:E; [exact IH|exact E].
Qed.

Lemma strip_idempotent (s : string) : Py.strip (Py.strip s) = Py.strip s.
Proof.
  unfold Py.strip. pose proof (lstrip_head s) as H.
  destruct (Py.lstrip s) as [|c r]; [reflexivity|].
  assert (Py.lstrip (Py.rstrip (String c r)) = Py.rstrip (String c r)) as ->.
  { cbn [Py.rstrip]. destruct (Py.rstrip r); [rewrite H|]; cbn [Py.lstrip]; rewrite H;
      reflexivity. }
  apply rstrip_idempotent.
Qed.

Lemma rstrip_empty (s : string) :
  Py.rstrip s = "" -> forallb Py.is_space (list_ascii_of_string s) = true.
Proof.
  induction s as [|c r IH]; simpl; [reflexivity|].
  destruct (Py.rstrip r); [|discriminate].
  destruct (Py.is_space c); [|discriminate]. intros _. exact (IH eq_refl).
Qed.

Lemma forallb_string_app (p : ascii -> bool) (a b : string) :
  forallb p (list_ascii_of_string (a ++ b))
  = forallb p (list_ascii_of_string a) && forallb p (list_ascii_of_string b).
Proof.
  induction a as [|c r IH]; simpl; [reflexivity|]. rewrite IH, andb_assoc. reflexivity.
Qed.

End Strings.

(** ** Tokens *)

Section Tokens.

Lemma findall_cons (cur : string) (c : ascii) (r : string) :
  Py.findall_tokens_acc cur (String c r)
  = if Py.is_word_char c then Py.findall_tokens_acc (cur ++ String c "") r
    else if Py.truthy cur then cur :: Py.findall_tokens_acc "" r
    else Py.findall_tokens_acc "" r.
Proof. reflexivity. Qed.

Lemma findall_lower (s : string) :
  forall cur,
  map Py.lower (Py.findall_tokens_acc (Py.lower cur) (Py.lower s))
  = map Py.lower (Py.findall_tokens_acc cur s).
Proof.
  induction s as [|c r IH]; intros cur; simpl.
  - destruct cur; simpl; [reflexivity|]. rewrite lower_char_idem, lower_idem. reflexivity.
  - rewrite lower_char_word. destruct (Py.is_word_char c).
    + rewrite <- IH. rewrite lower_app. reflexivity.
    + destruct cur as [|d cur]; simpl.
      * exact (IH "").
      * rewrite lower_char_idem, lower_idem. f_equal. exact (IH "").
Qed.

Lemma raw_tokens_lower (text : string) : TA._raw_tokens (Py.lower text) = TA._raw_tokens text.
Proof. exact (findall_lower text ""). Qed.

(** a string that the pattern finds nothing new in: it has no word
    character *)
Lemma findall_no_word (s : string) :
  forallb (fun c => negb (Py.is_word_char c)) (list_ascii_of_string s) = true ->
  forall cur, Py.findall_tokens_acc cur s = if Py.truthy cur then [cur] else [].
Proof.
  induction s as [|c r IH]; simpl; intros H cur; [reflexivity|].
  apply andb_true_iff in H. destruct H as [H H0].
  apply negb_true_iff in H. rewrite H, (IH H0). simpl.
  destruct (Py.truthy cur); reflexivity.
Qed.

Lemma spaces_no_word (s : string) :
  forallb Py.is_space (list_ascii_of_string s) = true ->
  forallb (fun c => negb (Py.is_word_char c)) (list_ascii_of_string s) = true.
Proof.
  rewrite !forallb_forall. intros H c Hc. rewrite (space_not_word c (H c Hc)). reflexivity.
Qed.

Lemma findall_rstrip (s : string) :
  forall cur, Py.findall_tokens_acc cur (Py.rstrip s) = Py.findall_tokens_acc cur s.
Proof.
  induction s as [|c r IH]; intros cur; [reflexivity|].
  cbn [Py.rstrip]. destruct (Py.rstrip r) as [|d r'] eqn:E.
  - pose proof (spaces_no_word r (rstrip_empty r E)) as N.
    destruct (Py.is_space c) eqn:Ec.
    + cbn [Py.findall_tokens_acc]. rewrite (space_not_word c Ec).
      rewrite (findall_no_word r N). destruct (Py.truthy cur); reflexivity.
    + cbn [Py.findall_tokens_acc]. rewrite !(findall_no_word r N).
      destruct (Py.is_word_char c); destruct (Py.truthy cur); reflexivity.
  - rewrite (findall_cons cur c (String d r')), (findall_cons cur c r), !IH. reflexivity.
Qed.

Lemma findall_lstrip (s : string) :
  Py.findall_tokens_acc "" (Py.lstrip s) = Py.findall_tokens_acc "" s.
Proof.
  induction s as [|c r IH]; [reflexivity|].
  cbn [Py.lstrip]. destruct (Py.is_space c) eqn:E; [|reflexivity].
  cbn [Py.findall_tokens_acc]. rewrite (space_not_word c E). exact IH.
Qed.

Lemma raw_tokens_strip (text : string) : TA._raw_tokens (Py.strip text) = TA._raw_tokens text.
Proof.
  unfold TA._raw_tokens, TA.TOKEN_PATTERN_findall, Py.findall_tokens, Py.strip.
  rewrite findall_rstrip, findall_lstrip. reflexivity.
Qed.

Lemma findall_word_tokens (s : string) :
  forall cur,
  forallb Py.is_word_char (list_ascii_of_string cur) = true ->
  Forall (fun t => Py.fullmatch_token t = true) (Py.findall_tokens_acc cur s).
Proof.
  induction s as [|c r IH]; intros cur H; simpl.
  - destruct cur; simpl; constructor; [|constructor].
    unfold Py.fullmatch_token. simpl. exact H.
  - destruct (Py.is_word_char c) eqn:E.
    + apply IH. rewrite forallb_string_app, H. simpl. rewrite E. reflexivity.
    + destruct cur as [|d cur]; simpl; [exact (IH "" eq_refl)|].
      constructor; [|exact (IH "" eq_refl)].
      unfold Py.fullmatch_token. simpl. exact H.
Qed.

Lemma lower_is_token (t : string) : Py.fullmatch_token t = true -> is_token (Py.lower t) = true.
Proof.
  unfold Py.fullmatch_token, is_token. rewrite !andb_true_iff. intros [H H0]. split.
  - destruct t; [discriminate|reflexivity].
  - clear H. induction t as [|c r IH]; simpl in *; [reflexivity|].
    apply andb_true_iff in H0. destruct H0 as [H0 H1].
    rewrite lower_char_word, H0, lower_char_not_upper, (IH H1). reflexivity.
Qed.

Lemma is_token_fixed (t : string) :
  is_token t = true -> Py.fullmatch_token t = true /\ Py.lower t = t.
Proof.
  unfold Py.fullmatch_token, is_token. rewrite !andb_true_iff. intros [H H0]. split.
  - split; [exact H|]. rewrite forallb_forall in *. intros c Hc.
    specialize (H0 c Hc). apply andb_true_iff in H0. apply H0.
  - clear H. induction t as [|c r IH]; simpl in *; [reflexivity|].
    apply andb_true_iff in H0. destruct H0 as [H0 H1]. rewrite (IH H1).
    apply andb_true_iff in H0. destruct H0 as [_ H0]. apply negb_true_iff in H0.
    unfold Py.lower_char. rewrite H0. reflexivity.
Qed.

Lemma raw_tokens_are_tokens (text : string) :
  Forall (fun t => is_token t = true) (TA._raw_tokens text).
Proof.
  unfold TA._raw_tokens, TA.TOKEN_PATTERN_findall, Py.findall_tokens.
  pose proof (findall_word_tokens text "" eq_refl) as H.
  induction H as [|t r H _ IH]; simpl; constructor; [|exact IH].
  apply lower_is_token. exact H.
Qed.

(** X4: every token [_raw_tokens] returns is a non-empty word of the
    characters a-z, 0-9 and _, which lowering leaves as it is and the
    token pattern matches in full; and stripping a text first does not
    change its tokens. *)
Theorem raw_tokens_spec (text : string) :
  Forall (fun t => is_token t = true /\ Py.fullmatch_token t = true /\ Py.lower t = t)
         (TA._raw_tokens text)
  /\ TA._raw_tokens (Py.strip text) = TA._raw_tokens text.
Proof.
  split; [|apply raw_tokens_strip].
  pose proof (raw_tokens_are_tokens text) as H.
  rewrite Forall_forall in *. intros t Ht. split; [exact (H t Ht)|].
  apply is_token_fixed. exact (H t Ht).
Qed.

(** X5: for a ticket whose text is ASCII, the three texts the engine
    builds from it give the same tokens: the lowercased corpus text of the
    TF-IDF vectors, the unstripped text of the keyword statistics, and the
    combined text the matcher reads (lowercased or not). *)
Theorem ticket_texts_share_tokens (ticket : TicketRecord.t) :
  is_ascii (TA.ticket_text ticket) = true ->
  TA._raw_tokens (TA.corpus_text ticket) = TA._raw_tokens (TA.combined_text ticket)
  /\ TA._raw_tokens (TA.ticket_text ticket) = TA._raw_tokens (TA.combined_text ticket)
  /\ TA._raw_tokens (Py.lower (TA.combined_text ticket))
     = TA._raw_tokens (TA.combined_text ticket).
Proof.
  intros _. split; [|split].
  - unfold TA.corpus_text. rewrite raw_tokens_lower. reflexivity.
  - unfold TA.combined_text. rewrite raw_tokens_strip. reflexivity.
  - apply raw_tokens_lower.
Qed.

(** X6: [tokenize] of an analyzer never returns a configured stop word,
    in whatever case it was configured (its lowercase form is what is
    dropped), and every token it returns is a lowercase word of at least
    [keyword_min_length] characters. *)
Theorem tokenize_drops_stop_words (taxonomy : TaxonomyModel.t)
  (keyword_min_length min_keyword_frequency max_suggestions_per_ticket : Z)
  (stop_words : list string) (tfidf_leaf_threshold tfidf_weight : Q)
  (text word : string) :
  In word stop_words ->
  let self := TA.init taxonomy keyword_min_length min_keyword_frequency
                      max_suggestions_per_ticket stop_words
                      tfidf_leaf_threshold tfidf_weight in
  ~ In (Py.lower word) (TA.tokenize self text)
  /\ Forall (fun t => is_token t = true
                      /\ (keyword_min_length <= Z.of_nat (String.length t))%Z)
            (TA.tokenize self text).
Proof.
  intros H. cbv zeta. unfold TA.tokenize, TA._filter_tokens.
  cbn [TA.stop_words TA.keyword_min_length TA.init].
  split.
  - rewrite filter_In. intros [_ H0]. apply andb_true_iff in H0. destruct H0 as [_ H0].
    apply negb_true_iff in H0. apply mem_false in H0. apply H0.
    apply to_set_in. apply in_map. exact H.
  - rewrite Forall_forall. intros t Ht. apply filter_In in Ht. destruct Ht as [Ht H0].
    apply andb_true_iff in H0. destruct H0 as [H0 _]. apply Z.leb_le in H0.
    split; [|exact H0].
    pose proof (raw_tokens_are_tokens text) as F. rewrite Forall_forall in F. exact (F t Ht).
Qed.

End Tokens.

(** ** Keyword statistics of a batch *)

Section KeywordStatistics.

Lemma occurrences_cons (token t : string) (r : list string) :
  occurrences token (t :: r)
  = ((if String.eqb token t then 1 else 0) + occurrences token r)%Z.
Proof.
  unfold occurrences. simpl.
  destruct (string_dec t token) as [->|N].
  - rewrite String.eqb_refl. lia.
  - destruct (String.eqb token t) eqn:E; [|lia].
    apply String.eqb_eq in E. congruence.
Qed.

Lemma occurrences_app (token : string) (a b : list string) :
  occurrences token (a ++ b) = (occurrences token a + occurrences token b)%Z.
Proof. unfold occurrences. rewrite count_occ_app. lia. Qed.

Lemma occurrences_nonneg (token : string) (l : list string) : (0 <= occurrences token l)%Z.
Proof. unfold occurrences. lia. Qed.

Lemma occurrences_to_set (token : string) (l : list string) :
  occurrences token (Py.to_set l) = if Py.mem token l then 1%Z else 0%Z.
Proof.
  unfold occurrences. destruct (Py.mem token l) eqn:E.
  - apply mem_in in E. apply to_set_in in E.
    pose proof (to_set_nodup l) as N.
    rewrite (NoDup_count_occ string_dec) in N. specialize (N token).
    apply (count_occ_In string_dec) in E. lia.
  - apply mem_false in E. rewrite <- to_set_in in E.
    apply (count_occ_not_In string_dec) in E. rewrite E. reflexivity.
Qed.

Lemma counter_update_get (tokens : list string) :
  forall counts token,
  Dict.sget token (TA.counter_update counts tokens)
  = if (occurrences token tokens =? 0)%Z then Dict.sget token counts
    else Some (count_of token counts + occurrences token tokens)%Z.
Proof.
  induction tokens as [|t r IH]; intros counts token.
  - reflexivity.
  - unfold TA.counter_update in *. cbn [fold_left]. rewrite IH.
    rewrite occurrences_cons. unfold count_of. rewrite sget_sset.
    pose proof (occurrences_nonneg token r) as N.
    destruct (String.eqb token t) eqn:E.
    + apply String.eqb_eq in E. subst t.
      destruct (occurrences token r =? 0)%Z eqn:E0.
      * apply Z.eqb_eq in E0. rewrite E0.
        replace (1 + 0 =? 0)%Z with false by reflexivity. f_equal; lia.
      * replace (1 + occurrences token r =? 0)%Z with false
          by (symmetry; apply Z.eqb_neq; lia).
        f_equal; lia.
    + rewrite Z.add_0_l. reflexivity.
Qed.

Lemma counter_update_nodup (tokens : list string) :
  forall counts, NoDup (map fst counts) -> NoDup (map fst (TA.counter_update counts tokens)).
Proof.
  induction tokens as [|t r IH]; intros counts N; [exact N|].
  unfold TA.counter_update in *. cbn [fold_left]. apply IH.
  apply nodup_set_by; [exact string_eqb_spec|exact N].
Qed.

(** a counter that is updated with the tokens [g] gives for each ticket *)
Lemma counting_get (g : TicketRecord.t -> list string) (tickets : list TicketRecord.t) :
  forall counts token,
  Dict.sget token (fold_left (fun counts ticket => TA.counter_update counts (g ticket))
                             tickets counts)
  = if (occurrences token (flat_map g tickets) =? 0)%Z then Dict.sget token counts
    else Some (count_of token counts + occurrences token (flat_map g tickets))%Z.
Proof.
  induction tickets as [|t r IH]; intros counts token.
  - reflexivity.
  - cbn [fold_left flat_map]. rewrite IH. rewrite occurrences_app.
    unfold count_of. rewrite counter_update_get.
    pose proof (occurrences_nonneg token (g t)) as N1.
    pose proof (occurrences_nonneg token (flat_map g r)) as N2.
    destruct (occurrences token (flat_map g r) =? 0)%Z eqn:E.
    + apply Z.eqb_eq in E. rewrite E, Z.add_0_r. reflexivity.
    + apply Z.eqb_neq in E.
      replace (occurrences token (g t) + occurrences token (flat_map g r) =? 0)%Z
        with false by (symmetry; apply Z.eqb_neq; lia).
      destruct (occurrences token (g t) =? 0)%Z eqn:E1.
      * apply Z.eqb_eq in E1. rewrite E1. reflexivity.
      * unfold count_of. f_equal; lia.
Qed.

Lemma counting_nodup (g : TicketRecord.t -> list string) (tickets : list TicketRecord.t) :
  forall counts,
  NoDup (map fst counts) ->
  NoDup (map fst (fold_left (fun counts ticket => TA.counter_update counts (g ticket))
                            tickets counts)).
Proof.
  induction tickets as [|t r IH]; intros counts N; [exact N|].
  cbn [fold_left]. apply IH. apply counter_update_nodup. exact N.
Qed.

(** X7: the counter [keyword_counts] returns holds, for every token, the
    number of times [tokenize] yields it over the tickets of the batch, and
    has no entry for a token that never occurs. *)
Theorem keyword_counts_lookup (self : TA.t) (tickets : list TicketRecord.t) (token : string) :
  Dict.sget token (TA.keyword_counts self tickets)
  = if (occurrences token (batch_tokens self tickets) =? 0)%Z then None
    else Some (occurrences token (batch_tokens self tickets)).
Proof.
  unfold TA.keyword_counts, batch_tokens.
  rewrite (counting_get (fun ticket => TA.tokenize self (TA.ticket_text ticket))).
  destruct (_ =? 0)%Z; reflexivity.
Qed.

Lemma mentioning_occurrences (self : TA.t) (token : string) (tickets : list TicketRecord.t) :
  occurrences token
    (flat_map (fun ticket => Py.to_set (TA.tokenize self (TA.ticket_text ticket))) tickets)
  = tickets_mentioning self token tickets.
Proof.
  unfold tickets_mentioning.
  induction tickets as [|t r IH]; [reflexivity|].
  cbn [flat_map filter]. rewrite occurrences_app, IH, occurrences_to_set.
  destruct (Py.mem token (TA.tokenize self (TA.ticket_text t))); cbn [List.length]; lia.
Qed.

Lemma ticket_frequencies_get (self : TA.t) (tickets : list TicketRecord.t) (token : string) :
  Dict.sget token (TA.ticket_frequencies self tickets)
  = if (tickets_mentioning self token tickets =? 0)%Z then None
    else Some (tickets_mentioning self token tickets).
Proof.
  unfold TA.ticket_frequencies.
  rewrite (counting_get
             (fun ticket => Py.to_set (TA.tokenize self (TA.ticket_text ticket)))).
  rewrite mentioning_occurrences. destruct (_ =? 0)%Z; reflexivity.
Qed.

Lemma ticket_frequencies_nodup (self : TA.t) (tickets : list TicketRecord.t) :
  NoDup (map fst (TA.ticket_frequencies self tickets)).
Proof. apply counting_nodup. constructor. Qed.

Lemma insert_by_count_perm (x : string * Z) (l : list (string * Z)) :
  Permutation (TA.insert_by_count x l) (x :: l).
Proof.
  induction l as [|y r IH]; simpl; [apply Permutation_refl|].
  destruct (snd y <=? snd x)%Z; [apply Permutation_refl|].
  eapply Permutation_trans; [apply perm_skip; exact IH|apply perm_swap].
Qed.

Lemma sort_by_count_perm (l : list (string * Z)) :
  Permutation (fold_right TA.insert_by_count [] l) l.
Proof.
  induction l as [|x r IH]; simpl; [constructor|].
  eapply Permutation_trans; [apply insert_by_count_perm|]. apply perm_skip. exact IH.
Qed.

Lemma insert_by_count_sorted (x : string * Z) (l : list (string * Z)) :
  StronglySorted count_ge l -> StronglySorted count_ge (TA.insert_by_count x l).
Proof.
  induction 1 as [|y r S IH F]; simpl.
  - constructor; constructor.
  - destruct (snd y <=? snd x)%Z eqn:E.
    + apply Z.leb_le in E. constructor; [constructor; assumption|].
      constructor; [exact E|].
      rewrite Forall_forall in *. intros z Hz. specialize (F z Hz).
      unfold count_ge in *. lia.
    + apply Z.leb_gt in E. constructor; [exact IH|].
      rewrite Forall_forall in *. intros z Hz.
      apply (Permutation_in _ (insert_by_count_perm x r)) in Hz.
      destruct Hz as [<-|Hz]; [unfold count_ge; lia|exact (F z Hz)].
Qed.

Lemma nodup_keys_filter {V : Type} (f : string * V -> bool) (d : list (string * V)) :
  NoDup (map fst d) -> NoDup (map fst (filter f d)).
Proof.
  induction d as [|x r IH]; simpl; [intros; constructor|].
  intros N. inversion N as [|? ? N1 N2]; subst.
  destruct (f x); [|exact (IH N2)].
  simpl. constructor; [|exact (IH N2)].
  intros H. apply N1. apply in_map_iff in H. destruct H as [y [E H]].
  apply filter_In in H. rewrite <- E. apply in_map. apply H.
Qed.

Lemma detect_repeating_sorted (self : TA.t) (tickets : list TicketRecord.t) :
  StronglySorted count_ge (TA.detect_repeating_keywords self tickets).
Proof.
  unfold TA.detect_repeating_keywords.
  induction (filter _ (TA.ticket_frequencies self tickets)) as [|x r IH];
    simpl; [constructor|].
  apply insert_by_count_sorted. exact IH.
Qed.

Lemma detect_repeating_nodup (self : TA.t) (tickets : list TicketRecord.t) :
  NoDup (map fst (TA.detect_repeating_keywords self tickets)).
Proof.
  unfold TA.detect_repeating_keywords. eapply Permutation_NoDup.
  - apply Permutation_map. apply Permutation_sym. apply sort_by_count_perm.
  - apply nodup_keys_filter. apply ticket_frequencies_nodup.
Qed.

(** X8: [detect_repeating_keywords] lists each keyword once, by decreasing
    count; a pair (token, n) is listed exactly when n is the number of
    tickets whose tokens contain the token, n is positive and n reaches
    [min_keyword_frequency]. *)
Theorem detect_repeating_keywords_spec (self : TA.t) (tickets : list TicketRecord.t) :
  StronglySorted count_ge (TA.detect_repeating_keywords self tickets)
  /\ NoDup (map fst (TA.detect_repeating_keywords self tickets))
  /\ forall token n,
       In (token, n) (TA.detect_repeating_keywords self tickets)
       <-> n = tickets_mentioning self token tickets
           /\ (0 < n)%Z /\ (TA.min_keyword_frequency self <= n)%Z.
Proof.
  split; [apply detect_repeating_sorted|]. split; [apply detect_repeating_nodup|].
  unfold TA.detect_repeating_keywords.
  intros token n.
  assert (forall x, In x (fold_right TA.insert_by_count []
                            (filter (fun item : string * Z =>
                                       (TA.min_keyword_frequency self <=? snd item)%Z)
                                    (TA.ticket_frequencies self tickets)))
                    <-> In x (TA.ticket_frequencies self tickets)
                        /\ (TA.min_keyword_frequency self <= snd x)%Z) as M.
  { intros x. split.
    - intros H. apply (Permutation_in _ (sort_by_count_perm _)) in H.
      apply filter_In in H. destruct H as [H H0]. apply Z.leb_le in H0. split; assumption.
    - intros [H H0].
      apply (Permutation_in _ (Permutation_sym (sort_by_count_perm _))).
      apply filter_In. split; [exact H|apply Z.leb_le; exact H0]. }
  rewrite M. cbn [snd].
  pose proof (ticket_frequencies_get self tickets token) as G.
  assert (0 <= tickets_mentioning self token tickets)%Z as P
    by (unfold tickets_mentioning; lia).
  split.
  - intros [H H0].
    apply (in_get_by String.eqb string_eqb_spec) in H;
      [|apply ticket_frequencies_nodup].
    unfold Dict.sget in G. rewrite H in G.
    destruct (tickets_mentioning self token tickets =? 0)%Z eqn:E; [discriminate|].
    apply Z.eqb_neq in E. injection G as ->. lia.
  - intros [-> [H H0]]. split; [|exact H0].
    apply (get_by_in String.eqb string_eqb_spec).
    unfold Dict.sget in G. rewrite G.
    replace (tickets_mentioning self token tickets =? 0)%Z with false
      by (symmetry; apply Z.eqb_neq; lia).
    reflexivity.
Qed.

End KeywordStatistics.

(** ** Categories already on the tickets *)

Section ExistingCategories.

Lemma add_existing_get (key key' value : string) (existing : list (string * list string)) :
  Taxonomy.get_list key' (TA.add_existing key value existing)
  = if String.eqb key' key then Py.set_add value (Taxonomy.get_list key existing)
    else Taxonomy.get_list key' existing.
Proof.
  unfold Taxonomy.get_list, TA.add_existing. rewrite sget_sset.
  destruct (String.eqb key' key); reflexivity.
Qed.

Lemma truthy_field (o : option string) (v : string) :
  (TA.ostr_truthy o = true /\ TA.or_empty o = v) <-> (o = Some v /\ v <> "").
Proof.
  destruct o as [s|]; unfold TA.ostr_truthy; simpl.
  - destruct s; simpl; split; intros [H H0]; try discriminate.
    + injection H as <-. congruence.
    + subst. split; [reflexivity|discriminate].
    + injection H as <-. split; reflexivity.
  - split; intros [H H0]; discriminate.
Qed.

Lemma record_existing_values (existing : list (string * list string))
  (ticket : TicketRecord.t) (value : string) :
  (In value (Taxonomy.get_list "category" (TA.record_existing existing ticket))
   <-> In value (Taxonomy.get_list "category" existing)
       \/ (TicketRecord.category ticket = Some value /\ value <> ""))
  /\ (In value (Taxonomy.get_list "sub_category" (TA.record_existing existing ticket))
      <-> In value (Taxonomy.get_list "sub_category" existing)
          \/ (TicketRecord.sub_category ticket = Some value /\ value <> ""))
  /\ (In value (Taxonomy.get_list "item_category" (TA.record_existing existing ticket))
      <-> In value (Taxonomy.get_list "item_category" existing)
          \/ (TicketRecord.item_category ticket = Some value /\ value <> "")).
Proof.
  unfold TA.record_existing.
  rewrite <- !truthy_field.
  destruct (TA.ostr_truthy (TicketRecord.category ticket));
    destruct (TA.ostr_truthy (TicketRecord.sub_category ticket));
    destruct (TA.ostr_truthy (TicketRecord.item_category ticket));
    rewrite ?add_existing_get; cbn [String.eqb Ascii.eqb Bool.eqb];
    rewrite ?set_add_in; repeat split; intros; intuition congruence.
Qed.

Lemma extract_fold (tickets : list TicketRecord.t) (value : string) :
  forall existing,
  (In value (Taxonomy.get_list "category" (fold_left TA.record_existing tickets existing))
   <-> In value (Taxonomy.get_list "category" existing)
       \/ has_value TicketRecord.category tickets value)
  /\ (In value (Taxonomy.get_list "sub_category" (fold_left TA.record_existing tickets existing))
      <-> In value (Taxonomy.get_list "sub_category" existing)
          \/ has_value TicketRecord.sub_category tickets value)
  /\ (In value (Taxonomy.get_list "item_category" (fold_left TA.record_existing tickets existing))
      <-> In value (Taxonomy.get_list "item_category" existing)
          \/ has_value TicketRecord.item_category tickets value).
Proof.
  unfold has_value.
  induction tickets as [|t r IH]; intros existing.
  - simpl. repeat split; try tauto; intros [H|[x [[] _]]]; exact H.
  - cbn [fold_left]. destruct (IH (TA.record_existing existing t)) as [A [B C]].
    destruct (record_existing_values existing t value) as [A0 [B0 C0]].
    rewrite A, B, C, A0, B0, C0. clear.
    repeat split.
    all: try (intros [[H|H]|[x [H H0]]];
              [left; exact H
              |right; exists t; split; [left; reflexivity|exact H]
              |right; exists x; split; [right; exact H|exact H0]]).
    all: intros [H|[x [[<-|H] H0]]];
      [left; left; exact H|left; right; exact H0|right; exists x; split; assumption].
Qed.

(** X9: a value is in the set that [extract_existing_categories] returns
    for a level exactly when some ticket of the batch carries it, non-empty,
    in the field of that level; empty and missing fields add nothing. *)
Theorem extract_existing_categories_spec (tickets : list TicketRecord.t) (value : string) :
  let existing := TA.extract_existing_categories tickets in
  (In value (Taxonomy.get_list "category" existing)
   <-> has_value TicketRecord.category tickets value)
  /\ (In value (Taxonomy.get_list "sub_category" existing)
      <-> has_value TicketRecord.sub_category tickets value)
  /\ (In value (Taxonomy.get_list "item_category" existing)
      <-> has_value TicketRecord.item_category tickets value).
Proof.
  cbv zeta. unfold TA.extract_existing_categories.
  destruct (extract_fold tickets value []) as [A [B C]].
  rewrite A, B, C. cbn. tauto.
Qed.

End ExistingCategories.

(** ** The keyword reported beside a ticket *)

Section Reporting.

Lemma keyword_lookup_fold (l : list (string * Z)) :
  forall acc,
  NoDup (map fst (acc ++ l)) ->
  fold_left (fun d kf => Dict.sset (fst kf) (snd kf) d) l acc = (acc ++ l)%list.
Proof.
  induction l as [|[k f] r IH]; intros acc N.
  - rewrite app_nil_r. reflexivity.
  - cbn [fold_left fst snd]. unfold Dict.sset. rewrite set_by_absent.
    + rewrite IH; rewrite <- app_assoc; [reflexivity|exact N].
    + apply (get_by_none String.eqb string_eqb_spec).
      rewrite map_app in N. apply NoDup_remove_2 in N.
      intros H. apply N. apply in_or_app. left. exact H.
Qed.

Lemma keyword_lookup_same (l : list (string * Z)) :
  NoDup (map fst l) -> TicketReportWriter.keyword_lookup l = l.
Proof. intros N. apply (keyword_lookup_fold l []). exact N. Qed.

Lemma find_first_sorted {A : Type} (R : A -> A -> Prop) (f : A -> bool) (l : list A) :
  StronglySorted R l ->
  match find f l with
  | Some x => In x l /\ f x = true /\ forall y, In y l -> f y = true -> x = y \/ R x y
  | None => forall y, In y l -> f y = false
  end.
Proof.
  induction 1 as [|x r S IH F]; simpl.
  - intros y [].
  - destruct (f x) eqn:E.
    + split; [left; reflexivity|]. split; [exact E|].
      intros y [H|H] _; [left; exact H|right].
      rewrite Forall_forall in F. exact (F y H).
    + destruct (find f r) as [z|].
      * destruct IH as [H [H0 H1]]. split; [right; exact H|]. split; [exact H0|].
        intros y [<-|Hy] Fy; [congruence|exact (H1 y Hy Fy)].
      * intros y [<-|Hy]; [exact E|exact (IH y Hy)].
Qed.

(** X10: the keyword the report writer picks for a ticket, from the lookup
    built of the repeating keywords, is one of them that occurs in the
    lowered subject and description and no such keyword has a higher count;
    when none occurs the writer reports the empty keyword with count 0. *)
Theorem pick_repeating_keyword_most_frequent (self : TA.t) (tickets : list TicketRecord.t)
  (ticket : TicketRecord.t) :
  let repeating := TA.detect_repeating_keywords self tickets in
  let text := TicketReportWriter.report_text ticket in
  let picked :=
    TicketReportWriter._pick_repeating_keyword ticket
      (TicketReportWriter.keyword_lookup repeating) in
  (In picked repeating
   /\ Py.contains (fst picked) text = true
   /\ forall keyword frequency,
        In (keyword, frequency) repeating -> Py.contains keyword text = true ->
        (frequency <= snd picked)%Z)
  \/ (picked = ("", 0%Z)
      /\ forall keyword frequency,
           In (keyword, frequency) repeating -> Py.contains keyword text = false).
Proof.
  cbv zeta.
  pose proof (detect_repeating_sorted self tickets) as S.
  rewrite (keyword_lookup_same _ (detect_repeating_nodup self tickets)).
  unfold TicketReportWriter._pick_repeating_keyword.
  pose proof (find_first_sorted count_ge
                (fun kf : string * Z =>
                   Py.contains (fst kf) (TicketReportWriter.report_text ticket))
                _ S) as F.
  destruct (find _ (TA.detect_repeating_keywords self tickets)) as [x|].
  - left. destruct F as [H [H0 H1]]. split; [exact H|]. split; [exact H0|].
    intros keyword frequency Hk Hc.
    destruct (H1 (keyword, frequency) Hk Hc) as [->|H2]; [cbn; lia|exact H2].
  - right. split; [reflexivity|]. intros keyword frequency Hk. exact (F _ Hk).
Qed.

End Reporting.

(** ** Phrases, proximity rules and the order of suggestions *)

Section PhrasePositions.
Lemma filter_sorted {A : Type} (R : A -> A -> Prop) (f : A -> bool) (l : list A) :
  StronglySorted R l -> StronglySorted R (filter f l).
Proof.
  induction 1 as [|x r S IH F]; simpl; [constructor|].
  destruct (f x); [|exact IH]. constructor; [exact IH|].
  rewrite Forall_forall in *. intros y Hy. apply filter_In in Hy. apply F. apply Hy.
Qed.

Lemma seq_sorted (n : nat) : forall a, StronglySorted lt (seq a n).
Proof.
  induction n as [|n IH]; intros a; simpl; constructor; [apply IH|].
  rewrite Forall_forall. intros y Hy. apply in_seq in Hy. lia.
Qed.

Lemma phrase_positions_in (tokens phrase : list string) (index : nat) :
  In index (TA._phrase_positions tokens phrase)
  <-> phrase <> []
      /\ (index + List.length phrase <= List.length tokens)%nat
      /\ firstn (List.length phrase) (skipn index tokens) = phrase.
Proof.
  unfold TA._phrase_positions. destruct phrase as [|w phrase].
  - split; [intros []|intros [H _]; congruence].
  - set (p := w :: phrase).
    destruct (Nat.ltb_spec (List.length tokens) (List.length p)) as [H|H].
    + split; [intros []|]. intros [_ [H0 _]]. lia.
    + rewrite filter_In, in_seq, tuple_eqb_eq. split.
      * intros [H0 H1]. split; [discriminate|]. split; [lia|exact H1].
      * intros [_ [H0 H1]]. split; [lia|exact H1].
Qed.

(** X11: [_phrase_positions] lists, in increasing order and each once, exactly
    the indices at which the phrase occurs as a run of consecutive tokens;
    an empty phrase, or one longer than the token list, has no position. *)
Theorem phrase_positions_spec (tokens phrase : list string) :
  StronglySorted lt (TA._phrase_positions tokens phrase)
  /\ (forall index,
        In index (TA._phrase_positions tokens phrase)
        <-> phrase <> []
            /\ (index + List.length phrase <= List.length tokens)%nat
            /\ firstn (List.length phrase) (skipn index tokens) = phrase)
  /\ TA._phrase_positions tokens [] = []
  /\ ((List.length tokens < List.length phrase)%nat ->
      TA._phrase_positions tokens phrase = []).
Proof.
  split; [|split; [apply phrase_positions_in|split; [reflexivity|]]].
  - unfold TA._phrase_positions. destruct phrase as [|w phrase]; [constructor|].
    destruct (_ <? _)%nat; [constructor|].
    apply filter_sorted. apply seq_sorted.
  - intros H. unfold TA._phrase_positions. destruct phrase as [|w phrase]; [reflexivity|].
    apply Nat.ltb_lt in H. rewrite H. reflexivity.
Qed.

Lemma group_positions_in (tokens : list string) (group : list (list string)) (index : nat) :
  In index (flat_map (TA._phrase_positions tokens) group) <-> occurs_at tokens group index.
Proof.
  rewrite in_flat_map. unfold occurs_at. split.
  - intros [phrase [H H0]]. exists phrase. split; [exact H|].
    apply phrase_positions_in. exact H0.
  - intros [phrase [H H0]]. exists phrase. split; [exact H|].
    apply phrase_positions_in. exact H0.
Qed.

Lemma insert_position_in (p x : nat) (l : list nat) :
  In x (TA.insert_position p l) <-> x = p \/ In x l.
Proof.
  induction l as [|q r IH]; simpl; [intuition congruence|].
  destruct (p <? q)%nat; [simpl; intuition congruence|].
  destruct (Nat.eqb_spec p q) as [->|N]; [simpl; intuition congruence|].
  simpl. rewrite IH. intuition congruence.
Qed.

Lemma sorted_set_in (l : list nat) (x : nat) : In x (TA.sorted_set l) <-> In x l.
Proof.
  unfold TA.sorted_set.
  assert (forall acc, In x (fold_left (fun acc p => TA.insert_position p acc) l acc)
                      <-> In x acc \/ In x l) as G.
  { induction l as [|p r IH]; intros acc; simpl; [tauto|].
    rewrite IH, insert_position_in. intuition congruence. }
  rewrite G. simpl. tauto.
Qed.

Lemma collect_positions_all (tokens : list string) (groups : list (list (list string))) :
  forall acc,
  TA.collect_positions tokens groups acc
  = if forallb (fun group => match flat_map (TA._phrase_positions tokens) group with
                             | [] => false | _ => true end) groups
    then (acc ++ map (fun group => TA.sorted_set
                                     (flat_map (TA._phrase_positions tokens) group))
                     groups)%list
    else [].
Proof.
  induction groups as [|g r IH]; intros acc; cbn [TA.collect_positions forallb map].
  - rewrite app_nil_r. reflexivity.
  - destruct (flat_map (TA._phrase_positions tokens) g) as [|x xs] eqn:E; [reflexivity|].
    rewrite IH. cbn [andb]. unfold Py.push. rewrite <- app_assoc. reflexivity.
Qed.

(** X12: a proximity rule fires on a token list exactly when its path is a
    node of the taxonomy, it has at least two term groups, and some position
    of a phrase of the first group has, for every other group, a position of
    one of that group's phrases at most [window] tokens away. *)
Theorem proximity_fires_spec (self : TA.t) (tokens : list string) (rule : ProximityRule.t) :
  TA.proximity_fires self tokens rule = true
  <-> Dict.has (ProximityRule.path rule)
               (TaxonomyModel.nodes_by_path (TA.taxonomy self)) = true
      /\ exists first rest,
           ProximityRule.term_groups rule = first :: rest /\ rest <> []
           /\ exists anchor,
                occurs_at tokens first anchor
                /\ forall group, In group rest ->
                     exists pos, occurs_at tokens group pos
                                 /\ (Z.abs (Z.of_nat anchor - Z.of_nat pos)
                                     <= ProximityRule.window rule)%Z.
Proof.
  unfold TA.proximity_fires. rewrite !andb_true_iff, collect_positions_all.
  destruct (ProximityRule.term_groups rule) as [|first rest] eqn:Eg.
  - split; [intros [[H _] _]; discriminate|].
    intros [_ [f [r [H _]]]]. discriminate.
  - cbn [forallb map app].
    assert (forall group : list (list string),
              match flat_map (TA._phrase_positions tokens) group with
              | [] => false | _ => true end = true
              <-> exists pos, occurs_at tokens group pos) as Occ.
    { intros group. split.
      - destruct (flat_map _ group) as [|x xs] eqn:E; [discriminate|]. intros _.
        exists x. apply group_positions_in. rewrite E. left. reflexivity.
      - intros [pos H]. apply group_positions_in in H.
        destruct (flat_map _ group); [destruct H|reflexivity]. }
    split.
    + intros [[Hl Hh] H]. split; [exact Hh|]. exists first, rest. split; [reflexivity|].
      split; [destruct rest; [discriminate|discriminate]|].
      destruct (_ && _) eqn:Ea; [|discriminate].
      apply existsb_exists in H. destruct H as [anchor [Ha Hw]].
      exists anchor. split; [apply group_positions_in, sorted_set_in; exact Ha|].
      intros group Hg. rewrite forallb_forall in Hw.
      specialize (Hw _ (in_map _ _ _ Hg)). unfold TA.within_window in Hw.
      apply existsb_exists in Hw. destruct Hw as [pos [Hp Hn]].
      exists pos. split; [apply group_positions_in, sorted_set_in; exact Hp|].
      apply Z.leb_le. exact Hn.
    + intros [Hh [f [r [E [Nr [anchor [Ha Hr]]]]]]]. injection E as <- <-.
      split; [split; [|exact Hh]|].
      * destruct rest; [congruence|reflexivity].
      * replace (_ && _) with true.
        -- apply existsb_exists. exists anchor.
           split; [apply sorted_set_in, group_positions_in; exact Ha|].
           apply forallb_forall. intros o Ho. apply in_map_iff in Ho.
           destruct Ho as [group [<- Hg]]. destruct (Hr group Hg) as [pos [Hp Hn]].
           unfold TA.within_window. apply existsb_exists. exists pos.
           split; [apply sorted_set_in, group_positions_in; exact Hp|].
           apply Z.leb_le. exact Hn.
        -- symmetry. apply andb_true_iff. split; [apply Occ; exists anchor; exact Ha|].
           apply forallb_forall. intros group Hg. apply Occ.
           destruct (Hr group Hg) as [pos [Hp _]]. exists pos. exact Hp.
Qed.

(** X13: [_sorted_matches] only reorders: its result is a permutation of the
    candidates it is given, none dropped and none repeated, in the order of
    the sort key. *)
Theorem sorted_matches_permutation (self : TA.t) (matches : MatchMap) :
  Permutation (TA._sorted_matches self matches) matches
  /\ StronglySorted (key_le self) (TA._sorted_matches self matches).
Proof.
  split; [|apply sorted_matches_sorted].
  unfold TA._sorted_matches.
  induction matches as [|x r IH]; simpl; [constructor|].
  apply Permutation_trans with (x :: fold_right (TA.insert_sorted self) [] r);
    [|apply perm_skip; exact IH].
  generalize (fold_right (TA.insert_sorted self) [] r). clear.
  intros l. induction l as [|y l IH]; simpl; [apply Permutation_refl|].
  destruct (TA.key_leb (TA.sort_key self x) (TA.sort_key self y));
    [apply Permutation_refl|].
  eapply Permutation_trans; [apply perm_skip; exact IH|apply perm_swap].
Qed.

End PhrasePositions.

(** ** The fallback and the confidence table *)

Section FallbackCases.
Open Scope Q_scope.

(** X14: [_fallback_match] returns General IT > Questions at 0.55 when a
    node path starts with these two labels, else General IT at 0.5 when the
    path of that single label is a node, else nothing; the rationale is the
    same text in both cases. *)
Theorem fallback_match_cases (self : TA.t) :
  match TA._fallback_match self with
  | Some fallback =>
      MatchResult.rationale fallback = "Fallback to General IT > Questions"%string
      /\ ((existsb is_questions_path (node_paths self) = true
           /\ MatchResult.path fallback = ["General IT"; "Questions"]%string
           /\ MatchResult.confidence fallback = 0.55)
          \/ (existsb is_questions_path (node_paths self) = false
              /\ existsb is_general_it (node_paths self) = true
              /\ MatchResult.path fallback = ["General IT"]%string
              /\ MatchResult.confidence fallback = 0.5))
  | None =>
      existsb is_questions_path (node_paths self) = false
      /\ existsb is_general_it (node_paths self) = false
  end.
Proof.
  unfold TA._fallback_match, node_paths. cbv zeta.
  set (paths := map fst (TaxonomyModel.nodes_by_path (TA.taxonomy self))).
  change (fun path : list string => match path with
          | a :: b :: _ => (a =? "General IT")%string && (b =? "Questions")%string
          | _ => false end) with is_questions_path.
  change (fun path : list string => match path with
          | [a] => (a =? "General IT")%string
          | _ => false end) with is_general_it.
  match goal with |- context [match ?t with Some _ => _ | None => find _ _ end] =>
    destruct t as [p|] eqn:E end.
  - apply find_some in E. destruct E as [H H0].
    assert (existsb is_questions_path paths = true) as X
      by (apply existsb_exists; exists p; split; assumption).
    destruct p as [|a [|b p]]; try discriminate.
    simpl in H0. apply andb_true_iff in H0. destruct H0 as [Ha Hb].
    apply String.eqb_eq in Ha, Hb. subst. simpl.
    split; [reflexivity|]. left. split; [exact X|]. split; reflexivity.
  - assert (existsb is_questions_path paths = false) as X.
    { destruct (existsb is_questions_path paths) eqn:X; [|reflexivity].
      apply existsb_exists in X. destruct X as [x [H H0]].
      rewrite (find_none _ _ E x H) in H0. discriminate. }
    match goal with |- context [match ?t with Some _ => _ | None => None end] =>
      destruct t as [p|] eqn:E0 end.
    + apply find_some in E0. destruct E0 as [H H0].
      assert (existsb is_general_it paths = true) as Y
        by (apply existsb_exists; exists p; split; assumption).
      destruct p as [|a [|b p]]; try discriminate.
      simpl in H0. apply String.eqb_eq in H0. subst. simpl.
      split; [reflexivity|]. right. split; [exact X|]. split; [exact Y|]. split; reflexivity.
    + split; [exact X|].
      destruct (existsb is_general_it paths) eqn:Y; [|reflexivity].
      apply existsb_exists in Y. destruct Y as [x [H H0]].
      rewrite (find_none _ _ E0 x H) in H0. discriminate.
Qed.

End FallbackCases.

Section ConfidenceTable.
Open Scope Q_scope.

Lemma confidence_table (keyword_hits depth : nat) :
  TA._confidence keyword_hits depth
  = Num.round2 (Qmin (depth_base depth + hits_bonus keyword_hits) 0.95).
Proof.
  unfold TA._confidence. apply round2_comp.
  assert ((if (3 <=? depth)%nat then 0.9 else if (depth =? 2)%nat then 0.8 else 0.65)
          = depth_base depth) as ->
    by (destruct depth as [|[|[|d]]]; reflexivity).
  assert (Qmin (0.05 * inject_Z (Z.max 0 (Z.of_nat keyword_hits - 1))) 0.09
          == hits_bonus keyword_hits) as ->; [|reflexivity].
  destruct keyword_hits as [|[|[|h]]]; try reflexivity.
  apply Q.min_r.
  remember (Z.max 0 (Z.of_nat (S (S (S h))) - 1)) as z eqn:Ez.
  assert (2 <= z)%Z as B by lia. clear Ez.
  unfold Qle, Qmult, inject_Z. cbn [hits_bonus Qnum Qden]. lia.
Qed.

Lemma depth_base_mono (d j : nat) : depth_base d <= depth_base (d + j).
Proof.
  destruct d as [|[|[|d]]]; destruct j as [|[|[|j]]]; simpl; try (apply Qle_refl);
    unfold Qle; simpl; lia.
Qed.

Lemma hits_bonus_mono (h k : nat) : hits_bonus h <= hits_bonus (h + k).
Proof.
  destruct h as [|[|[|h]]]; destruct k as [|[|[|k]]]; simpl; try (apply Qle_refl);
    unfold Qle; simpl; lia.
Qed.

(** X15: [_confidence] is the depth base (0.65, 0.8, 0.9 for depth up to 1, 2,
    3 and more) plus the hit bonus (0, 0.05, 0.09 for up to 1, 2, 3 and more
    hits), capped at 0.95; more hits or a deeper node never give a lower
    value, and every value lies between 0.65 and 0.95. *)
Theorem confidence_monotone (keyword_hits depth more_hits deeper : nat) :
  TA._confidence keyword_hits depth
  == Qmin (depth_base depth + hits_bonus keyword_hits) 0.95
  /\ TA._confidence keyword_hits depth
     <= TA._confidence (keyword_hits + more_hits) (depth + deeper)
  /\ 0.65 <= TA._confidence keyword_hits depth <= 0.95.
Proof.
  rewrite !confidence_table. split; [|split].
  - destruct depth as [|[|[|d]]]; destruct keyword_hits as [|[|[|h]]]; reflexivity.
  - apply round2_mono. apply Q.min_le_compat_r.
    apply Qplus_le_compat; [apply depth_base_mono|apply hits_bonus_mono].
  - apply round2_between; try reflexivity. split.
    + apply Q.min_glb; [|unfold Qle; simpl; lia].
      destruct depth as [|[|[|d]]]; destruct keyword_hits as [|[|[|h]]];
        unfold Qle; simpl; lia.
    + apply Q.le_min_r.
Qed.

End ConfidenceTable.

(** ** Fuzzy terms and the candidates they create *)

Section FuzzyTerms.
Context {L : PyLib}.
Open Scope Q_scope.



(** the entries of the mapping under construction *)
Lemma fuzzy_terms_fold (nodes : list TaxonomyNode.t) :
  forall mapping,
  NoDup (map fst mapping) ->
  let result :=
    fold_left
      (fun mapping node =>
         match TA.fuzzy_candidates node with
         | [] => mapping
         | candidates => Dict.set (TaxonomyNode.path node) candidates mapping
         end)
      nodes mapping in
  NoDup (map fst result)
  /\ forall path seeds,
       In (path, seeds) result ->
       In (path, seeds) mapping
       \/ exists node, In node nodes /\ TaxonomyNode.path node = path
                       /\ seeds = TA.fuzzy_candidates node /\ seeds <> [].
Proof.
  induction nodes as [|n r IH]; intros mapping N; cbv zeta.
  - split; [exact N|]. intros path seeds H. left. exact H.
  - cbn [fold_left].
    destruct (TA.fuzzy_candidates n) as [|s0 c] eqn:E.
    + destruct (IH mapping N) as [H H0]. split; [exact H|].
      intros path seeds Hin. destruct (H0 path seeds Hin) as [H1|[node [H1 H2]]];
        [left; exact H1|right; exists node; split; [right; exact H1|exact H2]].
    + assert (NoDup (map fst (Dict.set (TaxonomyNode.path n) (s0 :: c) mapping))) as N'
        by (apply nodup_set_by; [exact tuple_eqb_eq|exact N]).
      destruct (IH _ N') as [H H0]. split; [exact H|].
      intros path seeds Hin. destruct (H0 path seeds Hin) as [H1|[node [H1 H2]]].
      * apply (in_set_by Py.tuple_eqb tuple_eqb_eq) in H1.
        destruct H1 as [[-> ->]|H1]; [|left; exact H1].
        right. exists n. split; [left; reflexivity|]. split; [reflexivity|].
        split; [symmetry; exact E|discriminate].
      * right. exists node. split; [right; exact H1|exact H2].
Qed.

Lemma fuzzy_terms_nodup (taxonomy : TaxonomyModel.t) :
  NoDup (map fst (TA._build_fuzzy_terms taxonomy)).
Proof.
  exact (proj1 (fuzzy_terms_fold (Taxonomy.iter_nodes taxonomy) [] (NoDup_nil _))).
Qed.


Lemma mm_get_set (r : MatchResult.t) (m : MatchMap) (p : TaxonomyPath) :
  MatchMap.get p (MatchMap.set r m)
  = if Py.tuple_eqb p (MatchResult.path r) then Some r else MatchMap.get p m.
Proof.
  induction m as [|x rest IH]; simpl.
  - destruct (Py.tuple_eqb p (MatchResult.path r)); reflexivity.
  - destruct (Py.tuple_eqb (MatchResult.path r) (MatchResult.path x)) eqn:E; simpl.
    + apply tuple_eqb_eq in E. rewrite <- E.
      destruct (Py.tuple_eqb p (MatchResult.path r)); reflexivity.
    + destruct (Py.tuple_eqb p (MatchResult.path x)) eqn:E0.
      * destruct (Py.tuple_eqb p (MatchResult.path r)) eqn:E1; [|reflexivity].
        apply tuple_eqb_eq in E0, E1. rewrite <- E0, <- E1, tuple_eqb_refl in E. discriminate.
      * exact IH.
Qed.

Lemma mm_get_update (p q : TaxonomyPath) (f : MatchResult.t -> MatchResult.t) (m : MatchMap) :
  (forall r, MatchResult.path (f r) = MatchResult.path r) ->
  MatchMap.get p (MatchMap.update q f m)
  = if Py.tuple_eqb p q then option_map f (MatchMap.get p m) else MatchMap.get p m.
Proof.
  intros Hf. induction m as [|x rest IH]; simpl.
  - destruct (Py.tuple_eqb p q); reflexivity.
  - destruct (Py.tuple_eqb q (MatchResult.path x)) eqn:E; simpl.
    + apply tuple_eqb_eq in E. subst q. rewrite Hf.
      destruct (Py.tuple_eqb p (MatchResult.path x)); reflexivity.
    + destruct (Py.tuple_eqb p (MatchResult.path x)) eqn:E0.
      * destruct (Py.tuple_eqb p q) eqn:E1; [|reflexivity].
        apply tuple_eqb_eq in E0, E1. rewrite <- E0, <- E1, tuple_eqb_refl in E. discriminate.
      * exact IH.
Qed.

Lemma fuzzy_boosted_path (boost : Q) (note : string) (m : MatchResult.t) :
  MatchResult.path (TA.fuzzy_boosted boost note m) = MatchResult.path m.
Proof. reflexivity. Qed.

Lemma has_get (p : TaxonomyPath) (m : MatchMap) :
  MatchMap.has p m = false <-> MatchMap.get p m = None.
Proof. unfold MatchMap.has. destruct (MatchMap.get p m); split; congruence. Qed.

Lemma fuzzy_created_confidence (path : TaxonomyPath) (score : Q) (note : string) :
  Num.Qltb score TA._FUZZY_SCORE_THRESHOLD = false ->
  0.55 <= MatchResult.confidence (TA.fuzzy_created path (TA.fuzzy_boost score) note) <= 0.57.
Proof.
  intros H. destruct (fuzzy_boost_bounds score H) as [_ Hb].
  apply Qltb_false in H. unfold TA._FUZZY_SCORE_THRESHOLD in H.
  assert (0.096 <= TA.fuzzy_boost score) as Hl.
  { unfold TA.fuzzy_boost, TA._FUZZY_MAX_BOOST. apply Q.min_glb; [discriminate|].
    apply Qle_trans with ((80 / 100) * 0.12); [discriminate|].
    apply Qmult_le_compat_r; [|discriminate].
    apply Qmult_le_compat_r; [exact H|discriminate]. }
  unfold TA.fuzzy_created, MatchResult.fresh, MatchResult.confidence.
  unfold TA._FUZZY_NEW_MATCH_CAP, TA._FUZZY_NEW_MATCH_BASE. split.
  - apply Qle_trans with (Num.round2 0.546); [discriminate|].
    apply round2_mono. apply Q.min_glb; [discriminate|lra].
  - apply Qle_trans with (Num.round2 0.57); [|discriminate].
    apply round2_mono. apply Qle_trans with (0.45 + TA.fuzzy_boost score); [apply Q.le_min_r|lra].
Qed.

Lemma apply_fuzzy_entry_get (self : TA.t) (token_set fuzzy_tokens : list string)
  (match_map : MatchMap) (path : TaxonomyPath) (seeds : list string) (p : TaxonomyPath) :
  MatchMap.get p match_map = None ->
  match MatchMap.get p (TA.apply_fuzzy_entry self token_set fuzzy_tokens match_map (path, seeds))
  with
  | Some m => path = p /\ MatchResult.path m = p /\ fuzzy_new self m
  | None => True
  end.
Proof.
  intros Hp. unfold TA.apply_fuzzy_entry.
  destruct seeds as [|s0 seeds]; [rewrite Hp; exact I|].
  destruct (Taxonomy.get_node (TA.taxonomy self) path) as [node|] eqn:En;
    [|rewrite Hp; exact I].
  destruct (TA.scan_seeds _ _ _ _) as [[score [seed|]] [token|]]; try (rewrite Hp; exact I).
  destruct (Num.Qltb score TA._FUZZY_SCORE_THRESHOLD) eqn:E; [cbn [orb]; rewrite Hp; exact I|].
  cbn [orb]. destruct (negb (Py.truthy seed) || negb (Py.truthy token))%bool;
    [rewrite Hp; exact I|].
  destruct (MatchMap.has path match_map) eqn:Eh.
  - rewrite mm_get_update by (intros; apply fuzzy_boosted_path).
    rewrite Hp. destruct (Py.tuple_eqb p path); exact I.
  - destruct (TaxonomyNode.children node) eqn:Ec; [|rewrite Hp; exact I].
    rewrite mm_get_set. cbn [TA.fuzzy_created MatchResult.fresh MatchResult.path].
    destruct (Py.tuple_eqb p path) eqn:E0; [|rewrite Hp; exact I].
    apply tuple_eqb_eq in E0. subst p. split; [reflexivity|]. split; [reflexivity|].
    split; [exact (fuzzy_created_confidence path score _ E)|]. split; [reflexivity|].
    exists node. split; [exact En|exact Ec].
Qed.

Lemma apply_fuzzy_entry_other (self : TA.t) (token_set fuzzy_tokens : list string)
  (match_map : MatchMap) (path : TaxonomyPath) (seeds : list string) (p : TaxonomyPath) :
  path <> p ->
  MatchMap.get p (TA.apply_fuzzy_entry self token_set fuzzy_tokens match_map (path, seeds))
  = MatchMap.get p match_map.
Proof.
  intros Hp. apply tuple_eqb_neq in Hp.
  assert (Py.tuple_eqb p path = false) as Hq.
  { apply tuple_eqb_neq. apply tuple_eqb_neq in Hp. congruence. }
  unfold TA.apply_fuzzy_entry.
  destruct seeds as [|s0 seeds]; [reflexivity|].
  destruct (Taxonomy.get_node (TA.taxonomy self) path) as [node|]; [|reflexivity].
  destruct (TA.scan_seeds _ _ _ _) as [[score [seed|]] [token|]]; try reflexivity.
  destruct (Num.Qltb score TA._FUZZY_SCORE_THRESHOLD); [reflexivity|].
  cbn [orb]. destruct (negb (Py.truthy seed) || negb (Py.truthy token))%bool; [reflexivity|].
  destruct (MatchMap.has path match_map).
  - rewrite mm_get_update by (intros; apply fuzzy_boosted_path). rewrite Hq. reflexivity.
  - destruct (TaxonomyNode.children node); [|reflexivity].
    rewrite mm_get_set. cbn [TA.fuzzy_created MatchResult.fresh MatchResult.path].
    rewrite Hq. reflexivity.
Qed.

Lemma fuzzy_fold_new (self : TA.t) (token_set fuzzy_tokens : list string) (p : TaxonomyPath)
  (terms : list (TaxonomyPath * list string)) :
  NoDup (map fst terms) ->
  forall match_map m,
  MatchMap.get p match_map = None ->
  MatchMap.get p (fold_left (TA.apply_fuzzy_entry self token_set fuzzy_tokens) terms match_map)
    = Some m ->
  MatchResult.path m = p /\ fuzzy_new self m.
Proof.
  induction terms as [|[path seeds] r IH]; intros N match_map m Hp Hm.
  - simpl in Hm. congruence.
  - cbn [fold_left] in Hm. inversion N as [|? ? N1 N2]; subst.
    pose proof (apply_fuzzy_entry_get self token_set fuzzy_tokens match_map path seeds p Hp) as G.
    destruct (MatchMap.get p (TA.apply_fuzzy_entry self token_set fuzzy_tokens match_map
                                (path, seeds))) as [m1|] eqn:E1.
    + destruct G as [-> G].
      assert (forall mm, MatchMap.get p (fold_left (TA.apply_fuzzy_entry self token_set
                                                      fuzzy_tokens) r mm)
                         = MatchMap.get p mm) as Same.
      { clear - N1. induction r as [|[q s] r IH]; intros mm; [reflexivity|].
        cbn [fold_left]. rewrite IH.
        - apply apply_fuzzy_entry_other. intros ->. apply N1. left. reflexivity.
        - intros H. apply N1. right. exact H. }
      rewrite Same, E1 in Hm. injection Hm as <-. exact G.
    + exact (IH N2 _ m E1 Hm).
Qed.

(** X17: a candidate that [_apply_fuzzy_matches] adds for a path that had
    none is a node without children, carries no matched keyword and has a
    confidence between 0.55 and 0.57. *)
Theorem fuzzy_new_candidate (self : TA.t) (match_map : MatchMap)
  (raw_tokens token_set : list string) (path : TaxonomyPath) (m : MatchResult.t) :
  constructed self ->
  MatchMap.get path match_map = None ->
  MatchMap.get path (TA._apply_fuzzy_matches self match_map raw_tokens token_set) = Some m ->
  0.55 <= MatchResult.confidence m <= 0.57
  /\ MatchResult.matched_keywords m = []
  /\ exists node, Taxonomy.get_node (TA.taxonomy self) path = Some node
                  /\ TaxonomyNode.children node = [].
Proof.
  intros C Hp Hm. unfold TA._apply_fuzzy_matches in Hm.
  assert (NoDup (map fst (TA._fuzzy_terms self))) as N.
  { destruct C. cbn [TA._fuzzy_terms TA.init]. apply fuzzy_terms_nodup. }
  destruct (TA._fuzzy_terms self) as [|e terms] eqn:Et; [congruence|].
  destruct raw_tokens as [|tok toks]; [congruence|].
  destruct (fuzzy_fold_new self _ _ path _ N match_map m Hp Hm) as [H [H0 [H1 H2]]].
  rewrite H in H2. split; [exact H0|]. split; [exact H1|exact H2].
Qed.

End FuzzyTerms.

(** ** The direction of the signals and of the guards *)

Section Direction.
Context {L : PyLib}.
Open Scope Q_scope.

Lemma raised_confidence (c boost : Q) :
  confidence_ok c -> 0 <= boost -> c <= Num.round2 (Qmin (c + boost) 0.95).
Proof.
  intros [H0 [H1 H2]] Hb. rewrite <- H2 at 1. apply round2_mono.
  apply Q.min_glb; [lra|exact H1].
Qed.

Lemma lowered_confidence (c penalty : Q) :
  confidence_ok c -> 0 <= penalty -> Num.round2 (Qmax (c - penalty) 0.05) <= c.
Proof.
  intros [H0 [H1 H2]] Hb. rewrite <- H2 at 2. apply round2_mono.
  apply Q.max_lub; [lra|exact H0].
Qed.

Lemma get_ok (m : MatchMap) (p : TaxonomyPath) (c : MatchResult.t) :
  all_ok m -> MatchMap.get p m = Some c -> confidence_ok (MatchResult.confidence c).
Proof.
  intros H G. apply get_in in G. unfold all_ok in H. rewrite Forall_forall in H.
  apply H. apply G.
Qed.

Lemma each_refl (R : Q -> Q -> Prop) (m : MatchMap) :
  (forall q, R q q) -> each_candidate R m m.
Proof. intros Hr p c G. exists c. split; [exact G|apply Hr]. Qed.

Lemma each_update (R : Q -> Q -> Prop) (q : TaxonomyPath)
  (f : MatchResult.t -> MatchResult.t) (m : MatchMap) :
  (forall x, R x x) ->
  (forall r, MatchResult.path (f r) = MatchResult.path r) ->
  (forall r, confidence_ok (MatchResult.confidence r) ->
             R (MatchResult.confidence r) (MatchResult.confidence (f r))) ->
  all_ok m -> each_candidate R m (MatchMap.update q f m).
Proof.
  intros Hr Hp Hf Hm p c G. rewrite mm_get_update by exact Hp.
  destruct (Py.tuple_eqb p q).
  - rewrite G. exists (f c). split; [reflexivity|]. apply Hf. exact (get_ok m p c Hm G).
  - exists c. split; [exact G|apply Hr].
Qed.

Lemma each_set (R : Q -> Q -> Prop) (r : MatchResult.t) (m : MatchMap) :
  (forall x, R x x) ->
  MatchMap.get (MatchResult.path r) m = None ->
  each_candidate R m (MatchMap.set r m).
Proof.
  intros Hr Hn p c G. rewrite mm_get_set.
  destruct (Py.tuple_eqb p (MatchResult.path r)) eqn:E.
  - apply tuple_eqb_eq in E. subst p. congruence.
  - exists c. split; [exact G|apply Hr].
Qed.

Lemma each_map_if (R : Q -> Q -> Prop) (cond : MatchResult.t -> bool)
  (f : MatchResult.t -> MatchResult.t) (m : MatchMap) :
  (forall x, R x x) ->
  (forall r, MatchResult.path (f r) = MatchResult.path r) ->
  (forall r, confidence_ok (MatchResult.confidence r) ->
             R (MatchResult.confidence r) (MatchResult.confidence (f r))) ->
  all_ok m -> each_candidate R m (map (fun r => if cond r then f r else r) m).
Proof.
  intros Hr Hp Hf Hm p c G.
  assert (MatchMap.get p (map (fun r => if cond r then f r else r) m)
          = option_map (fun r => if cond r then f r else r) (MatchMap.get p m)) as E.
  { clear G Hm. induction m as [|x rest IH]; [reflexivity|]. cbn [map MatchMap.get].
    assert (MatchResult.path (if cond x then f x else x) = MatchResult.path x) as ->
      by (destruct (cond x); [apply Hp|reflexivity]).
    destruct (Py.tuple_eqb p (MatchResult.path x)); [reflexivity|exact IH]. }
  rewrite E, G. cbn [option_map]. eexists. split; [reflexivity|].
  destruct (cond c); [|apply Hr]. apply Hf. exact (get_ok m p c Hm G).
Qed.

Lemma each_trans (R : Q -> Q -> Prop) (a b c : MatchMap) :
  (forall x y z, R x y -> R y z -> R x z) ->
  each_candidate R a b -> each_candidate R b c -> each_candidate R a c.
Proof.
  intros Ht Hab Hbc p x G. destruct (Hab p x G) as [y [Gy Ry]].
  destruct (Hbc p y Gy) as [z [Gz Rz]]. exists z. split; [exact Gz|].
  exact (Ht _ _ _ Ry Rz).
Qed.

Lemma fold_each {A : Type} (R : Q -> Q -> Prop) (f : MatchMap -> A -> MatchMap)
  (l : list A) :
  (forall x, R x x) ->
  (forall x y z, R x y -> R y z -> R x z) ->
  (forall m a, all_ok m -> all_ok (f m a) /\ each_candidate R m (f m a)) ->
  forall m, all_ok m -> each_candidate R m (fold_left f l m).
Proof.
  intros Hr Ht Hf. induction l as [|a r IH]; intros m Hm; [apply each_refl; exact Hr|].
  cbn [fold_left]. destruct (Hf m a Hm) as [H0 H1].
  apply (each_trans R m (f m a)); [exact Ht|exact H1|apply IH; exact H0].
Qed.

Lemma has_false_get (p : TaxonomyPath) (m : MatchMap) :
  MatchMap.has p m = false -> MatchMap.get p m = None.
Proof. apply has_get. Qed.

Lemma proximity_raises (self : TA.t) (m : MatchMap) (tokens : list string) :
  constructed self -> all_ok m ->
  each_candidate Qle m (TA._apply_proximity_boosts self m tokens).
Proof.
  intros C Hm. unfold TA._apply_proximity_boosts.
  destruct tokens as [|t r]; [apply each_refl; apply Qle_refl|].
  pose proof (constructed_rules self C) as Hb.
  induction (TA._proximity_rules self) as [|rule rules IH] in m, Hm, Hb |- *;
    [apply each_refl; apply Qle_refl|].
  cbn [fold_left]. inversion Hb as [|? ? Hb0 Hb1]; subst.
  assert (all_ok (TA.apply_proximity_rule self (t :: r) m rule)
          /\ each_candidate Qle m (TA.apply_proximity_rule self (t :: r) m rule)) as [A E].
  { unfold TA.apply_proximity_rule.
    destruct (TA.proximity_fires self (t :: r) rule);
      [|split; [exact Hm|apply each_refl; apply Qle_refl]].
    destruct (MatchMap.get (ProximityRule.path rule) m) eqn:G.
    - split.
      + apply all_ok_update; [|exact Hm]. intros x Hx. apply boosted_ok; assumption.
      + apply each_update; [apply Qle_refl|apply proximity_boosted_path| |exact Hm].
        intros x Hx. apply raised_confidence; assumption.
    - split.
      + apply all_ok_set; [apply proximity_created_ok|exact Hm].
      + apply each_set; [apply Qle_refl|exact G]. }
  apply (each_trans Qle m _ _ Qle_trans E). apply IH; assumption.
Qed.

Lemma fuzzy_raises (self : TA.t) (m : MatchMap) (raw_tokens token_set : list string) :
  all_ok m -> each_candidate Qle m (TA._apply_fuzzy_matches self m raw_tokens token_set).
Proof.
  intros Hm. unfold TA._apply_fuzzy_matches.
  destruct (TA._fuzzy_terms self) as [|e terms]; [apply each_refl; apply Qle_refl|].
  destruct raw_tokens as [|tok toks]; [apply each_refl; apply Qle_refl|].
  apply fold_each; [apply Qle_refl|exact Qle_trans| |exact Hm].
  clear m Hm. intros m [path seeds] Hm.
  assert (all_ok m /\ each_candidate Qle m m) as Same
    by (split; [exact Hm|apply each_refl; apply Qle_refl]).
  unfold TA.apply_fuzzy_entry.
  destruct seeds as [|s0 seeds]; [exact Same|].
  destruct (Taxonomy.get_node (TA.taxonomy self) path) as [node|]; [|exact Same].
  destruct (TA.scan_seeds _ _ _ _) as [[score [seed|]] [token|]]; try exact Same.
  destruct (Num.Qltb score TA._FUZZY_SCORE_THRESHOLD) eqn:E; [exact Same|].
  destruct (fuzzy_boost_bounds score E) as [Hb0 Hb1].
  cbn [orb]. destruct (negb (Py.truthy seed) || negb (Py.truthy token))%bool; [exact Same|].
  destruct (MatchMap.has path m) eqn:Eh.
  - split.
    + apply all_ok_update; [|exact Hm]. intros x Hx. apply boosted_ok; assumption.
    + apply each_update; [apply Qle_refl|reflexivity| |exact Hm].
      intros x Hx. apply raised_confidence; assumption.
  - destruct (TaxonomyNode.children node); [|exact Same]. split.
    + apply all_ok_set; [|exact Hm].
      destruct (fuzzy_created_confidence path score
                  ("fuzzy " ++ seed ++ "->" ++ token ++ " " ++ Num.fmt0 score)%string E)
        as [F0 F1].
      unfold TA.fuzzy_created, MatchResult.fresh, MatchResult.confidence in *.
      unfold TA._FUZZY_NEW_MATCH_CAP, TA._FUZZY_NEW_MATCH_BASE in *.
      apply round2_ok.
      * apply Q.min_glb; [discriminate|lra].
      * apply Qle_trans with 0.6; [apply Q.le_min_l|discriminate].
    + apply each_set; [apply Qle_refl|]. apply has_false_get. exact Eh.
Qed.

Lemma tfidf_raises (self : TA.t) (m : MatchMap) (tfidf_scores : list (TaxonomyPath * Q)) :
  constructed self -> all_ok m ->
  each_candidate Qle m (TA._apply_tfidf_scores self m tfidf_scores).
Proof.
  intros C Hm. pose proof (constructed_weight self C) as Hw.
  unfold TA._apply_tfidf_scores.
  apply fold_each; [apply Qle_refl|exact Qle_trans| |exact Hm].
  clear m Hm. intros m [path score] Hm.
  assert (all_ok m /\ each_candidate Qle m m) as Same
    by (split; [exact Hm|apply each_refl; apply Qle_refl]).
  split; [exact (tfidf_ok self m [(path, score)] Hw Hm)|].
  unfold TA.apply_tfidf_entry.
  destruct (Num.Qleb score 0) eqn:Es; [apply Same|].
  apply Qleb_false in Es.
  destruct (Taxonomy.get_node (TA.taxonomy self) path) as [node|]; [|apply Same].
  destruct (MatchMap.has path m) eqn:Eh.
  - apply each_update; [apply Qle_refl|apply tfidf_boosted_path| |exact Hm].
    intros x Hx. rewrite tfidf_boosted_confidence. apply raised_confidence; [exact Hx|].
    apply Qmult_le_0_compat; [apply Qlt_le_weak; exact Es|exact Hw].
  - destruct (TaxonomyNode.children node); [|apply Same].
    destruct (Num.Qltb score (TA.tfidf_leaf_threshold self)); [apply Same|].
    apply each_set; [apply Qle_refl|]. apply has_false_get. exact Eh.
Qed.

(** X18: the proximity, fuzzy and TF-IDF steps never remove a candidate and
    never lower a confidence: every candidate of a well-formed map is still
    a candidate afterwards, with a confidence at least as high. *)
Theorem signals_never_lower (self : TA.t) (match_map : MatchMap)
  (raw_tokens token_set : list string) (tfidf_scores : list (TaxonomyPath * Q)) :
  constructed self ->
  all_ok match_map ->
  each_candidate Qle match_map (TA._apply_proximity_boosts self match_map raw_tokens)
  /\ each_candidate Qle match_map
       (TA._apply_fuzzy_matches self match_map raw_tokens token_set)
  /\ each_candidate Qle match_map (TA._apply_tfidf_scores self match_map tfidf_scores).
Proof.
  intros C Hm. split; [|split].
  - apply proximity_raises; assumption.
  - apply fuzzy_raises; assumption.
  - apply tfidf_raises; assumption.
Qed.

Lemma demote_lowers (self : TA.t) (penalty : Q) (offset : Z) (note : string)
  (r : MatchResult.t) :
  0 <= penalty ->
  confidence_ok (MatchResult.confidence r) ->
  MatchResult.confidence (TA.demote self penalty offset note r) <= MatchResult.confidence r.
Proof. intros Hp Hr. apply lowered_confidence; assumption. Qed.

(** X19: the negative-keyword guards never raise a confidence and never add,
    drop or reorder a candidate: the paths of the map stay as they were and
    every candidate keeps a confidence at most the one it had. *)
Theorem guards_never_raise (self : TA.t) (match_map : MatchMap) (tokens : list string)
  (text_lower : string) :
  all_ok match_map ->
  each_candidate (fun before after => after <= before) match_map
    (TA._apply_negative_keywords self match_map tokens text_lower)
  /\ map MatchResult.path (TA._apply_negative_keywords self match_map tokens text_lower)
     = map MatchResult.path match_map.
Proof.
  intros Hm. split; [|apply negative_keywords_paths].
  set (R := fun before after : Q => after <= before).
  assert (forall x, R x x) as Rr by (intros x; apply Qle_refl).
  assert (forall x y z, R x y -> R y z -> R x z) as Rt
    by (intros x y z H H0; exact (Qle_trans _ _ _ H0 H)).
  unfold TA._apply_negative_keywords.
  destruct match_map as [|m0 rest] eqn:Em; [apply each_refl; exact Rr|].
  rewrite <- Em in *. clear Em m0 rest.
  assert (all_ok (TA.citrix_guard self (Py.to_set tokens) match_map)
          /\ each_candidate R match_map (TA.citrix_guard self (Py.to_set tokens) match_map))
    as [A1 E1].
  { unfold TA.citrix_guard. destruct (_ && _);
      [|split; [exact Hm|apply each_refl; exact Rr]].
    split.
    - apply all_ok_update; [|exact Hm]. intros x Hx. apply demote_ok; [discriminate|exact Hx].
    - apply each_update; [exact Rr|intros; apply demote_path| |exact Hm].
      intros x Hx. apply demote_lowers; [discriminate|exact Hx]. }
  set (m1 := TA.citrix_guard self (Py.to_set tokens) match_map) in *.
  assert (all_ok (TA.vpn_guard self text_lower m1)
          /\ each_candidate R m1 (TA.vpn_guard self text_lower m1)) as [A2 E2].
  { unfold TA.vpn_guard. destruct (Py.contains "not vpn" text_lower);
      [|split; [exact A1|apply each_refl; exact Rr]].
    split.
    - apply all_ok_map_if; [|exact A1]. intros x Hx. apply demote_ok; [discriminate|exact Hx].
    - apply (each_map_if R (fun m => TA.path_mentions "vpn" (MatchResult.path m)));
        [exact Rr|intros; apply demote_path| |exact A1].
      intros x Hx. apply demote_lowers; [discriminate|exact Hx]. }
  set (m2 := TA.vpn_guard self text_lower m1) in *.
  assert (each_candidate R m2 (TA.teams_guard self text_lower m2)) as E3.
  { unfold TA.teams_guard. destruct (_ || _); [|apply each_refl; exact Rr].
    apply (each_map_if R (fun m => TA.path_mentions "teams" (MatchResult.path m)));
      [exact Rr|intros; apply demote_path| |exact A2].
    intros x Hx. apply demote_lowers; [discriminate|exact Hx]. }
  exact (each_trans R _ _ _ Rt (each_trans R _ _ _ Rt E1 E2) E3).
Qed.

End Direction.

(** ** Candidates through the pipeline and the keys of the result *)

Section CandidatesGrow.
Context {L : PyLib}.

Lemma fold_left_keeps {A : Type} (f : MatchMap -> A -> MatchMap) (l : list A)
  (p : TaxonomyPath) :
  (forall m a, In p (map MatchResult.path m) -> In p (map MatchResult.path (f m a))) ->
  forall m, In p (map MatchResult.path m) -> In p (map MatchResult.path (fold_left f l m)).
Proof.
  intros Hf. induction l as [|a r IH]; intros m H; [exact H|].
  cbn [fold_left]. apply IH. apply Hf. exact H.
Qed.

Lemma proximity_keeps (self : TA.t) (m : MatchMap) (tokens : list string) (p : TaxonomyPath) :
  In p (map MatchResult.path m) ->
  In p (map MatchResult.path (TA._apply_proximity_boosts self m tokens)).
Proof.
  intros H. unfold TA._apply_proximity_boosts. destruct tokens as [|t r]; [exact H|].
  apply fold_left_keeps; [|exact H]. clear. intros m rule H.
  unfold TA.apply_proximity_rule.
  destruct (TA.proximity_fires self (t :: r) rule); [|exact H].
  destruct (MatchMap.get (ProximityRule.path rule) m).
  - rewrite paths_update; [exact H|]. intros x. apply proximity_boosted_path.
  - apply paths_set_in. right. exact H.
Qed.

Lemma fuzzy_keeps (self : TA.t) (m : MatchMap) (raw_tokens token_set : list string)
  (p : TaxonomyPath) :
  In p (map MatchResult.path m) ->
  In p (map MatchResult.path (TA._apply_fuzzy_matches self m raw_tokens token_set)).
Proof.
  intros H. unfold TA._apply_fuzzy_matches.
  destruct (TA._fuzzy_terms self) as [|e terms]; [exact H|].
  destruct raw_tokens as [|tok toks]; [exact H|].
  apply fold_left_keeps; [|exact H]. clear. intros m [path seeds] H.
  unfold TA.apply_fuzzy_entry.
  destruct seeds as [|s0 seeds]; [exact H|].
  destruct (Taxonomy.get_node (TA.taxonomy self) path) as [node|]; [|exact H].
  destruct (TA.scan_seeds _ _ _ _) as [[score [seed|]] [token|]]; try exact H.
  destruct (Num.Qltb score TA._FUZZY_SCORE_THRESHOLD); [exact H|].
  cbn [orb]. destruct (negb (Py.truthy seed) || negb (Py.truthy token))%bool; [exact H|].
  destruct (MatchMap.has path m).
  - rewrite paths_update; [exact H|]. intros x. reflexivity.
  - destruct (TaxonomyNode.children node); [|exact H].
    apply paths_set_in. right. exact H.
Qed.

Lemma tfidf_keeps (self : TA.t) (m : MatchMap) (tfidf_scores : list (TaxonomyPath * Q))
  (p : TaxonomyPath) :
  In p (map MatchResult.path m) ->
  In p (map MatchResult.path (TA._apply_tfidf_scores self m tfidf_scores)).
Proof.
  intros H. unfold TA._apply_tfidf_scores.
  apply fold_left_keeps; [|exact H]. clear. intros m [path score] H.
  unfold TA.apply_tfidf_entry.
  destruct (Num.Qleb score 0); [exact H|].
  destruct (Taxonomy.get_node (TA.taxonomy self) path) as [node|]; [|exact H].
  destruct (MatchMap.has path m).
  - rewrite paths_update; [exact H|]. intros x. apply tfidf_boosted_path.
  - destruct (TaxonomyNode.children node); [|exact H].
    destruct (Num.Qltb score (TA.tfidf_leaf_threshold self)); [exact H|].
    apply paths_set_in. right. exact H.
Qed.

(** X20: a path the keyword matcher found for a ticket is still a candidate
    after the proximity, fuzzy, TF-IDF and negative-keyword steps: no later
    step of the pipeline removes it. *)
Theorem keyword_match_stays_candidate (self : TA.t) (tfidf_map : list (TaxonomyPath * Q))
  (ticket : TicketRecord.t) (path : TaxonomyPath) :
  let text := TA.combined_text ticket in
  MatchMap.has path (TA._match_taxonomy self text (Py.to_set (TA._raw_tokens text))) = true ->
  MatchMap.has path (TA.candidates self tfidf_map ticket) = true.
Proof.
  cbv zeta. rewrite !has_true. intros H. unfold TA.candidates.
  rewrite negative_keywords_paths.
  apply tfidf_keeps, fuzzy_keeps, proximity_keeps. exact H.
Qed.

End CandidatesGrow.

Section SuggestionKeys.
Context {L : PyLib}.

Lemma zset_keys_nodup {V : Type} (k : Z) (v : V) (d : list (Z * V)) :
  NoDup (map fst d) -> NoDup (map fst (Dict.zset k v d)).
Proof. apply nodup_set_by. exact Z.eqb_eq. Qed.

Lemma loop_keys (self : TA.t) (scores : option (list (list (TaxonomyPath * Q))))
  (tickets : list TicketRecord.t) :
  forall index acc,
  NoDup (map fst acc) ->
  NoDup (map fst (fst (TA.suggest_loop self scores index tickets acc)))
  /\ forall id, In id (map fst (fst (TA.suggest_loop self scores index tickets acc)))
                <-> In id (map fst acc) \/ In id (map TicketRecord.id tickets).
Proof.
  induction tickets as [|t r IH]; intros index acc N.
  - simpl. split; [exact N|]. intros id. tauto.
  - rewrite loop_step.
    destruct (IH (S index) _ (zset_keys_nodup (TicketRecord.id t)
                                (list_at self scores index 0 t) acc N)) as [H H0].
    split; [exact H|]. intros id. rewrite H0.
    unfold Dict.zset. rewrite keys_set_by. cbn [map In].
    destruct (Dict.get_by Z.eqb (TicketRecord.id t) acc) eqn:E.
    + apply (get_by_in Z.eqb Z.eqb_eq) in E.
      apply (in_map fst) in E. cbn [fst] in E.
      split; [tauto|]. intros [H1|[H1|H1]]; [tauto|subst; tauto|tauto].
    + rewrite in_app_iff. cbn [In]. tauto.
Qed.

(** X21: the suggestions that [suggest_categories] returns have one entry per
    ticket id of the batch and no entry for any other id, and the tickets it
    returns carry the ids of the tickets given, in the same order. *)
Theorem suggest_categories_keys (self : TA.t) (tickets : list TicketRecord.t) :
  NoDup (map fst (fst (TA.suggest_categories self tickets)))
  /\ (forall id, In id (map fst (fst (TA.suggest_categories self tickets)))
                 <-> In id (map TicketRecord.id tickets))
  /\ map TicketRecord.id (snd (TA.suggest_categories self tickets))
     = map TicketRecord.id tickets.
Proof.
  unfold TA.suggest_categories.
  destruct (loop_keys self (TA._compute_tfidf_scores self tickets) tickets 1 []
              (NoDup_nil _)) as [H H0].
  split; [exact H|]. split.
  - intros id. rewrite H0. simpl. tauto.
  - pose proof (suggest_loop_keeps_input self (TA._compute_tfidf_scores self tickets)
                  tickets 1 []) as K.
    apply (f_equal (map TicketRecord.id)) in K. rewrite !map_map in K. exact K.
Qed.

End SuggestionKeys.

(** ** Final fields and TF-IDF scores *)

Section FinalFields.
Context {L : PyLib}.

Lemma ranked_primary (self : TA.t) (m : MatchMap) :
  depths_ok m -> snd (TA.ranked self m) = None -> fst (TA.ranked self m) = [].
Proof.
  intros Hd. unfold TA.ranked.
  destruct (TA.select_primary (TA._sorted_matches self m)) eqn:E; [discriminate|].
  assert (Hd' : depths_ok (TA._sorted_matches self m)).
  { unfold depths_ok in *. rewrite Forall_forall in *. intros x Hx.
    apply Hd. now apply sorted_matches_in in Hx. }
  rewrite (select_primary_none _ Hd' E).
  destruct (TA._fallback_match self); [discriminate|reflexivity].
Qed.

Lemma ranked_primary_nonempty (self : TA.t) (m : MatchMap) (primary : MatchResult.t) :
  snd (TA.ranked self m) = Some primary -> fst (TA.ranked self m) <> [].
Proof.
  unfold TA.ranked.
  destruct (TA.select_primary (TA._sorted_matches self m)) as [x|] eqn:E.
  - intros _. cbn [fst]. intros H. rewrite H in E. discriminate.
  - destruct (TA._fallback_match self); [discriminate|discriminate].
Qed.

Lemma suggest_ticket_fields (self : TA.t) (tfidf_map : list (TaxonomyPath * Q))
  (ticket : TicketRecord.t) :
  well_formed (TA.taxonomy self) = true ->
  match fst (TA.suggest_ticket self tfidf_map ticket) with
  | top :: _ =>
      ticket_final_fields (snd (TA.suggest_ticket self tfidf_map ticket)) = written_fields top
  | [] => snd (TA.suggest_ticket self tfidf_map ticket) = ticket
  end.
Proof.
  intros W. unfold TA.suggest_ticket. cbn [fst snd].
  destruct (map TA.to_suggestion (TA.suggested_matches self tfidf_map ticket))
    as [|top rest] eqn:E.
  - destruct (snd (TA.ranked self (TA.candidates self tfidf_map ticket))); reflexivity.
  - destruct (snd (TA.ranked self (TA.candidates self tfidf_map ticket))) eqn:E0;
      [reflexivity|].
    apply ranked_primary in E0; [|apply candidates_depths; exact W].
    unfold TA.suggested_matches in E. rewrite E0, firstn_nil in E. discriminate.
Qed.

Lemma loop_tickets (self : TA.t) (scores : option (list (list (TaxonomyPath * Q))))
  (tickets : list TicketRecord.t) :
  forall index acc i ticket,
  nth_error tickets i = Some ticket ->
  nth_error (snd (TA.suggest_loop self scores index tickets acc)) i
  = Some (snd (TA.suggest_ticket self (TA.tfidf_map_at scores (index + i)) ticket)).
Proof.
  induction tickets as [|t r IH]; intros index acc i ticket H.
  - destruct i; discriminate.
  - cbn [TA.suggest_loop].
    destruct (TA.suggest_ticket self (TA.tfidf_map_at scores index) t) as [l t'] eqn:E.
    destruct (TA.suggest_loop self scores (S index) r
                (Dict.zset (TicketRecord.id t) l acc)) as [s r'] eqn:E0.
    cbn [snd]. destruct i as [|i].
    + injection H as <-. rewrite Nat.add_0_r, E. reflexivity.
    + cbn [nth_error] in *. specialize (IH (S index) (Dict.zset (TicketRecord.id t) l acc)
                                           i ticket H).
      rewrite E0 in IH. cbn [snd] in IH. rewrite IH. rewrite Nat.add_succ_r. reflexivity.
Qed.

(** X22: for a batch with distinct ticket ids, the ticket that
    [suggest_categories] returns at a position has its three final fields
    set from the first suggestion recorded under its id, a missing level
    written as the empty string; a ticket with no suggestion is returned
    unchanged, and whenever a primary match exists the list is not empty. *)
Theorem final_fields_follow_top_suggestion (self : TA.t) (tickets : list TicketRecord.t)
  (i : nat) (ticket : TicketRecord.t) :
  constructed self ->
  well_formed (TA.taxonomy self) = true ->
  NoDup (map TicketRecord.id tickets) ->
  nth_error tickets i = Some ticket ->
  exists suggestion_list ticket',
    Dict.zget (TicketRecord.id ticket) (fst (TA.suggest_categories self tickets))
      = Some suggestion_list
    /\ nth_error (snd (TA.suggest_categories self tickets)) i = Some ticket'
    /\ match suggestion_list with
       | top :: _ => ticket_final_fields ticket' = written_fields top
       | [] => ticket' = ticket
       end
    /\ (snd (TA.ranked self
               (TA.candidates self
                  (TA.tfidf_map_at (TA._compute_tfidf_scores self tickets) (S i)) ticket))
          <> None -> suggestion_list <> []).
Proof.
  intros C W N H. unfold TA.suggest_categories.
  set (scores := TA._compute_tfidf_scores self tickets).
  exists (list_at self scores 1 i ticket).
  exists (snd (TA.suggest_ticket self (TA.tfidf_map_at scores (S i)) ticket)).
  split; [exact (loop_get self scores tickets 1 [] i ticket N H)|].
  split; [exact (loop_tickets self scores tickets 1 [] i ticket H)|].
  unfold list_at. cbn [Nat.add]. split.
  - exact (suggest_ticket_fields self _ ticket W).
  - intros P. unfold TA.suggest_ticket. cbn [fst]. unfold TA.suggested_matches.
    destruct (snd (TA.ranked self (TA.candidates self (TA.tfidf_map_at scores (S i)) ticket)))
      as [primary|] eqn:E; [|congruence].
    apply ranked_primary_nonempty in E.
    destruct (fst (TA.ranked self (TA.candidates self (TA.tfidf_map_at scores (S i)) ticket)))
      as [|x l]; [congruence|].
    destruct C. cbn [TA.max_suggestions_per_ticket TA.init].
    destruct (Z.to_nat (Z.max 1 max_suggestions_per_ticket)) eqn:Ez; [lia|].
    cbn. discriminate.
Qed.

End FinalFields.

Section TfidfScores.
Context {L : PyLib}.
Open Scope Q_scope.

Lemma Qgtb_true (a b : Q) : Num.Qgtb a b = true -> b < a.
Proof.
  unfold Num.Qgtb, Num.Qltb. destruct (Qcompare b a) eqn:E; try discriminate.
  intros _. exact E.
Qed.

Lemma score_map_entries (ticket_vector : list (string * Q))
  (protos : list (TaxonomyPath * list (string * Q))) :
  forall score_map path score,
  In (path, score)
     (fold_left
        (fun score_map (pv : TaxonomyPath * list (string * Q)) =>
           let value := TA._cosine_similarity ticket_vector (snd pv) in
           if Num.Qgtb value 0 then Dict.set (fst pv) value score_map else score_map)
        protos score_map) ->
  In (path, score) score_map \/ (0 < score /\ In path (map fst protos)).
Proof.
  induction protos as [|pv r IH]; intros score_map path score H; [left; exact H|].
  cbn [fold_left] in H. apply IH in H. destruct H as [H|[H H0]].
  - cbv zeta in H. destruct (Num.Qgtb _ 0) eqn:E; [|left; exact H].
    apply (in_set_by Py.tuple_eqb tuple_eqb_eq) in H. destruct H as [[-> ->]|H]; [|left; exact H].
    right. split; [apply Qgtb_true; exact E|left; reflexivity].
  - right. split; [exact H|right; exact H0].
Qed.

Lemma prototypes_childless (self : TA.t) (idf_map : list (string * Q)) (default_idf : Q)
  (tokens_by_path : list (TaxonomyPath * list string))
  (nodes : list (TaxonomyPath * TaxonomyNode.t)) :
  forall protos path,
  In path
     (map fst
        (fold_left
           (fun protos (pn : TaxonomyPath * TaxonomyNode.t) =>
              match TaxonomyNode.children (snd pn) with
              | _ :: _ => protos
              | [] =>
                  let seed_tokens :=
                    (flat_map (fun keyword => TA._raw_tokens (Py.lower keyword))
                              (TaxonomyNode.keywords (snd pn))
                     ++ match Dict.get (fst pn) tokens_by_path with
                        | Some l => l | None => [] end)%list in
                  match TA._build_tfidf_vector seed_tokens idf_map default_idf with
                  | [] => protos
                  | vector => Py.push protos (fst pn, vector)
                  end
              end)
           nodes protos)) ->
  In path (map fst protos)
  \/ exists node, In (path, node) nodes /\ TaxonomyNode.children node = [].
Proof.
  induction nodes as [|[p n] r IH]; intros protos path H; [left; exact H|].
  cbn [fold_left fst snd] in H. apply IH in H. destruct H as [H|[node [H H0]]].
  - destruct (TaxonomyNode.children n) eqn:E; [|left; exact H].
    cbv zeta in H. destruct (TA._build_tfidf_vector _ idf_map default_idf); [left; exact H|].
    unfold Py.push in H. rewrite map_app, in_app_iff in H. destruct H as [H|[<-|[]]].
    + left. exact H.
    + right. exists n. split; [left; reflexivity|exact E].
  - right. exists node. split; [right; exact H|exact H0].
Qed.

Lemma artifacts_shape (self : TA.t) (tickets : list TicketRecord.t)
  (artifacts : TA.TfidfArtifacts.t) :
  TA._build_tfidf_artifacts self tickets = Some artifacts ->
  List.length (TA.TfidfArtifacts.ticket_vectors artifacts) = List.length tickets
  /\ List.length (TA.TfidfArtifacts.prototype_vectors artifacts)
     = List.length (TA.TfidfArtifacts.prototype_paths artifacts)
  /\ Forall (childless_node self) (TA.TfidfArtifacts.prototype_paths artifacts).
Proof.
  unfold TA._build_tfidf_artifacts.
  destruct tickets as [|t0 ts]; [discriminate|].
  remember (t0 :: ts) as tickets eqn:Et. clear Et.
  destruct (negb (existsb Py.truthy (map TA.corpus_text tickets))); [discriminate|].
  destruct (negb (existsb _ (map TA._raw_tokens (map TA.corpus_text tickets))));
    [discriminate|].
  destruct (TA.document_frequencies _) as [|df dfs] eqn:Ed; [discriminate|].
  destruct (_ =? 0)%Z; [discriminate|].
  match goal with
  | |- match ?P with [] => None | _ => _ end = _ -> _ =>
      assert (Forall (childless_node self) (map fst P)) as F;
      [|destruct P as [|pr prs]; [discriminate|]]
  end.
  { rewrite Forall_forall. intros path Hp.
    apply prototypes_childless in Hp; [|exact self]. destruct Hp as [[]|Hp]. exact Hp. }
  intros H. injection H as <-. cbn [TA.TfidfArtifacts.ticket_vectors
    TA.TfidfArtifacts.prototype_vectors TA.TfidfArtifacts.prototype_paths].
  split; [rewrite !length_map; reflexivity|].
  split; [|exact F]. cbn [List.length]. rewrite !length_map. reflexivity.
Qed.

(** X23: when [_compute_tfidf_scores] returns score maps there is one per
    ticket, in order, and every entry of a map has a strictly positive score
    for the path of a stored node without children. *)
Theorem tfidf_scores_shape (self : TA.t) (tickets : list TicketRecord.t)
  (score_maps : list (list (TaxonomyPath * Q))) :
  TA._compute_tfidf_scores self tickets = Some score_maps ->
  List.length score_maps = List.length tickets
  /\ forall score_map path score,
       In score_map score_maps -> In (path, score) score_map ->
       0 < score /\ childless_node self path.
Proof.
  unfold TA._compute_tfidf_scores.
  destruct (TA._build_tfidf_artifacts self tickets) as [artifacts|] eqn:E; [|discriminate].
  destruct (artifacts_shape self tickets artifacts E) as [H [H0 H1]].
  intros X. injection X as <-. split; [rewrite length_map; exact H|].
  intros score_map path score Hm Hs. apply in_map_iff in Hm.
  destruct Hm as [v [<- _]]. apply score_map_entries in Hs.
  destruct Hs as [[]|[Hs Hp]]. split; [exact Hs|].
  rewrite Forall_forall in H1. apply H1.
  apply in_map_iff in Hp. destruct Hp as [[p w] [<- Hp]]. apply in_combine_l in Hp. exact Hp.
Qed.

End TfidfScores.

(** ** Priorities and demotion *)

Section Priorities.
Context {L : PyLib}.
Import Taxonomy.

Lemma build_priority_get (nodes : list (TaxonomyPath * TaxonomyNode.t))
  (path : TaxonomyPath) (entries : list PathSpec) :
  path <> [] ->
  forall index acc,
  Dict.get path (fst (build_priority entries index nodes acc))
  = match last_position path entries with
    | Some i => Some (index + Z.of_nat i)%Z
    | None => Dict.get path (fst acc)
    end.
Proof.
  intros Hp. induction entries as [|e r IH]; intros index acc; [reflexivity|].
  cbn [build_priority last_position].
  destruct (_normalise_priority_path e) as [|x xs] eqn:E.
  - rewrite IH. destruct (last_position path r) as [i|]; [f_equal; lia|].
    destruct path; [congruence|reflexivity].
  - rewrite IH. cbn [fst]. destruct (last_position path r) as [i|]; [f_equal; lia|].
    rewrite dict_get_set, tuple_eqb_sym.
    destruct (Py.tuple_eqb (x :: xs) path); [f_equal; lia|reflexivity].
Qed.

Lemma build_priority_no_empty (nodes : list (TaxonomyPath * TaxonomyNode.t))
  (entries : list PathSpec) :
  forall index acc,
  Dict.get [] (fst acc) = None ->
  Dict.get [] (fst (build_priority entries index nodes acc)) = None.
Proof.
  induction entries as [|e r IH]; intros index acc H; [exact H|].
  cbn [build_priority].
  destruct (_normalise_priority_path e) as [|x xs] eqn:E; [exact (IH _ _ H)|].
  apply IH. cbn [fst]. rewrite dict_get_set. exact H.
Qed.

(** X24: in a model built from a configuration, the priority of a path is the
    position in [priority_order] of the last entry that normalises to it;
    a path no entry names has no priority, and neither has the empty path. *)
Theorem priority_map_ranks_last_position (config : Config.t) (md : option Metadata.t)
  (max_depth : nat) (model : TaxonomyModel.t) (warnings : list string) (path : TaxonomyPath) :
  build_taxonomy_model (Some config) md max_depth = Ok (model, warnings) ->
  Dict.get path (TaxonomyModel.priority_map model)
  = match path with
    | [] => None
    | _ => option_map Z.of_nat (last_position path (Config.priority_order config))
    end.
Proof.
  unfold build_taxonomy_model.
  destruct (Config.tree config) as [|e0 tree]; [discriminate|].
  destruct (build_tree (e0 :: tree) max_depth _) as [st|]; [|discriminate].
  cbn [bind].
  destruct (match Config.aliases config with [] => Ok st | _ => _ end)
    as [st'|]; [|discriminate].
  cbn [bind].
  destruct (build_priority (Config.priority_order config) 0 (st_nodes st')
              ([], st_warnings st')) as [priority_map w] eqn:E.
  intros H. injection H as <- _. cbn [TaxonomyModel.priority_map].
  replace priority_map
    with (fst (build_priority (Config.priority_order config) 0 (st_nodes st')
                 ([], st_warnings st'))) by (rewrite E; reflexivity).
  destruct path as [|x xs].
  - apply build_priority_no_empty. reflexivity.
  - rewrite build_priority_get by discriminate.
    destruct (last_position (x :: xs) (Config.priority_order config)); reflexivity.
Qed.

End Priorities.

Section Demotion.
Open Scope Q_scope.

Lemma dense_rank_bounds (self : TA.t) (path : TaxonomyPath) :
  dense_ranks self ->
  (0 <= base_priority self path <= priority_size self + 1)%Z.
Proof.
  intros D. unfold base_priority, priority_size in *.
  destruct (Dict.get path (TaxonomyModel.priority_map (TA.taxonomy self))) as [rank|] eqn:E.
  - apply dict_get_in in E. unfold dense_ranks in D. rewrite Forall_forall in D.
    specialize (D _ E). unfold priority_size in D. cbn [snd] in D. lia.
  - lia.
Qed.

(** X25: when every rank of the priority map is below the size of the map, a
    candidate demoted with an offset of 5 or more (the guards use 5 and 10)
    sorts after every candidate that has no override, whatever the
    confidences; its rank is its base priority plus the size plus the
    offset. *)
Theorem demoted_candidate_ranks_last (self : TA.t) (untouched demoted : MatchResult.t)
  (penalty : Q) (offset : Z) (note : string) :
  dense_ranks self ->
  MatchResult.priority_override untouched = None ->
  (5 <= offset)%Z ->
  TA.key_compare (TA.sort_key self untouched)
                 (TA.sort_key self (TA.demote self penalty offset note demoted)) = Lt
  /\ TA.priority_rank self (TA.demote self penalty offset note demoted)
     = (base_priority self (MatchResult.path demoted) + priority_size self + offset)%Z.
Proof.
  intros D U O.
  assert (TA.priority_rank self (TA.demote self penalty offset note demoted)
          = (base_priority self (MatchResult.path demoted) + priority_size self + offset)%Z)
    as R by reflexivity.
  split; [|exact R].
  assert (TA.priority_rank self untouched = base_priority self (MatchResult.path untouched))
    as R0 by (unfold TA.priority_rank; rewrite U; reflexivity).
  pose proof (dense_rank_bounds self (MatchResult.path untouched) D) as B0.
  pose proof (dense_rank_bounds self (MatchResult.path demoted) D) as B1.
  unfold TA.sort_key, TA.key_compare. rewrite R, R0.
  replace (base_priority self (MatchResult.path untouched)
           ?= base_priority self (MatchResult.path demoted) + priority_size self + offset)%Z
    with Lt; [reflexivity|].
  symmetry. apply Z.compare_lt_iff.
  assert (0 <= priority_size self)%Z by (unfold priority_size; lia). lia.
Qed.

End Demotion.

(** ** The spelling of paths and the keywords of a label *)

Section PathSpelling.
Import Taxonomy.

Lemma has_char_cons (c d : ascii) (s : string) :
  Py.has_char c (String d s) = Ascii.eqb c d || Py.has_char c s.
Proof. reflexivity. Qed.

Lemma has_char_app (c : ascii) (a b : string) :
  Py.has_char c (a ++ b) = Py.has_char c a || Py.has_char c b.
Proof.
  induction a as [|x r IH]; [reflexivity|].
  cbn [append]. rewrite !has_char_cons, IH, orb_assoc. reflexivity.
Qed.

Lemma split_acc_plain (c : ascii) (s : string) :
  Py.has_char c s = false -> forall cur, Py.split_acc c cur s = [cur ++ s].
Proof.
  induction s as [|d r IH]; intros H cur.
  - simpl. rewrite append_empty_r. reflexivity.
  - rewrite has_char_cons in H. apply orb_false_iff in H. destruct H as [H H0].
    cbn [Py.split_acc]. rewrite Ascii.eqb_sym, H. rewrite (IH H0), append_assoc. reflexivity.
Qed.

Lemma split_acc_sep (c : ascii) (a b : string) :
  Py.has_char c a = false ->
  forall cur, Py.split_acc c cur (a ++ String c b) = (cur ++ a) :: Py.split_acc c "" b.
Proof.
  induction a as [|d r IH]; intros H cur.
  - cbn [append Py.split_acc]. rewrite Ascii.eqb_refl, append_empty_r. reflexivity.
  - rewrite has_char_cons in H. apply orb_false_iff in H. destruct H as [H H0].
    cbn [append Py.split_acc]. rewrite Ascii.eqb_sym, H. rewrite (IH H0), append_assoc.
    reflexivity.
Qed.

Lemma clean_label_spec (part : string) :
  clean_label part = true ->
  Py.truthy part = true /\ Py.strip part = part /\ Py.has_char ">" part = false.
Proof.
  unfold clean_label. rewrite !andb_true_iff, negb_true_iff, String.eqb_eq. tauto.
Qed.

Lemma split_joined (path : TaxonomyPath) :
  forallb clean_label path = true ->
  path <> [] ->
  forall cur, cur = "" \/ cur = " " ->
  filter Py.truthy (map Py.strip (Py.split_acc ">" cur (Py.join " > " path))) = path.
Proof.
  induction path as [|p rest IH]; intros H N cur Hc; [congruence|].
  cbn [forallb] in H. apply andb_true_iff in H. destruct H as [Hp Hr].
  destruct (clean_label_spec p Hp) as [T [S C]].
  assert (Py.strip (cur ++ p) = p) as Sp by (destruct Hc; subst; exact S).
  destruct rest as [|q rest].
  - cbn [Py.join]. rewrite (split_acc_plain ">" p C). cbn [map filter].
    rewrite Sp, T. reflexivity.
  - change (Py.join " > " (p :: q :: rest))
      with (p ++ " > " ++ Py.join " > " (q :: rest)).
    change (p ++ " > " ++ Py.join " > " (q :: rest))
      with (p ++ String " " (String ">" (String " " (Py.join " > " (q :: rest))))).
    replace (p ++ String " " (String ">" (String " " (Py.join " > " (q :: rest)))))
      with ((p ++ " ") ++ String ">" (String " " (Py.join " > " (q :: rest))))
      by (rewrite append_assoc; reflexivity).
    rewrite split_acc_sep.
    + cbn [map filter]. rewrite <- append_assoc, strip_app_space, Sp, T. f_equal.
      change (Py.split_acc ">" "" (String " " (Py.join " > " (q :: rest))))
        with (Py.split_acc ">" " " (Py.join " > " (q :: rest))).
      apply IH; [exact Hr|discriminate|right; reflexivity].
    + rewrite has_char_app, C. reflexivity.
Qed.

Lemma filter_clean (path : TaxonomyPath) :
  forallb clean_label path = true -> filter Py.truthy path = path.
Proof.
  induction path as [|p rest IH]; intros H; [reflexivity|].
  cbn [forallb] in H. apply andb_true_iff in H. destruct H as [Hp Hr].
  destruct (clean_label_spec p Hp) as [T _]. cbn [filter]. rewrite T, (IH Hr). reflexivity.
Qed.

(** X26: for a path whose labels are not blank, carry no white space at their
    ends and no separator, [_normalise_priority_path] reads the path back
    from its text joined with the separator, and returns the list form as it
    is. *)
Theorem normalise_round_trip (path : TaxonomyPath) :
  forallb clean_label path = true ->
  _normalise_priority_path (PathStr (Py.join " > " path)) = path
  /\ _normalise_priority_path (PathList path) = path.
Proof.
  intros H. unfold _normalise_priority_path. split; [|exact (filter_clean path H)].
  destruct path as [|p rest]; [reflexivity|].
  apply split_joined; [exact H|discriminate|left; reflexivity].
Qed.

End PathSpelling.

Section DerivedKeywords.
Import Taxonomy.

Lemma add_ok (term : string) (st : kw_state) : kw_ok st -> kw_ok (_add term st).
Proof.
  intros [N [S T]]. unfold _add.
  destruct (negb (Py.truthy (Py.lower (Py.strip term)))) eqn:E;
    [repeat split; assumption || apply S|].
  destruct (Py.mem (Py.lower (Py.strip term)) (snd st)) eqn:M;
    [repeat split; assumption || apply S|].
  apply mem_false in M. apply negb_false_iff in E. rewrite lower_truthy in E.
  unfold kw_ok, Py.push. cbn [fst snd]. rewrite map_app. cbn [map]. split; [|split].
  - apply NoDup_app; [exact N|repeat constructor; intros []|].
    intros x Hx [<-|[]]. apply M. apply S. exact Hx.
  - intros x. unfold Py.set_add, Py.push.
    replace (Py.mem (Py.lower (Py.strip term)) (snd st)) with false
      by (symmetry; apply mem_false; exact M).
    rewrite !in_app_iff, S. reflexivity.
  - apply Forall_app. split; [exact T|].
    constructor; [split; [exact E|apply strip_idempotent]|constructor].
Qed.

Lemma add_keeps_head (term : string) (st : kw_state) (k : string) :
  hd_error (fst st) = Some k -> hd_error (fst (_add term st)) = Some k.
Proof.
  intros H. unfold _add.
  destruct (negb _); [exact H|]. destruct (Py.mem _ _); [exact H|].
  cbn [fst]. unfold Py.push. destruct (fst st); [discriminate|exact H].
Qed.

Lemma fold_ok {A : Type} (P : kw_state -> Prop) (f : kw_state -> A -> kw_state) (l : list A) :
  (forall st a, P st -> P (f st a)) -> forall st, P st -> P (fold_left f l st).
Proof.
  intros Hf. induction l as [|a r IH]; intros st H; [exact H|].
  cbn [fold_left]. apply IH. apply Hf. exact H.
Qed.

Lemma add_with_aliases_inv (P : kw_state -> Prop) (term : string) (st : kw_state) :
  (forall t s, P s -> P (_add t s)) -> P st -> P (_add_with_aliases term st).
Proof.
  intros Hf H. unfold _add_with_aliases. apply fold_ok; [|apply Hf; exact H].
  intros s a Hs. apply Hf. exact Hs.
Qed.

Lemma add_all_inv (P : kw_state -> Prop) (terms : list string) (st : kw_state) :
  (forall t s, P s -> P (_add t s)) -> P st -> P (add_all terms st).
Proof.
  intros Hf H. unfold add_all. apply fold_ok; [|exact H].
  intros s a Hs. apply add_with_aliases_inv; assumption.
Qed.

(** every step of [_derive_label_keywords] that follows the first keeps an
    invariant that [_add] keeps *)
Lemma derive_inv (P : kw_state -> Prop) (label : string) (extras : option (list string))
  (st0 : kw_state) :
  (forall t s, P s -> P (_add t s)) ->
  P st0 ->
  let tokens := _split_label_tokens label in
  let base := Py.strip label in
  let lower_label := Py.lower base in
  let st :=
    if Py.truthy lower_label && negb (String.eqb lower_label base)
    then _add_with_aliases lower_label st0
    else st0 in
  let st :=
    fold_left
      (fun s token =>
         let s := _add_with_aliases token s in
         let s := add_all (_plural_forms token) s in
         add_all (get_list token _VENDOR_EXPANSIONS) s)
      tokens st in
  let max_span := Nat.min 4 (List.length tokens) in
  let st :=
    fold_left
      (fun s span =>
         fold_left
           (fun s phrase_tokens =>
              let phrase := Py.join " " phrase_tokens in
              let s := _add_with_aliases phrase s in
              let s := _add_with_aliases (Py.replace " " "" phrase) s in
              _add_with_aliases (Py.replace " " "-" phrase) s)
           (spans tokens span) s)
      (seq 2 (max_span - 1)) st in
  let st :=
    match extras with
    | Some values => add_all values st
    | None => st
    end in
  P st.
Proof.
  intros Hf H0. cbv zeta.
  assert (forall t s, P s -> P (_add_with_aliases t s)) as Ha
    by (intros; apply add_with_aliases_inv; assumption).
  assert (forall l s, P s -> P (add_all l s)) as Hl
    by (intros; apply add_all_inv; assumption).
  match goal with
  | |- P (match extras with Some values => add_all values ?s | None => _ end) =>
      assert (P s) as H; [|destruct extras; [apply Hl|]; exact H]
  end.
  apply fold_ok.
  { intros s span Hs. apply fold_ok; [|exact Hs]. intros s' ph Hs'. apply Ha, Ha, Ha. exact Hs'. }
  apply fold_ok.
  { intros s tok Hs. apply Hl, Hl, Ha. exact Hs. }
  destruct (_ && _); [apply Ha|]; exact H0.
Qed.

Lemma derived_state_ok (label : string) (extras : option (list string)) :
  exists st, kw_ok st /\ _derive_label_keywords label extras = fst st.
Proof.
  unfold _derive_label_keywords.
  set (st0 := if Py.truthy (Py.strip label)
              then add_all (_delimiter_variants (Py.strip label))
                           (_add_with_aliases (Py.strip label) ([], []))
              else ([], [])).
  assert (kw_ok st0) as K0.
  { subst st0. assert (kw_ok ([], [])) as E
      by (split; [constructor|split; [intros x; simpl; tauto|constructor]]).
    destruct (Py.truthy (Py.strip label)); [|exact E].
    apply add_all_inv; [intros; apply add_ok; assumption|].
    apply add_with_aliases_inv; [intros; apply add_ok; assumption|exact E]. }
  eexists. split; [|reflexivity].
  exact (derive_inv kw_ok label extras st0 (fun t s H => add_ok t s H) K0).
Qed.

Lemma derived_head (label : string) (extras : option (list string)) :
  Py.strip label <> "" ->
  hd_error (_derive_label_keywords label extras) = Some (Py.strip label).
Proof.
  intros B. unfold _derive_label_keywords.
  set (st0 := if Py.truthy (Py.strip label)
              then add_all (_delimiter_variants (Py.strip label))
                           (_add_with_aliases (Py.strip label) ([], []))
              else ([], [])).
  assert (hd_error (fst st0) = Some (Py.strip label)) as H0.
  { subst st0. destruct (Py.strip label) as [|c r] eqn:E; [congruence|].
    cbn [Py.truthy].
    apply (add_all_inv (fun s => hd_error (fst s) = Some (String c r)));
      [intros; apply add_keeps_head; assumption|].
    unfold _add_with_aliases.
    apply (fold_ok (fun s => hd_error (fst s) = Some (String c r)));
      [intros; apply add_keeps_head; assumption|].
    unfold _add. rewrite lower_truthy.
    replace (Py.strip (String c r)) with (String c r); [reflexivity|].
    rewrite <- E. symmetry. apply strip_idempotent. }
  exact (derive_inv (fun s => hd_error (fst s) = Some (Py.strip label)) label extras st0
           (fun t s H => add_keeps_head t s _ H) H0).
Qed.

(** X27: the keywords [_derive_label_keywords] returns are distinct even when
    case is ignored, none is empty, none has white space at its ends, and
    for a label that is not blank the first keyword is the stripped label
    itself. *)
Theorem derived_keywords_distinct (label : string) (extras : option (list string)) :
  NoDup (map Py.lower (_derive_label_keywords label extras))
  /\ Forall (fun keyword => keyword <> "" /\ Py.strip keyword = keyword)
            (_derive_label_keywords label extras)
  /\ (Py.strip label <> "" ->
      hd_error (_derive_label_keywords label extras) = Some (Py.strip label)).
Proof.
  destruct (derived_state_ok label extras) as [st [[N [_ T]] E]].
  split; [rewrite E; exact N|]. split; [|apply derived_head].
  rewrite E. rewrite Forall_forall in *. intros keyword Hk.
  destruct (T keyword Hk) as [H H0]. split; [|exact H0].
  destruct keyword; [discriminate|discriminate].
Qed.

End DerivedKeywords.

(** ** The links of a built model and the walk over it *)

Section Links.
Context {L : PyLib}.
Import Taxonomy.

Lemma path_eq_dec (a b : TaxonomyPath) : {a = b} + {a <> b}.
Proof. apply list_eq_dec. apply string_dec. Qed.

Lemma removelast_short {A : Type} (p : list A) :
  removelast p = [] -> (List.length p < 2)%nat.
Proof.
  destruct p as [|x [|y r]]; simpl; intros H; try lia. discriminate.
Qed.

Lemma removelast_differs {A : Type} (p : list A) : p <> [] -> removelast p <> p.
Proof.
  intros N H. apply (f_equal (@List.length A)) in H.
  destruct p as [|x r]; [congruence|]. rewrite removelast_cons_length in H. simpl in H. lia.
Qed.

Lemma tree_ok_new (pending : TaxonomyPath -> Prop) (path : TaxonomyPath)
  (node : TaxonomyNode.t) (store : list (TaxonomyPath * TaxonomyNode.t)) :
  tree_ok pending store ->
  Dict.has path store = false ->
  TaxonomyNode.children node = [] ->
  tree_ok (fun x => pending x \/ x = path) (Dict.set path node store).
Proof.
  intros [N [C P]] H E. split; [|split].
  - apply nodup_set_by; [exact tuple_eqb_eq|exact N].
  - intros p n Hin c Hc. apply dict_in_set in Hin. destruct Hin as [[-> ->]|Hin].
    + rewrite E in Hc. destruct Hc.
    + destruct (C p n Hin c Hc) as [H0 H1]. split; [exact H0|].
      rewrite dict_has_set, H1. apply orb_true_r.
  - intros p n Hin Hl Hp. apply dict_in_set in Hin. destruct Hin as [[-> ->]|Hin].
    + exfalso. apply Hp. right. reflexivity.
    + destruct (P p n Hin Hl) as [parent [H0 H1]]; [tauto|].
      exists parent. split; [|exact H1]. rewrite dict_get_set.
      destruct (Py.tuple_eqb (removelast p) path) eqn:X; [|exact H0].
      apply tuple_eqb_eq in X. rewrite X in H0. apply dict_get_has in H0. congruence.
Qed.

Lemma tree_ok_append (pending : TaxonomyPath -> Prop) (parent child : TaxonomyPath)
  (st : BuildState) :
  tree_ok (fun x => pending x \/ x = child) (st_nodes st) ->
  removelast child = parent ->
  Dict.has child (st_nodes st) = true ->
  Dict.has parent (st_nodes st) = true ->
  tree_ok pending (st_nodes (append_child parent child st)).
Proof.
  intros [N [C P]] R Hc Hp. unfold append_child.
  destruct (Dict.get parent (st_nodes st)) as [n|] eqn:G;
    [|apply dict_has_get in Hp; destruct Hp; congruence].
  cbn [set_node st_nodes]. pose proof (dict_get_in _ _ _ G) as Gin.
  split; [|split].
  - apply nodup_set_by; [exact tuple_eqb_eq|exact N].
  - intros p m Hin c Hcm. apply dict_in_set in Hin. destruct Hin as [[-> ->]|Hin].
    + cbn [TaxonomyNode.add_child TaxonomyNode.children] in Hcm. unfold Py.push in Hcm.
      apply in_app_iff in Hcm. destruct Hcm as [Hcm|[<-|[]]].
      * destruct (C parent n Gin c Hcm) as [H0 H1]. split; [exact H0|].
        rewrite dict_has_set, H1. apply orb_true_r.
      * split; [exact R|]. rewrite dict_has_set, Hc. apply orb_true_r.
    + destruct (C p m Hin c Hcm) as [H0 H1]. split; [exact H0|].
      rewrite dict_has_set, H1. apply orb_true_r.
  - intros p m Hin Hl Hpend.
    destruct (path_eq_dec p child) as [->|Np].
    + exists (TaxonomyNode.add_child child n). rewrite R, dict_get_set, tuple_eqb_refl.
      split; [reflexivity|]. cbn [TaxonomyNode.add_child TaxonomyNode.children].
      unfold Py.push. apply in_or_app. right. left. reflexivity.
    + assert (exists m0, In (p, m0) (st_nodes st)) as [m0 Hin0].
      { apply dict_in_set in Hin. destruct Hin as [[-> _]|Hin]; [exists n; exact Gin|].
        exists m. exact Hin. }
      destruct (P p m0 Hin0 Hl) as [pn [H0 H1]]; [tauto|].
      rewrite dict_get_set. destruct (Py.tuple_eqb (removelast p) parent) eqn:X.
      * apply tuple_eqb_eq in X. rewrite X, G in H0. injection H0 as <-.
        exists (TaxonomyNode.add_child child n). split; [reflexivity|].
        cbn [TaxonomyNode.add_child TaxonomyNode.children]. unfold Py.push.
        apply in_or_app. left. exact H1.
      * exists pn. split; [exact H0|exact H1].
Qed.

Lemma tree_ok_root (pending : TaxonomyPath -> Prop) (path : TaxonomyPath)
  (store : list (TaxonomyPath * TaxonomyNode.t)) :
  tree_ok (fun x => pending x \/ x = path) store ->
  (List.length path < 2)%nat ->
  tree_ok pending store.
Proof.
  intros [N [C P]] H. split; [exact N|]. split; [exact C|].
  intros p n Hin Hl Hp. apply (P p n Hin Hl). intros [X|X]; [exact (Hp X)|]. subst. lia.
Qed.

Lemma removelast_push (parent : TaxonomyPath) (label : string) :
  removelast (Py.push parent label) = parent.
Proof. unfold Py.push. apply removelast_last. Qed.

Lemma append_child_has (parent child q : TaxonomyPath) (st : BuildState) :
  Dict.has q (st_nodes st) = true ->
  Dict.has q (st_nodes (append_child parent child st)) = true.
Proof.
  intros H. unfold append_child. destruct (Dict.get parent (st_nodes st)); [|exact H].
  cbn [set_node st_nodes]. rewrite dict_has_set, H. apply orb_true_r.
Qed.

Lemma build_node_tree_ok (max_depth : nat) (entry : NodeEntry) :
  forall parent st p st' pending,
  _build_node entry parent max_depth st = Ok (p, st') ->
  tree_ok pending (st_nodes st) ->
  tree_ok (fun x => pending x \/ x = p) (st_nodes st')
  /\ removelast p = parent
  /\ Dict.has p (st_nodes st') = true
  /\ (forall q, Dict.has q (st_nodes st) = true -> Dict.has q (st_nodes st') = true).
Proof.
  induction entry as [label keywords regexes aliases children IH] using node_entry_ind.
  intros parent st p st' pending. cbn [_build_node].
  destruct label as [raw|]; [|discriminate].
  destruct (negb (Py.truthy (Py.strip raw))); [discriminate|].
  destruct (max_depth <? _)%nat eqn:Ed; [discriminate|].
  destruct (find _ regexes); [discriminate|].
  destruct (Dict.has _ _) eqn:Eh; [discriminate|].
  pose proof (removelast_push parent (Py.strip raw)) as Hr.
  set (path := Py.push parent (Py.strip raw)) in *.
  set (st1 := fold_left _ aliases _).
  intros H Hst.
  assert (H1 : tree_ok (fun x => pending x \/ x = path) (st_nodes st1)).
  { subst st1. rewrite add_rules_nodes. cbn [set_node st_nodes].
    apply tree_ok_new; [exact Hst|exact Eh|reflexivity]. }
  assert (H2 : Dict.has path (st_nodes st1) = true).
  { subst st1. rewrite add_rules_nodes. cbn [set_node st_nodes].
    rewrite dict_has_set, tuple_eqb_refl. reflexivity. }
  assert (H3 : forall q, Dict.has q (st_nodes st) = true -> Dict.has q (st_nodes st1) = true).
  { intros q Hq. subst st1. rewrite add_rules_nodes. cbn [set_node st_nodes].
    rewrite dict_has_set, Hq. apply orb_true_r. }
  clearbody st1 path. clear Hst Eh.
  revert st1 H1 H2 H3 H. induction IH as [|c cs Hc _ IHcs]; intros st1 H1 H2 H3 H.
  - cbn in H. injection H as <- <-. auto.
  - cbn [bind] in H.
    destruct (_build_node c path max_depth st1) as [[cp st2]|e] eqn:Ec; [|discriminate].
    cbn [bind fst snd] in H.
    destruct (Hc path st1 cp st2 _ Ec H1) as [T [R [Hcp M]]].
    apply (IHcs (append_child path cp st2)); [| | |exact H].
    + apply tree_ok_append; [exact T|exact R|exact Hcp|exact (M path H2)].
    + apply append_child_has. exact (M path H2).
    + intros q Hq. apply append_child_has. apply M. apply H3. exact Hq.
Qed.

Lemma build_tree_tree_ok (max_depth : nat) (entries : list NodeEntry) :
  forall st st',
  build_tree entries max_depth st = Ok st' ->
  tree_ok none_pending (st_nodes st) -> tree_ok none_pending (st_nodes st').
Proof.
  induction entries as [|e entries IH]; intros st st' H Hst.
  - injection H as <-. exact Hst.
  - cbn [build_tree bind] in H.
    destruct (_build_node e [] max_depth st) as [[p st1]|err] eqn:E; [|discriminate].
    cbn [bind snd] in H. apply (IH st1 st' H).
    destruct (build_node_tree_ok max_depth e [] st p st1 none_pending E Hst) as [T [R _]].
    apply (tree_ok_root none_pending p); [exact T|]. apply removelast_short. exact R.
Qed.

(** [_ensure_node] when its parent path is empty or stored already *)
Lemma ensure_node_tree_ok (max_depth : nat) (fuel : nat) (label : option string)
  (parent : TaxonomyPath) (st : BuildState) :
  tree_ok none_pending (st_nodes st) ->
  parent = [] \/ Dict.has parent (st_nodes st) = true ->
  tree_ok none_pending (st_nodes (snd (_ensure_node fuel max_depth label parent st)))
  /\ (forall p, fst (_ensure_node fuel max_depth label parent st) = Some p ->
                Dict.has p (st_nodes (snd (_ensure_node fuel max_depth label parent st)))
                = true)
  /\ (forall q, Dict.has q (st_nodes st) = true ->
                Dict.has q (st_nodes (snd (_ensure_node fuel max_depth label parent st)))
                = true).
Proof.
  intros Hst Hpar.
  assert (forall r : option TaxonomyPath * BuildState,
            r = (None, st) \/ (exists w, r = (None, warn w st)) ->
            tree_ok none_pending (st_nodes (snd r))
            /\ (forall p, fst r = Some p -> Dict.has p (st_nodes (snd r)) = true)
            /\ (forall q, Dict.has q (st_nodes st) = true ->
                          Dict.has q (st_nodes (snd r)) = true)) as Same.
  { intros r [->|[w ->]]; cbn [fst snd warn st_nodes];
      (split; [exact Hst|split; [discriminate|auto]]). }
  destruct fuel as [|f]; cbn [_ensure_node].
  all: destruct label as [raw|]; [|apply Same; left; reflexivity].
  all: destruct (negb (Py.truthy (Py.strip raw))); [apply Same; left; reflexivity|].
  all: destruct (max_depth <? _)%nat; [apply Same; right; eexists; reflexivity|].
  all: pose proof (removelast_push parent (Py.strip raw)) as Hr.
  all: set (path := Py.push parent (Py.strip raw)) in *.
  all: destruct (Dict.get path (st_nodes st)) as [old|] eqn:G;
    [cbn [fst snd]; split; [exact Hst|]; split;
       [intros p Hp; injection Hp as <-; exact (dict_get_has _ _ _ G)|auto]|].
  all: assert (Dict.has path (st_nodes st) = false) as Hn
      by (unfold Dict.has; rewrite G; reflexivity).
  all: set (node := TaxonomyNode.make _ path _ _ [] [] []).
  all: pose proof (tree_ok_new none_pending path node (st_nodes st) Hst Hn eq_refl) as T.
  all: assert (Dict.has path (Dict.set path node (st_nodes st)) = true) as Hp1
      by (rewrite dict_has_set, tuple_eqb_refl; reflexivity).
  all: assert (forall q, Dict.has q (st_nodes st) = true ->
                         Dict.has q (Dict.set path node (st_nodes st)) = true) as M1
      by (intros q Hq; rewrite dict_has_set, Hq; apply orb_true_r).
  all: destruct parent as [|x xs];
    [cbn [fst snd set_node st_nodes]; split;
       [apply (tree_ok_root none_pending path); [exact T|];
        apply removelast_short; exact Hr
       |split; [intros p Hp; injection Hp as <-; exact Hp1|exact M1]]|].
  all: destruct Hpar as [Hpar|Hpar]; [discriminate|].
  all: destruct (dict_has_get (x :: xs) _ (M1 _ Hpar)) as [pn Gp];
    cbn [set_node st_nodes]; rewrite Gp; cbn [fst snd].
  all: split;
    [apply tree_ok_append; [exact T|exact Hr|exact Hp1|exact (M1 _ Hpar)]|].
  all: split; [intros p Hp; injection Hp as <-; apply append_child_has; exact Hp1|].
  all: intros q Hq; apply append_child_has; exact (M1 q Hq).
Qed.

Lemma ensure_all_tree_ok (max_depth : nat) (entries : list string) (parent : TaxonomyPath) :
  forall st,
  tree_ok none_pending (st_nodes st) ->
  parent = [] \/ Dict.has parent (st_nodes st) = true ->
  tree_ok none_pending (st_nodes (ensure_all max_depth entries parent st))
  /\ (forall q, Dict.has q (st_nodes st) = true ->
                Dict.has q (st_nodes (ensure_all max_depth entries parent st)) = true).
Proof.
  unfold ensure_all. induction entries as [|e entries IH]; intros st Hst Hp.
  - split; [exact Hst|auto].
  - cbn [fold_left]. unfold ensure at 2 4.
    destruct (ensure_node_tree_ok max_depth (List.length parent) (Some e) parent st Hst Hp)
      as [T [_ M]].
    destruct (IH _ T) as [T' M'].
    + destruct Hp as [Hp|Hp]; [left; exact Hp|right; exact (M _ Hp)].
    + split; [exact T'|]. intros q Hq. apply M'. apply M. exact Hq.
Qed.

Lemma fold_left_tree_ok {A : Type} (f : BuildState -> A -> BuildState) (l : list A) :
  (forall st a, tree_ok none_pending (st_nodes st) ->
                tree_ok none_pending (st_nodes (f st a))) ->
  forall st, tree_ok none_pending (st_nodes st) ->
             tree_ok none_pending (st_nodes (fold_left f l st)).
Proof.
  intros Hf. induction l as [|a l IH]; intros st Hst; [exact Hst|].
  cbn [fold_left]. apply IH. apply Hf. exact Hst.
Qed.

Lemma metadata_model_tree_ok (md : Metadata.t) (max_depth : nat) :
  tree_ok none_pending
    (TaxonomyModel.nodes_by_path (fst (_build_model_from_metadata md max_depth))).
Proof.
  unfold _build_model_from_metadata. cbn [fst TaxonomyModel.nodes_by_path].
  apply fold_left_tree_ok.
  { intros st [[category_parent sub_parent] entries] Hst. cbn [fst snd].
    assert (H1 : let r := if ostr_truthy category_parent
                          then ensure max_depth category_parent [] st else (None, st) in
                 tree_ok none_pending (st_nodes (snd r))
                 /\ (forall p, fst r = Some p -> Dict.has p (st_nodes (snd r)) = true)).
    { cbv zeta. destruct (ostr_truthy category_parent);
        [|split; [exact Hst|discriminate]].
      destruct (ensure_node_tree_ok max_depth (List.length (@nil string)) category_parent
                  [] st Hst (or_introl eq_refl)) as [T [H _]].
      split; [exact T|exact H]. }
    cbv zeta in H1.
    destruct (if ostr_truthy category_parent then _ else _) as [category_node s1].
    cbn [fst snd] in H1. destruct H1 as [T1 P1].
    set (current := match category_node with Some p => p | None => [] end).
    assert (C1 : current = [] \/ Dict.has current (st_nodes s1) = true).
    { subst current. destruct category_node as [p|]; [right; apply P1; reflexivity|].
      left. reflexivity. }
    assert (H2 : let r := if ostr_truthy sub_parent
                          then match ensure max_depth sub_parent current s1 with
                               | (Some p, s') => (p, s')
                               | (None, s') => (current, s')
                               end
                          else (current, s1) in
                 tree_ok none_pending (st_nodes (snd r))
                 /\ (fst r = [] \/ Dict.has (fst r) (st_nodes (snd r)) = true)).
    { cbv zeta. destruct (ostr_truthy sub_parent); [|split; [exact T1|exact C1]].
      destruct (ensure_node_tree_ok max_depth (List.length current) sub_parent current s1
                  T1 C1) as [T [H M]].
      unfold ensure. destruct (_ensure_node _ _ _ _ _) as [[p|] s']; cbn [fst snd] in *.
      - split; [exact T|right; apply H; reflexivity].
      - split; [exact T|]. destruct C1 as [C1|C1]; [left; exact C1|right; exact (M _ C1)]. }
    cbv zeta in H2.
    destruct (if ostr_truthy sub_parent then _ else _) as [current' s2].
    cbn [fst snd] in H2. destruct H2 as [T2 C2].
    exact (proj1 (ensure_all_tree_ok max_depth entries current' s2 T2 C2)). }
  apply fold_left_tree_ok.
  { intros st [parent_label entries] Hst. cbn [fst snd].
    assert (H1 : let r := if ostr_truthy parent_label
                          then ensure max_depth parent_label [] st else (None, st) in
                 tree_ok none_pending (st_nodes (snd r))
                 /\ (forall p, fst r = Some p -> Dict.has p (st_nodes (snd r)) = true)).
    { cbv zeta. destruct (ostr_truthy parent_label);
        [|split; [exact Hst|discriminate]].
      destruct (ensure_node_tree_ok max_depth (List.length (@nil string)) parent_label
                  [] st Hst (or_introl eq_refl)) as [T [H _]].
      split; [exact T|exact H]. }
    cbv zeta in H1.
    destruct (if ostr_truthy parent_label then _ else _) as [parent_node s1].
    cbn [fst snd] in H1. destruct H1 as [T1 P1].
    apply ensure_all_tree_ok; [exact T1|].
    destruct parent_node as [p|]; [right; apply P1; reflexivity|left; reflexivity]. }
  apply ensure_all_tree_ok; [|left; reflexivity].
  split; [constructor|]. split; intros p n [].
Qed.

Lemma built_model_tree_ok (config : option Config.t) (md : option Metadata.t)
  (max_depth : nat) (model : TaxonomyModel.t) (warnings : list string) :
  build_taxonomy_model config md max_depth = Ok (model, warnings) ->
  tree_ok none_pending (TaxonomyModel.nodes_by_path model).
Proof.
  unfold build_taxonomy_model. destruct config as [config|].
  - destruct (Config.tree config) as [|e0 tree] eqn:Et; [discriminate|].
    destruct (build_tree (e0 :: tree) max_depth _) as [st|err] eqn:Eb; [|discriminate].
    cbn [bind].
    assert (Hst : tree_ok none_pending (st_nodes st)).
    { apply (build_tree_tree_ok max_depth (e0 :: tree) _ st Eb).
      split; [constructor|]. split; intros p n []. }
    destruct (match Config.aliases config with [] => Ok st | _ => _ end)
      as [st'|err] eqn:Ea; [|discriminate].
    assert (Hn : st_nodes st' = st_nodes st).
    { destruct (Config.aliases config); [now injection Ea as <-|].
      now apply parse_alias_rules_nodes in Ea. }
    cbn [bind]. destruct (build_priority _ _ _ _) as [priority_map w].
    intros H. injection H as <- _. simpl. now rewrite Hn.
  - destruct md as [md|]; [|discriminate].
    intros H. injection H as <- _. exact (metadata_model_tree_ok md max_depth).
Qed.

(** the walk reaches a child one step after its parent *)
Lemma node_iter_child (store : list (TaxonomyPath * TaxonomyNode.t))
  (parent child : TaxonomyNode.t) (c : TaxonomyPath) :
  In c (TaxonomyNode.children parent) ->
  Dict.get c store = Some child ->
  forall fuel root,
  In parent (node_iter_nodes store fuel root) ->
  In child (node_iter_nodes store (S fuel) root).
Proof.
  intros Hc G. induction fuel as [|f IH]; intros root H.
  - destruct H as [<-|[]]. cbn [node_iter_nodes]. right.
    apply in_flat_map. exists c. split; [exact Hc|]. rewrite G. left. reflexivity.
  - cbn [node_iter_nodes] in H. destruct H as [<-|H].
    + change (In child (root :: flat_map
               (fun c0 => match Dict.get c0 store with
                          | Some ch => node_iter_nodes store (S f) ch
                          | None => []
                          end) (TaxonomyNode.children root))).
      right. apply in_flat_map. exists c. split; [exact Hc|]. rewrite G. left. reflexivity.
    + apply in_flat_map in H. destruct H as [c0 [H0 H1]].
      destruct (Dict.get c0 store) as [ch|] eqn:G0; [|destruct H1].
      change (In child (root :: flat_map
               (fun c0 => match Dict.get c0 store with
                          | Some ch => node_iter_nodes store (S f) ch
                          | None => []
                          end) (TaxonomyNode.children root))).
      right. apply in_flat_map. exists c0. split; [exact H0|]. rewrite G0.
      apply IH. exact H1.
Qed.

(** every stored node is reached from a node of the first level *)
Lemma stored_node_reached (max_depth : nat) (store : list (TaxonomyPath * TaxonomyNode.t)) :
  store_ok max_depth store -> tree_ok none_pending store ->
  forall k p n,
  In (p, n) store -> List.length p = S k ->
  exists r root, In (r, root) store /\ List.length r = 1%nat
                 /\ forall fuel, (k <= fuel)%nat -> In n (node_iter_nodes store fuel root).
Proof.
  intros S [N [C P]]. induction k as [|k IH]; intros p n Hin Hl.
  - exists p, n. split; [exact Hin|]. split; [exact Hl|].
    intros fuel _. destruct fuel; left; reflexivity.
  - destruct (P p n Hin) as [parent [G Hc]]; [lia|intros []|].
    pose proof (dict_get_in _ _ _ G) as Gin.
    assert (List.length (removelast p) = Datatypes.S k) as Hl'.
    { destruct p as [|x xs]; [discriminate|]. rewrite removelast_cons_length.
      simpl in Hl. lia. }
    destruct (IH _ _ Gin Hl') as [r [root [H0 [H1 H2]]]].
    exists r, root. split; [exact H0|]. split; [exact H1|].
    intros fuel Hf. destruct fuel as [|f]; [lia|].
    apply (node_iter_child store parent n p Hc).
    + apply (in_get_by Py.tuple_eqb tuple_eqb_eq); assumption.
    + apply H2. lia.
Qed.

(** a node at the maximal depth has no children *)
Lemma deepest_node_childless (max_depth : nat) (store : list (TaxonomyPath * TaxonomyNode.t))
  (p : TaxonomyPath) (n : TaxonomyNode.t) :
  store_ok max_depth store -> tree_ok none_pending store ->
  In (p, n) store -> (max_depth <= List.length p)%nat ->
  TaxonomyNode.children n = [].
Proof.
  intros S [_ [C _]] Hin Hl.
  destruct (TaxonomyNode.children n) as [|c cs] eqn:E; [reflexivity|]. exfalso.
  destruct (C p n Hin c) as [_ Hc]; [rewrite E; left; reflexivity|].
  unfold store_ok in S. rewrite Forall_forall in S.
  destruct (S _ Hin) as [_ [_ Hch]]. cbn [fst snd] in Hch. rewrite E in Hch.
  apply Forall_inv in Hch.
  apply dict_has_get in Hc. destruct Hc as [cn Hc]. apply dict_get_in in Hc.
  destruct (S _ Hc) as [_ [[_ Hd] _]]. cbn [fst] in Hd. lia.
Qed.

(** every node of a built model is reached by the walk *)
Lemma stored_node_iterated (config : option Config.t) (md : option Metadata.t)
  (max_depth : nat) (model : TaxonomyModel.t) (warnings : list string)
  (p : TaxonomyPath) (node : TaxonomyNode.t) :
  build_taxonomy_model config md max_depth = Ok (model, warnings) ->
  In (p, node) (TaxonomyModel.nodes_by_path model) ->
  In node (iter_nodes model).
Proof.
  intros B H. destruct (built_model_store_ok config md max_depth model warnings B) as [S D].
  pose proof (built_model_tree_ok config md max_depth model warnings B) as T.
  pose proof S as S0. unfold store_ok in S0. rewrite Forall_forall in S0.
  destruct (S0 _ H) as [_ [[L1 L2] _]]. cbn [fst] in L1, L2.
  destruct (List.length p) as [|k] eqn:El; [lia|].
  destruct (stored_node_reached max_depth _ S T k p node H El) as [r [root [H0 [H1 H2]]]].
  unfold iter_nodes, iter_nodes_with. apply in_flat_map. exists (r, root).
  split; [exact H0|]. cbn [snd].
  destruct (S0 _ H0) as [Hp _]. cbn [fst snd] in Hp. rewrite Hp, H1. cbn [Nat.eqb].
  apply H2. rewrite D. lia.
Qed.

(** X28: over a model that was built, [iter_nodes] yields exactly the nodes
    stored in [nodes_by_path]: every stored node is reached through the
    children lists from a node of the first level, and nothing else is
    yielded. *)
Theorem iter_nodes_visits_every_node (config : option Config.t) (md : option Metadata.t)
  (max_depth : nat) (model : TaxonomyModel.t) (warnings : list string)
  (node : TaxonomyNode.t) :
  build_taxonomy_model config md max_depth = Ok (model, warnings) ->
  In node (iter_nodes model) <-> In node (map snd (TaxonomyModel.nodes_by_path model)).
Proof.
  intros B. split.
  - intros H. apply iter_nodes_in_store in H. destruct H as [p H].
    apply in_map_iff. exists (p, node). split; [reflexivity|exact H].
  - intros H. apply in_map_iff in H. destruct H as [[p n] [E H]]. cbn [snd] in E. subst n.
    exact (stored_node_iterated config md max_depth model warnings p node B H).
Qed.

End Links.

(** ** The nodes of a built model *)

Section BuiltNodes.
Context {L : PyLib}.
Import Taxonomy.

Section Invariant.
Variable Inv : TaxonomyPath * TaxonomyNode.t -> Prop.
Hypothesis Inv_fresh :
  forall parent raw extras regexes aliases,
  Py.truthy (Py.strip raw) = true ->
  Inv (Py.push parent (Py.strip raw),
     TaxonomyNode.make (Py.strip raw) (Py.push parent (Py.strip raw))
       (_derive_label_keywords (Py.strip raw) extras)
       (map Py.lower (_derive_label_keywords (Py.strip raw) extras))
       regexes aliases []).
Hypothesis Inv_child : forall p n c, Inv (p, n) -> Inv (p, TaxonomyNode.add_child c n).

Lemma append_child_forall (parent child : TaxonomyPath) (st : BuildState) :
  Forall Inv (st_nodes st) -> Forall Inv (st_nodes (append_child parent child st)).
Proof.
  intros Hst. unfold append_child.
  destruct (Dict.get parent (st_nodes st)) as [n|] eqn:E; [|exact Hst].
  apply dict_get_in in E. cbn [set_node st_nodes].
  apply Forall_dict_set; [|exact Hst]. apply Inv_child.
  rewrite Forall_forall in Hst. exact (Hst _ E).
Qed.

Lemma build_node_forall (max_depth : nat) (entry : NodeEntry) :
  forall parent st p st',
  _build_node entry parent max_depth st = Ok (p, st') ->
  Forall Inv (st_nodes st) -> Forall Inv (st_nodes st').
Proof.
  induction entry as [label keywords regexes aliases children IH] using node_entry_ind.
  intros parent st p st'. cbn [_build_node].
  destruct label as [raw|]; [|discriminate].
  destruct (negb (Py.truthy (Py.strip raw))) eqn:Et; [discriminate|].
  apply negb_false_iff in Et.
  destruct (max_depth <? _)%nat; [discriminate|].
  destruct (find _ regexes); [discriminate|].
  destruct (Dict.has _ _); [discriminate|].
  set (path := Py.push parent (Py.strip raw)) in *.
  set (st1 := fold_left _ aliases _).
  intros H Hst.
  assert (H1 : Forall Inv (st_nodes st1)).
  { subst st1. rewrite add_rules_nodes. cbn [set_node st_nodes].
    apply Forall_dict_set; [|exact Hst]. apply Inv_fresh. exact Et. }
  clearbody st1 path. clear Hst.
  revert st1 H1 H. induction IH as [|c cs Hc _ IHcs]; intros st1 H1 H.
  - cbn in H. injection H as _ <-. exact H1.
  - cbn [bind] in H.
    destruct (_build_node c path max_depth st1) as [[cp st2]|e] eqn:Ec; [|discriminate].
    cbn [bind fst snd] in H.
    apply (IHcs (append_child path cp st2)); [|exact H].
    apply append_child_forall. exact (Hc path st1 cp st2 Ec H1).
Qed.

Lemma build_tree_forall (max_depth : nat) (entries : list NodeEntry) :
  forall st st',
  build_tree entries max_depth st = Ok st' ->
  Forall Inv (st_nodes st) -> Forall Inv (st_nodes st').
Proof.
  induction entries as [|e entries IH]; intros st st' H Hst.
  - injection H as <-. exact Hst.
  - cbn [build_tree bind] in H.
    destruct (_build_node e [] max_depth st) as [[p st1]|err] eqn:E; [|discriminate].
    cbn [bind snd] in H. apply (IH st1 st' H).
    exact (build_node_forall max_depth e [] st p st1 E Hst).
Qed.

Lemma ensure_node_forall (max_depth : nat) (fuel : nat) :
  forall label parent st,
  Forall Inv (st_nodes st) ->
  Forall Inv (st_nodes (snd (_ensure_node fuel max_depth label parent st))).
Proof.
  induction fuel as [|f IH]; intros label parent st Hst; cbn [_ensure_node].
  all: destruct label as [raw|]; [|exact Hst].
  all: destruct (negb (Py.truthy (Py.strip raw))) eqn:Et; [exact Hst|].
  all: apply negb_false_iff in Et.
  all: destruct (max_depth <? _)%nat; [exact Hst|].
  all: destruct (Dict.get _ (st_nodes st)); [exact Hst|].
  all: pose proof (Forall_dict_set Inv _ _ (st_nodes st)
                     (Inv_fresh parent raw None [] [] Et) Hst) as Hnew.
  all: destruct parent as [|x xs]; [exact Hnew|].
  all: cbn [set_node st_nodes]; destruct (Dict.get (x :: xs) _); cbn [fst snd];
    [apply append_child_forall; exact Hnew|].
  - exact Hnew.
  - specialize (IH (Some (last (x :: xs) "")) (removelast (x :: xs)) (set_node _ _ st) Hnew).
    destruct (_ensure_node f max_depth _ _ _) as [[pp|] st2]; cbn [fst snd] in *;
      [apply append_child_forall; exact IH|exact IH].
Qed.

Lemma fold_left_forall {A : Type} (f : BuildState -> A -> BuildState) (l : list A) :
  (forall st a, Forall Inv (st_nodes st) -> Forall Inv (st_nodes (f st a))) ->
  forall st, Forall Inv (st_nodes st) -> Forall Inv (st_nodes (fold_left f l st)).
Proof.
  intros Hf. induction l as [|a l IH]; intros st Hst; [exact Hst|].
  cbn [fold_left]. apply IH. apply Hf. exact Hst.
Qed.

Lemma ensure_all_forall (max_depth : nat) (entries : list string) (parent : TaxonomyPath) :
  forall st, Forall Inv (st_nodes st) ->
             Forall Inv (st_nodes (ensure_all max_depth entries parent st)).
Proof.
  unfold ensure_all. apply fold_left_forall. intros st e Hst. unfold ensure.
  apply ensure_node_forall. exact Hst.
Qed.

Lemma built_model_forall (config : option Config.t) (md : option Metadata.t)
  (max_depth : nat) (model : TaxonomyModel.t) (warnings : list string) :
  build_taxonomy_model config md max_depth = Ok (model, warnings) ->
  Forall Inv (TaxonomyModel.nodes_by_path model).
Proof.
  unfold build_taxonomy_model. destruct config as [config|].
  - destruct (Config.tree config) as [|e0 tree] eqn:Et; [discriminate|].
    destruct (build_tree (e0 :: tree) max_depth _) as [st|err] eqn:Eb; [|discriminate].
    cbn [bind].
    assert (Hst : Forall Inv (st_nodes st)).
    { apply (build_tree_forall max_depth (e0 :: tree) _ st Eb). constructor. }
    destruct (match Config.aliases config with [] => Ok st | _ => _ end)
      as [st'|err] eqn:Ea; [|discriminate].
    assert (Hn : st_nodes st' = st_nodes st).
    { destruct (Config.aliases config); [now injection Ea as <-|].
      now apply parse_alias_rules_nodes in Ea. }
    cbn [bind]. destruct (build_priority _ _ _ _) as [priority_map w].
    intros H. injection H as <- _. simpl. now rewrite Hn.
  - destruct md as [md|]; [|discriminate].
    intros H. injection H as <- _.
    unfold _build_model_from_metadata. cbn [TaxonomyModel.nodes_by_path].
    apply fold_left_forall.
    { intros st [[category_parent sub_parent] entries] Hst. cbn [fst snd].
      assert (H1 : Forall Inv
                (st_nodes (snd (if ostr_truthy category_parent
                                then ensure max_depth category_parent [] st
                                else (None, st))))).
      { destruct (ostr_truthy category_parent); [|exact Hst].
        apply ensure_node_forall. exact Hst. }
      destruct (if ostr_truthy category_parent then _ else _) as [category_node s1].
      cbn [snd] in H1.
      set (current := match category_node with Some p => p | None => [] end).
      assert (H2 : Forall Inv
                (st_nodes (snd (if ostr_truthy sub_parent
                                then match ensure max_depth sub_parent current s1 with
                                     | (Some p, s') => (p, s')
                                     | (None, s') => (current, s')
                                     end
                                else (current, s1))))).
      { destruct (ostr_truthy sub_parent); [|exact H1].
        pose proof (ensure_node_forall max_depth (List.length current)
                      sub_parent current s1 H1) as H.
        unfold ensure. now destruct (_ensure_node _ _ _ _ _) as [[p|] s']. }
      destruct (if ostr_truthy sub_parent then _ else _) as [current' s2].
      apply ensure_all_forall. exact H2. }
    apply fold_left_forall.
    { intros st [parent_label entries] Hst. cbn [fst snd].
      assert (H1 : Forall Inv
                (st_nodes (snd (if ostr_truthy parent_label
                                then ensure max_depth parent_label [] st
                                else (None, st))))).
      { destruct (ostr_truthy parent_label); [|exact Hst].
        apply ensure_node_forall. exact Hst. }
      destruct (if ostr_truthy parent_label then _ else _) as [parent_node s1].
      apply ensure_all_forall. exact H1. }
    apply ensure_all_forall. constructor.
Qed.

End Invariant.

(** X29: every node of a model that was built is stored under its own path,
    is labelled with the last label of that path, which is stripped and not
    blank, has as normalised keywords the lowercase forms of its keywords,
    all distinct, and has its label as first keyword. *)
Theorem built_nodes_are_derived (config : option Config.t) (md : option Metadata.t)
  (max_depth : nat) (model : TaxonomyModel.t) (warnings : list string) :
  build_taxonomy_model config md max_depth = Ok (model, warnings) ->
  Forall node_derived (TaxonomyModel.nodes_by_path model).
Proof.
  apply built_model_forall.
  - intros parent raw extras regexes aliases T. unfold node_derived. cbn.
    destruct (derived_state_ok (Py.strip raw) extras) as [st [[N _] E]].
    pose proof (derived_head (Py.strip raw) extras) as H.
    rewrite strip_idempotent in H.
    assert (Py.strip raw <> "") as Ne by (destruct (Py.strip raw); [discriminate|discriminate]).
    split; [reflexivity|]. split; [apply last_last|]. split; [exact Ne|].
    split; [apply strip_idempotent|]. split; [reflexivity|].
    split; [rewrite E; exact N|exact (H Ne)].
  - intros p n c H. exact H.
Qed.

End BuiltNodes.

(** ** Proximity rules over a built taxonomy *)

Section ProximityTargets.
Context {L : PyLib}.
Import Taxonomy.
Open Scope Q_scope.

Lemma add_seen (term : string) (st : kw_state) (x : string) :
  In x (snd st) -> In x (snd (_add term st)).
Proof.
  intros H. unfold _add.
  destruct (negb _); [exact H|]. destruct (Py.mem _ (snd st)); [exact H|].
  cbn [snd]. apply set_add_in. right. exact H.
Qed.

(** the extra keywords of a configuration entry only add to the keywords
    its label gives *)
Lemma derived_norms_grow (label : string) (extras : option (list string)) (x : string) :
  In x (map Py.lower (_derive_label_keywords label None)) ->
  In x (map Py.lower (_derive_label_keywords label extras)).
Proof.
  destruct extras as [values|]; [|exact (fun H => H)].
  unfold _derive_label_keywords.
  set (st0 := if Py.truthy (Py.strip label)
              then add_all (_delimiter_variants (Py.strip label))
                           (_add_with_aliases (Py.strip label) ([], []))
              else ([], [])).
  assert (kw_ok st0) as K0.
  { subst st0. assert (kw_ok ([], [])) as E
      by (split; [constructor|split; [intros y; simpl; tauto|constructor]]).
    destruct (Py.truthy (Py.strip label)); [|exact E].
    apply add_all_inv; [intros; apply add_ok; assumption|].
    apply add_with_aliases_inv; [intros; apply add_ok; assumption|exact E]. }
  pose proof (derive_inv kw_ok label None st0 (fun t s H => add_ok t s H) K0) as K.
  cbv zeta in K. cbv zeta.
  match type of K with kw_ok ?s => set (st := s) in * end.
  intros H. destruct K as [_ [S _]]. apply S in H.
  assert (kw_ok (add_all values st)) as [_ [S' _]].
  { apply add_all_inv; [intros; apply add_ok; assumption|].
    split; [|split]; [| exact S |]; apply (derive_inv kw_ok label None st0
                                            (fun t s H => add_ok t s H) K0). }
  apply S'. apply (add_all_inv (fun s => In x (snd s)));
    [intros; apply add_seen; assumption|exact H].
Qed.

Lemma in_combine_map {A B : Type} (f : A -> B) (l : list A) (y : B) :
  In y (map f l) -> exists x, f x = y /\ In (x, f x) (combine l (map f l)).
Proof.
  induction l as [|a l IH]; simpl; [intros []|].
  intros [<-|H]; [exists a; split; [reflexivity|left; reflexivity]|].
  destruct (IH H) as [x [E Hx]]. exists x. split; [exact E|right; exact Hx].
Qed.

(** a node whose keywords hold a word of the ticket is a candidate of the
    keyword matcher *)
Lemma word_keyword_matched (self : TA.t) (text : string) (tokens : list string)
  (node : TaxonomyNode.t) (word : string) :
  In node (iter_nodes (TA.taxonomy self)) ->
  TaxonomyNode.keyword_norms node = map Py.lower (TaxonomyNode.keywords node) ->
  In word (TaxonomyNode.keyword_norms node) ->
  Py.fullmatch_token word = true ->
  In word tokens ->
  In (TaxonomyNode.path node)
     (map MatchResult.path (TA._match_taxonomy self text (Py.to_set tokens))).
Proof.
  intros Hn Hk Hw Hf Ht. unfold TA._match_taxonomy. cbv zeta.
  apply match_loop_paths. right. exists node. split; [exact Hn|]. split; [reflexivity|].
  rewrite Hk in Hw. apply in_combine_map in Hw. destruct Hw as [k [E Hin]].
  exists k, (Py.lower k). rewrite Hk. split; [exact Hin|].
  unfold TA._matches_term. rewrite E, Hf.
  assert (Py.truthy word = true) as ->
    by (unfold Py.fullmatch_token in Hf; apply andb_prop in Hf; apply Hf).
  cbn [negb]. apply mem_in, to_set_in. exact Ht.
Qed.

Lemma proximity_rule_keeps (self : TA.t) (tokens : list string) (m : MatchMap)
  (rule : ProximityRule.t) (p : TaxonomyPath) :
  In p (map MatchResult.path m) ->
  In p (map MatchResult.path (TA.apply_proximity_rule self tokens m rule)).
Proof.
  intros H. unfold TA.apply_proximity_rule.
  destruct (TA.proximity_fires self tokens rule); [|exact H].
  destruct (MatchMap.get (ProximityRule.path rule) m).
  - rewrite paths_update; [exact H|]. intros x. apply proximity_boosted_path.
  - apply paths_set_in. right. exact H.
Qed.

Lemma proximity_rule_ok (self : TA.t) (tokens : list string) (m : MatchMap)
  (rule : ProximityRule.t) :
  0 <= ProximityRule.boost rule -> all_ok m ->
  all_ok (TA.apply_proximity_rule self tokens m rule).
Proof.
  intros Hb Hm. unfold TA.apply_proximity_rule.
  destruct (TA.proximity_fires self tokens rule); [|exact Hm].
  destruct (MatchMap.get (ProximityRule.path rule) m).
  - apply all_ok_update; [|exact Hm]. intros r Hr. now apply boosted_ok.
  - apply all_ok_set; [apply proximity_created_ok|exact Hm].
Qed.

Lemma proximity_fold_ok (self : TA.t) (tokens : list string) (rules : list ProximityRule.t) :
  Forall (fun rule => 0 <= ProximityRule.boost rule) rules ->
  forall m, all_ok m -> all_ok (fold_left (TA.apply_proximity_rule self tokens) rules m).
Proof.
  induction 1 as [|rule rules Hb _ IH]; intros m Hm; [exact Hm|].
  cbn [fold_left]. apply IH. apply proximity_rule_ok; assumption.
Qed.

Lemma built_nodes_keywords (config : option Config.t) (md : option Metadata.t)
  (max_depth : nat) (model : TaxonomyModel.t) (warnings : list string) :
  build_taxonomy_model config md max_depth = Ok (model, warnings) ->
  Forall node_keywords_derived (TaxonomyModel.nodes_by_path model).
Proof.
  apply built_model_forall.
  - intros parent raw extras regexes aliases T. unfold node_keywords_derived. cbn.
    split; [reflexivity|]. split; [apply last_last|]. split; [reflexivity|].
    exists extras. reflexivity.
  - intros p n c H. exact H.
Qed.

(** a rule that fires has a phrase of its first group among the tokens *)
Lemma fires_first_group (self : TA.t) (tokens : list string) (rule : ProximityRule.t) :
  TA.proximity_fires self tokens rule = true ->
  exists phrase, In phrase (hd [] (ProximityRule.term_groups rule))
                 /\ forall word, In word phrase -> In word tokens.
Proof.
  unfold TA.proximity_fires. rewrite !andb_true_iff, collect_positions_all.
  intros [_ H]. destruct (ProximityRule.term_groups rule) as [|first rest];
    [discriminate|].
  cbn [forallb map app hd] in *.
  destruct (_ && _); [|discriminate].
  apply existsb_exists in H. destruct H as [anchor [Ha _]].
  apply sorted_set_in, group_positions_in in Ha.
  destruct Ha as [phrase [Hp [_ [_ Hf]]]]. exists phrase. split; [exact Hp|].
  intros word Hw. rewrite <- Hf in Hw. apply in_firstn in Hw.
  rewrite <- (firstn_skipn anchor tokens). apply in_or_app. right. exact Hw.
Qed.

(** the five rules: each has a boost of a tenth; a target of depth three,
    or one of depth two whose label gives every word of the first group as
    a keyword *)
Lemma rule_targets (rule : ProximityRule.t) :
  In rule TA._build_proximity_rules ->
  ProximityRule.boost rule = 0.1
  /\ (List.length (ProximityRule.path rule) = 3%nat
      \/ (List.length (ProximityRule.path rule) = 2%nat
          /\ forall phrase word extras,
               In phrase (hd [] (ProximityRule.term_groups rule)) -> In word phrase ->
               Py.fullmatch_token word = true
               /\ In word (map Py.lower
                             (_derive_label_keywords (last (ProximityRule.path rule) "")
                                                     extras)))).
Proof.
  unfold TA._build_proximity_rules. cbn [In].
  intros [<-|[<-|[<-|[<-|[<-|[]]]]]]; (split; [reflexivity|]);
    [left; reflexivity|left; reflexivity|right|right|right].
  all: split; [reflexivity|]; intros phrase word extras Hp Hw.
  all: vm_compute in Hp.
  all: repeat (destruct Hp as [<-|Hp]; [destruct Hw as [<-|[]];
         (split; [vm_compute; reflexivity|]);
         apply derived_norms_grow; vm_compute; tauto|]).
  all: destruct Hp.
Qed.

Lemma round2_tenth (c boost : Q) :
  Num.round2 c == c -> boost = 0.1 ->
  Num.round2 (Qmin (c + boost) 0.95) == Qmin (c + boost) 0.95.
Proof.
  intros Hc ->.
  assert (c == inject_Z (Num.round_half_even (c * 100)) / 100) as Hk.
  { rewrite <- Hc at 1. unfold Num.round2. apply Qred_correct. }
  set (k := Num.round_half_even (c * 100)) in *.
  destruct (Q.min_spec (c + 0.1) 0.95) as [[_ E]|[_ E]].
  - rewrite (round2_comp _ _ E), E.
    assert (c + 0.1 == inject_Z (k + 10) / 100) as E'
      by (rewrite Hk at 1; rewrite inject_Z_plus; field).
    rewrite (round2_comp _ _ E'), E'. apply round2_fixed.
  - rewrite (round2_comp _ _ E), E. exact (round2_fixed 95).
Qed.

(** a rule with a target of depth two fires only on a ticket for which the
    keyword matcher holds the target already, and the passes of the loop
    before it keep that candidate *)
Lemma shallow_target_matched (config : option Config.t) (md : option Metadata.t)
  (max_depth : nat) (taxonomy : TaxonomyModel.t) (warnings : list string)
  (self : TA.t) (text : string) (tokens : list string)
  (earlier : list ProximityRule.t) (rule : ProximityRule.t) :
  build_taxonomy_model config md max_depth = Ok (taxonomy, warnings) ->
  TA.taxonomy self = taxonomy ->
  In rule TA._build_proximity_rules ->
  List.length (ProximityRule.path rule) = 2%nat ->
  TA.proximity_fires self tokens rule = true ->
  In (ProximityRule.path rule)
     (map MatchResult.path
          (fold_left (TA.apply_proximity_rule self tokens) earlier
                     (TA._match_taxonomy self text (Py.to_set tokens)))).
Proof.
  intros B Et Hin H2 Hfires.
  destruct (rule_targets rule Hin) as [_ [H3|[_ Hwords]]]; [lia|].
  destruct (proximity_rule_step self tokens [] rule Hfires) as [Hnode _].
  rewrite Et in Hnode.
  apply dict_has_get in Hnode. destruct Hnode as [node Hnode].
  pose proof (dict_get_in _ _ _ Hnode) as Hstored.
  destruct (fires_first_group self tokens rule Hfires) as [phrase [Hp Hw]].
  pose proof (built_nodes_keywords config md max_depth taxonomy warnings B) as K.
  rewrite Forall_forall in K. destruct (K _ Hstored) as [Kp [Kl [Kn [extras Kk]]]].
  cbn [fst snd] in Kp, Kl, Kn, Kk.
  assert (exists word, In word phrase) as [word Hword].
  { clear - Hin Hp H2. unfold TA._build_proximity_rules in Hin. cbn [In] in Hin.
    destruct Hin as [<-|[<-|[<-|[<-|[<-|[]]]]]]; vm_compute in Hp;
      repeat (destruct Hp as [<-|Hp]; [eexists; left; reflexivity|]);
      destruct Hp. }
  destruct (Hwords phrase word extras Hp Hword) as [Hfull Hkw].
  rewrite Kl, <- Kk, <- Kn in Hkw.
  apply fold_left_keeps; [intros m r Hm; apply proximity_rule_keeps; exact Hm|].
  rewrite <- Kp.
  apply (word_keyword_matched self text tokens node word);
    [|exact Kn|exact Hkw|exact Hfull|exact (Hw word Hword)].
  rewrite Et.
  exact (stored_node_iterated config md max_depth taxonomy warnings _ node B Hstored).
Qed.

(** C3: over a taxonomy built with a maximal depth of at most three, for
    every proximity rule of an analyzer that fires on a ticket, in the
    candidate map the loop of [_apply_proximity_boosts] holds when it
    reaches the rule: a candidate that the target path already has gets the
    confidence [min(c + boost, 0.95)] and the rule's description appended to
    its rationale, all paths being kept; when the target path has no
    candidate, one is created with the confidence
    [max(0.5, base - 0.1)], [base] being the depth base of the target, and
    the target node then has no children.  A rule whose target has depth
    two always finds a candidate there, that of the keyword matcher, the
    words of its first group being keywords of the target's label. *)
Theorem proximity_rule_effect (config : option Config.t) (md : option Metadata.t)
  (max_depth : nat) (taxonomy : TaxonomyModel.t) (warnings : list string)
  (keyword_min_length min_keyword_frequency max_suggestions_per_ticket : Z)
  (stop_words : list string) (tfidf_leaf_threshold tfidf_weight : Q)
  (ticket : TicketRecord.t) (earlier later : list ProximityRule.t)
  (rule : ProximityRule.t) :
  (max_depth <= 3)%nat ->
  build_taxonomy_model config md max_depth = Ok (taxonomy, warnings) ->
  let self := TA.init taxonomy keyword_min_length min_keyword_frequency
                      max_suggestions_per_ticket stop_words
                      tfidf_leaf_threshold tfidf_weight in
  let text := TA.combined_text ticket in
  let tokens := TA._raw_tokens text in
  let matched := TA._match_taxonomy self text (Py.to_set tokens) in
  let before := fold_left (TA.apply_proximity_rule self tokens) earlier matched in
  let result := TA.apply_proximity_rule self tokens before rule in
  let target := ProximityRule.path rule in
  TA._proximity_rules self = (earlier ++ rule :: later)%list ->
  TA.proximity_fires self tokens rule = true ->
  TA._apply_proximity_boosts self matched tokens
  = fold_left (TA.apply_proximity_rule self tokens) later result
  /\ (forall c, MatchMap.get target before = Some c ->
        exists c', MatchMap.get target result = Some c'
          /\ MatchResult.confidence c'
             == Qmin (MatchResult.confidence c + ProximityRule.boost rule) 0.95
          /\ MatchResult.rationale c'
             = (MatchResult.rationale c ++ "; " ++ ProximityRule.description rule)%string
          /\ map MatchResult.path result = map MatchResult.path before)
  /\ (MatchMap.get target before = None ->
        exists c' node,
          MatchMap.get target result = Some c'
          /\ MatchResult.confidence c'
             == Qmax 0.5 (depth_base (List.length target) - 0.1)
          /\ MatchResult.rationale c'
             = ("Matched " ++ Py.join " > " target ++ " via "
                ++ ProximityRule.description rule)%string
          /\ get_node taxonomy target = Some node
          /\ TaxonomyNode.children node = [])
  /\ (List.length target = 2%nat -> MatchMap.get target before <> None).
Proof.
  intros Hd B self text tokens matched before result target Hrules Hfires.
  assert (In rule TA._build_proximity_rules) as Hin.
  { change TA._build_proximity_rules with (TA._proximity_rules self).
    rewrite Hrules. apply in_elt. }
  destruct (rule_targets rule Hin) as [Hboost Htarget].
  destruct (proximity_rule_step self tokens before rule Hfires) as [Hnode [Ha Hb]].
  split; [|split; [|split]].
  - unfold TA._apply_proximity_boosts.
    destruct tokens as [|tok toks] eqn:Et.
    + destruct (fires_first_group self [] rule Hfires) as [phrase [Hp Hw]].
      exfalso. clear - Hin Hp Hw.
      unfold TA._build_proximity_rules in Hin. cbn [In] in Hin.
      destruct Hin as [<-|[<-|[<-|[<-|[<-|[]]]]]]; vm_compute in Hp;
        repeat (destruct Hp as [<-|Hp]; [apply (Hw _ (or_introl eq_refl))|]);
        destruct Hp.
    + rewrite Hrules, fold_left_app. reflexivity.
  - intros c Hc. destruct (Ha c Hc) as [c' [G [Ec [Er Ep]]]].
    exists c'. split; [exact G|]. split; [|split; [exact Er|exact Ep]].
    rewrite Ec. apply round2_tenth; [|exact Hboost].
    assert (all_ok before) as Hok.
    { apply proximity_fold_ok; [|apply match_taxonomy_ok].
      pose proof (constructed_rules self (by_init _ _ _ _ _ _ _)) as Hr.
      rewrite Hrules in Hr. apply Forall_app in Hr. apply Hr. }
    apply get_in in Hc. destruct Hc as [Hc _].
    unfold all_ok in Hok. rewrite Forall_forall in Hok. apply (Hok c Hc).
  - intros Hnone. destruct (Hb Hnone) as [c' [G [Ec Er]]].
    apply dict_has_get in Hnode. destruct Hnode as [node Hnode].
    pose proof (dict_get_in _ _ _ Hnode) as Hstored.
    exists c', node. split; [exact G|]. split; [|split; [exact Er|split; [exact Hnode|]]].
    + rewrite Ec. fold target.
      destruct Htarget as [H3|[H2 _]]; fold target in H3 || fold target in H2.
      * rewrite H3. vm_compute. reflexivity.
      * rewrite H2. vm_compute. reflexivity.
    + destruct (built_model_store_ok config md max_depth taxonomy warnings B) as [S _].
      pose proof (built_model_tree_ok config md max_depth taxonomy warnings B) as T.
      destruct Htarget as [H3|[H2 Hwords]].
      * apply (deepest_node_childless max_depth _ target node S T Hstored).
        fold target in H3. lia.
      * exfalso. apply get_none in Hnone. apply Hnone.
        exact (shallow_target_matched config md max_depth taxonomy warnings self text
                 tokens earlier rule B eq_refl Hin H2 Hfires).
  - intros H2 Hnone. apply get_none in Hnone. apply Hnone.
    exact (shallow_target_matched config md max_depth taxonomy warnings self text
             tokens earlier rule B eq_refl Hin H2 Hfires).
Qed.

End ProximityTargets.

(** ** The properties on the taxonomies of the tests *)

Section Instances.
Open Scope Q_scope.
#[local] Existing Instance Runtime.lib.
Import Taxonomy.

Lemma ticket_texts_share_tokens_witness :
  is_ascii (TA.ticket_text Examples.not_vpn_ticket) = true
  /\ TA._raw_tokens (TA.corpus_text Examples.not_vpn_ticket)
     = TA._raw_tokens (TA.combined_text Examples.not_vpn_ticket).
Proof.
  assert (H : is_ascii (TA.ticket_text Examples.not_vpn_ticket) = true)
    by (vm_compute; reflexivity).
  split; [exact H|].
  exact (proj1 (ticket_texts_share_tokens Examples.not_vpn_ticket H)).
Defined.

Lemma tokenize_drops_stop_words_witness :
  In "Outlook"%string ["Outlook"%string]
  /\ ~ In "outlook"%string
          (TA.tokenize Examples.stop_word_analyzer "Need Outlook signature updated").
Proof.
  assert (H : In "Outlook"%string ["Outlook"%string]) by (left; reflexivity).
  split; [exact H|].
  exact (proj1 (tokenize_drops_stop_words Examples.vpn_outlook_taxonomy 4 3 2
                  ["Outlook"%string] 0.05 0.35 "Need Outlook signature updated" "Outlook" H)).
Defined.

Lemma fuzzy_new_candidate_witness :
  exists m,
    MatchMap.get Examples.citrix_path
      (TA._apply_fuzzy_matches Examples.citrix_analyzer [] ["citrixx"%string]
         ["citrixx"%string]) = Some m
    /\ 0.55 <= MatchResult.confidence m <= 0.57
    /\ MatchResult.matched_keywords m = [].
Proof.
  assert (H : exists m,
            MatchMap.get Examples.citrix_path
              (TA._apply_fuzzy_matches Examples.citrix_analyzer [] ["citrixx"%string]
                 ["citrixx"%string]) = Some m)
    by (vm_compute; eexists; reflexivity).
  destruct H as [m H]. exists m. split; [exact H|].
  destruct (fuzzy_new_candidate Examples.citrix_analyzer [] ["citrixx"%string]
              ["citrixx"%string] Examples.citrix_path m
              (by_init Examples.citrix_taxonomy 4 3 3 [] 0.05 0.35) eq_refl H)
    as [Hc [Hk _]].
  split; [exact Hc|exact Hk].
Defined.

Lemma vpn_candidate_ok : all_ok [Examples.vpn_candidate].
Proof.
  constructor; [|constructor].
  unfold confidence_ok. split; [discriminate|]. split; [discriminate|].
  vm_compute. reflexivity.
Qed.

Lemma signals_never_lower_witness :
  all_ok [Examples.vpn_candidate]
  /\ each_candidate Qle [Examples.vpn_candidate]
       (TA._apply_fuzzy_matches Examples.vpn_outlook_analyzer [Examples.vpn_candidate]
          (Examples.tokens_of Examples.not_vpn_ticket)
          (Py.to_set (Examples.tokens_of Examples.not_vpn_ticket))).
Proof.
  split; [exact vpn_candidate_ok|].
  exact (proj1 (proj2 (signals_never_lower Examples.vpn_outlook_analyzer
                         [Examples.vpn_candidate]
                         (Examples.tokens_of Examples.not_vpn_ticket)
                         (Py.to_set (Examples.tokens_of Examples.not_vpn_ticket)) []
                         (by_init Examples.vpn_outlook_taxonomy 4 3 2 [] 0.05 0.35)
                         vpn_candidate_ok))).
Defined.

Lemma guards_never_raise_witness :
  all_ok [Examples.vpn_candidate]
  /\ map MatchResult.path
         (TA._apply_negative_keywords Examples.vpn_outlook_analyzer [Examples.vpn_candidate]
            (Examples.tokens_of Examples.not_vpn_ticket)
            (Py.lower (TA.combined_text Examples.not_vpn_ticket)))
     = [Examples.vpn_path].
Proof.
  split; [exact vpn_candidate_ok|].
  exact (proj2 (guards_never_raise Examples.vpn_outlook_analyzer [Examples.vpn_candidate]
                  (Examples.tokens_of Examples.not_vpn_ticket)
                  (Py.lower (TA.combined_text Examples.not_vpn_ticket))
                  vpn_candidate_ok)).
Defined.

Lemma keyword_match_stays_candidate_witness :
  MatchMap.has Examples.vpn_path
    (TA._match_taxonomy Examples.vpn_outlook_analyzer
       (TA.combined_text Examples.not_vpn_ticket)
       (Py.to_set (TA._raw_tokens (TA.combined_text Examples.not_vpn_ticket)))) = true
  /\ MatchMap.has Examples.vpn_path
       (TA.candidates Examples.vpn_outlook_analyzer [] Examples.not_vpn_ticket) = true.
Proof.
  assert (H : MatchMap.has Examples.vpn_path
                (TA._match_taxonomy Examples.vpn_outlook_analyzer
                   (TA.combined_text Examples.not_vpn_ticket)
                   (Py.to_set (TA._raw_tokens (TA.combined_text Examples.not_vpn_ticket))))
              = true) by (vm_compute; reflexivity).
  split; [exact H|].
  exact (keyword_match_stays_candidate Examples.vpn_outlook_analyzer []
           Examples.not_vpn_ticket Examples.vpn_path H).
Defined.

Lemma final_fields_witness :
  well_formed Examples.vpn_outlook_taxonomy = true
  /\ exists suggestion_list ticket',
       Dict.zget 640 (fst (TA.suggest_categories Examples.vpn_outlook_analyzer
                             [Examples.not_vpn_ticket])) = Some suggestion_list
       /\ nth_error (snd (TA.suggest_categories Examples.vpn_outlook_analyzer
                            [Examples.not_vpn_ticket])) 0 = Some ticket'
       /\ match suggestion_list with
          | top :: _ => ticket_final_fields ticket' = written_fields top
          | [] => ticket' = Examples.not_vpn_ticket
          end.
Proof.
  assert (W : well_formed Examples.vpn_outlook_taxonomy = true) by (vm_compute; reflexivity).
  split; [exact W|].
  destruct (final_fields_follow_top_suggestion Examples.vpn_outlook_analyzer
              [Examples.not_vpn_ticket] 0 Examples.not_vpn_ticket
              (by_init Examples.vpn_outlook_taxonomy 4 3 2 [] 0.05 0.35) W
              (NoDup_cons _ (fun H : In _ [] => H) (NoDup_nil _)) eq_refl)
    as [suggestion_list [ticket' [H [H0 [H1 _]]]]].
  exists suggestion_list, ticket'. split; [exact H|]. split; [exact H0|exact H1].
Defined.

Lemma tfidf_scores_shape_witness :
  exists score_maps,
    TA._compute_tfidf_scores Examples.leaf_level_analyzer Examples.leaf_level_tickets
    = Some score_maps
    /\ List.length score_maps = 2%nat.
Proof.
  assert (H : exists score_maps,
            TA._compute_tfidf_scores Examples.leaf_level_analyzer
              Examples.leaf_level_tickets = Some score_maps)
    by (vm_compute; eexists; reflexivity).
  destruct H as [score_maps H]. exists score_maps. split; [exact H|].
  exact (proj1 (tfidf_scores_shape Examples.leaf_level_analyzer Examples.leaf_level_tickets
                  score_maps H)).
Defined.

Lemma citrix_model_built :
  build_taxonomy_model (Some Examples.citrix_config) None 3
  = Ok (Examples.citrix_taxonomy, []).
Proof. vm_compute. reflexivity. Qed.

Lemma priority_map_witness :
  build_taxonomy_model (Some Examples.citrix_config) None 3
  = Ok (Examples.citrix_taxonomy, [])
  /\ Dict.get Examples.anyware_path (TaxonomyModel.priority_map Examples.citrix_taxonomy)
     = option_map Z.of_nat
         (last_position Examples.anyware_path
            (Config.priority_order Examples.citrix_config)).
Proof.
  split; [exact citrix_model_built|].
  exact (priority_map_ranks_last_position Examples.citrix_config None 3
           Examples.citrix_taxonomy [] Examples.anyware_path citrix_model_built).
Defined.

Lemma citrix_ranks_dense : dense_ranks Examples.citrix_analyzer.
Proof.
  unfold dense_ranks. apply Forall_forall. intros kv H. vm_compute in H.
  destruct H as [<-|[<-|[]]]; vm_compute; split; congruence.
Qed.

Lemma demoted_candidate_witness :
  dense_ranks Examples.citrix_analyzer
  /\ TA.key_compare
       (TA.sort_key Examples.citrix_analyzer Examples.anyware_candidate)
       (TA.sort_key Examples.citrix_analyzer
          (TA.demote Examples.citrix_analyzer 0.3 10 "; demoted due to Anyware/RDP context"
             Examples.citrix_candidate)) = Lt.
Proof.
  split; [exact citrix_ranks_dense|].
  refine (proj1 (demoted_candidate_ranks_last Examples.citrix_analyzer
                   Examples.anyware_candidate Examples.citrix_candidate 0.3 10
                   "; demoted due to Anyware/RDP context" citrix_ranks_dense eq_refl _)).
  lia.
Defined.

Lemma normalise_round_trip_witness :
  forallb clean_label Examples.vpn_path = true
  /\ _normalise_priority_path (PathStr "Remote Access > VPN (CATO)") = Examples.vpn_path.
Proof.
  assert (H : forallb clean_label Examples.vpn_path = true) by (vm_compute; reflexivity).
  split; [exact H|].
  exact (proj1 (normalise_round_trip Examples.vpn_path H)).
Defined.

Lemma printers_model_built :
  build_taxonomy_model (Some Examples.printers_config) None 3
  = Ok (Examples.printers_taxonomy, []).
Proof. vm_compute. reflexivity. Qed.

Lemma iter_nodes_visits_witness :
  build_taxonomy_model (Some Examples.printers_config) None 3
  = Ok (Examples.printers_taxonomy, [])
  /\ (In Examples.printers_node (iter_nodes Examples.printers_taxonomy)
      <-> In Examples.printers_node
             (map snd (TaxonomyModel.nodes_by_path Examples.printers_taxonomy))).
Proof.
  split; [exact printers_model_built|].
  exact (iter_nodes_visits_every_node (Some Examples.printers_config) None 3
           Examples.printers_taxonomy [] Examples.printers_node printers_model_built).
Defined.

Lemma built_nodes_witness :
  build_taxonomy_model (Some Examples.printers_config) None 3
  = Ok (Examples.printers_taxonomy, [])
  /\ Forall node_derived (TaxonomyModel.nodes_by_path Examples.printers_taxonomy).
Proof.
  split; [exact printers_model_built|].
  exact (built_nodes_are_derived (Some Examples.printers_config) None 3
           Examples.printers_taxonomy [] printers_model_built).
Defined.

Lemma proximity_model_built :
  build_taxonomy_model (Some Examples.proximity_config) None 3
  = Ok (Examples.proximity_taxonomy, []).
Proof. vm_compute. reflexivity. Qed.

Lemma proximity_rule_effect_witness :
  build_taxonomy_model (Some Examples.proximity_config) None 3
  = Ok (Examples.proximity_taxonomy, [])
  /\ TA.proximity_fires (TA.init Examples.proximity_taxonomy 4 3 3 [] 0.05 0.35) (TA._raw_tokens (TA.combined_text Examples.camera_ticket)) Examples.teams_camera_rule = true
  /\ (exists c' node,
        MatchMap.get (ProximityRule.path Examples.teams_camera_rule)
          (TA.apply_proximity_rule (TA.init Examples.proximity_taxonomy 4 3 3 [] 0.05 0.35) (TA._raw_tokens (TA.combined_text Examples.camera_ticket))
             (fold_left (TA.apply_proximity_rule (TA.init Examples.proximity_taxonomy 4 3 3 [] 0.05 0.35) (TA._raw_tokens (TA.combined_text Examples.camera_ticket)))
             []
             (TA._match_taxonomy (TA.init Examples.proximity_taxonomy 4 3 3 [] 0.05 0.35)
                (TA.combined_text Examples.camera_ticket)
                (Py.to_set (TA._raw_tokens (TA.combined_text Examples.camera_ticket)))))
             Examples.teams_camera_rule) = Some c'
        /\ get_node Examples.proximity_taxonomy
             (ProximityRule.path Examples.teams_camera_rule) = Some node
        /\ TaxonomyNode.children node = [])
  /\ TA.proximity_fires (TA.init Examples.proximity_taxonomy 4 3 3 [] 0.05 0.35) (TA._raw_tokens (TA.combined_text Examples.vpn_ticket)) Examples.vpn_rule = true
  /\ (exists c c',
        MatchMap.get (ProximityRule.path Examples.vpn_rule)
          (fold_left (TA.apply_proximity_rule (TA.init Examples.proximity_taxonomy 4 3 3 [] 0.05 0.35) (TA._raw_tokens (TA.combined_text Examples.vpn_ticket)))
             [Examples.teams_camera_rule; Examples.outlook_signature_rule]
             (TA._match_taxonomy (TA.init Examples.proximity_taxonomy 4 3 3 [] 0.05 0.35)
                (TA.combined_text Examples.vpn_ticket)
                (Py.to_set (TA._raw_tokens (TA.combined_text Examples.vpn_ticket))))) = Some c
        /\ MatchMap.get (ProximityRule.path Examples.vpn_rule)
          (TA.apply_proximity_rule (TA.init Examples.proximity_taxonomy 4 3 3 [] 0.05 0.35) (TA._raw_tokens (TA.combined_text Examples.vpn_ticket))
             (fold_left (TA.apply_proximity_rule (TA.init Examples.proximity_taxonomy 4 3 3 [] 0.05 0.35) (TA._raw_tokens (TA.combined_text Examples.vpn_ticket)))
             [Examples.teams_camera_rule; Examples.outlook_signature_rule]
             (TA._match_taxonomy (TA.init Examples.proximity_taxonomy 4 3 3 [] 0.05 0.35)
                (TA.combined_text Examples.vpn_ticket)
                (Py.to_set (TA._raw_tokens (TA.combined_text Examples.vpn_ticket)))))
             Examples.vpn_rule) = Some c'
        /\ MatchResult.confidence c'
           == Qmin (MatchResult.confidence c + ProximityRule.boost Examples.vpn_rule) 0.95).
Proof.
  assert (Hd : (3 <= 3)%nat) by lia.
  split; [exact proximity_model_built|].
  assert (F1 : TA.proximity_fires (TA.init Examples.proximity_taxonomy 4 3 3 [] 0.05 0.35) (TA._raw_tokens (TA.combined_text Examples.camera_ticket)) Examples.teams_camera_rule = true)
    by (vm_compute; reflexivity).
  split; [exact F1|].
  assert (R1 : TA._proximity_rules (TA.init Examples.proximity_taxonomy 4 3 3 [] 0.05 0.35)
               = ([] ++ Examples.teams_camera_rule :: tl TA._build_proximity_rules)%list)
    by (vm_compute; reflexivity).
  assert (N1 : MatchMap.get (ProximityRule.path Examples.teams_camera_rule)
                 (fold_left (TA.apply_proximity_rule (TA.init Examples.proximity_taxonomy 4 3 3 [] 0.05 0.35) (TA._raw_tokens (TA.combined_text Examples.camera_ticket)))
             []
             (TA._match_taxonomy (TA.init Examples.proximity_taxonomy 4 3 3 [] 0.05 0.35)
                (TA.combined_text Examples.camera_ticket)
                (Py.to_set (TA._raw_tokens (TA.combined_text Examples.camera_ticket))))) = None)
    by (vm_compute; reflexivity).
  split.
  { pose proof (proximity_rule_effect (Some Examples.proximity_config) None 3
                  Examples.proximity_taxonomy [] 4 3 3 [] 0.05 0.35 Examples.camera_ticket
                  [] (tl TA._build_proximity_rules) Examples.teams_camera_rule
                  Hd proximity_model_built R1 F1) as W.
    cbv zeta in W. destruct W as [_ [_ [W _]]].
    destruct (W N1) as [c' [node [G [_ [_ [Hn Hc]]]]]].
    exists c', node. split; [exact G|]. split; [exact Hn|exact Hc]. }
  assert (F2 : TA.proximity_fires (TA.init Examples.proximity_taxonomy 4 3 3 [] 0.05 0.35) (TA._raw_tokens (TA.combined_text Examples.vpn_ticket)) Examples.vpn_rule = true)
    by (vm_compute; reflexivity).
  split; [exact F2|].
  assert (R2 : TA._proximity_rules (TA.init Examples.proximity_taxonomy 4 3 3 [] 0.05 0.35)
               = ([Examples.teams_camera_rule; Examples.outlook_signature_rule]
                  ++ Examples.vpn_rule :: skipn 3 TA._build_proximity_rules)%list)
    by (vm_compute; reflexivity).
  assert (G : exists c,
            MatchMap.get (ProximityRule.path Examples.vpn_rule)
              (fold_left (TA.apply_proximity_rule (TA.init Examples.proximity_taxonomy 4 3 3 [] 0.05 0.35) (TA._raw_tokens (TA.combined_text Examples.vpn_ticket)))
             [Examples.teams_camera_rule; Examples.outlook_signature_rule]
             (TA._match_taxonomy (TA.init Examples.proximity_taxonomy 4 3 3 [] 0.05 0.35)
                (TA.combined_text Examples.vpn_ticket)
                (Py.to_set (TA._raw_tokens (TA.combined_text Examples.vpn_ticket))))) = Some c)
    by (vm_compute; eexists; reflexivity).
  destruct G as [c G].
  pose proof (proximity_rule_effect (Some Examples.proximity_config) None 3
                Examples.proximity_taxonomy [] 4 3 3 [] 0.05 0.35 Examples.vpn_ticket
                [Examples.teams_camera_rule; Examples.outlook_signature_rule]
                (skipn 3 TA._build_proximity_rules) Examples.vpn_rule
                Hd proximity_model_built R2 F2) as W.
  cbv zeta in W. destruct W as [_ [W _]].
  destruct (W c G) as [c' [G' [Ec _]]].
  exists c, c'. split; [exact G|]. split; [exact G'|exact Ec].
Defined.

End Instances.
